(** * myclinic-backend: appointment lifecycle, wallet ledger, live queue and
      reminder passes, embedded from the JavaScript sources.

    The development follows the layout of the repository:
    - [models/*.js]                    -> one module per Mongoose schema;
    - [services/walletService.js]      -> [createTransactionAndUpdateWallet];
    - [routes/wallet.js], [routes/users.js] (add-funds)
                                       -> the wallet routes;
    - [routes/appointments.js]         -> booking, cancellation, resolution of
                                          a doctor cancellation, availability;
    - [services/queueService.js]       -> join, leave, check-in, call-next,
                                          hold, re-queue, walk-ins;
    - [services/doctorReminderService.js] -> the 24h and 1h reminder passes;
    - [services/accountDisableService.js], [middleware/auth.js]
                                       -> the soft lock of an account and the
                                          middleware that enforces it;
    - [routes/users.js] (unavailability, restore)
                                       -> a doctor's periods of unavailability.

    Conventions of the embedding.
    - A collection is the list of its documents in insertion (natural) order;
      [findOne] is the first match, [find] the matches in order.
    - An [ObjectId] is a natural number drawn from the store's counter.
    - A JavaScript [Number] holding money is what it is in the program, an
      IEEE 754 double ([float], the primitive binary64 of the prover), with
      its rounding, its infinities and [NaN]; minute counts are [option Z],
      [None] standing for [NaN].
    - Handlers are functions from the store to a response and the next store;
      code running in a Mongoose session is a computation in the [DB] monad and
      [withTransaction] commits its writes or drops them all.
    - Clock, calendar library and message transport are read from an [Env]. *)

From Stdlib Require Import PrimFloat SpecFloat FloatOps FloatAxioms.
From Stdlib Require Import List String Ascii Bool Arith ZArith QArith Lia.
From Stdlib Require Import DecimalString Permutation Qround.
Import ListNotations.

Set Warnings "-inexact-float".

Set Implicit Arguments.

Close Scope Q_scope.
Local Open Scope nat_scope.
Local Open Scope string_scope.
Local Open Scope list_scope.

(* ------------------------------------------------------------------ *)
(** ** JavaScript string helpers *)

Module JS.

(** [s.includes(sub)] *)
Fixpoint includes (sub s : string) : bool :=
  if String.prefix sub s then true
  else match s with
       | EmptyString => false
       | String _ s' => includes sub s'
       end.

(** [n.toString()] for a non-negative integer *)
Definition natToString (n : nat) : string :=
  NilZero.string_of_uint (Nat.to_uint n).

Fixpoint repeatChar (c : ascii) (n : nat) : string :=
  match n with
  | O => EmptyString
  | S k => String c (repeatChar c k)
  end.

(** [s.padStart(width, c)] *)
Definition padStart (width : nat) (c : ascii) (s : string) : string :=
  String.append (repeatChar c (width - String.length s)) s.

(** [s.split(sep)] for a one-character separator *)
Fixpoint splitAux (sep : ascii) (acc : string) (s : string) : list string :=
  match s with
  | EmptyString => [acc]
  | String c s' =>
      if Ascii.eqb c sep then acc :: splitAux sep EmptyString s'
      else splitAux sep (String.append acc (String c EmptyString)) s'
  end.

Definition split (sep : ascii) (s : string) : list string :=
  splitAux sep EmptyString s.

(** White space, on ASCII: space, tab, line feed, vertical tab, form feed,
    carriage return. *)
Definition isSpace (c : ascii) : bool :=
  Ascii.eqb c " "%char || Ascii.eqb c "009"%char
  || Ascii.eqb c "010"%char || Ascii.eqb c "011"%char
  || Ascii.eqb c "012"%char || Ascii.eqb c "013"%char.

Fixpoint trimStart (s : string) : string :=
  match s with
  | String c s' => if isSpace c then trimStart s' else s
  | EmptyString => EmptyString
  end.

Fixpoint trimEnd (s : string) : string :=
  match s with
  | EmptyString => EmptyString
  | String c s' =>
      match trimEnd s' with
      | EmptyString => if isSpace c then EmptyString else String c EmptyString
      | t => String c t
      end
  end.

(** [s.trim()] *)
Definition trim (s : string) : string := trimEnd (trimStart s).

Definition digitValue (c : ascii) : option Z :=
  let n := nat_of_ascii c in
  if Nat.leb 48 n && Nat.leb n 57 then Some (Z.of_nat (n - 48)) else None.

Fixpoint digitsValue (acc : Z) (s : string) : option Z :=
  match s with
  | EmptyString => Some acc
  | String c s' =>
      match digitValue c with
      | Some d => digitsValue (10 * acc + d) s'
      | None => None
      end
  end.

(** [Number(s)] on the strings the application stores in its time fields:
    surrounding white space is dropped, the empty string is [0], a run of
    decimal digits is its value, and every other text is [NaN] ([None]).
    Signs, fractions, exponents and radix prefixes are outside the model and
    read as [NaN]. *)
Definition Number (s : string) : option Z := digitsValue 0 (trim s).

(** [c.toUpperCase()] on one ASCII character *)
Definition upperChar (c : ascii) : ascii :=
  let n := nat_of_ascii c in
  if Nat.leb 97 n && Nat.leb n 122 then ascii_of_nat (n - 32) else c.

Fixpoint toUpperCase (s : string) : string :=
  match s with
  | EmptyString => EmptyString
  | String c s' => String (upperChar c) (toUpperCase s')
  end.

(** [s.charAt(0)] *)
Definition charAt0 (s : string) : string :=
  match s with
  | EmptyString => EmptyString
  | String c _ => String c EmptyString
  end.

(** Arithmetic and comparisons on numbers that may be [NaN]. *)
Definition num := option Z.

(** [z.toString()] for an integer *)
Definition intToString (z : Z) : string :=
  if (z <? 0)%Z then String.append "-" (natToString (Z.abs_nat z))
  else natToString (Z.to_nat z).

(** [x.toString()] *)
Definition numToString (x : num) : string :=
  match x with
  | Some z => intToString z
  | None => "NaN"
  end.

Definition add (a b : num) : num :=
  match a, b with Some x, Some y => Some (x + y)%Z | _, _ => None end.

Definition mul (a b : num) : num :=
  match a, b with Some x, Some y => Some (x * y)%Z | _, _ => None end.

Definition lt (a b : num) : bool :=
  match a, b with Some x, Some y => (x <? y)%Z | _, _ => false end.

Definition le (a b : num) : bool :=
  match a, b with Some x, Some y => (x <=? y)%Z | _, _ => false end.

Definition gt (a b : num) : bool := lt b a.

(** [Math.max(a, b)] *)
Definition max (a b : num) : num :=
  match a, b with Some x, Some y => Some (Z.max x y) | _, _ => None end.

End JS.

(** [!x] for a Number [x]: a zero of either sign, or [NaN]. *)
Definition falsyNumber (x : float) : bool :=
  (x =? 0)%float || PrimFloat.is_nan x.

Definition ObjectId := nat.

(* ------------------------------------------------------------------ *)
(** ** The Mongoose schemas *)

(** [{ en, ar }] *)
Record I18nString := { en : string; ar : string }.

Inductive Role := SuperAdmin | HospitalManager | HospitalStaff | Doctor | Patient.

Definition Role_eqb (a b : Role) : bool :=
  match a, b with
  | SuperAdmin, SuperAdmin | HospitalManager, HospitalManager
  | HospitalStaff, HospitalStaff | Doctor, Doctor | Patient, Patient => true
  | _, _ => false
  end.

(** [['hospital staff', 'hospital manager', 'super admin'].includes(role)] *)
Definition isStaffRole (r : Role) : bool :=
  match r with
  | HospitalStaff | HospitalManager | SuperAdmin => true
  | _ => false
  end.

Module Availability.
Record t := {
  dayOfWeek : string;
  isAvailable : bool;
  startTime : string;
  endTime : string;
  hospital : option ObjectId
}.
End Availability.

Module Episode.
(** An unavailability episode; the two dates are instants. *)
Record t := { startDate : Z; endDate : Z }.
End Episode.

Module ReminderPreferences.
Record t := { enabled : bool; reminder24h : bool; reminder1h : bool }.
End ReminderPreferences.

Module User.
Record t := {
  _id : ObjectId;
  name : I18nString;
  role : Role;
  hospitals : list ObjectId;
  specialties : list ObjectId;
  availability : list Availability.t;
  unavailabilityEpisodes : list Episode.t;
  isActive : bool;
  isDisabled : bool
}.
End User.

Module Hospital.
Record t := {
  _id : ObjectId;
  name : I18nString;
  refundPolicyPercentage : float
}.
End Hospital.

Module AppointmentType.
Record t := {
  _id : ObjectId;
  name : I18nString;
  duration : Z;
  cost : float
}.
End AppointmentType.

Inductive AppointmentStatus :=
  Upcoming | Completed | Cancelled | NoShow | DoctorCancelled.

Definition AppointmentStatus_eqb (a b : AppointmentStatus) : bool :=
  match a, b with
  | Upcoming, Upcoming | Completed, Completed | Cancelled, Cancelled
  | NoShow, NoShow | DoctorCancelled, DoctorCancelled => true
  | _, _ => false
  end.

Inductive Resolution := Pending | Rescheduled | Refunded | Redirected.

Definition Resolution_eqb (a b : Resolution) : bool :=
  match a, b with
  | Pending, Pending | Rescheduled, Rescheduled
  | Refunded, Refunded | Redirected, Redirected => true
  | _, _ => false
  end.

Module Appointment.
Record t := {
  _id : ObjectId;
  user : ObjectId;
  doctor : ObjectId;
  hospital : ObjectId;
  appointmentType : ObjectId;
  date : string;
  time : string;
  status : AppointmentStatus;
  cancellationResolution : Resolution;
  cost : float;
  isRefunded : bool;
  reminderSet : bool;
  queueNumber : option string;
  doctorReminder24hSent : bool;
  doctorReminder1hSent : bool;
  doctorReminder24hSentAt : option Z;
  doctorReminder1hSentAt : option Z
}.

Definition set_doctor (v : ObjectId) (a : t) : t :=
  Build_t (_id a) (user a) v (hospital a) (appointmentType a) (date a)
    (time a) (status a) (cancellationResolution a) (cost a) (isRefunded a)
    (reminderSet a) (queueNumber a) (doctorReminder24hSent a)
    (doctorReminder1hSent a) (doctorReminder24hSentAt a)
    (doctorReminder1hSentAt a).

Definition set_date (v : string) (a : t) : t :=
  Build_t (_id a) (user a) (doctor a) (hospital a) (appointmentType a) v
    (time a) (status a) (cancellationResolution a) (cost a) (isRefunded a)
    (reminderSet a) (queueNumber a) (doctorReminder24hSent a)
    (doctorReminder1hSent a) (doctorReminder24hSentAt a)
    (doctorReminder1hSentAt a).

Definition set_time (v : string) (a : t) : t :=
  Build_t (_id a) (user a) (doctor a) (hospital a) (appointmentType a)
    (date a) v (status a) (cancellationResolution a) (cost a) (isRefunded a)
    (reminderSet a) (queueNumber a) (doctorReminder24hSent a)
    (doctorReminder1hSent a) (doctorReminder24hSentAt a)
    (doctorReminder1hSentAt a).

Definition set_status (v : AppointmentStatus) (a : t) : t :=
  Build_t (_id a) (user a) (doctor a) (hospital a) (appointmentType a)
    (date a) (time a) v (cancellationResolution a) (cost a) (isRefunded a)
    (reminderSet a) (queueNumber a) (doctorReminder24hSent a)
    (doctorReminder1hSent a) (doctorReminder24hSentAt a)
    (doctorReminder1hSentAt a).

Definition set_cancellationResolution (v : Resolution) (a : t) : t :=
  Build_t (_id a) (user a) (doctor a) (hospital a) (appointmentType a)
    (date a) (time a) (status a) v (cost a) (isRefunded a)
    (reminderSet a) (queueNumber a) (doctorReminder24hSent a)
    (doctorReminder1hSent a) (doctorReminder24hSentAt a)
    (doctorReminder1hSentAt a).

Definition set_isRefunded (v : bool) (a : t) : t :=
  Build_t (_id a) (user a) (doctor a) (hospital a) (appointmentType a)
    (date a) (time a) (status a) (cancellationResolution a) (cost a) v
    (reminderSet a) (queueNumber a) (doctorReminder24hSent a)
    (doctorReminder1hSent a) (doctorReminder24hSentAt a)
    (doctorReminder1hSentAt a).

Definition set_queueNumber (v : option string) (a : t) : t :=
  Build_t (_id a) (user a) (doctor a) (hospital a) (appointmentType a)
    (date a) (time a) (status a) (cancellationResolution a) (cost a)
    (isRefunded a) (reminderSet a) v (doctorReminder24hSent a)
    (doctorReminder1hSent a) (doctorReminder24hSentAt a)
    (doctorReminder1hSentAt a).

(** [{ doctorReminder24hSent: true, doctorReminder24hSentAt: at }] *)
Definition set_reminder24h (at_ : Z) (a : t) : t :=
  Build_t (_id a) (user a) (doctor a) (hospital a) (appointmentType a)
    (date a) (time a) (status a) (cancellationResolution a) (cost a)
    (isRefunded a) (reminderSet a) (queueNumber a) true
    (doctorReminder1hSent a) (Some at_) (doctorReminder1hSentAt a).

(** [{ doctorReminder1hSent: true, doctorReminder1hSentAt: at }] *)
Definition set_reminder1h (at_ : Z) (a : t) : t :=
  Build_t (_id a) (user a) (doctor a) (hospital a) (appointmentType a)
    (date a) (time a) (status a) (cancellationResolution a) (cost a)
    (isRefunded a) (reminderSet a) (queueNumber a)
    (doctorReminder24hSent a) true (doctorReminder24hSentAt a) (Some at_).

(** The key of the compound unique index
    [{ doctor: 1, date: 1, time: 1 }, { unique: true }]. *)
Definition sameSlot (a b : t) : bool :=
  Nat.eqb (doctor a) (doctor b) && String.eqb (date a) (date b)
  && String.eqb (time a) (time b).
End Appointment.

Inductive QueueStatus := Waiting | Serving | Held | Done | Left | RemovedByAdmin.

Definition QueueStatus_eqb (a b : QueueStatus) : bool :=
  match a, b with
  | Waiting, Waiting | Serving, Serving | Held, Held | Done, Done
  | Left, Left | RemovedByAdmin, RemovedByAdmin => true
  | _, _ => false
  end.

(** [status: { $in: ['Waiting', 'Serving', 'Held'] }] *)
Definition isActiveStatus (st : QueueStatus) : bool :=
  match st with
  | Waiting | Serving | Held => true
  | _ => false
  end.

Module QueueItem.
Record t := {
  _id : ObjectId;
  user : option ObjectId;
  walkInName : option string;
  doctor : ObjectId;
  hospital : ObjectId;
  queueNumber : string;
  status : QueueStatus;
  checkInTime : Z
}.

Definition set_status (v : QueueStatus) (q : t) : t :=
  Build_t (_id q) (user q) (walkInName q) (doctor q) (hospital q)
    (queueNumber q) v (checkInTime q).
End QueueItem.

Module Wallet.
Record t := {
  _id : ObjectId;
  user : ObjectId;
  balance : float
}.
End Wallet.

Inductive TxType := credit | debit.

Inductive TransactionType :=
  AppointmentFee | Refund | Deposit | AdminCredit | InitialBalance.

(** The [referenceId] string: the text of an [ObjectId], or a tag followed by
    [Date.now()] ([CASH_], [DEPOSIT_], [ADMIN_DEPOSIT_]). *)
Inductive ReferenceId :=
| RefObject (id : ObjectId)
| RefStamp (tag : string) (now : Z).

Module Transaction.
Record t := {
  _id : ObjectId;
  wallet : ObjectId;
  user : ObjectId;
  hospital : option ObjectId;
  amount : float;
  type : TxType;
  transactionType : TransactionType;
  description : string;
  referenceId : ReferenceId
}.

(** Credits count positive, debits negative. *)
Definition signedAmount (x : t) : float :=
  match type x with
  | credit => amount x
  | debit => (- amount x)%float
  end.
End Transaction.

Module Notification.
(** The in-app notification, with the English text of its title; the
    Arabic title and the body of the message are not modelled. *)
Record t := {
  _id : ObjectId;
  user : ObjectId;
  type : string;
  title : string
}.
End Notification.

Module RedeemCode.
Record t := {
  _id : ObjectId;
  code : string;
  amount : float;
  isUsed : bool;
  usedBy : option ObjectId
}.

Definition markUsed (by_ : ObjectId) (r : t) : t :=
  Build_t (_id r) (code r) (amount r) true (Some by_).
End RedeemCode.

(* ------------------------------------------------------------------ *)
(** ** The document store and the computations that run against it *)

Record Store := {
  users : list User.t;
  hospitals : list Hospital.t;
  appointmentTypes : list AppointmentType.t;
  appointments : list Appointment.t;
  queueItems : list QueueItem.t;
  wallets : list Wallet.t;
  transactions : list Transaction.t;
  notifications : list Notification.t;
  redeemCodes : list RedeemCode.t;
  nextId : ObjectId
}.

Definition emptyStore : Store :=
  Build_Store [] [] [] [] [] [] [] [] [] 0.

Definition set_appointments (v : list Appointment.t) (s : Store) : Store :=
  Build_Store (users s) (hospitals s) (appointmentTypes s) v (queueItems s)
    (wallets s) (transactions s) (notifications s) (redeemCodes s) (nextId s).

Definition set_queueItems (v : list QueueItem.t) (s : Store) : Store :=
  Build_Store (users s) (hospitals s) (appointmentTypes s) (appointments s) v
    (wallets s) (transactions s) (notifications s) (redeemCodes s) (nextId s).

Definition set_wallets (v : list Wallet.t) (s : Store) : Store :=
  Build_Store (users s) (hospitals s) (appointmentTypes s) (appointments s)
    (queueItems s) v (transactions s) (notifications s) (redeemCodes s)
    (nextId s).

Definition set_transactions (v : list Transaction.t) (s : Store) : Store :=
  Build_Store (users s) (hospitals s) (appointmentTypes s) (appointments s)
    (queueItems s) (wallets s) v (notifications s) (redeemCodes s) (nextId s).

Definition set_notifications (v : list Notification.t) (s : Store) : Store :=
  Build_Store (users s) (hospitals s) (appointmentTypes s) (appointments s)
    (queueItems s) (wallets s) (transactions s) v (redeemCodes s) (nextId s).

Definition set_redeemCodes (v : list RedeemCode.t) (s : Store) : Store :=
  Build_Store (users s) (hospitals s) (appointmentTypes s) (appointments s)
    (queueItems s) (wallets s) (transactions s) (notifications s) v (nextId s).

Definition set_nextId (v : ObjectId) (s : Store) : Store :=
  Build_Store (users s) (hospitals s) (appointmentTypes s) (appointments s)
    (queueItems s) (wallets s) (transactions s) (notifications s)
    (redeemCodes s) v.

(** A thrown JavaScript error: the driver's [code] when it has one, and the
    [message]. *)
Record Error := { code : option Z; message : string }.

Definition mkError (msg : string) : Error := {| code := None; message := msg |}.

(** The driver's error for a violated unique index. *)
Definition duplicateKeyError : Error :=
  {| code := Some 11000%Z; message := "E11000 duplicate key error collection" |}.

(** Reading a property of [null] or [undefined]. *)
Definition typeError : Error :=
  mkError "Cannot read properties of null".

(** Outcome of a computation: its value, or the error it threw, and in both
    cases the store as the computation left it. *)
Inductive Result (A : Type) :=
| Ok (a : A) (s : Store)
| Throw (e : Error) (s : Store).

Arguments Ok {A} a s.
Arguments Throw {A} e s.

Definition DB (A : Type) := Store -> Result A.

Definition ret {A} (a : A) : DB A := fun s => Ok a s.

Definition bind {A B} (m : DB A) (f : A -> DB B) : DB B :=
  fun s => match m s with
           | Ok a s' => f a s'
           | Throw e s' => Throw e s'
           end.

Definition throw {A} (e : Error) : DB A := fun s => Throw e s.

Definition gets {A} (f : Store -> A) : DB A := fun s => Ok (f s) s.

Definition modify (f : Store -> Store) : DB unit := fun s => Ok tt (f s).

Declare Scope db_scope.
Delimit Scope db_scope with db.

Notation "x <- m ;; k" := (bind m (fun x => k))
  (at level 61, m at next level, right associativity) : db_scope.
Notation "m ;;; k" := (bind m (fun _ => k))
  (at level 61, right associativity) : db_scope.

(** [if (c) throw new Error(msg)] *)
Definition throwIf (c : bool) (e : Error) : DB unit :=
  if c then throw e else ret tt.

(** [session.withTransaction(body)]: the writes of [body] are committed when
    it returns and all dropped when it throws; the error is re-thrown. *)
Definition withTransaction {A} (body : DB A) : DB A :=
  fun s => match body s with
           | Ok a s' => Ok a s'
           | Throw e _ => Throw e s
           end.

(** A fresh [ObjectId]. *)
Definition freshId : DB ObjectId :=
  fun s => Ok (nextId s) (set_nextId (S (nextId s)) s).

(** What a handler reads from outside the store. *)
Record Env := {
  (** [moment().format('YYYY-MM-DD')] *)
  today : string;
  (** [new Date().toISOString().split('T')[0]] *)
  todayISO : string;
  (** [Date.now()], in milliseconds *)
  now : Z;
  (** [d.getHours() * 60 + d.getMinutes()] of the current local time *)
  currentMinutes : Z;
  (** [new Date(text).getTime()], [None] for an invalid date *)
  newDate : string -> option Z;
  (** [moment(date, 'YYYY-MM-DD').locale('en').format('dddd')] *)
  dayName : string -> string;
  (** [moment(text, 'YYYY-MM-DD h:mm A')] in whole minutes, [None] when
      invalid *)
  moment12 : string -> option Z;
  (** [moment(text, 'YYYY-MM-DD HH:mm')] in milliseconds, [None] when
      invalid *)
  moment24 : string -> option Z;
  (** whether the insert of an in-app notification for this user goes
      through *)
  inAppStored : ObjectId -> bool;
  (** [ExternalNotificationService.sendExternalNotification(user, type, ..)
      .success]: at least one channel delivered *)
  delivered : ObjectId -> string -> bool
}.

(** HTTP answer of a handler. *)
Inductive Body :=
| BNull
| BError (error : string)
| BConflict (error : string) (isDuplicate : bool) (other : Appointment.t)
            (diffMinutes : Z)
| BAppointment (a : Appointment.t)
| BSuccessAmount (amount : float)
| BBalance (balance : float)
| BMessage (msg : string)
| BMessageAppointment (msg : string) (a : Appointment.t)
| BSlot (nextAvailableTime : option string) (queuePosition : option nat)
        (msg : string).

Record Response := { statusCode : nat; body : Body }.

Definition respond (st : nat) (b : Body) : Response :=
  {| statusCode := st; body := b |}.

(* ------------------------------------------------------------------ *)
(** ** utils/notificationHelper.js *)

Definition notificationTypes : list string :=
  ["appointment"; "reminder"; "wallet"; "system"; "emergency"].

(** [createNotification(userId, type, message, { title, ... })]: inserts the
    in-app notification and starts the external dispatch without waiting for
    it; every failure is caught and reported in the result ([success]), never
    thrown.  The insert is refused when [type] is outside the schema's enum. *)
Definition createNotification (env : Env) (userId : ObjectId) (type : string)
    (title : string) : DB bool :=
  fun s =>
    if existsb (String.eqb type) notificationTypes && inAppStored env userId
    then
      let n := {| Notification._id := nextId s;
                  Notification.user := userId;
                  Notification.type := type;
                  Notification.title := title |} in
      Ok true (set_nextId (S (nextId s))
                 (set_notifications (notifications s ++ [n]) s))
    else Ok false s.

(* ------------------------------------------------------------------ *)
(** ** services/walletService.js *)

Module walletService.

Local Open Scope db_scope.

(** [Wallet.create({ user, balance: 0 })] *)
Definition createWallet (userId : ObjectId) : DB Wallet.t :=
  fun s =>
    let w := {| Wallet._id := nextId s; Wallet.user := userId;
                Wallet.balance := 0%float |} in
    Ok w (set_nextId (S (nextId s)) (set_wallets (wallets s ++ [w]) s)).

(** [Wallet.findOne({ user: userId })] *)
Definition findWallet (userId : ObjectId) (s : Store) : option Wallet.t :=
  find (fun w => Nat.eqb (Wallet.user w) userId) (wallets s).

Definition getOrCreateWallet (userId : ObjectId) : DB Wallet.t :=
  fun s =>
    match findWallet userId s with
    | Some w => Ok w s
    | None => createWallet userId s
    end.

(** The fields of [transactionData] once destructured, the six required
    ones defined. *)
Record TransactionData := {
  userId : ObjectId;
  amount : float;
  type : TxType;
  transactionType : TransactionType;
  description : string;
  referenceId : ReferenceId;
  hospitalId : option ObjectId
}.

(** The object a caller passes as [transactionData]: any of its fields may
    be [undefined]. *)
Record TransactionObject := {
  givenUserId : option ObjectId;
  givenAmount : option float;
  givenType : option TxType;
  givenTransactionType : option TransactionType;
  givenDescription : option string;
  givenReferenceId : option ReferenceId;
  givenHospitalId : option ObjectId
}.

(** The object literal of a caller that defines every field of [d]. *)
Definition given (d : TransactionData) : TransactionObject :=
  {| givenUserId := Some (userId d);
     givenAmount := Some (amount d);
     givenType := Some (type d);
     givenTransactionType := Some (transactionType d);
     givenDescription := Some (description d);
     givenReferenceId := Some (referenceId d);
     givenHospitalId := hospitalId d |}.

(** The destructuring of [transactionData]; [None] when
    [userId === undefined || amount === undefined || type === undefined ||
     transactionType === undefined || description === undefined ||
     referenceId === undefined]. *)
Definition required (o : TransactionObject) : option TransactionData :=
  match givenUserId o, givenAmount o, givenType o, givenTransactionType o,
        givenDescription o, givenReferenceId o with
  | Some u, Some a, Some ty, Some kind, Some de, Some r =>
      Some {| userId := u; amount := a; type := ty; transactionType := kind;
              description := de; referenceId := r;
              hospitalId := givenHospitalId o |}
  | _, _, _, _, _, _ => None
  end.

(** [Wallet.findByIdAndUpdate(id, { $inc: { balance: change } })]: the
    addition of two doubles. *)
Definition incBalance (id : ObjectId) (change : float) (s : Store) : Store :=
  set_wallets
    (map (fun w => if Nat.eqb (Wallet._id w) id
                   then {| Wallet._id := Wallet._id w;
                           Wallet.user := Wallet.user w;
                           Wallet.balance := (Wallet.balance w + change)%float |}
                   else w)
         (wallets s)) s.

(** The Transaction schema on [save]: [amount] is a Number, to which [NaN]
    does not cast, and the required [description] is not the empty
    string. *)
Definition validTransaction (t : Transaction.t) : bool :=
  negb (PrimFloat.is_nan (Transaction.amount t))
  && negb (String.eqb (Transaction.description t) "").

Definition transactionValidationError : Error :=
  mkError "Transaction validation failed: description: Path `description` is required.".

(** The text between double quotes. *)
Definition quoted (text : string) : string :=
  String (Ascii.ascii_of_nat 34)
    (String.append text (String (Ascii.ascii_of_nat 34) EmptyString)).

(** The cast of the operand of [$inc] to a Number, which [NaN] fails before
    anything is sent to the database.  The two messages are Mongoose's
    own. *)
Definition incCastError : Error :=
  mkError (String.append "Cast to Number failed for value "
             (String.append (quoted "NaN")
                (String.append " (type number) at path "
                   (quoted "balance")))).

Definition performDbOperations (d : TransactionData) : DB Transaction.t :=
  mw <- gets (findWallet (userId d)) ;;
  match mw with
  | None => throw (mkError "Wallet not found for this user.")
  | Some wallet =>
      let balanceChange :=
        match type d with credit => amount d | debit => (- amount d)%float end in
      throwIf (match type d with
               | debit => (Wallet.balance wallet <? amount d)%float
               | credit => false
               end)
              (mkError "Insufficient wallet balance.") ;;;
      throwIf (PrimFloat.is_nan balanceChange) incCastError ;;;
      modify (incBalance (Wallet._id wallet) balanceChange) ;;;
      id <- freshId ;;
      let newTransaction :=
        {| Transaction._id := id;
           Transaction.wallet := Wallet._id wallet;
           Transaction.user := userId d;
           Transaction.hospital := hospitalId d;
           Transaction.amount := amount d;
           Transaction.type := type d;
           Transaction.transactionType := transactionType d;
           Transaction.description := description d;
           Transaction.referenceId := referenceId d |} in
      throwIf (negb (validTransaction newTransaction))
              transactionValidationError ;;;
      modify (fun s => set_transactions (transactions s ++ [newTransaction]) s) ;;;
      ret newTransaction
  end.

(** [existingSession] tells whether the caller passed its own session: then
    the writes join the caller's unit of work, otherwise the service opens
    and owns one. *)
Definition createTransactionAndUpdateWallet
    (transactionData : TransactionObject) (existingSession : bool)
    : DB Transaction.t :=
  match required transactionData with
  | None => throw (mkError "Missing required fields for transaction.")
  | Some d =>
      if existingSession then performDbOperations d
      else withTransaction (performDbOperations d)
  end.

End walletService.

(** Runs a handler body: its answer when it returns, [onError] of what it
    threw otherwise; writes made outside a transaction stay. *)
Definition handle (body : DB Response) (onError : Error -> Response)
    (s : Store) : Response * Store :=
  match body s with
  | Ok r s' => (r, s')
  | Throw e s' => (onError e, s')
  end.

(** [error.message || 'Server Error'] *)
Definition messageOr (e : Error) (dflt : string) : string :=
  match message e with
  | EmptyString => dflt
  | m => m
  end.

(** The role as the User schema spells it. *)
Definition roleName (r : Role) : string :=
  match r with
  | SuperAdmin => "super admin"
  | HospitalManager => "hospital manager"
  | HospitalStaff => "hospital staff"
  | Doctor => "doctor"
  | Patient => "patient"
  end.

(** [authorize(...roles)] refusing the caller, whose role is [role] *)
Definition forbidden (role : Role) : Response :=
  respond 403
    (BError (String.append "User role '"
               (String.append (roleName role)
                  "' is not authorized to access this route"))).

(* ------------------------------------------------------------------ *)
(** ** routes/wallet.js and the add-funds route of routes/users.js *)

Module walletRoutes.

Import walletService.
Local Open Scope db_scope.

Definition walletCredited : string := "Wallet Credited".

(** [!parsedAmount || parsedAmount <= 0], for the double that [parseFloat]
    returned *)
Definition invalidAmount (parsedAmount : float) : bool :=
  falsyNumber parsedAmount || (parsedAmount <=? 0)%float.

(** [POST /api/wallet/deposit]; [parsedAmount] is [parseFloat(amount)]. *)
Definition deposit (env : Env) (reqUser : User.t) (parsedAmount : float)
    : Store -> Response * Store :=
  fun s =>
    if negb (Role_eqb (User.role reqUser) Patient)
    then (forbidden (User.role reqUser), s)
    else if invalidAmount parsedAmount
    then (respond 400 (BError "Please provide a valid positive amount."), s)
    else
      handle
        (createTransactionAndUpdateWallet
           (given {| userId := User._id reqUser;
                     amount := parsedAmount;
                     type := credit;
                     transactionType := Deposit;
                     description := "User deposit via portal.";
                     referenceId := RefStamp "DEPOSIT_" (now env);
                     hospitalId := None |}) false ;;;
         createNotification env (User._id reqUser) "wallet"
           walletCredited ;;;
         ret (respond 200 (BSuccessAmount parsedAmount)))
        (fun e => respond 500 (BError (messageOr e "Server Error")))
        s.

(** The setters of the [code] path of the RedeemCode schema
    ([uppercase: true], [trim: true]), which Mongoose also applies to the
    value of a query filter. *)
Definition codeSetters (v : string) : string := JS.trim (JS.toUpperCase v).

(** [RedeemCode.findOne({ code: code.toUpperCase() })] *)
Definition findRedeemCode (code : string) (s : Store) : option RedeemCode.t :=
  find (fun r => String.eqb (RedeemCode.code r)
                            (codeSetters (JS.toUpperCase code)))
       (redeemCodes s).

(** [redeemCode.save()] after marking it used *)
Definition saveRedeemCode (r : RedeemCode.t) : DB unit :=
  modify (fun s =>
    set_redeemCodes
      (map (fun x => if Nat.eqb (RedeemCode._id x) (RedeemCode._id r)
                     then r else x)
           (redeemCodes s)) s).

(** [POST /api/wallet/redeem-code]; the empty string stands for a missing
    [code]. *)
Definition redeemCode (env : Env) (reqUser : User.t) (code : string)
    : Store -> Response * Store :=
  fun s =>
    if negb (Role_eqb (User.role reqUser) Patient)
    then (forbidden (User.role reqUser), s)
    else if String.eqb code "" then
      (respond 400 (BError "Please provide a code."), s)
    else
      match findRedeemCode code s with
      | None => (respond 404 (BError "Invalid code."), s)
      | Some rc =>
          if RedeemCode.isUsed rc then
            (respond 400 (BError "This code has already been used."), s)
          else
            handle
              (createTransactionAndUpdateWallet
                 (given {| userId := User._id reqUser;
                           amount := RedeemCode.amount rc;
                           type := credit;
                           transactionType := Deposit;
                           description :=
                             String.append "Redeemed code: "
                                           (RedeemCode.code rc);
                           referenceId := RefObject (RedeemCode._id rc);
                           hospitalId := None |}) false ;;;
               saveRedeemCode (RedeemCode.markUsed (User._id reqUser) rc) ;;;
               createNotification env (User._id reqUser) "wallet"
                 walletCredited ;;;
               ret (respond 200 (BSuccessAmount (RedeemCode.amount rc))))
              (fun e => respond 500 (BError (messageOr e "Server Error")))
              s
      end.

(** [POST /api/users/:id/add-funds]; [parsedAmount] is [parseFloat(amount)]
    and the empty string stands for a missing [description]. *)
Definition addFunds (env : Env) (reqUser : User.t) (id : ObjectId)
    (parsedAmount : float) (descr : string) : Store -> Response * Store :=
  fun s =>
    if negb (Role_eqb (User.role reqUser) HospitalManager
             || Role_eqb (User.role reqUser) SuperAdmin)
    then (forbidden (User.role reqUser), s)
    else if invalidAmount parsedAmount
    then (respond 400 (BError "Please provide a valid positive amount."), s)
    else
      match findWallet id s with
      | None => (respond 404 (BError "Wallet not found"), s)
      | Some _ =>
          handle
            (createTransactionAndUpdateWallet
               (given {| userId := id;
                         amount := parsedAmount;
                         type := credit;
                         transactionType := Deposit;
                         description :=
                           if String.eqb descr "" then "Admin deposit."
                           else descr;
                         referenceId := RefStamp "ADMIN_DEPOSIT_" (now env);
                         hospitalId := None |}) false ;;;
             createNotification env id "wallet" walletCredited ;;;
             updatedWallet <- gets (findWallet id) ;;
             match updatedWallet with
             | Some w => ret (respond 200 (BBalance (Wallet.balance w)))
             | None => throw typeError
             end)
            (fun e => respond 500 (BError (messageOr e "Server Error")))
            s
      end.

End walletRoutes.

(* ------------------------------------------------------------------ *)
(** ** Collection access used by the appointment and queue code *)

Definition findUser (id : ObjectId) (s : Store) : option User.t :=
  find (fun u => Nat.eqb (User._id u) id) (users s).

Definition findHospital (id : ObjectId) (s : Store) : option Hospital.t :=
  find (fun h => Nat.eqb (Hospital._id h) id) (hospitals s).

Definition findAppointmentType (id : ObjectId) (s : Store)
    : option AppointmentType.t :=
  find (fun t => Nat.eqb (AppointmentType._id t) id) (appointmentTypes s).

Definition findAppointment (id : ObjectId) (s : Store) : option Appointment.t :=
  find (fun a => Nat.eqb (Appointment._id a) id) (appointments s).

Definition findQueueItem (id : ObjectId) (s : Store) : option QueueItem.t :=
  find (fun q => Nat.eqb (QueueItem._id q) id) (queueItems s).

(** A filter field that may be [undefined] in the request matches no
    document. *)
Definition matchesId (field : ObjectId) (wanted : option ObjectId) : bool :=
  match wanted with
  | Some w => Nat.eqb field w
  | None => false
  end.

(** The schema's [required: true] on the string fields [date] and [time]. *)
Definition validAppointment (a : Appointment.t) : bool :=
  negb (String.eqb (Appointment.date a) "")
  && negb (String.eqb (Appointment.time a) "").

Definition validationError : Error :=
  mkError "Appointment validation failed".

(** The unique index [{ doctor, date, time }] on an insert: a stored
    document, of whatever status, already holds the key of [a]. *)
Definition slotHeld (a : Appointment.t) (l : list Appointment.t) : bool :=
  existsb (Appointment.sameSlot a) l.

(** The unique index on an update: another document, of whatever status,
    already holds the key of [a]. *)
Definition slotTaken (a : Appointment.t) (l : list Appointment.t) : bool :=
  existsb (fun b => negb (Nat.eqb (Appointment._id b) (Appointment._id a))
                    && Appointment.sameSlot a b) l.

(** [Appointment.create([fields], { session })]: validation, then the insert,
    which the unique index can refuse. *)
Definition createAppointment (mk : ObjectId -> Appointment.t)
    : DB Appointment.t :=
  fun s =>
    let a := mk (nextId s) in
    if negb (validAppointment a) then Throw validationError s
    else if slotHeld a (appointments s) then Throw duplicateKeyError s
    else Ok a (set_nextId (S (nextId s))
                 (set_appointments (appointments s ++ [a]) s)).

Definition replaceAppointment (a : Appointment.t) (l : list Appointment.t)
    : list Appointment.t :=
  map (fun b => if Nat.eqb (Appointment._id b) (Appointment._id a)
                then a else b) l.

(** Whether [a] differs from its stored version on the indexed fields. *)
Definition slotChanged (a : Appointment.t) (s : Store) : bool :=
  match findAppointment (Appointment._id a) s with
  | Some old => negb (Appointment.sameSlot old a)
  | None => false
  end.

(** [appt.save({ session })]: validation, then the update of the stored
    document; the unique index is consulted when an indexed field changed and
    can refuse the write. *)
Definition saveAppointment (a : Appointment.t) : DB unit :=
  fun s =>
    if negb (validAppointment a) then Throw validationError s
    else if slotChanged a s && slotTaken a (appointments s)
    then Throw duplicateKeyError s
    else Ok tt (set_appointments (replaceAppointment a (appointments s)) s).

(** [QueueItem.create({ ... })], [checkInTime] defaulting to [Date.now()] *)
Definition createQueueItem (env : Env) (user : option ObjectId)
    (walkInName : option string) (doctor hospital : ObjectId)
    (queueNumber : string) : DB QueueItem.t :=
  fun s =>
    let q := {| QueueItem._id := nextId s;
                QueueItem.user := user;
                QueueItem.walkInName := walkInName;
                QueueItem.doctor := doctor;
                QueueItem.hospital := hospital;
                QueueItem.queueNumber := queueNumber;
                QueueItem.status := Waiting;
                QueueItem.checkInTime := now env |} in
    Ok q (set_nextId (S (nextId s))
            (set_queueItems (queueItems s ++ [q]) s)).

(** [QueueItem.findOne({ user, status: { $in: ['Waiting','Serving','Held'] } })] *)
Definition activeEntryOf (userId : ObjectId) (s : Store) : option QueueItem.t :=
  find (fun q => matchesId userId (QueueItem.user q)
                 && isActiveStatus (QueueItem.status q))
       (queueItems s).

(** [`${name.charAt(0).toUpperCase()}${(count + 1).toString().padStart(3, '0')}`] *)
Definition ticket (name : string) (count : nat) : string :=
  String.append (JS.toUpperCase (JS.charAt0 name))
    (JS.padStart 3 "0"%char (JS.natToString (count + 1))).

(** [(doctor.unavailabilityEpisodes || []).some(ep => d >= start && d <= end)] *)
Definition inUnavailabilityEpisode (bookingDate : option Z) (doctor : User.t)
    : bool :=
  existsb (fun ep => JS.le (Some (Episode.startDate ep)) bookingDate
                     && JS.le bookingDate (Some (Episode.endDate ep)))
          (User.unavailabilityEpisodes doctor).

(* ------------------------------------------------------------------ *)
(** ** routes/appointments.js *)

Module appointmentsRoutes.

Import walletService.
Local Open Scope db_scope.

(** Body of [POST /api/appointments]; the empty string stands for a missing
    [date] or [time]. *)
Record BookingRequest := {
  date : string;
  time : string;
  doctorId : option ObjectId;
  hospitalId : option ObjectId;
  appointmentTypeId : option ObjectId;
  force : bool;
  patientId : option ObjectId;
  cashPayment : bool;
  appointmentId : option ObjectId
}.

(** The patient the booking is for, or the refusal. *)
Definition targetUser (reqUser : User.t) (req : BookingRequest)
    : Response + ObjectId :=
  if isStaffRole (User.role reqUser) then
    match patientId req with
    | None => inl (respond 400 (BError "Patient ID is required for staff booking."))
    | Some p => inr p
    end
  else if negb (Role_eqb (User.role reqUser) Patient) then
    inl (respond 403 (BError "Not authorized to book appointments."))
  else inr (User._id reqUser).

(** The hard stop: an [Upcoming] appointment of the same patient with the
    same doctor, date and time. *)
Definition existingExact (targetUserId : ObjectId) (req : BookingRequest)
    (s : Store) : option Appointment.t :=
  find (fun a => Nat.eqb (Appointment.user a) targetUserId
                 && AppointmentStatus_eqb (Appointment.status a) Upcoming
                 && String.eqb (Appointment.date a) (date req)
                 && String.eqb (Appointment.time a) (time req)
                 && matchesId (Appointment.doctor a) (doctorId req))
       (appointments s).

(** [`${date} ${time}`] *)
Definition dateTimeText (d t : string) : string :=
  String.append d (String.append " " t).

(** [Math.abs(requested.diff(existing, 'minutes'))] *)
Definition diffMinutes (requested existing : Z) : Z :=
  Z.abs (Z.quot (requested - existing) 60000).

(** The loop of the soft check: the first same-day appointment of the patient
    less than 60 minutes away from the requested time. *)
Fixpoint firstWithinBuffer (env : Env) (req : BookingRequest)
    (l : list Appointment.t) : option (Appointment.t * Z) :=
  match l with
  | [] => None
  | appt :: rest =>
      if matchesId (Appointment._id appt) (appointmentId req)
      then firstWithinBuffer env req rest
      else
        match moment12 env (dateTimeText (date req) (time req)),
              moment12 env (dateTimeText (Appointment.date appt)
                                         (Appointment.time appt)) with
        | Some r, Some e =>
            if (diffMinutes r e <? 60)%Z then Some (appt, diffMinutes r e)
            else firstWithinBuffer env req rest
        | _, _ => firstWithinBuffer env req rest
        end
  end.

Definition softConflict (env : Env) (targetUserId : ObjectId)
    (req : BookingRequest) (s : Store) : option (Appointment.t * Z) :=
  if force req then None
  else
    firstWithinBuffer env req
      (filter (fun a => Nat.eqb (Appointment.user a) targetUserId
                        && AppointmentStatus_eqb (Appointment.status a) Upcoming
                        && String.eqb (Appointment.date a) (date req))
              (appointments s)).

(** [Appointment.countDocuments({ doctor, date })] *)
Definition countForDoctorDate (doctor : ObjectId) (d : string) (s : Store)
    : nat :=
  List.length (filter (fun a => Nat.eqb (Appointment.doctor a) doctor
                                && String.eqb (Appointment.date a) d)
                      (appointments s)).

Definition orThrow {A} (o : option A) (e : Error) : DB A :=
  match o with
  | Some a => ret a
  | None => throw e
  end.

(** The deposit of a fee the staff collected in cash. *)
Definition cashDeposit (env : Env) (targetUserId : ObjectId) (cost : float)
    (hospitalId : ObjectId) : TransactionData :=
  {| userId := targetUserId;
     amount := cost;
     type := credit;
     transactionType := Deposit;
     description :=
       "Cash payment collected at hospital counter for appointment.";
     referenceId := RefStamp "CASH_" (now env);
     walletService.hospitalId := Some hospitalId |}.

(** What the first part of the booking transaction has looked up when it
    reaches the insert of the appointment. *)
Record BookingContext := {
  ctxDoctorId : ObjectId;
  ctxHospitalId : ObjectId;
  ctxAppointmentTypeId : ObjectId;
  ctxAppointmentType : AppointmentType.t;
  ctxDoctor : User.t;
  ctxHospital : Hospital.t;
  ctxPatient : User.t;
  ctxQueueNumber : string
}.

(** The function passed to [session.withTransaction] by the booking route, up
    to the queue number: look-ups, refusals, the deposit of a fee collected
    in cash, and the balance check. *)
Definition bookingChecks (env : Env) (reqUser : User.t)
    (targetUserId : ObjectId) (req : BookingRequest) : DB BookingContext :=
  match doctorId req, hospitalId req, appointmentTypeId req with
  | Some doctorId, Some hospitalId, Some appointmentTypeId =>
      mAppointmentType <- gets (findAppointmentType appointmentTypeId) ;;
      mDoctor <- gets (findUser doctorId) ;;
      mHospital <- gets (findHospital hospitalId) ;;
      mPatient <- gets (findUser targetUserId) ;;
      appointmentType <-
        orThrow mAppointmentType (mkError "Invalid appointment type specified.") ;;
      doctor <- orThrow mDoctor (mkError "Specified doctor not found.") ;;
      hospital <- orThrow mHospital (mkError "Specified hospital not found.") ;;
      patient <- orThrow mPatient (mkError "Specified patient not found.") ;;
      throwIf (User.isDisabled doctor)
        (mkError "The selected doctor's account has been disabled.") ;;;
      throwIf (User.isDisabled patient)
        (mkError "The patient's account has been disabled.") ;;;
      throwIf (inUnavailabilityEpisode (newDate env (date req)) doctor)
        (mkError "The selected doctor is currently unavailable during this period.") ;;;
      let cost := AppointmentType.cost appointmentType in
      throwIf (negb (existsb (Nat.eqb hospitalId) (User.hospitals doctor)))
        (mkError "Selected doctor does not work at this hospital.") ;;;
      (if cashPayment req && isStaffRole (User.role reqUser)
       then
         createTransactionAndUpdateWallet
           (given (cashDeposit env targetUserId cost hospitalId)) true ;;;
         ret tt
       else ret tt) ;;;
      currentWalletState <- gets (findWallet targetUserId) ;;
      throwIf (match currentWalletState with
               | None => true
               | Some w => (Wallet.balance w <? cost)%float
               end)
        (mkError (String.append "Insufficient wallet balance for patient "
                    (String.append (en (User.name patient)) "."))) ;;;
      count <- gets (countForDoctorDate doctorId (date req)) ;;
      ret {| ctxDoctorId := doctorId;
             ctxHospitalId := hospitalId;
             ctxAppointmentTypeId := appointmentTypeId;
             ctxAppointmentType := appointmentType;
             ctxDoctor := doctor;
             ctxHospital := hospital;
             ctxPatient := patient;
             ctxQueueNumber := ticket (en (User.name doctor)) count |}
  | _, _, _ =>
      throw (mkError "Doctor, hospital, and appointment type must be specified.")
  end.

(** The appointment the booking inserts. *)
Definition newAppointment (targetUserId : ObjectId) (req : BookingRequest)
    (c : BookingContext) (id : ObjectId) : Appointment.t :=
  {| Appointment._id := id;
     Appointment.user := targetUserId;
     Appointment.doctor := ctxDoctorId c;
     Appointment.hospital := ctxHospitalId c;
     Appointment.appointmentType := ctxAppointmentTypeId c;
     Appointment.date := date req;
     Appointment.time := time req;
     Appointment.status := Upcoming;
     Appointment.cancellationResolution := Pending;
     Appointment.cost := AppointmentType.cost (ctxAppointmentType c);
     Appointment.isRefunded := false;
     Appointment.reminderSet := false;
     Appointment.queueNumber := Some (ctxQueueNumber c);
     Appointment.doctorReminder24hSent := false;
     Appointment.doctorReminder1hSent := false;
     Appointment.doctorReminder24hSentAt := None;
     Appointment.doctorReminder1hSentAt := None |}.

(** The debit of the fee. *)
Definition feeDebit (targetUserId : ObjectId) (c : BookingContext)
    (appointment : Appointment.t) : TransactionData :=
  {| userId := targetUserId;
     amount := AppointmentType.cost (ctxAppointmentType c);
     type := debit;
     transactionType := AppointmentFee;
     description :=
       String.append "Fee for "
         (String.append (en (AppointmentType.name (ctxAppointmentType c)))
            (String.append " with Dr. "
               (String.append (en (User.name (ctxDoctor c)))
                  (String.append " at " (en (Hospital.name (ctxHospital c)))))));
     referenceId := RefObject (Appointment._id appointment);
     walletService.hospitalId := Some (ctxHospitalId c) |}.

(** The function passed to [session.withTransaction] by the booking route:
    the checks, then the insert of the appointment, the queue entry of a
    same-day booking, the debit, and the confirmation. *)
Definition bookingTransaction (env : Env) (reqUser : User.t)
    (targetUserId : ObjectId) (req : BookingRequest) : DB Appointment.t :=
  c <- bookingChecks env reqUser targetUserId req ;;
  appointment <- createAppointment (newAppointment targetUserId req c) ;;
  (if String.eqb (date req) (today env) then
     alreadyInQueue <- gets (activeEntryOf targetUserId) ;;
     match alreadyInQueue with
     | Some _ => ret tt
     | None =>
         createQueueItem env (Some targetUserId) None (ctxDoctorId c)
           (ctxHospitalId c) (ctxQueueNumber c) ;;;
         ret tt
     end
   else ret tt) ;;;
  createTransactionAndUpdateWallet
    (given (feeDebit targetUserId c appointment)) true ;;;
  createNotification env targetUserId "appointment" "Appointment Confirmed" ;;;
  ret appointment.

Definition slotJustBooked : string :=
  "This time slot was just booked by someone else. Please select another time.".

(** The [catch] of the booking route. *)
Definition bookingError (e : Error) : Response :=
  if match code e with Some c => (c =? 11000)%Z | None => false end
  then respond 409 (BError slotJustBooked)
  else
    respond
      (if JS.includes "Insufficient" (message e)
          || JS.includes "not found" (message e)
          || JS.includes "must be specified" (message e)
       then 400 else 500)
      (BError (messageOr e "Server Error")).

(** [router.post('/')] *)
Definition bookAppointment (env : Env) (reqUser : User.t)
    (req : BookingRequest) : Store -> Response * Store :=
  fun s =>
    match targetUser reqUser req with
    | inl refusal => (refusal, s)
    | inr targetUserId =>
        match existingExact targetUserId req s with
        | Some e => (respond 409 (BConflict "Duplicate Appointment" true e 0), s)
        | None =>
            match softConflict env targetUserId req s with
            | Some (appt, diff) =>
                (respond 409 (BConflict "Schedule Conflict" false appt diff), s)
            | None =>
                handle
                  (appointment <-
                     withTransaction
                       (bookingTransaction env reqUser targetUserId req) ;;
                   ret (respond 201 (BAppointment appointment)))
                  bookingError s
            end
        end
    end.

(** [PUT /api/appointments/:id/status] *)
Definition updateStatus (id : ObjectId) (status : AppointmentStatus)
    : Store -> Response * Store :=
  fun s =>
    match findAppointment id s with
    | None => (respond 404 (BError "Appointment not found"), s)
    | Some appointment =>
        handle
          (saveAppointment (Appointment.set_status status appointment) ;;;
           ret (respond 200
                  (BAppointment (Appointment.set_status status appointment))))
          (fun _ => respond 500 (BError "Server Error")) s
    end.

(** [QueueItem.findOneAndDelete({ user, doctor, status: { $in: ['Waiting', 'Held'] } })] *)
Fixpoint deleteFirst {A} (p : A -> bool) (l : list A) : list A :=
  match l with
  | [] => []
  | x :: rest => if p x then rest else x :: deleteFirst p rest
  end.

(** The function passed to [session.withTransaction] by the reschedule
    route. *)
Definition rescheduleTransaction (env : Env) (id : ObjectId)
    (date time : string) : DB unit :=
  mAppointment <- gets (findAppointment id) ;;
  appointment <- orThrow mAppointment (mkError "Appointment not found") ;;
  mDoctor <- gets (findUser (Appointment.doctor appointment)) ;;
  let oldDate := Appointment.date appointment in
  appointment1 <-
    (if negb (String.eqb date oldDate) then
       doctor <- orThrow mDoctor typeError ;;
       count <- gets (countForDoctorDate (User._id doctor) date) ;;
       let queueNumber := ticket (en (User.name doctor)) count in
       (if String.eqb oldDate (today env) then
          modify (fun s =>
            set_queueItems
              (deleteFirst
                 (fun q => matchesId (Appointment.user appointment)
                                     (QueueItem.user q)
                           && Nat.eqb (QueueItem.doctor q) (User._id doctor)
                           && (QueueStatus_eqb (QueueItem.status q) Waiting
                               || QueueStatus_eqb (QueueItem.status q) Held))
                 (queueItems s)) s)
        else ret tt) ;;;
       (if String.eqb date (today env) then
          createQueueItem env (Some (Appointment.user appointment)) None
            (User._id doctor) (Appointment.hospital appointment) queueNumber ;;;
          ret tt
        else ret tt) ;;;
       ret (Appointment.set_queueNumber (Some queueNumber) appointment)
     else ret appointment) ;;
  saveAppointment
    (Appointment.set_status Upcoming
       (Appointment.set_time time (Appointment.set_date date appointment1))).

(** [PUT /api/appointments/:id/reschedule] *)
Definition reschedule (env : Env) (id : ObjectId) (date time : string)
    : Store -> Response * Store :=
  handle
    (withTransaction (rescheduleTransaction env id date time) ;;;
     updatedAppointment <- gets (findAppointment id) ;;
     match updatedAppointment with
     | Some a => ret (respond 200 (BAppointment a))
     | None => ret (respond 200 BNull)
     end)
    (fun e => respond 500 (BError (messageOr e "Server Error"))).

(** [PUT /api/appointments/doctor-cancel/:id] *)
Definition doctorCancel (env : Env) (reqUser : User.t) (id : ObjectId)
    : Store -> Response * Store :=
  fun s =>
    if negb (Role_eqb (User.role reqUser) Doctor
             || isStaffRole (User.role reqUser))
    then (forbidden (User.role reqUser), s)
    else
      handle
        (mAppt <- gets (findAppointment id) ;;
         match mAppt with
         | None => ret (respond 404 (BError "Appointment not found"))
         | Some appt =>
             mUser <- gets (findUser (Appointment.user appt)) ;;
             mDoctor <- gets (findUser (Appointment.doctor appt)) ;;
             mHospital <- gets (findHospital (Appointment.hospital appt)) ;;
             isDoctorOwner <-
               (if Role_eqb (User.role reqUser) Doctor then
                  doctor <- orThrow mDoctor typeError ;;
                  ret (Nat.eqb (User._id doctor) (User._id reqUser))
                else ret false) ;;
             isAdminOfHospital <-
               (if isStaffRole (User.role reqUser) then
                  hospital <- orThrow mHospital typeError ;;
                  ret (existsb (Nat.eqb (Hospital._id hospital))
                               (User.hospitals reqUser))
                else ret false) ;;
             if negb isDoctorOwner && negb isAdminOfHospital then
               ret (respond 403
                      (BError "Not authorized to cancel this appointment"))
             else
               let appt' :=
                 Appointment.set_cancellationResolution Pending
                   (Appointment.set_status DoctorCancelled appt) in
               saveAppointment appt' ;;;
               user <- orThrow mUser typeError ;;
               createNotification env (User._id user)
                 "Appointment Cancelled by Doctor" "" ;;;
               ret (respond 200
                      (BMessageAppointment
                         "Appointment marked as DoctorCancelled and patient notified."
                         appt'))
         end)
        (fun _ => respond 500 (BError "Server error")) s.

Inductive ResolutionAction := ActRefund | ActRedirect | ActReschedule | ActOther.

(** [newSlot.date || appt.date] *)
Definition orElse (v dflt : string) : string :=
  if String.eqb v "" then dflt else v.

(** The two refusals of the resolution route that depend on the state of the
    appointment. *)
Definition notCancelledByDoctor : string :=
  "This appointment is not cancelled by doctor".

Definition alreadyResolved : string := "Resolution already processed".

(** The full refund of an appointment the doctor cancelled. *)
Definition apologyRefund (appt : Appointment.t) (user : User.t)
    (refundAmount : float) (doctor : User.t) (hospital : Hospital.t)
    : TransactionData :=
  {| userId := User._id user;
     amount := refundAmount;
     type := credit;
     transactionType := Refund;
     description :=
       String.append "Full refund for doctor apology: " (en (User.name doctor));
     referenceId := RefObject (Appointment._id appt);
     walletService.hospitalId := Some (Hospital._id hospital) |}.

(** The function passed to [session.withTransaction] by the resolution route;
    [newSlot] carries [date] and [time], the empty string standing for a
    missing one. *)
Definition resolveTransaction (env : Env) (reqUser : User.t) (id : ObjectId)
    (action : ResolutionAction) (newDoctorId : option ObjectId)
    (newSlot : option (string * string)) : DB Body :=
  mAppt <- gets (findAppointment id) ;;
  appt <- orThrow mAppt (mkError "Appointment not found") ;;
  mDoctor <- gets (findUser (Appointment.doctor appt)) ;;
  mHospital <- gets (findHospital (Appointment.hospital appt)) ;;
  mUser <- gets (findUser (Appointment.user appt)) ;;
  user <- orThrow mUser typeError ;;
  throwIf (negb (Nat.eqb (User._id user) (User._id reqUser)))
    (mkError "Not authorized") ;;;
  throwIf (negb (AppointmentStatus_eqb (Appointment.status appt) DoctorCancelled))
    (mkError notCancelledByDoctor) ;;;
  throwIf (negb (Resolution_eqb (Appointment.cancellationResolution appt) Pending))
    (mkError alreadyResolved) ;;;
  match action with
  | ActRefund =>
      let refundAmount := Appointment.cost appt in
      (if (0 <? refundAmount)%float then
         doctor <- orThrow mDoctor typeError ;;
         hospital <- orThrow mHospital typeError ;;
         createTransactionAndUpdateWallet
           (given (apologyRefund appt user refundAmount doctor hospital))
           true ;;;
         ret tt
       else ret tt) ;;;
      saveAppointment
        (Appointment.set_cancellationResolution Refunded
           (Appointment.set_isRefunded true
              (Appointment.set_status Cancelled appt))) ;;;
      createNotification env (User._id user) "appointment"
        "Appointment Cancelled" ;;;
      ret (BMessage "Full refund processed successfully")
  | ActRedirect =>
      newDoctor <-
        orThrow newDoctorId
          (mkError "New doctor ID is required for redirection") ;;
      let appt1 :=
        Appointment.set_cancellationResolution Redirected
          (Appointment.set_status Upcoming
             (Appointment.set_doctor newDoctor appt)) in
      let appt2 :=
        match newSlot with
        | Some (d, t) =>
            Appointment.set_time (orElse t (Appointment.time appt1))
              (Appointment.set_date (orElse d (Appointment.date appt1)) appt1)
        | None => appt1
        end in
      saveAppointment appt2 ;;;
      ret (BMessageAppointment "Appointment redirected successfully" appt2)
  | ActReschedule =>
      match newSlot with
      | Some (d, t) =>
          throwIf (String.eqb d "" || String.eqb t "")
            (mkError "New slot (date and time) is required") ;;;
          let appt1 :=
            Appointment.set_cancellationResolution Rescheduled
              (Appointment.set_status Upcoming
                 (Appointment.set_time t (Appointment.set_date d appt))) in
          saveAppointment appt1 ;;;
          ret (BMessageAppointment "Appointment rescheduled successfully" appt1)
      | None => throw (mkError "New slot (date and time) is required")
      end
  | ActOther => throw (mkError "Invalid action")
  end.

(** [PUT /api/appointments/:id/resolve-cancellation] *)
Definition resolveCancellation (env : Env) (reqUser : User.t) (id : ObjectId)
    (action : ResolutionAction) (newDoctorId : option ObjectId)
    (newSlot : option (string * string)) : Store -> Response * Store :=
  handle
    (result <-
       withTransaction
         (resolveTransaction env reqUser id action newDoctorId newSlot) ;;
     ret (respond 200 result))
    (fun e => respond 400 (BError (message e))).

(** [appt.cost * (appt.hospital.refundPolicyPercentage / 100)], in
    doubles *)
Definition policyRefund (cost percentage : float) : float :=
  (cost * (percentage / 100))%float.

(** The refund of a cancellation. *)
Definition cancellationRefund (appt : Appointment.t) (refundAmount : float)
    (appointmentType : AppointmentType.t) (doctor : User.t)
    (hospital : Hospital.t) : TransactionData :=
  {| userId := Appointment.user appt;
     amount := refundAmount;
     type := credit;
     transactionType := Refund;
     description :=
       String.append "Refund for cancelled "
         (String.append (en (AppointmentType.name appointmentType))
            (String.append " with Dr. "
               (String.append (en (User.name doctor))
                  (String.append " at " (en (Hospital.name hospital))))));
     referenceId := RefObject (Appointment._id appt);
     walletService.hospitalId := Some (Hospital._id hospital) |}.

(** The function passed to [session.withTransaction] by [PUT /:id]. *)
Definition updateTransaction (env : Env) (reqUser : User.t) (id : ObjectId)
    (status : AppointmentStatus) : DB (option Appointment.t) :=
  mAppt <- gets (findAppointment id) ;;
  appt <- orThrow mAppt (mkError "Appointment not found.") ;;
  mHospital <- gets (findHospital (Appointment.hospital appt)) ;;
  mDoctor <- gets (findUser (Appointment.doctor appt)) ;;
  mAppointmentType <-
    gets (findAppointmentType (Appointment.appointmentType appt)) ;;
  let isPatientOwner :=
    Role_eqb (User.role reqUser) Patient
    && Nat.eqb (Appointment.user appt) (User._id reqUser) in
  isAdminOfHospital <-
    (if isStaffRole (User.role reqUser) then
       hospital <- orThrow mHospital typeError ;;
       ret (existsb (Nat.eqb (Hospital._id hospital)) (User.hospitals reqUser))
     else ret false) ;;
  throwIf (negb isPatientOwner && negb isAdminOfHospital)
    (mkError "Not authorized to update this appointment.") ;;;
  throwIf (isPatientOwner && negb (AppointmentStatus_eqb status Cancelled))
    (mkError "Patients can only cancel appointments.") ;;;
  let appt1 := Appointment.set_status status appt in
  appt2 <-
    (if AppointmentStatus_eqb status Cancelled
        && negb (Appointment.isRefunded appt1)
     then
       hospital <- orThrow mHospital typeError ;;
       let refundAmount :=
         policyRefund (Appointment.cost appt1)
                      (Hospital.refundPolicyPercentage hospital) in
       (if (0 <? refundAmount)%float then
          appointmentType <- orThrow mAppointmentType typeError ;;
          doctor <- orThrow mDoctor typeError ;;
          createTransactionAndUpdateWallet
            (given (cancellationRefund appt1 refundAmount appointmentType
                      doctor hospital)) true ;;;
          ret tt
        else ret tt) ;;;
       ret (Appointment.set_isRefunded true appt1)
     else ret appt1) ;;
  saveAppointment appt2 ;;;
  (if AppointmentStatus_eqb status Cancelled then
     createNotification env (Appointment.user appt2) "appointment"
       "Appointment Cancelled" ;;;
     ret tt
   else ret tt) ;;;
  gets (findAppointment (Appointment._id appt2)).

(** The [catch] of [PUT /:id]. *)
Definition updateError (e : Error) : Response :=
  respond
    (if JS.includes "Not authorized" (message e)
        || JS.includes "can only cancel" (message e)
     then 403
     else if JS.includes "not found" (message e) then 404 else 500)
    (BError (messageOr e "Server Error")).

(** [router.put('/:id')]: the patient's cancellation and the staff's status
    updates. *)
Definition updateAppointment (env : Env) (reqUser : User.t) (id : ObjectId)
    (status : AppointmentStatus) : Store -> Response * Store :=
  handle
    (populatedAppt <-
       withTransaction (updateTransaction env reqUser id status) ;;
     ret (respond 200 (match populatedAppt with
                       | Some a => BAppointment a
                       | None => BNull
                       end)))
    updateError.

(** *** The availability route *)

(** [timeToMinutes]; the outer [None] is the [TypeError] of reading
    [modifier.toUpperCase()] when the text has no second word. *)
Definition timeToMinutes (timeStr : string) : option JS.num :=
  let is24Hour :=
    negb (JS.includes "AM" timeStr) && negb (JS.includes "PM" timeStr) in
  if is24Hour then
    match JS.split ":"%char timeStr with
    | hours :: minutes :: _ =>
        Some (JS.add (JS.mul (JS.Number hours) (Some 60%Z)) (JS.Number minutes))
    | _ => Some None
    end
  else
    match JS.split " "%char timeStr with
    | time :: modifier :: _ =>
        let parts := JS.split ":"%char time in
        let hours := JS.Number (nth 0 parts "") in
        let minutes :=
          match parts with
          | _ :: m :: _ => JS.Number m
          | _ => None
          end in
        let hours1 :=
          if String.eqb (JS.toUpperCase modifier) "PM" && JS.lt hours (Some 12%Z)
          then JS.add hours (Some 12%Z) else hours in
        let hours2 :=
          if String.eqb (JS.toUpperCase modifier) "AM"
             && match hours1 with Some h => (h =? 12)%Z | None => false end
          then Some 0%Z else hours1 in
        Some (JS.add (JS.mul hours2 (Some 60%Z)) minutes)
    | _ => None
    end.

(** [minutesToTime] *)
Definition minutesToTime (minutes : JS.num) : string :=
  let hours := option_map (fun m => (m / 60)%Z) minutes in
  let mins := option_map (fun m => Z.rem m 60) minutes in
  let ampm := if JS.le (Some 12%Z) hours then "PM" else "AM" in
  let formattedHours :=
    match hours with
    | Some h => if (Z.rem h 12 =? 0)%Z then Some 12%Z else Some (Z.rem h 12)
    | None => None
    end in
  let formattedMinutes := JS.padStart 2 "0"%char (JS.numToString mins) in
  String.append (JS.numToString formattedHours)
    (String.append ":" (String.append formattedMinutes
       (String.append " " ampm))).

(** Insertion of [a] in a list sorted by [time], after the entries that are
    smaller and before the first that is not. *)
Fixpoint insertByTime (a : Appointment.t) (l : list Appointment.t)
    : list Appointment.t :=
  match l with
  | [] => [a]
  | b :: rest =>
      if String.leb (Appointment.time a) (Appointment.time b)
      then a :: b :: rest
      else b :: insertByTime a rest
  end.

(** [.sort({ time: 1 })]: ascending on the text of [time]. *)
Definition sortByTime (l : list Appointment.t) : list Appointment.t :=
  fold_right insertByTime [] l.

(** [Appointment.find({ doctor, hospital, date, status: 'Upcoming' })
      .sort({ time: 1 })] *)
Definition existingAppointments (doctorId hospitalId : ObjectId)
    (date : string) (s : Store) : list Appointment.t :=
  sortByTime
    (filter (fun a => Nat.eqb (Appointment.doctor a) doctorId
                      && Nat.eqb (Appointment.hospital a) hospitalId
                      && String.eqb (Appointment.date a) date
                      && AppointmentStatus_eqb (Appointment.status a) Upcoming)
            (appointments s)).

(** [doctor.availability.find(d => d.hospital && d.dayOfWeek === dayOfWeek
      && availHospitalId === hospitalId)] *)
Definition dayAvailability (doctor : User.t) (dayOfWeek : string)
    (hospitalId : ObjectId) : option Availability.t :=
  find (fun d => match Availability.hospital d with
                 | None => false
                 | Some h => String.eqb (Availability.dayOfWeek d) dayOfWeek
                             && Nat.eqb h hospitalId
                 end)
       (User.availability doctor).

(** The end of the shift, pushed to the next day when it is not after the
    start. *)
Definition shiftEnd (doctorStartMinutes doctorEndMinutes : JS.num) : JS.num :=
  if JS.le doctorEndMinutes doctorStartMinutes
  then JS.add doctorEndMinutes (Some (24 * 60)%Z)
  else doctorEndMinutes.

(** [lastAppointment.appointmentType ? lastAppointment.appointmentType.duration : 30] *)
Definition durationOf (a : Appointment.t) (s : Store) : Z :=
  match findAppointmentType (Appointment.appointmentType a) s with
  | Some t => AppointmentType.duration t
  | None => 30%Z
  end.

(** The slot after the last existing appointment, not before the start of
    the shift. *)
Definition slotAfterExisting (doctorStartMinutes : JS.num)
    (existing : list Appointment.t) (s : Store) : option JS.num :=
  match existing with
  | [] => Some doctorStartMinutes
  | first :: rest =>
      let lastAppointment := last existing first in
      match timeToMinutes (Appointment.time lastAppointment) with
      | Some lastApptStart =>
          Some (JS.max doctorStartMinutes
                  (JS.add lastApptStart
                     (Some (durationOf lastAppointment s))))
      | None => None
      end
  end.

(** [adjustedTime], rounded up to the next multiple of 5 *)
Definition roundUpTo5 (adjustedTime : Z) : Z :=
  let remainder := Z.rem adjustedTime 5 in
  if negb (remainder =? 0)%Z then (adjustedTime + (5 - remainder))%Z
  else adjustedTime.

Definition bookingBuffer : Z := 15.

(** The adjustment made when the requested date is today. *)
Definition todayAdjusted (env : Env) (date : string)
    (nextSlotStartMinutes : JS.num) : JS.num :=
  if String.eqb date (today env) then
    if JS.lt nextSlotStartMinutes
             (Some (currentMinutes env + bookingBuffer)%Z)
    then Some (roundUpTo5 (currentMinutes env + bookingBuffer))
    else nextSlotStartMinutes
  else nextSlotStartMinutes.

Definition scheduleFull : string := "Doctor schedule is full for this day.".

(** [router.get('/availability/doctor/:doctorId')]; the empty string stands
    for a missing [date]. *)
Definition availability (env : Env) (doctorId : ObjectId) (date : string)
    (appointmentTypeId hospitalId : option ObjectId) (s : Store) : Response :=
  match appointmentTypeId, hospitalId with
  | Some appointmentTypeId, Some hospitalId =>
      if String.eqb date "" then
        respond 400 (BError "Date, appointment type, and hospital are required.")
      else
        let dayOfWeek := dayName env date in
        let existing := existingAppointments doctorId hospitalId date s in
        match findUser doctorId s, findAppointmentType appointmentTypeId s with
        | Some doctor, Some appointmentType =>
            if inUnavailabilityEpisode (newDate env date) doctor then
              respond 200
                (BSlot None None
                   (if String.eqb (ar (User.name doctor)) ""
                    then "Doctor is not available on this date."
                    else "الطبيب غير متاح في هذا التاريخ."))
            else
              match dayAvailability doctor dayOfWeek hospitalId with
              | Some d =>
                  if negb (Availability.isAvailable d) then
                    respond 200
                      (BSlot None None
                         (String.append "Doctor is not available on "
                            (String.append dayOfWeek " at this hospital.")))
                  else
                    let requestedDuration :=
                      AppointmentType.duration appointmentType in
                    match timeToMinutes (Availability.startTime d),
                          timeToMinutes (Availability.endTime d) with
                    | Some doctorStartMinutes, Some endMinutes =>
                        let doctorEndMinutes :=
                          shiftEnd doctorStartMinutes endMinutes in
                        match slotAfterExisting doctorStartMinutes existing s with
                        | Some afterExisting =>
                            let nextSlotStartMinutes :=
                              todayAdjusted env date afterExisting in
                            if JS.gt (JS.add nextSlotStartMinutes
                                             (Some requestedDuration))
                                     doctorEndMinutes
                            then respond 200 (BSlot None None scheduleFull)
                            else
                              respond 200
                                (BSlot
                                   (Some (minutesToTime nextSlotStartMinutes))
                                   (Some (List.length existing + 1))
                                   "Available")
                        | None =>
                            respond 500
                              (BError "Server Error while fetching slots")
                        end
                    | _, _ =>
                        respond 500 (BError "Server Error while fetching slots")
                    end
              | None =>
                  respond 200
                    (BSlot None None
                       (String.append "Doctor is not available on "
                          (String.append dayOfWeek " at this hospital.")))
              end
        | _, _ => respond 404 (BError "Doctor or appointment type not found.")
        end
  | _, _ =>
      respond 400 (BError "Date, appointment type, and hospital are required.")
  end.

End appointmentsRoutes.

(* ------------------------------------------------------------------ *)
(** ** services/queueService.js *)

Module queueService.

Import appointmentsRoutes.
Local Open Scope db_scope.

(** [QueueItem.countDocuments({ doctor, hospital })] *)
Definition countQueue (doctorId hospitalId : ObjectId) (s : Store) : nat :=
  List.length (filter (fun q => Nat.eqb (QueueItem.doctor q) doctorId
                                && Nat.eqb (QueueItem.hospital q) hospitalId)
                      (queueItems s)).

(** A stored ticket number counts when it is a non-empty string. *)
Definition storedTicket (a : Appointment.t) : option string :=
  match Appointment.queueNumber a with
  | Some n => if String.eqb n "" then None else Some n
  | None => None
  end.

Definition joinQueue (env : Env) (userId doctorId hospitalId : ObjectId)
    : DB unit :=
  alreadyInQueue <- gets (activeEntryOf userId) ;;
  throwIf (match alreadyInQueue with Some _ => true | None => false end)
    (mkError "You are already in a queue.") ;;;
  mDoctor <- gets (findUser doctorId) ;;
  match mDoctor with
  | None =>
      throw (mkError "Doctor not found or not associated with this hospital.")
  | Some doctor =>
      throwIf (negb (Role_eqb (User.role doctor) Doctor)
               || negb (existsb (Nat.eqb hospitalId) (User.hospitals doctor)))
        (mkError "Doctor not found or not associated with this hospital.") ;;;
      todaysAppointment <-
        gets (fun s =>
          find (fun a => Nat.eqb (Appointment.user a) userId
                         && Nat.eqb (Appointment.doctor a) doctorId
                         && Nat.eqb (Appointment.hospital a) hospitalId
                         && AppointmentStatus_eqb (Appointment.status a) Upcoming
                         && String.eqb (Appointment.date a) (today env))
               (appointments s)) ;;
      queueNumber <-
        match todaysAppointment with
        | Some a =>
            match storedTicket a with
            | Some n => ret n
            | None =>
                count <- gets (countQueue doctorId hospitalId) ;;
                let n := ticket (en (User.name doctor)) count in
                saveAppointment (Appointment.set_queueNumber (Some n) a) ;;;
                ret n
            end
        | None =>
            count <- gets (countQueue doctorId hospitalId) ;;
            ret (ticket (en (User.name doctor)) count)
        end ;;
      createQueueItem env (Some userId) None doctorId hospitalId queueNumber ;;;
      ret tt
  end.

(** [QueueItem.findOneAndUpdate(filter, { status })]: the first match is
    updated. *)
Fixpoint updateFirst {A} (p : A -> bool) (f : A -> A) (l : list A) : list A :=
  match l with
  | [] => []
  | x :: rest => if p x then f x :: rest else x :: updateFirst p f rest
  end.

Definition leaveQueue (userId : ObjectId) : DB unit :=
  modify (fun s =>
    set_queueItems
      (updateFirst
         (fun q => matchesId userId (QueueItem.user q)
                   && (QueueStatus_eqb (QueueItem.status q) Waiting
                       || QueueStatus_eqb (QueueItem.status q) Held))
         (QueueItem.set_status Left) (queueItems s)) s).

(** [item.save()] and [findByIdAndUpdate] *)
Definition setQueueStatus (id : ObjectId) (st : QueueStatus) : DB unit :=
  modify (fun s =>
    set_queueItems
      (map (fun q => if Nat.eqb (QueueItem._id q) id
                     then QueueItem.set_status st q else q)
           (queueItems s)) s).

(** The first of the entries with the least [checkInTime]: what
    [.sort({ checkInTime: 1 })] puts in front. *)
Fixpoint earliest (l : list QueueItem.t) : option QueueItem.t :=
  match l with
  | [] => None
  | q :: rest =>
      match earliest rest with
      | Some r =>
          if (QueueItem.checkInTime q <=? QueueItem.checkInTime r)%Z
          then Some q else Some r
      | None => Some q
      end
  end.

(** [QueueItem.findOne({ doctor, status: 'Waiting' }).sort({ checkInTime: 1 })] *)
Definition earliestWaiting (doctorId : ObjectId) (s : Store)
    : option QueueItem.t :=
  earliest
    (filter (fun q => Nat.eqb (QueueItem.doctor q) doctorId
                      && QueueStatus_eqb (QueueItem.status q) Waiting)
            (queueItems s)).

(** [QueueItem.findOne({ doctor, status: 'Serving' })] *)
Definition currentlyServing (doctorId : ObjectId) (s : Store)
    : option QueueItem.t :=
  find (fun q => Nat.eqb (QueueItem.doctor q) doctorId
                 && QueueStatus_eqb (QueueItem.status q) Serving)
       (queueItems s).

(** [Appointment.findOneAndUpdate({ user, doctor, status: 'Upcoming',
      date: today }, { status: 'Completed' })] *)
Definition completeTodaysAppointment (userId doctorId : ObjectId)
    (todayText : string) : DB unit :=
  modify (fun s =>
    set_appointments
      (updateFirst
         (fun a => Nat.eqb (Appointment.user a) userId
                   && Nat.eqb (Appointment.doctor a) doctorId
                   && AppointmentStatus_eqb (Appointment.status a) Upcoming
                   && String.eqb (Appointment.date a) todayText)
         (Appointment.set_status Completed) (appointments s)) s).

Definition callNextPatient (env : Env) (doctorId : ObjectId)
    : DB (option QueueItem.t) :=
  currentServing <- gets (currentlyServing doctorId) ;;
  match currentServing with
  | Some serving =>
      setQueueStatus (QueueItem._id serving) Done ;;;
      match QueueItem.user serving with
      | Some u => completeTodaysAppointment u doctorId (todayISO env)
      | None => ret tt
      end
  | None => ret tt
  end ;;;
  next <- gets (earliestWaiting doctorId) ;;
  nextPatient <-
    match next with
    | Some q =>
        setQueueStatus (QueueItem._id q) Serving ;;;
        ret (Some (QueueItem.set_status Serving q))
    | None => ret None
    end ;;
  upNext <- gets (earliestWaiting doctorId) ;;
  match upNext with
  | Some q =>
      match QueueItem.user q with
      | Some u => createNotification env u "system" "Next in Line" ;;; ret tt
      | None => ret tt
      end
  | None => ret tt
  end ;;;
  ret nextPatient.

Definition holdPatient (queueItemId : ObjectId) : DB QueueItem.t :=
  mItem <- gets (findQueueItem queueItemId) ;;
  item <- orThrow mItem (mkError "Queue item not found") ;;
  throwIf (negb (QueueStatus_eqb (QueueItem.status item) Serving
                 || QueueStatus_eqb (QueueItem.status item) Waiting))
    (mkError "Cannot hold a patient with this status.") ;;;
  setQueueStatus queueItemId Held ;;;
  ret (QueueItem.set_status Held item).

Definition requeuePatient (queueItemId : ObjectId) : DB QueueItem.t :=
  mItem <- gets (findQueueItem queueItemId) ;;
  item <- orThrow mItem (mkError "Queue item not found") ;;
  throwIf (negb (QueueStatus_eqb (QueueItem.status item) Held))
    (mkError "Patient is not on hold.") ;;;
  setQueueStatus queueItemId Waiting ;;;
  ret (QueueItem.set_status Waiting item).

Definition checkInAppointment (env : Env) (appointmentId : ObjectId)
    : DB unit :=
  mAppointment <- gets (findAppointment appointmentId) ;;
  appointment <- orThrow mAppointment (mkError "Appointment not found") ;;
  mDoctor <- gets (findUser (Appointment.doctor appointment)) ;;
  doctor <- orThrow mDoctor typeError ;;
  existingItem <-
    gets (fun s =>
      find (fun q => Nat.eqb (QueueItem.doctor q) (User._id doctor)
                     && matchesId (Appointment.user appointment)
                                  (QueueItem.user q)
                     && isActiveStatus (QueueItem.status q))
           (queueItems s)) ;;
  throwIf (match existingItem with Some _ => true | None => false end)
    (mkError "Patient is already in the queue.") ;;;
  queueNumber <-
    match storedTicket appointment with
    | Some n => ret n
    | None =>
        count <- gets (countQueue (User._id doctor)
                                  (Appointment.hospital appointment)) ;;
        let n := ticket (en (User.name doctor)) count in
        saveAppointment (Appointment.set_queueNumber (Some n) appointment) ;;;
        ret n
    end ;;
  createQueueItem env (Some (Appointment.user appointment)) None
    (User._id doctor) (Appointment.hospital appointment) queueNumber ;;;
  ret tt.

Definition removePatientFromQueue (queueItemId : ObjectId) : DB unit :=
  setQueueStatus queueItemId RemovedByAdmin.

End queueService.

(* ------------------------------------------------------------------ *)
(** ** services/doctorReminderService.js *)

Module DoctorReminderService.

Local Open Scope db_scope.

Inductive ReminderType := R24h | R1h.

(** Whether the text starts with [AM] or [PM], in either case; the two
    letters found. *)
Definition leadingAmPm (s : string) : option string :=
  match s with
  | String c1 (String c2 _) =>
      let w := String c1 (String c2 EmptyString) in
      if String.eqb (JS.toUpperCase w) "AM" || String.eqb (JS.toUpperCase w) "PM"
      then Some w else None
  | _ => None
  end.

(** The first two elements of [timeStr.split(/\s*(AM|PM)/i)]: the text before
    the leftmost match and the letters it captured. *)
Fixpoint splitAmPm (s : string) : option (string * string) :=
  match leadingAmPm (JS.trimStart s) with
  | Some w => Some (EmptyString, w)
  | None =>
      match s with
      | EmptyString => None
      | String c s' =>
          match splitAmPm s' with
          | Some (before, w) => Some (String c before, w)
          | None => None
          end
      end
  end.

(** [m || 0] *)
Definition orZero (m : JS.num) : JS.num :=
  match m with
  | Some z => Some z
  | None => Some 0%Z
  end.

(** [const [h, m] = text.split(':').map(Number)], [m] being [undefined] when
    there is no second part. *)
Definition hoursAndMinutes (text : string) : JS.num * JS.num :=
  match JS.split ":"%char text with
  | h :: m :: _ => (JS.Number h, orZero (JS.Number m))
  | h :: _ => (JS.Number h, Some 0%Z)
  | [] => (None, Some 0%Z)
  end.

(** The hour and minute [parseAppointmentDateTime] reads in [time]. *)
Definition parsedTime (time : string) : JS.num * JS.num :=
  let timeStr := JS.trim time in
  if JS.includes "AM" timeStr || JS.includes "PM" timeStr then
    match splitAmPm timeStr with
    | Some (timePart, modifier) =>
        let (h, minutes) := hoursAndMinutes timePart in
        let hours :=
          if String.eqb (JS.toUpperCase modifier) "PM"
             && negb (match h with Some z => (z =? 12)%Z | None => false end)
          then JS.add h (Some 12%Z)
          else if String.eqb (JS.toUpperCase modifier) "AM"
                  && match h with Some z => (z =? 12)%Z | None => false end
          then Some 0%Z
          else h in
        (hours, minutes)
    | None => (None, None)
    end
  else hoursAndMinutes timeStr.

(** [parseAppointmentDateTime(date, time)], as the instant of the moment it
    builds; [None] when that moment is invalid. *)
Definition parseAppointmentDateTime (env : Env) (date time : string)
    : option Z :=
  let (hours, minutes) := parsedTime time in
  moment24 env
    (String.append date
       (String.append " "
          (String.append (JS.padStart 2 "0"%char (JS.numToString hours))
             (String.append ":"
                (JS.padStart 2 "0"%char (JS.numToString minutes)))))).

(** What [sendDoctorReminder] returns, as far as the passes read it. *)
Record SendResult := {
  success : bool;
  error : option string;
  appointmentId : ObjectId
}.

(** The doctor of an appointment as [sendDoctorReminder] reads it: the user
    document, and what its property [doctorReminderPreferences] holds,
    [None] for [undefined]. *)
Record DoctorDocument := {
  account : User.t;
  doctorReminderPreferences : option ReminderPreferences.t
}.

(** [populate('doctor', 'name email notificationPreferences
      doctorReminderPreferences isDisabled isActive')].  The User schema
    declares no path [doctorReminderPreferences]: the document Mongoose
    builds has no such property, whatever the collection holds and whatever
    a route assigned to the property of a document before saving it. *)
Definition populatedDoctor (u : User.t) : DoctorDocument :=
  {| account := u; doctorReminderPreferences := None |}.

(** An appointment as [sendDoctorReminder] is given it, with the doctor and
    the patient in place of their identifiers. *)
Record Candidate := {
  appointment : Appointment.t;
  doctor : option DoctorDocument;
  patient : option User.t
}.

(** [Appointment.findByIdAndUpdate(id, { [updateField]: true,
      [updateTimeField]: new Date() })] *)
Definition markSent (rt : ReminderType) (id : ObjectId) (at_ : Z) : DB unit :=
  modify (fun s =>
    set_appointments
      (map (fun a => if Nat.eqb (Appointment._id a) id
                     then match rt with
                          | R24h => Appointment.set_reminder24h at_ a
                          | R1h => Appointment.set_reminder1h at_ a
                          end
                     else a)
           (appointments s)) s).

Definition failure (c : Candidate) (msg : string) : SendResult :=
  {| success := false; error := Some msg;
     appointmentId := Appointment._id (appointment c) |}.

Definition sendDoctorReminder (env : Env) (c : Candidate) (rt : ReminderType)
    : DB SendResult :=
  match doctor c with
  | None => ret (failure c "Doctor account is disabled or inactive")
  | Some dr =>
      if User.isDisabled (account dr) || negb (User.isActive (account dr)) then
        ret (failure c "Doctor account is disabled or inactive")
      else
        let preferences :=
          match doctorReminderPreferences dr with
          | Some p => p
          | None => {| ReminderPreferences.enabled := false;
                       ReminderPreferences.reminder24h := false;
                       ReminderPreferences.reminder1h := false |}
          end in
        if negb (ReminderPreferences.enabled preferences) then
          ret (failure c "Doctor has disabled appointment reminders")
        else if match rt with
                | R24h => negb (ReminderPreferences.reminder24h preferences)
                | R1h => false
                end then
          ret (failure c "Doctor has disabled 24-hour reminders")
        else if match rt with
                | R1h => negb (ReminderPreferences.reminder1h preferences)
                | R24h => false
                end then
          ret (failure c "Doctor has disabled 1-hour reminders")
        else
          match patient c with
          | None => ret (failure c (message typeError))
          | Some _ =>
              let notificationResult :=
                delivered env (User._id (account dr)) "reminder" in
              (if notificationResult
               then markSent rt (Appointment._id (appointment c)) (now env)
               else ret tt) ;;;
              ret {| success := notificationResult; error := None;
                     appointmentId := Appointment._id (appointment c) |}
          end
  end.

(** The tally a pass returns. *)
Record Results := {
  total : nat;
  processed : nat;
  sent : nat;
  failed : nat;
  skipped : nat;
  details : list SendResult
}.

Definition skip (r : Results) : Results :=
  Build_Results (total r) (processed r) (sent r) (failed r) (S (skipped r))
    (details r).

Definition record (res : SendResult) (r : Results) : Results :=
  Build_Results (total r) (S (processed r))
    (if success res then S (sent r) else sent r)
    (if success res then failed r else S (failed r))
    (skipped r) (details r ++ [res]).

(** The [for ... of appointments] loop of a pass. *)
Fixpoint remindEach (env : Env) (rt : ReminderType)
    (startWindow endWindow : Z) (l : list Candidate) (r : Results)
    : DB Results :=
  match l with
  | [] => ret r
  | c :: rest =>
      let appointmentDateTime :=
        parseAppointmentDateTime env (Appointment.date (appointment c))
                                 (Appointment.time (appointment c)) in
      if negb (JS.le (Some startWindow) appointmentDateTime
               && JS.le appointmentDateTime (Some endWindow))
      then remindEach env rt startWindow endWindow rest (skip r)
      else if JS.lt appointmentDateTime (Some (now env))
      then remindEach env rt startWindow endWindow rest (skip r)
      else
        result <- sendDoctorReminder env c rt ;;
        remindEach env rt startWindow endWindow rest (record result r)
  end.

Definition reminderSent (rt : ReminderType) (a : Appointment.t) : bool :=
  match rt with
  | R24h => Appointment.doctorReminder24hSent a
  | R1h => Appointment.doctorReminder1hSent a
  end.

(** [Appointment.find({ status: 'Upcoming', doctorReminder..Sent: false })]
    with its [populate] calls. *)
Definition candidates (rt : ReminderType) (s : Store) : list Candidate :=
  map (fun a => {| appointment := a;
                   doctor := option_map populatedDoctor
                               (findUser (Appointment.doctor a) s);
                   patient := findUser (Appointment.user a) s |})
      (filter (fun a => AppointmentStatus_eqb (Appointment.status a) Upcoming
                        && negb (reminderSent rt a))
              (appointments s)).

Definition minutes (n : Z) : Z := (n * 60000)%Z.
Definition hours (n : Z) : Z := (n * 3600000)%Z.

(** The lead time of a reminder class and the half-width of its window. *)
Definition leadTime (rt : ReminderType) : Z :=
  match rt with R24h => hours 24 | R1h => hours 1 end.

Definition tolerance (rt : ReminderType) : Z :=
  match rt with R24h => minutes 30 | R1h => minutes 7 end.

(** [process24HourReminders] ([R24h]) and [process1HourReminders] ([R1h]). *)
Definition processReminders (env : Env) (rt : ReminderType) : DB Results :=
  let targetTime := (now env + leadTime rt)%Z in
  let startWindow := (targetTime - tolerance rt)%Z in
  let endWindow := (targetTime + tolerance rt)%Z in
  appointments <- gets (candidates rt) ;;
  remindEach env rt startWindow endWindow appointments
    {| total := List.length appointments; processed := 0; sent := 0;
       failed := 0; skipped := 0; details := [] |}.

Definition process24HourReminders (env : Env) : DB Results :=
  processReminders env R24h.

Definition process1HourReminders (env : Env) : DB Results :=
  processReminders env R1h.

End DoctorReminderService.

(* ------------------------------------------------------------------ *)
(** ** Every operation of the model, for statements about interleavings *)

Inductive Operation :=
| OpGetOrCreateWallet (userId : ObjectId)
| OpDeposit (env : Env) (reqUser : User.t) (parsedAmount : float)
| OpRedeemCode (env : Env) (reqUser : User.t) (code : string)
| OpAddFunds (env : Env) (reqUser : User.t) (id : ObjectId)
             (parsedAmount : float) (descr : string)
| OpBook (env : Env) (reqUser : User.t)
         (req : appointmentsRoutes.BookingRequest)
| OpUpdate (env : Env) (reqUser : User.t) (id : ObjectId)
           (status : AppointmentStatus)
| OpResolve (env : Env) (reqUser : User.t) (id : ObjectId)
            (action : appointmentsRoutes.ResolutionAction)
            (newDoctorId : option ObjectId) (newSlot : option (string * string))
| OpDoctorCancel (env : Env) (reqUser : User.t) (id : ObjectId)
| OpReschedule (env : Env) (id : ObjectId) (date time : string)
| OpUpdateStatus (id : ObjectId) (status : AppointmentStatus)
| OpJoinQueue (env : Env) (userId doctorId hospitalId : ObjectId)
| OpLeaveQueue (userId : ObjectId)
| OpCallNext (env : Env) (doctorId : ObjectId)
| OpHold (queueItemId : ObjectId)
| OpRequeue (queueItemId : ObjectId)
| OpCheckIn (env : Env) (appointmentId : ObjectId)
| OpRemoveFromQueue (queueItemId : ObjectId)
| OpReminders (env : Env) (rt : DoctorReminderService.ReminderType).

(** The store a service call leaves, whether it returned or threw. *)
Definition after {A} (m : DB A) (s : Store) : Store :=
  match m s with
  | Ok _ s' => s'
  | Throw _ s' => s'
  end.

Definition run (op : Operation) (s : Store) : Store :=
  match op with
  | OpGetOrCreateWallet u => after (walletService.getOrCreateWallet u) s
  | OpDeposit env u a => snd (walletRoutes.deposit env u a s)
  | OpRedeemCode env u c => snd (walletRoutes.redeemCode env u c s)
  | OpAddFunds env u id a d => snd (walletRoutes.addFunds env u id a d s)
  | OpBook env u req => snd (appointmentsRoutes.bookAppointment env u req s)
  | OpUpdate env u id st =>
      snd (appointmentsRoutes.updateAppointment env u id st s)
  | OpResolve env u id act d slot =>
      snd (appointmentsRoutes.resolveCancellation env u id act d slot s)
  | OpDoctorCancel env u id => snd (appointmentsRoutes.doctorCancel env u id s)
  | OpReschedule env id d t => snd (appointmentsRoutes.reschedule env id d t s)
  | OpUpdateStatus id st => snd (appointmentsRoutes.updateStatus id st s)
  | OpJoinQueue env u d h => after (queueService.joinQueue env u d h) s
  | OpLeaveQueue u => after (queueService.leaveQueue u) s
  | OpCallNext env d => after (queueService.callNextPatient env d) s
  | OpHold q => after (queueService.holdPatient q) s
  | OpRequeue q => after (queueService.requeuePatient q) s
  | OpCheckIn env a => after (queueService.checkInAppointment env a) s
  | OpRemoveFromQueue q => after (queueService.removePatientFromQueue q) s
  | OpReminders env rt => after (DoctorReminderService.processReminders env rt) s
  end.

(** The operations applied one after the other, the first of the list
    first. *)
Definition runAll (ops : list Operation) (s : Store) : Store :=
  fold_left (fun st op => run op st) ops s.

(* ------------------------------------------------------------------ *)
(** ** Predicates the statements are about *)

(** The signed amounts of the transactions that reference a wallet, added
    up in doubles in the order the transactions were recorded, from the 0 a
    wallet is created with: credits as they are, debits negated. *)
Definition ledgerSum (walletId : ObjectId) (l : list Transaction.t) : float :=
  fold_left
    (fun acc x =>
       if Nat.eqb (Transaction.wallet x) walletId
       then (acc + Transaction.signedAmount x)%float
       else acc)
    l 0%float.

(** Every wallet's balance is that sum of its ledger. *)
Definition ledgerConsistent (s : Store) : Prop :=
  forall w, In w (wallets s) ->
    Wallet.balance w = ledgerSum (Wallet._id w) (transactions s).

(** The identifiers in use were drawn from the counter. *)
Definition walletIdsDrawn (s : Store) : Prop :=
  (forall w, In w (wallets s) -> Wallet._id w < nextId s)
  /\ (forall x, In x (transactions s) -> Transaction.wallet x < nextId s).

Definition ledgerInv (s : Store) : Prop :=
  walletIdsDrawn s /\ ledgerConsistent s.

(** A property of the store kept by a computation, whether it returns or
    throws. *)
Definition preserves {A} (P : Store -> Prop) (m : DB A) : Prop :=
  forall s, P s -> P (after m s).

(** The store after [performDbOperations] posted [d] on [wallet]: the balance
    moved and the transaction appended. *)
Definition signedChange (d : walletService.TransactionData) : float :=
  match walletService.type d with
  | credit => walletService.amount d
  | debit => (- walletService.amount d)%float
  end.

Definition transactionOf (d : walletService.TransactionData)
    (walletId id : ObjectId) : Transaction.t :=
  {| Transaction._id := id;
     Transaction.wallet := walletId;
     Transaction.user := walletService.userId d;
     Transaction.hospital := walletService.hospitalId d;
     Transaction.amount := walletService.amount d;
     Transaction.type := walletService.type d;
     Transaction.transactionType := walletService.transactionType d;
     Transaction.description := walletService.description d;
     Transaction.referenceId := walletService.referenceId d |}.

Definition posted (d : walletService.TransactionData) (wallet : Wallet.t)
    (s : Store) : Store :=
  set_transactions
    (transactions s ++ [transactionOf d (Wallet._id wallet) (nextId s)])
    (set_nextId (S (nextId s))
       (walletService.incBalance (Wallet._id wallet) (signedChange d) s)).

(** The store a session is left with when the balance has moved and the
    save of the transaction is refused. *)
Definition moved (d : walletService.TransactionData) (wallet : Wallet.t)
    (s : Store) : Store :=
  set_nextId (S (nextId s))
    (walletService.incBalance (Wallet._id wallet) (signedChange d) s).

(** The amount of [d] is a number and the transaction made of [d] passes
    the schema. *)
Definition wellFormed (d : walletService.TransactionData) : bool :=
  negb (PrimFloat.is_nan (walletService.amount d))
  && negb (String.eqb (walletService.description d) "").

(** What becomes of a transaction that is not well formed: an amount that is
    [NaN] is refused when the operand of [$inc] is cast, with nothing
    written; an empty description when the transaction is saved, the balance
    moved. *)
Definition refused (d : walletService.TransactionData) (wallet : Wallet.t)
    (s : Store) : Result Transaction.t :=
  if PrimFloat.is_nan (walletService.amount d)
  then Throw walletService.incCastError s
  else Throw walletService.transactionValidationError (moved d wallet s).




(** The debit that the balance cannot cover. *)
Definition overdraws (d : walletService.TransactionData) (wallet : Wallet.t)
    : bool :=
  match walletService.type d with
  | debit => (Wallet.balance wallet <? walletService.amount d)%float
  | credit => false
  end.

(* ------------------------------------------------------------------ *)
(** ** A small clinic, for the scenarios

    One hospital refunding 80%, Dr. Xavier and Dr. Yara working there, the
    patient Amal with 100 in her wallet (one deposit on the ledger), a staff
    member, and a 15-minute consultation that costs 50. *)

Module Sample.

Definition env : Env :=
  {| today := "2026-03-10";
     todayISO := "2026-03-10";
     now := 1773136800000%Z;
     currentMinutes := 600%Z;
     newDate := fun _ => None;
     dayName := fun _ => "Tuesday";
     moment12 := fun _ => None;
     moment24 := fun _ => None;
     inAppStored := fun _ => true;
     delivered := fun _ _ => true |}.

Definition hospital : Hospital.t :=
  {| Hospital._id := 1;
     Hospital.name := {| en := "Central"; ar := "Central" |};
     Hospital.refundPolicyPercentage := 80%float |}.

Definition week (start stop : string) : list Availability.t :=
  [ {| Availability.dayOfWeek := "Tuesday";
       Availability.isAvailable := true;
       Availability.startTime := start;
       Availability.endTime := stop;
       Availability.hospital := Some 1 |} ].

Definition doctorX : User.t :=
  {| User._id := 2;
     User.name := {| en := "xavier"; ar := "xavier" |};
     User.role := Doctor;
     User.hospitals := [1];
     User.specialties := [];
     User.availability := week "09:00" "15:00";
     User.unavailabilityEpisodes := [];
     User.isActive := true;
     User.isDisabled := false |}.

Definition doctorY : User.t :=
  {| User._id := 9;
     User.name := {| en := "yara"; ar := "yara" |};
     User.role := Doctor;
     User.hospitals := [1];
     User.specialties := [];
     User.availability := week "20:00" "00:00";
     User.unavailabilityEpisodes := [];
     User.isActive := true;
     User.isDisabled := false |}.

Definition person (id : ObjectId) (r : Role) (n : string) : User.t :=
  {| User._id := id;
     User.name := {| en := n; ar := n |};
     User.role := r;
     User.hospitals := match r with Patient => [] | _ => [1] end;
     User.specialties := [];
     User.availability := [];
     User.unavailabilityEpisodes := [];
     User.isActive := true;
     User.isDisabled := false |}.

Definition patientA : User.t := person 3 Patient "amal".
Definition patientB : User.t := person 10 Patient "bilal".
Definition staff : User.t := person 4 HospitalStaff "sami".

Definition consultation : AppointmentType.t :=
  {| AppointmentType._id := 5;
     AppointmentType.name := {| en := "Consultation"; ar := "Consultation" |};
     AppointmentType.duration := 15%Z;
     AppointmentType.cost := 50%float |}.

Definition walletOf (id user : ObjectId) (balance : float) : Wallet.t :=
  {| Wallet._id := id; Wallet.user := user; Wallet.balance := balance |}.

Definition openingDeposit (id wallet user : ObjectId) (amount : float)
    : Transaction.t :=
  {| Transaction._id := id;
     Transaction.wallet := wallet;
     Transaction.user := user;
     Transaction.hospital := None;
     Transaction.amount := amount;
     Transaction.type := credit;
     Transaction.transactionType := Deposit;
     Transaction.description := "User deposit via portal.";
     Transaction.referenceId := RefStamp "DEPOSIT_" 0%Z |}.

Definition store : Store :=
  {| users := [doctorX; doctorY; patientA; patientB; staff];
     hospitals := [hospital];
     appointmentTypes := [consultation];
     appointments := [];
     queueItems := [];
     wallets := [walletOf 6 3 100%float; walletOf 11 10 100%float];
     transactions := [openingDeposit 7 6 3 100%float;
                      openingDeposit 12 11 10 100%float];
     notifications := [];
     redeemCodes := [];
     nextId := 20 |}.

(** A patient books the doctor for the given day and time. *)
Definition requestWith (doctor : ObjectId) (d t : string)
    : appointmentsRoutes.BookingRequest :=
  {| appointmentsRoutes.date := d;
     appointmentsRoutes.time := t;
     appointmentsRoutes.doctorId := Some doctor;
     appointmentsRoutes.hospitalId := Some 1;
     appointmentsRoutes.appointmentTypeId := Some 5;
     appointmentsRoutes.force := false;
     appointmentsRoutes.patientId := None;
     appointmentsRoutes.cashPayment := false;
     appointmentsRoutes.appointmentId := None |}.

(** A patient books Dr. X for the given day and time. *)
Definition request (d t : string) : appointmentsRoutes.BookingRequest :=
  {| appointmentsRoutes.date := d;
     appointmentsRoutes.time := t;
     appointmentsRoutes.doctorId := Some 2;
     appointmentsRoutes.hospitalId := Some 1;
     appointmentsRoutes.appointmentTypeId := Some 5;
     appointmentsRoutes.force := false;
     appointmentsRoutes.patientId := None;
     appointmentsRoutes.cashPayment := false;
     appointmentsRoutes.appointmentId := None |}.

(** The staff member books for patient A, the fee collected in cash. *)
Definition cashRequest (d t : string) : appointmentsRoutes.BookingRequest :=
  {| appointmentsRoutes.date := d;
     appointmentsRoutes.time := t;
     appointmentsRoutes.doctorId := Some 2;
     appointmentsRoutes.hospitalId := Some 1;
     appointmentsRoutes.appointmentTypeId := Some 5;
     appointmentsRoutes.force := false;
     appointmentsRoutes.patientId := Some 3;
     appointmentsRoutes.cashPayment := true;
     appointmentsRoutes.appointmentId := None |}.

(** The balance of the first wallet of [user]. *)
Definition balanceOf (user : ObjectId) (s : Store) : option float :=
  option_map Wallet.balance (walletService.findWallet user s).

(** Patient A has booked Dr. X on 12 March at 10:00 AM ... *)
Definition booked : Store :=
  snd (appointmentsRoutes.bookAppointment env patientA
         (request "2026-03-12" "10:00 AM") store).

(** ... and then cancelled. *)
Definition cancelled : Store :=
  snd (appointmentsRoutes.updateAppointment env patientA 20 Cancelled booked).

(** That appointment, as stored. *)
Definition slot (st : AppointmentStatus) (refunded : bool) : Appointment.t :=
  {| Appointment._id := 20;
     Appointment.user := 3;
     Appointment.doctor := 2;
     Appointment.hospital := 1;
     Appointment.appointmentType := 5;
     Appointment.date := "2026-03-12";
     Appointment.time := "10:00 AM";
     Appointment.status := st;
     Appointment.cancellationResolution := Pending;
     Appointment.cost := 50%float;
     Appointment.isRefunded := refunded;
     Appointment.reminderSet := false;
     Appointment.queueNumber := Some "X001";
     Appointment.doctorReminder24hSent := false;
     Appointment.doctorReminder1hSent := false;
     Appointment.doctorReminder24hSentAt := None;
     Appointment.doctorReminder1hSentAt := None |}.

(** The same appointment once the staff marked it [Completed]. *)
Definition completed : Store :=
  snd (appointmentsRoutes.updateStatus 20 Completed booked).

(** The same appointment once Dr. X cancelled it ... *)
Definition doctorCancelled : Store :=
  snd (appointmentsRoutes.doctorCancel env doctorX 20 booked).

(** ... and once patient A chose the refund. *)
Definition resolved : Store :=
  snd (appointmentsRoutes.resolveCancellation env patientA 20
         appointmentsRoutes.ActRefund None None doctorCancelled).

(** Next Tuesday, patient A holds 9:45 AM and patient B 10:00 AM with
    Dr. X. *)
Definition twoBooked : Store :=
  runAll [ OpBook env patientA (request "2026-03-17" "9:45 AM");
           OpBook env patientB (request "2026-03-17" "10:00 AM") ] store.

(** Next Tuesday evening, patient A holds 11:30 PM with Dr. Y, whose window
    is 20:00 to 00:00. *)
Definition lateBooked : Store :=
  run (OpBook env patientA (requestWith 9 "2026-03-17" "11:30 PM")) store.

(** Patient A holds an appointment with Dr. Y on the 12th, and today waits
    in the queue of Dr. X. *)
Definition queuedElsewhere : Store :=
  runAll [ OpBook env patientA (requestWith 9 "2026-03-12" "9:00 PM");
           OpJoinQueue env 3 2 1 ] store.

(** A day at the clinic. *)
Definition day : list Operation :=
  [ OpDeposit env patientA 25%float;
    OpBook env patientA (request "2026-03-12" "10:00 AM");
    OpBook env patientB (request "2026-03-12" "10:00 AM");
    OpBook env staff (cashRequest "2026-03-12" "11:30 AM");
    OpUpdate env patientA 22 Cancelled;
    OpDoctorCancel env doctorX 26;
    OpResolve env patientA 26 appointmentsRoutes.ActRefund None None ].

(** Patient A booked for today and is being served by Dr. X; patient B and
    a member of the staff wait behind. *)
Definition waitingRoom : Store :=
  runAll [ OpBook env patientA (request "2026-03-10" "11:00 AM");
           OpCallNext env 2;
           OpJoinQueue env 10 2 1;
           OpJoinQueue env 4 2 1 ] store.

(** The day before the appointment of [booked], at the same hour. *)
Definition dayBefore : Env :=
  {| today := "2026-03-11";
     todayISO := "2026-03-11";
     now := 1773223200000%Z;
     currentMinutes := 600%Z;
     newDate := fun _ => None;
     dayName := fun _ => "Wednesday";
     moment12 := fun _ => None;
     moment24 := fun text => if String.eqb text "2026-03-12 10:00"
                             then Some 1773309600000%Z else None;
     inAppStored := fun _ => true;
     delivered := fun _ _ => true |}.

End Sample.

(** The unique index of the appointments holds in the store: identifiers are
    distinct and drawn from the counter, and two stored appointments with the
    same doctor, date and time are the same document. *)
Definition slotIndexHolds (s : Store) : Prop :=
  NoDup (map Appointment._id (appointments s))
  /\ (forall a, In a (appointments s) -> Appointment._id a < nextId s)
  /\ (forall a b, In a (appointments s) -> In b (appointments s) ->
        Appointment.sameSlot a b = true ->
        Appointment._id a = Appointment._id b).

(** The [Upcoming] appointments of a doctor at a date and time. *)
Definition upcomingAt (doctor : ObjectId) (date time : string) (s : Store)
    : list Appointment.t :=
  filter (fun a => Nat.eqb (Appointment.doctor a) doctor
                   && String.eqb (Appointment.date a) date
                   && String.eqb (Appointment.time a) time
                   && AppointmentStatus_eqb (Appointment.status a) Upcoming)
         (appointments s).

(** The request asks for the slot that [b] holds. *)
Definition asksSlotOf (req : appointmentsRoutes.BookingRequest)
    (b : Appointment.t) : Prop :=
  appointmentsRoutes.doctorId req = Some (Appointment.doctor b)
  /\ appointmentsRoutes.date req = Appointment.date b
  /\ appointmentsRoutes.time req = Appointment.time b.

(** The booking request passes every refusal, check and validation that
    precedes the insert of the appointment: it would create the appointment
    if the index let it. *)
Definition reachesInsert (env : Env) (reqUser : User.t)
    (req : appointmentsRoutes.BookingRequest) (s : Store) : Prop :=
  exists target c s1,
    appointmentsRoutes.targetUser reqUser req = inr target
    /\ appointmentsRoutes.bookingChecks env reqUser target req s = Ok c s1
    /\ validAppointment
         (appointmentsRoutes.newAppointment target req c (nextId s1)) = true.

(** [q] is the queue entry [o], if any. *)
Definition isEntry (o : option QueueItem.t) (q : QueueItem.t) : bool :=
  match o with
  | Some c => Nat.eqb (QueueItem._id q) (QueueItem._id c)
  | None => false
  end.

(** The filter of the update [callNextPatient] makes on the appointments. *)
Definition upcomingToday (userId doctorId : ObjectId) (todayText : string)
    (a : Appointment.t) : bool :=
  Nat.eqb (Appointment.user a) userId
  && Nat.eqb (Appointment.doctor a) doctorId
  && AppointmentStatus_eqb (Appointment.status a) Upcoming
  && String.eqb (Appointment.date a) todayText.

(** The in-app notifications "you are next" stored for an entry. *)
Definition nextInLine (env : Env) (id : ObjectId) (upNext : option QueueItem.t)
    : list Notification.t :=
  match upNext with
  | Some q =>
      match QueueItem.user q with
      | Some u =>
          if inAppStored env u
          then [ {| Notification._id := id; Notification.user := u;
                    Notification.type := "system";
                    Notification.title := "Next in Line" |} ]
          else []
      | None => []
      end
  | None => []
  end.

(** The successful sends a reminder pass reports. *)
Definition successes (r : DoctorReminderService.Results) : list ObjectId :=
  map DoctorReminderService.appointmentId
      (filter DoctorReminderService.success (DoctorReminderService.details r)).

(** The sent-at timestamp of a reminder class. *)
Definition reminderSentAt (rt : DoctorReminderService.ReminderType)
    (a : Appointment.t) : option Z :=
  match rt with
  | DoctorReminderService.R24h => Appointment.doctorReminder24hSentAt a
  | DoctorReminderService.R1h => Appointment.doctorReminder1hSentAt a
  end.

(** An appointment once the reminders of a class are recorded for the
    identifiers [ids]. *)
Definition reminded (rt : DoctorReminderService.ReminderType) (at_ : Z)
    (ids : list ObjectId) (a : Appointment.t) : Appointment.t :=
  if existsb (Nat.eqb (Appointment._id a)) ids
  then match rt with
       | DoctorReminderService.R24h => Appointment.set_reminder24h at_ a
       | DoctorReminderService.R1h => Appointment.set_reminder1h at_ a
       end
  else a.

(** The identifiers of the successful sends among the details of a pass. *)
Definition sentIds (ds : list DoctorReminderService.SendResult)
    : list ObjectId :=
  map DoctorReminderService.appointmentId
      (filter DoctorReminderService.success ds).

(** Two lists of appointments that agree, position by position, on the
    identifier and on the indexed fields. *)
Definition sameKeys (l l' : list Appointment.t) : Prop :=
  Forall2 (fun a b => Appointment._id a = Appointment._id b
                      /\ Appointment.sameSlot a b = true) l l'.

(* ------------------------------------------------------------------ *)
(** ** services/queueService.js: the walk-in entries *)

Module walkIns.

Import appointmentsRoutes.
Local Open Scope db_scope.

(** [`W${(count + 1).toString().padStart(3, '0')}`] *)
Definition walkInTicket (count : nat) : string :=
  String.append "W" (JS.padStart 3 "0"%char (JS.natToString (count + 1))).

(** [u.hospitals && u.hospitals.length > 0 ? u.hospitals[0] : null] *)
Definition primaryHospital (u : User.t) : option ObjectId :=
  match User.hospitals u with
  | h :: _ => Some h
  | [] => None
  end.

(** [addWalkInPatient(name, doctorId)]; [todayDayOfWeek] is
    [weekdays[new Date().getDay()]], and [name] is [None] when the body has
    none.  The schema trims [walkInName]. *)
Definition addWalkInPatient (env : Env) (todayDayOfWeek : string)
    (name : option string) (doctorId : ObjectId) : DB unit :=
  mDoctor <- gets (findUser doctorId) ;;
  doctor <- orThrow mDoctor (mkError "Doctor not found.") ;;
  let todaysAvailability :=
    find (fun d => String.eqb (Availability.dayOfWeek d) todayDayOfWeek
                   && Availability.isAvailable d)
         (User.availability doctor) in
  let hospitalForQueue :=
    match todaysAvailability with
    | Some d =>
        match Availability.hospital d with
        | Some h => Some h
        | None => primaryHospital doctor
        end
    | None => primaryHospital doctor
    end in
  hospital <-
    orThrow hospitalForQueue
      (mkError "Could not determine the doctor's hospital for today. Please ensure they are assigned to a hospital and their schedule is set.") ;;
  count <- gets (queueService.countQueue doctorId hospital) ;;
  createQueueItem env None (option_map JS.trim name) doctorId hospital
    (walkInTicket count) ;;;
  ret tt.

(** [User.find({ role: 'doctor', hospitals: hospitalId,
      specialties: specialtyId })] *)
Definition specialists (hospitalId specialtyId : ObjectId) (s : Store)
    : list User.t :=
  filter (fun u => Role_eqb (User.role u) Doctor
                   && existsb (Nat.eqb hospitalId) (User.hospitals u)
                   && existsb (Nat.eqb specialtyId) (User.specialties u))
         (users s).

(** [QueueItem.countDocuments({ doctor, status: 'Waiting' })] *)
Definition waitingCount (doctorId : ObjectId) (s : Store) : nat :=
  List.length
    (filter (fun q => Nat.eqb (QueueItem.doctor q) doctorId
                      && QueueStatus_eqb (QueueItem.status q) Waiting)
            (queueItems s)).

(** [queueCounts.reduce((min, current) =>
      (current.count < min.count ? current : min))] *)
Definition shortestQueue (first : User.t * nat) (rest : list (User.t * nat))
    : User.t * nat :=
  fold_left (fun min current => if Nat.ltb (snd current) (snd min)
                                then current else min)
            rest first.

(** [addWalkInBySpecialty(name, specialtyId, staffUser)] *)
Definition addWalkInBySpecialty (env : Env) (name : option string)
    (specialtyId : ObjectId) (staffUser : User.t) : DB unit :=
  hospitalId <-
    orThrow (primaryHospital staffUser)
      (mkError "Staff member is not associated with a hospital.") ;;
  doctors <- gets (specialists hospitalId specialtyId) ;;
  throwIf (match doctors with [] => true | _ => false end)
    (mkError "No doctors available for this specialty in this hospital.") ;;;
  queueCounts <-
    gets (fun s => map (fun doctor => (doctor, waitingCount (User._id doctor) s))
                       doctors) ;;
  match queueCounts with
  | [] => throw (mkError "Could not retrieve queue information for doctors.")
  | first :: rest =>
      let bestDoctor := fst (shortestQueue first rest) in
      count <- gets (queueService.countQueue (User._id bestDoctor) hospitalId) ;;
      createQueueItem env None (option_map JS.trim name) (User._id bestDoctor)
        hospitalId (walkInTicket count) ;;;
      ret tt
  end.

End walkIns.

(* ------------------------------------------------------------------ *)
(** ** services/accountDisableService.js *)

(** The user document as the account service and the middleware read and
    write it: the fields of [User.t] and those of the soft lock. *)
Module Account.
Record t := {
  user : User.t;
  disabledAt : option Z;
  disabledReason : option string;
  disabledBy : option ObjectId;
  reactivationOtp : option string;
  reactivationOtpExpire : option Z
}.

Definition _id (a : t) : ObjectId := User._id (user a).
Definition isDisabled (a : t) : bool := User.isDisabled (user a).
End Account.

(** [user.isDisabled = v] *)
Definition setDisabled (v : bool) (u : User.t) : User.t :=
  {| User._id := User._id u;
     User.name := User.name u;
     User.role := User.role u;
     User.hospitals := User.hospitals u;
     User.specialties := User.specialties u;
     User.availability := User.availability u;
     User.unavailabilityEpisodes := User.unavailabilityEpisodes u;
     User.isActive := User.isActive u;
     User.isDisabled := v |}.

Module AccountDisableService.

Local Open Scope db_scope.

(** [User.findById(userId)] *)
Definition findAccount (userId : ObjectId) (accounts : list Account.t)
    : option Account.t :=
  find (fun a => Nat.eqb (Account._id a) userId) accounts.

(** [user.save({ validateBeforeSave: false })] *)
Definition saveAccount (a : Account.t) (accounts : list Account.t)
    : list Account.t :=
  map (fun x => if Nat.eqb (Account._id x) (Account._id a) then a else x)
      accounts.

(** The account with the lock lifted: what [verifyReactivationOtp] and
    [reactivateAccount] save. *)
Definition reactivated (a : Account.t) : Account.t :=
  {| Account.user := setDisabled false (Account.user a);
     Account.disabledAt := None;
     Account.disabledReason := None;
     Account.disabledBy := None;
     Account.reactivationOtp := None;
     Account.reactivationOtpExpire := None |}.

Record Outcome := {
  success : bool;
  message : string;
  disabledAt : option Z
}.

(** [disableAccount(userId, disabledBy, reason, disableType)]; the empty
    string stands for a missing [reason].  The e-mail is sent without
    waiting for it and the log lines are not part of the model. *)
Definition disableAccount (env : Env) (userId : ObjectId)
    (disabledBy : option ObjectId) (reason : string)
    (accounts : list Account.t) : DB (Outcome * list Account.t) :=
  match findAccount userId accounts with
  | None => throw (mkError "User not found")
  | Some user =>
      if Account.isDisabled user then
        ret ({| success := false;
                message := "Account is already disabled";
                disabledAt := None |}, accounts)
      else
        let user' :=
          {| Account.user := setDisabled true (Account.user user);
             Account.disabledAt := Some (now env);
             Account.disabledReason :=
               if String.eqb reason "" then None else Some reason;
             Account.disabledBy :=
               match disabledBy with
               | Some by_ => Some by_
               | None => Some userId
               end;
             Account.reactivationOtp := None;
             Account.reactivationOtpExpire := None |} in
        createNotification env userId "system" "" ;;;
        ret ({| success := true;
                message := "Account disabled successfully";
                disabledAt := Some (now env) |},
             saveAccount user' accounts)
  end.

(** [Math.floor(100000 + Math.random() * 900000).toString()], [random] being
    the value of [Math.random()] *)
Definition sixDigits (random : Q) : string :=
  JS.intToString (Qfloor (100000 + random * 900000)%Q).

(** [generateReactivationOtp(userId)]: the code, and the accounts with the
    code and its expiry stored. *)
Definition generateReactivationOtp (env : Env) (random : Q)
    (userId : ObjectId) (accounts : list Account.t)
    : Error + (string * list Account.t) :=
  match findAccount userId accounts with
  | None => inl (mkError "User not found")
  | Some user =>
      if negb (Account.isDisabled user) then
        inl (mkError "Account is not disabled")
      else
        let otp := sixDigits random in
        let user' :=
          {| Account.user := Account.user user;
             Account.disabledAt := Account.disabledAt user;
             Account.disabledReason := Account.disabledReason user;
             Account.disabledBy := Account.disabledBy user;
             Account.reactivationOtp := Some otp;
             Account.reactivationOtpExpire :=
               Some (now env + 10 * 60 * 1000)%Z |} in
        inr (otp, saveAccount user' accounts)
  end.

(** [!user.reactivationOtp || !user.reactivationOtpExpire]: a missing or
    empty code, a missing expiry or one at instant 0. *)
Definition noPendingOtp (a : Account.t) : bool :=
  match Account.reactivationOtp a, Account.reactivationOtpExpire a with
  | Some o, Some e => String.eqb o "" || (e =? 0)%Z
  | _, _ => true
  end.

(** [verifyReactivationOtp(userId, otp)] *)
Definition verifyReactivationOtp (env : Env) (userId : ObjectId)
    (otp : string) (accounts : list Account.t) : bool * list Account.t :=
  match findAccount userId accounts with
  | None => (false, accounts)
  | Some user =>
      if negb (Account.isDisabled user) then (false, accounts)
      else if noPendingOtp user then (false, accounts)
      else if negb (match Account.reactivationOtp user with
                    | Some o => String.eqb o otp
                    | None => false
                    end) then (false, accounts)
      else if match Account.reactivationOtpExpire user with
              | Some e => (e <? now env)%Z
              | None => false
              end then (false, accounts)
      else (true, saveAccount (reactivated user) accounts)
  end.

(** [reactivateAccount(userId, reactivatedBy)] *)
Definition reactivateAccount (userId : ObjectId) (accounts : list Account.t)
    : Error + (Outcome * list Account.t) :=
  match findAccount userId accounts with
  | None => inl (mkError "User not found")
  | Some user =>
      if negb (Account.isDisabled user) then
        inr ({| success := false;
                message := "Account is not disabled";
                disabledAt := None |}, accounts)
      else
        inr ({| success := true;
                message := "Account reactivated successfully";
                disabledAt := None |},
             saveAccount (reactivated user) accounts)
  end.

End AccountDisableService.

(* ------------------------------------------------------------------ *)
(** ** middleware/auth.js *)

Module auth.

(** The token of the header: [header.split(' ')[1]] when the header starts
    with [Bearer]. *)
Definition bearerToken (authorization : option string) : option string :=
  match authorization with
  | Some header =>
      if String.prefix "Bearer" header then
        match JS.split " "%char header with
        | _ :: token :: _ => Some token
        | _ => None
        end
      else None
  | None => None
  end.

Definition notAuthorized : Response :=
  respond 401 (BError "Not authorized to access this route").

Definition accountDisabled : Response :=
  respond 403
    (BError "Your account has been disabled by the administration. Please contact support. / تم تعطيل حسابك من قبل الإدارة. يرجى التواصل مع الدعم الفني للمساعدة.").

(** [protect]: the refusal, or the user attached to the request.
    [jwtVerify token] is [None] when [jwt.verify] throws and otherwise the
    [id] of the payload, if it has one. *)
Definition protect (jwtVerify : string -> option (option ObjectId))
    (authorization : option string) (accounts : list Account.t)
    : Response + Account.t :=
  match bearerToken authorization with
  | None => inl notAuthorized
  | Some token =>
      if String.eqb token "" then inl notAuthorized
      else
        match jwtVerify token with
        | None => inl notAuthorized
        | Some decodedId =>
            match match decodedId with
                  | Some id => AccountDisableService.findAccount id accounts
                  | None => None
                  end with
            | None =>
                inl (respond 401
                       (BError "Not authorized to access this route, user not found"))
            | Some user =>
                if Account.isDisabled user then inl accountDisabled
                else inr user
            end
        end
  end.

(** [optionalProtect]: the user attached to the request, if any; the
    request always goes on. *)
Definition optionalProtect (jwtVerify : string -> option (option ObjectId))
    (authorization : option string) (accounts : list Account.t)
    : option Account.t :=
  match bearerToken authorization with
  | None => None
  | Some token =>
      if String.eqb token "" then None
      else
        match jwtVerify token with
        | Some (Some id) => AccountDisableService.findAccount id accounts
        | _ => None
        end
  end.

(** [authorize(...roles)]: the refusal, if any. *)
Definition authorize (roles : list Role) (reqUser : User.t) : option Response :=
  if existsb (Role_eqb (User.role reqUser)) roles then None
  else Some (forbidden (User.role reqUser)).

End auth.

(* ------------------------------------------------------------------ *)
(** ** routes/users.js: a doctor's periods of unavailability *)

Module usersRoutes.

Local Open Scope db_scope.

Definition set_users (v : list User.t) (s : Store) : Store :=
  Build_Store v (hospitals s) (appointmentTypes s) (appointments s)
    (queueItems s) (wallets s) (transactions s) (notifications s)
    (redeemCodes s) (nextId s).

Definition set_unavailabilityEpisodes (v : list Episode.t) (u : User.t)
    : User.t :=
  {| User._id := User._id u;
     User.name := User.name u;
     User.role := User.role u;
     User.hospitals := User.hospitals u;
     User.specialties := User.specialties u;
     User.availability := User.availability u;
     User.unavailabilityEpisodes := v;
     User.isActive := User.isActive u;
     User.isDisabled := User.isDisabled u |}.

(** [doctor.save()] *)
Definition saveUser (u : User.t) : DB unit :=
  modify (fun s =>
    set_users
      (map (fun x => if Nat.eqb (User._id x) (User._id u) then u else x)
           (users s)) s).

(** What the two routes answer: a refusal, or the saved doctor, with the
    number of appointments the marking cancelled. *)
Inductive Answer :=
| Refused (r : Response)
| Marked (doctor : User.t) (affectedCount : nat)
| Restored (doctor : User.t).

(** [{ doctor: id, status: { $in: ['Upcoming', 'Scheduled'] },
       date: { $gte: todayStr, $lte: endStr } }]; no stored appointment has
    the status [Scheduled], which the schema does not list. *)
Definition affected (doctorId : ObjectId) (todayStr endStr : string)
    (a : Appointment.t) : bool :=
  Nat.eqb (Appointment.doctor a) doctorId
  && AppointmentStatus_eqb (Appointment.status a) Upcoming
  && String.leb todayStr (Appointment.date a)
  && String.leb (Appointment.date a) endStr.

(** [appt.status = 'DoctorCancelled'; appt.cancellationResolution = 'Pending'] *)
Definition apologized (appt : Appointment.t) : Appointment.t :=
  Appointment.set_cancellationResolution Pending
    (Appointment.set_status DoctorCancelled appt).

(** The [for (const appt of affectedAppointments)] loop. *)
Fixpoint cancelEach (env : Env) (l : list Appointment.t) : DB unit :=
  match l with
  | [] => ret tt
  | appt :: rest =>
      saveAppointment (apologized appt) ;;;
      createNotification env (Appointment.user appt) "appointment_cancelled"
        "Appointment Cancelled by Doctor" ;;;
      cancelEach env rest
  end.

(** [POST /api/users/doctors/:id/unavailability], behind [protect] and
    [authorize('super admin', 'hospital manager')].  [formatDay d] is
    [moment(d).format('YYYY-MM-DD')]. *)
Definition markUnavailable (env : Env) (formatDay : Z -> string)
    (reqUser : User.t) (id : ObjectId) (unavailableUntil : option string)
    : Store -> Answer * Store :=
  fun s =>
    match auth.authorize [SuperAdmin; HospitalManager] reqUser with
    | Some refusal => (Refused refusal, s)
    | None =>
        match unavailableUntil with
        | None | Some EmptyString =>
            (Refused
               (respond 400
                  (BError "Please provide an end date for the unavailability period.")),
             s)
        | Some text =>
            match newDate env text with
            | None => (Refused (respond 400 (BError "Invalid date provided.")), s)
            | Some endDate =>
                match findUser id s with
                | Some doctor =>
                    if negb (Role_eqb (User.role doctor) Doctor) then
                      (Refused (respond 404 (BError "Doctor not found")), s)
                    else
                      let doctor' :=
                        set_unavailabilityEpisodes
                          (User.unavailabilityEpisodes doctor
                           ++ [{| Episode.startDate := now env;
                                  Episode.endDate := endDate |}])
                          doctor in
                      match
                        (saveUser doctor' ;;;
                         affectedAppointments <-
                           gets (fun s =>
                                   filter (affected id (today env)
                                             (formatDay endDate))
                                          (appointments s)) ;;
                         cancelEach env affectedAppointments ;;;
                         ret (Marked doctor' (List.length affectedAppointments))) s
                      with
                      | Ok answer s' => (answer, s')
                      | Throw _ s' =>
                          (Refused (respond 500 (BError "Server Error")), s')
                      end
                | None => (Refused (respond 404 (BError "Doctor not found")), s)
                end
            end
        end
    end.

(** [POST /api/users/doctors/:id/availability/restore], behind the same
    middleware. *)
Definition restoreAvailability (env : Env) (reqUser : User.t) (id : ObjectId)
    : Store -> Answer * Store :=
  fun s =>
    match auth.authorize [SuperAdmin; HospitalManager] reqUser with
    | Some refusal => (Refused refusal, s)
    | None =>
        match findUser id s with
        | Some doctor =>
            if negb (Role_eqb (User.role doctor) Doctor) then
              (Refused (respond 404 (BError "Doctor not found")), s)
            else
              let doctor' :=
                set_unavailabilityEpisodes
                  (filter (fun ep => (Episode.endDate ep <? now env)%Z)
                          (User.unavailabilityEpisodes doctor))
                  doctor in
              match saveUser doctor' s with
              | Ok _ s' => (Restored doctor', s')
              | Throw _ s' =>
                  (Refused (respond 500 (BError "Server Error")), s')
              end
        | None => (Refused (respond 404 (BError "Doctor not found")), s)
        end
    end.

(** [episodes.find(ep => start <= now && end >= now)] of the doctor
    listings: whether the doctor is shown as currently unavailable. *)
Definition isCurrentlyUnavailable (env : Env) (doctor : User.t) : bool :=
  existsb (fun ep => (Episode.startDate ep <=? now env)%Z
                     && (now env <=? Episode.endDate ep)%Z)
          (User.unavailabilityEpisodes doctor).

End usersRoutes.

(* ------------------------------------------------------------------ *)
(** ** More of the clinic, for further scenarios *)

Module Cases.



(** A morning at Dr. X's door: Amal books for today and is called in, Bilal
    and Sami join, Bilal is put on hold and back, Sami leaves. *)
Definition busyMorning : list Operation :=
  [ OpBook Sample.env Sample.patientA (Sample.request "2026-03-10" "11:00 AM");
    OpCallNext Sample.env 2;
    OpJoinQueue Sample.env 10 2 1;
    OpJoinQueue Sample.env 4 2 1;
    OpJoinQueue Sample.env 10 9 1;
    OpHold 24;
    OpRequeue 24;
    OpLeaveQueue 4 ].

(** Two cardiologists of the hospital: two walk-ins wait for Dr. Karim, one
    for Dr. Lina. *)
Definition specialist (id : ObjectId) (n : string) : User.t :=
  {| User._id := id;
     User.name := {| en := n; ar := n |};
     User.role := Doctor;
     User.hospitals := [1];
     User.specialties := [40];
     User.availability := [];
     User.unavailabilityEpisodes := [];
     User.isActive := true;
     User.isDisabled := false |}.

Definition waitingFor (id doctor : ObjectId) : QueueItem.t :=
  {| QueueItem._id := id;
     QueueItem.user := None;
     QueueItem.walkInName := Some "walk-in";
     QueueItem.doctor := doctor;
     QueueItem.hospital := 1;
     QueueItem.queueNumber := "W000";
     QueueItem.status := Waiting;
     QueueItem.checkInTime := 0%Z |}.

Definition wards : Store :=
  {| users := [specialist 31 "karim"; specialist 32 "lina"; Sample.staff];
     hospitals := [Sample.hospital];
     appointmentTypes := [];
     appointments := [];
     queueItems := [waitingFor 33 31; waitingFor 34 31; waitingFor 35 32];
     wallets := [];
     transactions := [];
     notifications := [];
     redeemCodes := [];
     nextId := 40 |}.


(** The users of [Sample.store] as accounts, none of them locked. *)
Definition accountOf (u : User.t) : Account.t :=
  {| Account.user := u;
     Account.disabledAt := None;
     Account.disabledReason := None;
     Account.disabledBy := None;
     Account.reactivationOtp := None;
     Account.reactivationOtpExpire := None |}.

Definition accounts : list Account.t := map accountOf (users Sample.store).

(** A verifier that knows one token, Amal's. *)
Definition jwtVerify (token : string) : option (option ObjectId) :=
  if String.eqb token "amal.token" then Some (Some 3) else None.



(** A manager of the hospital. *)
Definition manager : User.t := Sample.person 13 HospitalManager "mona".

(** The clock of [Sample.env], reading the two dates the scenarios ask
    for as midnight UTC of the day. *)
Definition calendar : Env :=
  {| today := today Sample.env;
     todayISO := todayISO Sample.env;
     now := now Sample.env;
     currentMinutes := currentMinutes Sample.env;
     newDate := fun text =>
       if String.eqb text "2026-03-17" then Some 1773705600000%Z
       else if String.eqb text "2026-03-20" then Some 1773964800000%Z
       else None;
     dayName := dayName Sample.env;
     moment12 := moment12 Sample.env;
     moment24 := moment24 Sample.env;
     inAppStored := inAppStored Sample.env;
     delivered := delivered Sample.env |}.

(** [moment(d).format('YYYY-MM-DD')] for the instant of 20 March. *)
Definition formatDay (d : Z) : string :=
  if (d =? 1773964800000)%Z then "2026-03-20" else "".

(** Two weeks later. *)
Definition fortnightLater : Env :=
  {| today := "2026-03-24";
     todayISO := "2026-03-24";
     now := (now Sample.env + 14 * 86400000)%Z;
     currentMinutes := currentMinutes Sample.env;
     newDate := newDate calendar;
     dayName := dayName Sample.env;
     moment12 := moment12 Sample.env;
     moment24 := moment24 Sample.env;
     inAppStored := inAppStored Sample.env;
     delivered := delivered Sample.env |}.


(** The appointment of [Sample.booked] as an object handed to
    [sendDoctorReminder] whose doctor carries reminder preferences, all
    enabled. *)
Definition briefed : DoctorReminderService.Candidate :=
  {| DoctorReminderService.appointment := Sample.slot Upcoming false;
     DoctorReminderService.doctor :=
       Some {| DoctorReminderService.account := Sample.doctorX;
               DoctorReminderService.doctorReminderPreferences :=
                 Some {| ReminderPreferences.enabled := true;
                         ReminderPreferences.reminder24h := true;
                         ReminderPreferences.reminder1h := true |} |};
     DoctorReminderService.patient := Some Sample.patientA |}.



(** The clinic with 0.1 in Amal's wallet, one deposit on the ledger. *)
Definition thin : Store :=
  set_transactions [Sample.openingDeposit 7 6 3 0.1;
                    Sample.openingDeposit 12 11 10 100]
    (set_wallets [Sample.walletOf 6 3 0.1; Sample.walletOf 11 10 100]
       Sample.store).

End Cases.

(* ------------------------------------------------------------------ *)
(** ** One place in line per patient *)

(** The active entries of a patient: those [Waiting], [Serving] or [Held]. *)
Definition activeEntries (userId : ObjectId) (s : Store) : list QueueItem.t :=
  filter (fun q => matchesId userId (QueueItem.user q)
                   && isActiveStatus (QueueItem.status q))
         (queueItems s).

(** Queue entries have distinct identifiers drawn from the counter, and no
    patient has more than one active entry. *)
Definition queueDiscipline (s : Store) : Prop :=
  NoDup (map QueueItem._id (queueItems s))
  /\ (forall q, In q (queueItems s) -> QueueItem._id q < nextId s)
  /\ forall userId, List.length (activeEntries userId s) <= 1.

(** The operations other than the check-in of an appointment and the
    reschedule route. *)
Definition keepsOnePlace (op : Operation) : bool :=
  match op with
  | OpCheckIn _ _ => false
  | OpReschedule _ _ _ _ => false
  | _ => true
  end.

(* ------------------------------------------------------------------ *)
(** ** Which reminders a pass sends *)

(** The appointment of the candidate starts within the window of the pass:
    the lead time of the class from now, give or take its tolerance. *)
Definition dueFor (env : Env) (rt : DoctorReminderService.ReminderType)
    (c : DoctorReminderService.Candidate) : bool :=
  match DoctorReminderService.parseAppointmentDateTime env
          (Appointment.date (DoctorReminderService.appointment c))
          (Appointment.time (DoctorReminderService.appointment c)) with
  | Some t =>
      (now env + DoctorReminderService.leadTime rt
       - DoctorReminderService.tolerance rt <=? t)%Z
      && (t <=? now env + DoctorReminderService.leadTime rt
                + DoctorReminderService.tolerance rt)%Z
  | None => false
  end.

(** The doctor of the candidate is there, active and not disabled, has
    reminders enabled and the class enabled, the patient is there, and the
    transport delivers to the doctor on at least one channel. *)
Definition reaches (env : Env) (rt : DoctorReminderService.ReminderType)
    (c : DoctorReminderService.Candidate) : bool :=
  match DoctorReminderService.doctor c, DoctorReminderService.patient c with
  | Some dr, Some _ =>
      negb (User.isDisabled (DoctorReminderService.account dr))
      && User.isActive (DoctorReminderService.account dr)
      && match DoctorReminderService.doctorReminderPreferences dr with
         | Some p =>
             ReminderPreferences.enabled p
             && match rt with
                | DoctorReminderService.R24h => ReminderPreferences.reminder24h p
                | DoctorReminderService.R1h => ReminderPreferences.reminder1h p
                end
         | None => false
         end
      && delivered env (User._id (DoctorReminderService.account dr)) "reminder"
  | _, _ => false
  end.

(** The error [sendDoctorReminder] reports for a candidate whose doctor has
    no reminder preferences. *)
Definition refusal (c : DoctorReminderService.Candidate) : string :=
  match DoctorReminderService.doctor c with
  | Some dr =>
      if User.isDisabled (DoctorReminderService.account dr)
         || negb (User.isActive (DoctorReminderService.account dr))
      then "Doctor account is disabled or inactive"
      else "Doctor has disabled appointment reminders"
  | None => "Doctor account is disabled or inactive"
  end.

(** The candidate's doctor, if there, has no reminder preferences. *)
Definition unbriefed (c : DoctorReminderService.Candidate) : Prop :=
  forall dr, DoctorReminderService.doctor c = Some dr ->
             DoctorReminderService.doctorReminderPreferences dr = None.


(** What [verifyReactivationOtp] asks of the stored account before it
    accepts the code [otp] at the instant [now env]; [e] is the stored
    expiry. *)
Definition codeHolds (env : Env) (otp : string) (a : Account.t) (e : Z)
    : Prop :=
  Account.isDisabled a = true
  /\ Account.reactivationOtp a = Some otp /\ otp <> ""
  /\ Account.reactivationOtpExpire a = Some e /\ e <> 0%Z
  /\ (now env <= e)%Z.


(** *** Marking a doctor unavailable *)

(** What one turn of the loop does to a stored appointment [x]. *)
Definition apologyStep (x a : Appointment.t) : Appointment.t :=
  if Nat.eqb (Appointment._id x) (Appointment._id a)
  then usersRoutes.apologized a else x.

(* ------------------------------------------------------------------ *)
(** ** For how long a slot stays taken *)

(** The booking request is turned away: it is not answered [201] and leaves
    the store as it was; when it passes every check that precedes the
    insert it is answered [409 Conflict], with the "just booked by someone
    else" message when the two conflict checks made before the transaction
    found nothing. *)
Definition turnedAway (env : Env) (reqUser : User.t)
    (req : appointmentsRoutes.BookingRequest) (s : Store) : Prop :=
  statusCode (fst (appointmentsRoutes.bookAppointment env reqUser req s)) <> 201
  /\ snd (appointmentsRoutes.bookAppointment env reqUser req s) = s
  /\ (reachesInsert env reqUser req s ->
      statusCode (fst (appointmentsRoutes.bookAppointment env reqUser req s))
      = 409
      /\ (forall target,
            appointmentsRoutes.targetUser reqUser req = inr target ->
            appointmentsRoutes.existingExact target req s = None ->
            appointmentsRoutes.softConflict env target req s = None ->
            fst (appointmentsRoutes.bookAppointment env reqUser req s)
            = respond 409 (BError appointmentsRoutes.slotJustBooked))).

(** The operation leaves every stored appointment with its doctor, date and
    time: any operation but the reschedule route and the resolutions of a
    doctor's cancellation other than the refund. *)
Definition keepsInPlace (op : Operation) : bool :=
  match op with
  | OpReschedule _ _ _ _ => false
  | OpResolve _ _ _ appointmentsRoutes.ActRefund _ _ => true
  | OpResolve _ _ _ _ _ _ => false
  | _ => true
  end.

(** An appointment with the identifier and the doctor, date and time of
    [b0] is stored. *)
Definition stillHolds (b0 : Appointment.t) (s : Store) : Prop :=
  exists b, In b (appointments s)
            /\ Appointment._id b = Appointment._id b0
            /\ Appointment.sameSlot b0 b = true.

Definition heldInPlace (b0 : Appointment.t) (s : Store) : Prop :=
  slotIndexHolds s /\ stillHolds b0 s.

(** A version of an appointment that, if it has the identifier of [b0], has
    its doctor, date and time. *)
Definition akin (b0 appt : Appointment.t) : Prop :=
  Appointment._id appt = Appointment._id b0 ->
  Appointment.sameSlot b0 appt = true.

(* ------------------------------------------------------------------ *)
(** * Proofs *)

Unset Implicit Arguments.

(** ** Reasoning about computations that keep a property of the store *)

Section Preservation.

Variable P : Store -> Prop.

Lemma preserves_ret {A} (a : A) : preserves P (ret a).
Proof. intros s H; exact H. Qed.

Lemma preserves_throw {A} (e : Error) : preserves P (@throw A e).
Proof. intros s H; exact H. Qed.

Lemma preserves_gets {A} (f : Store -> A) : preserves P (gets f).
Proof. intros s H; exact H. Qed.

Lemma preserves_bind {A B} (m : DB A) (f : A -> DB B) :
  preserves P m -> (forall a, preserves P (f a)) -> preserves P (bind m f).
Proof.
  intros Hm Hf s H. specialize (Hm s H).
  unfold after, bind in *. destruct (m s) as [a s'|e s']; auto.
  apply (Hf a s' Hm).
Qed.

Lemma preserves_throwIf (c : bool) (e : Error) : preserves P (throwIf c e).
Proof. destruct c; intros s H; exact H. Qed.

Lemma preserves_orThrow {A} (o : option A) (e : Error) :
  preserves P (appointmentsRoutes.orThrow o e).
Proof. destruct o; intros s H; exact H. Qed.

Lemma preserves_modify (f : Store -> Store) :
  (forall s, P s -> P (f s)) -> preserves P (modify f).
Proof. intros Hf s H. apply Hf, H. Qed.

Lemma preserves_withTransaction {A} (m : DB A) :
  preserves P m -> preserves P (withTransaction m).
Proof.
  intros Hm s H. specialize (Hm s H).
  unfold after, withTransaction in *. destruct (m s); auto.
Qed.

Lemma preserves_handle (body : DB Response) (onError : Error -> Response) s :
  preserves P body -> P s -> P (snd (handle body onError s)).
Proof.
  intros Hm H. specialize (Hm s H).
  unfold after, handle in *. destruct (body s); auto.
Qed.

End Preservation.

(** Splits a goal [preserves P m] along the structure of [m]; [tac] closes
    the primitive writes. *)
Ltac preserve_with tac :=
  repeat first
    [ progress tac
    | apply preserves_ret
    | apply preserves_throw
    | apply preserves_gets
    | apply preserves_throwIf
    | apply preserves_orThrow
    | apply preserves_withTransaction
    | apply preserves_bind; [ | intros ]
    | match goal with
      | |- preserves _ (match ?x with _ => _ end) => destruct x
      | |- preserves _ (if ?b then _ else _) => destruct b
      | |- preserves _ (let (_, _) := ?x in _) => destruct x
      end ].

(** ** Doubles *)

Lemma SFcompare_refl x : x <> S754_nan -> SFcompare x x = Some Eq.
Proof.
  destruct x as [sx|sx| |sx m e]; intros H; cbn;
    try reflexivity; try (destruct sx; reflexivity).
  - exfalso. apply H. reflexivity.
  - assert (Ke : IntDef.Z.compare e e = Eq) by apply Z.compare_refl.
    assert (Km : PosDef.Pos.compare_cont Eq m m = Eq)
      by apply Pos.compare_cont_refl.
    rewrite Ke, Km. destruct sx; reflexivity.
Qed.

(** A double that compares above 0 is a number. *)
Lemma positive_is_a_number x :
  (0 <? x)%float = true -> PrimFloat.is_nan x = false.
Proof.
  intros H. unfold PrimFloat.is_nan.
  rewrite FloatAxioms.ltb_spec in H. rewrite FloatAxioms.eqb_spec.
  unfold SFltb, SFeqb in *.
  destruct (Prim2SF x) eqn:Ex.
  - rewrite SFcompare_refl; [reflexivity|discriminate].
  - rewrite SFcompare_refl; [reflexivity|discriminate].
  - destruct (Prim2SF 0); discriminate H.
  - rewrite SFcompare_refl; [reflexivity|discriminate].
Qed.

(** A double that is not falsy is a number. *)
Lemma truthy_is_a_number x : falsyNumber x = false -> PrimFloat.is_nan x = false.
Proof. unfold falsyNumber. intros H. apply orb_false_elim in H. apply H. Qed.

(** ** Computations inside a transaction *)

Section Keeping.

Variable P : Store -> Prop.





End Keeping.

(** ** The ledger *)





Lemma validTransaction_transactionOf d walletId id :
  walletService.validTransaction (transactionOf d walletId id) = wellFormed d.
Proof. reflexivity. Qed.

Lemma is_nan_opp x : PrimFloat.is_nan (- x)%float = PrimFloat.is_nan x.
Proof.
  unfold PrimFloat.is_nan.
  rewrite !FloatAxioms.eqb_spec, FloatAxioms.opp_spec. unfold SFeqb.
  destruct (Prim2SF x) as [sg|sg| |sg m e]; cbn [SFopp];
    try reflexivity;
    rewrite !SFcompare_refl by discriminate; reflexivity.
Qed.

Lemma refused_throws d wallet s t s' : refused d wallet s <> Ok t s'.
Proof. unfold refused. destruct (PrimFloat.is_nan _); discriminate. Qed.

(** [performDbOperations] in one step: the two early refusals, the refusal
    of a transaction that is not well formed, or the posting. *)
Lemma performDbOperations_eq d s :
  walletService.performDbOperations d s =
  match walletService.findWallet (walletService.userId d) s with
  | None => Throw (mkError "Wallet not found for this user.") s
  | Some wallet =>
      if overdraws d wallet
      then Throw (mkError "Insufficient wallet balance.") s
      else if wellFormed d
      then Ok (transactionOf d (Wallet._id wallet) (nextId s))
              (posted d wallet s)
      else refused d wallet s
  end.
Proof.
  unfold walletService.performDbOperations, bind, gets, throwIf, modify,
    freshId, ret, throw, overdraws.
  destruct (walletService.findWallet (walletService.userId d) s) as [wallet|];
    [|reflexivity].
  assert (Hnan : PrimFloat.is_nan
                   match walletService.type d with
                   | credit => walletService.amount d
                   | debit => (- walletService.amount d)%float
                   end
                 = PrimFloat.is_nan (walletService.amount d))
    by (destruct (walletService.type d); [reflexivity|apply is_nan_opp]).
  rewrite Hnan. clear Hnan.
  assert (Hpost :
    (if PrimFloat.is_nan (walletService.amount d)
     then Throw walletService.incCastError s
     else if negb (walletService.validTransaction
                     (transactionOf d (Wallet._id wallet) (nextId s)))
     then Throw walletService.transactionValidationError (moved d wallet s)
     else Ok (transactionOf d (Wallet._id wallet) (nextId s))
             (posted d wallet s))
    = if wellFormed d
      then Ok (transactionOf d (Wallet._id wallet) (nextId s))
              (posted d wallet s)
      else refused d wallet s).
  { rewrite validTransaction_transactionOf. unfold refused, wellFormed.
    destruct (PrimFloat.is_nan (walletService.amount d)); [reflexivity|].
    cbn [negb andb].
    destruct (negb (String.eqb (walletService.description d) ""));
      reflexivity. }
  rewrite <- Hpost. clear Hpost.
  destruct (walletService.type d) eqn:Hty.
  - unfold posted, moved, transactionOf, signedChange. rewrite Hty.
    destruct (PrimFloat.is_nan _); [reflexivity|].
    destruct (negb _); reflexivity.
  - destruct (Wallet.balance wallet <? walletService.amount d)%float;
      [reflexivity|].
    unfold posted, moved, transactionOf, signedChange. rewrite Hty.
    destruct (PrimFloat.is_nan _); [reflexivity|].
    destruct (negb _); reflexivity.
Qed.

(** What the service does with an object that defines every field. *)
Lemma createTransactionAndUpdateWallet_given d b :
  walletService.createTransactionAndUpdateWallet (walletService.given d) b
  = if b then walletService.performDbOperations d
    else withTransaction (walletService.performDbOperations d).
Proof. destruct d; reflexivity. Qed.








(** Splits a handler along its early answers down to its [handle]d body. *)
Ltac handler_cases H :=
  repeat match goal with
         | |- ?P (snd (handle ?b ?e ?st)) =>
             apply (@preserves_handle P b e st); [|exact H]
         | |- _ (snd (_, _)) => exact H
         | |- _ (snd (if ?b then _ else _)) => destruct b
         | |- _ (snd (match ?x with _ => _ end)) => destruct x
         | |- ?P (after ?m ?st) =>
             let K := fresh "K" in
             assert (K : preserves P m); [|exact (K st H)]
         end.



Lemma remindEach_preserves (P : Store -> Prop) env rt lo hi :
  (forall c, preserves P (DoctorReminderService.sendDoctorReminder env c rt)) ->
  forall l r, preserves P (DoctorReminderService.remindEach env rt lo hi l r).
Proof.
  intros Hsend. induction l as [|c l IH]; intros r; cbn.
  - apply preserves_ret.
  - repeat match goal with
           | |- preserves _ (if ?b then _ else _) => destruct b
           end; auto.
    apply preserves_bind; auto.
Qed.




Lemma ledgerInv_initial s :
  wallets s = [] -> transactions s = [] -> ledgerInv s.
Proof.
  intros Hw Ht. unfold ledgerInv, walletIdsDrawn, ledgerConsistent.
  rewrite Hw, Ht. repeat split; intros ? [].
Qed.


(** ** Inversion of computations that returned *)

Lemma bind_Ok {A B} (m : DB A) (f : A -> DB B) s b s' :
  bind m f s = Ok b s' -> exists a s1, m s = Ok a s1 /\ f a s1 = Ok b s'.
Proof.
  unfold bind. destruct (m s) as [a s1|e s1]; [|discriminate].
  intros H. exists a, s1. split; [reflexivity|exact H].
Qed.

Lemma gets_Ok {A} (f : Store -> A) s a s' :
  gets f s = Ok a s' -> a = f s /\ s' = s.
Proof. unfold gets. intros H. inversion H. split; reflexivity. Qed.

Lemma ret_Ok {A} (x : A) s a s' : ret x s = Ok a s' -> a = x /\ s' = s.
Proof. unfold ret. intros H. inversion H. split; reflexivity. Qed.

Lemma modify_Ok (f : Store -> Store) s a s' :
  modify f s = Ok a s' -> s' = f s.
Proof. unfold modify. intros H. inversion H. reflexivity. Qed.

Lemma throwIf_Ok c e s a s' : throwIf c e s = Ok a s' -> c = false /\ s' = s.
Proof.
  unfold throwIf, throw, ret. destruct c; intros H; inversion H.
  split; reflexivity.
Qed.

Lemma orThrow_Ok {A} (o : option A) e s a s' :
  appointmentsRoutes.orThrow o e s = Ok a s' -> o = Some a /\ s' = s.
Proof.
  unfold appointmentsRoutes.orThrow, throw, ret.
  destruct o; intros H; inversion H. split; reflexivity.
Qed.

Lemma withTransaction_Ok {A} (m : DB A) s a s' :
  withTransaction m s = Ok a s' -> m s = Ok a s'.
Proof. unfold withTransaction. destruct (m s); intros H; inversion H; reflexivity. Qed.

Lemma withTransaction_Throw {A} (m : DB A) s e s' :
  withTransaction m s = Throw e s' -> s' = s.
Proof. unfold withTransaction. destruct (m s); intros H; inversion H; reflexivity. Qed.

Lemma createTransactionAndUpdateWallet_Ok d b s t s' :
  walletService.createTransactionAndUpdateWallet (walletService.given d) b s
  = Ok t s' ->
  exists wallet,
    walletService.findWallet (walletService.userId d) s = Some wallet
    /\ overdraws d wallet = false
    /\ t = transactionOf d (Wallet._id wallet) (nextId s)
    /\ s' = posted d wallet s.
Proof.
  rewrite createTransactionAndUpdateWallet_given. intros H.
  assert (H' : walletService.performDbOperations d s = Ok t s').
  { destruct b; [exact H|apply withTransaction_Ok, H]. }
  rewrite performDbOperations_eq in H'.
  destruct (walletService.findWallet (walletService.userId d) s) as [wallet|];
    [|discriminate].
  destruct (overdraws d wallet) eqn:Ho; [discriminate|].
  destruct (wellFormed d); [|exfalso; exact (refused_throws _ _ _ _ _ H')].
  inversion H'. exists wallet. repeat split; auto.
Qed.

Lemma createTransactionAndUpdateWallet_wellFormed d b s t s' :
  walletService.createTransactionAndUpdateWallet (walletService.given d) b s
  = Ok t s' ->
  wellFormed d = true.
Proof.
  rewrite createTransactionAndUpdateWallet_given. intros H.
  assert (H' : walletService.performDbOperations d s = Ok t s').
  { destruct b; [exact H|apply withTransaction_Ok, H]. }
  rewrite performDbOperations_eq in H'.
  destruct (walletService.findWallet (walletService.userId d) s) as [wallet|];
    [|discriminate].
  destruct (overdraws d wallet) eqn:Ho; [discriminate|].
  destruct (wellFormed d);
    [reflexivity|exfalso; exact (refused_throws _ _ _ _ _ H')].
Qed.

Lemma createAppointment_Ok mk s a s' :
  createAppointment mk s = Ok a s' ->
  a = mk (nextId s)
  /\ validAppointment a = true
  /\ slotHeld a (appointments s) = false
  /\ s' = set_nextId (S (nextId s)) (set_appointments (appointments s ++ [a]) s).
Proof.
  unfold createAppointment.
  destruct (validAppointment (mk (nextId s))) eqn:Hv; cbn; [|discriminate].
  destruct (slotHeld (mk (nextId s)) (appointments s)) eqn:Ht; [discriminate|].
  intros H. inversion H. subst. repeat split; assumption.
Qed.

Lemma saveAppointment_Ok a s u s' :
  saveAppointment a s = Ok u s' ->
  validAppointment a = true
  /\ s' = set_appointments (replaceAppointment a (appointments s)) s.
Proof.
  unfold saveAppointment.
  destruct (validAppointment a); cbn; [|discriminate].
  destruct (slotChanged a s && slotTaken a (appointments s)); [discriminate|].
  intros H. inversion H. split; reflexivity.
Qed.

Lemma createQueueItem_Ok env u w d h n s q s' :
  createQueueItem env u w d h n s = Ok q s' ->
  s' = set_nextId (S (nextId s)) (set_queueItems (queueItems s ++ [q]) s)
  /\ QueueItem.user q = u /\ QueueItem.doctor q = d
  /\ QueueItem.status q = Waiting /\ QueueItem._id q = nextId s.
Proof.
  unfold createQueueItem. intros H. inversion H. repeat split; reflexivity.
Qed.

Lemma createNotification_Ok env u t ti s b s' :
  createNotification env u t ti s = Ok b s' ->
  wallets s' = wallets s /\ transactions s' = transactions s
  /\ appointments s' = appointments s /\ queueItems s' = queueItems s
  /\ users s' = users s /\ hospitals s' = hospitals s
  /\ appointmentTypes s' = appointmentTypes s.
Proof.
  unfold createNotification.
  destruct (existsb (String.eqb t) notificationTypes && inAppStored env u);
    intros H; inversion H; repeat split; reflexivity.
Qed.

(** Unfolds, in the hypotheses, a computation that returned into the steps it
    took. *)
Ltac ok_inv :=
  repeat match goal with
         | H : bind _ _ _ = Ok _ _ |- _ =>
             let a := fresh "v" in
             let s1 := fresh "st" in
             let H1 := fresh "Hstep" in
             apply bind_Ok in H; destruct H as (a & s1 & H1 & H)
         | H : gets _ _ = Ok _ _ |- _ =>
             apply gets_Ok in H; destruct H as [? ?]; subst
         | H : ret _ _ = Ok _ _ |- _ =>
             apply ret_Ok in H; destruct H as [? ?]; subst
         | H : modify _ _ = Ok _ _ |- _ => apply modify_Ok in H; subst
         | H : throw _ _ = Ok _ _ |- _ => discriminate H
         | H : throwIf _ _ _ = Ok _ _ |- _ =>
             let E := fresh "Hcond" in
             apply throwIf_Ok in H; destruct H as [E ?]; subst
         | H : appointmentsRoutes.orThrow _ _ _ = Ok _ _ |- _ =>
             let E := fresh "Hsome" in
             apply orThrow_Ok in H; destruct H as [E ?]; subst
         | H : withTransaction _ _ = Ok _ _ |- _ =>
             apply withTransaction_Ok in H
         | H : (if ?b then _ else _) _ = Ok _ _ |- _ =>
             let E := fresh "Hif" in destruct b eqn:E
         | H : (match ?x with _ => _ end) _ = Ok _ _ |- _ =>
             let E := fresh "Hcase" in destruct x eqn:E
         end.

(** ** Booking *)

Import appointmentsRoutes.

Lemma findWallet_incBalance u w c s s2 :
  walletService.findWallet u s = Some w ->
  wallets s2 = wallets (walletService.incBalance (Wallet._id w) c s) ->
  walletService.findWallet u s2
  = Some {| Wallet._id := Wallet._id w; Wallet.user := Wallet.user w;
            Wallet.balance := (Wallet.balance w + c)%float |}.
Proof.
  unfold walletService.findWallet, walletService.incBalance. intros Hf ->.
  cbn. induction (wallets s) as [|x l IH]; cbn in *; [discriminate|].
  destruct (Nat.eqb (Wallet.user x) u) eqn:Hu.
  - inversion Hf; subst x. rewrite Nat.eqb_refl. cbn. rewrite Hu. reflexivity.
  - destruct (Nat.eqb (Wallet._id x) (Wallet._id w)); cbn; rewrite Hu;
      apply IH, Hf.
Qed.

Lemma bookingChecks_Ok env reqUser target req s c s1 :
  bookingChecks env reqUser target req s = Ok c s1 ->
  doctorId req = Some (ctxDoctorId c)
  /\ hospitalId req = Some (ctxHospitalId c)
  /\ appointmentTypeId req = Some (ctxAppointmentTypeId c)
  /\ findAppointmentType (ctxAppointmentTypeId c) s = Some (ctxAppointmentType c)
  /\ (if cashPayment req && isStaffRole (User.role reqUser)
      then exists wallet,
             walletService.findWallet target s = Some wallet
             /\ s1 = posted (cashDeposit env target
                               (AppointmentType.cost (ctxAppointmentType c))
                               (ctxHospitalId c)) wallet s
      else s1 = s)
  /\ exists w1, walletService.findWallet target s1 = Some w1
                /\ (Wallet.balance w1
                    <? AppointmentType.cost (ctxAppointmentType c))%float
                   = false.
Proof.
  unfold bookingChecks. intros H.
  destruct (doctorId req) as [d|]; [|discriminate].
  destruct (hospitalId req) as [h|]; [|discriminate].
  destruct (appointmentTypeId req) as [t|]; [|discriminate].
  ok_inv; cbn [ctxDoctorId ctxHospitalId ctxAppointmentTypeId ctxAppointmentType].
  - apply createTransactionAndUpdateWallet_Ok in Hstep.
    destruct Hstep as (wallet & Hw & _ & _ & ->).
    repeat split; auto.
    + exists wallet. split; [exact Hw|reflexivity].
    + destruct (walletService.findWallet target (posted _ wallet s)) as [w1|];
        [|discriminate].
      exists w1. split; [reflexivity|exact Hcond].
  - repeat split; auto.
    destruct (walletService.findWallet target s) as [w1|]; [|discriminate].
    exists w1. split; [reflexivity|exact Hcond].
Qed.

Lemma bookingChecks_appointments env reqUser target req s c s1 :
  bookingChecks env reqUser target req s = Ok c s1 ->
  appointments s1 = appointments s /\ queueItems s1 = queueItems s.
Proof.
  intros H. apply bookingChecks_Ok in H.
  destruct H as (_ & _ & _ & _ & Hs & _).
  destruct (cashPayment req && isStaffRole (User.role reqUser)).
  - destruct Hs as (w & _ & ->). split; reflexivity.
  - subst s1. split; reflexivity.
Qed.

(** The queue entry a same-day booking adds, if the patient has no active
    entry yet. *)
Lemma bookingTransaction_Ok env reqUser target req s a s' :
  bookingTransaction env reqUser target req s = Ok a s' ->
  exists c s1 w1,
    bookingChecks env reqUser target req s = Ok c s1
    /\ a = newAppointment target req c (nextId s1)
    /\ validAppointment a = true
    /\ slotHeld a (appointments s1) = false
    /\ walletService.findWallet target s1 = Some w1
    /\ (Wallet.balance w1 <? AppointmentType.cost (ctxAppointmentType c))%float
       = false
    /\ appointments s' = appointments s1 ++ [a]
    /\ (exists n,
          transactions s'
          = transactions s1
            ++ [transactionOf (feeDebit target c a) (Wallet._id w1) n])
    /\ walletService.findWallet target s'
       = Some {| Wallet._id := Wallet._id w1; Wallet.user := Wallet.user w1;
                 Wallet.balance :=
                   (Wallet.balance w1
                    + - AppointmentType.cost (ctxAppointmentType c))%float |}.
Proof.
  unfold bookingTransaction. intros H.
  apply bind_Ok in H. destruct H as (c & s1 & Hc & H).
  apply bind_Ok in H. destruct H as (a0 & s2 & Ha & H).
  apply createAppointment_Ok in Ha. destruct Ha as (Ea & Hv & Ht & Es2).
  apply bind_Ok in H. destruct H as (u & s3 & Hq & H).
  apply bind_Ok in H. destruct H as (t & s4 & Hd & H).
  apply bind_Ok in H. destruct H as (b & s5 & Hn & H).
  apply ret_Ok in H. destruct H as [-> ->].
  apply createNotification_Ok in Hn.
  destruct Hn as (Hn1 & Hn2 & Hn3 & Hn4 & _).
  apply createTransactionAndUpdateWallet_Ok in Hd.
  destruct Hd as (w3 & Hw3 & Ho & Et & Es4).
  assert (Hq' : wallets s3 = wallets s1 /\ transactions s3 = transactions s1
                /\ appointments s3 = appointments s1 ++ [a0]).
  { subst s2. ok_inv; try (repeat split; reflexivity).
    apply createQueueItem_Ok in Hstep. destruct Hstep as (-> & _).
    repeat split; reflexivity. }
  destruct Hq' as (Hq1 & Hq2 & Hq3).
  pose proof (bookingChecks_Ok _ _ _ _ _ _ _ Hc) as (_ & _ & _ & _ & _ & w1 & Hw1 & Hlow).
  assert (Ew : w3 = w1).
  { unfold walletService.findWallet in *. cbn [walletService.userId feeDebit] in Hw3.
    rewrite Hq1, Hw1 in Hw3. inversion Hw3. reflexivity. }
  subst w3.
  exists c, s1, w1. repeat split; auto.
  - rewrite Hn3, Es4. cbn. exact Hq3.
  - exists (nextId s3). rewrite Hn2, Es4. cbn. rewrite Hq2. reflexivity.
  - assert (Hs3 : walletService.findWallet target s3 = Some w1).
    { unfold walletService.findWallet in *. rewrite Hq1. exact Hw1. }
    apply (@findWallet_incBalance target w1
             (- AppointmentType.cost (ctxAppointmentType c))%float s3 s5 Hs3).
    rewrite Hn1, Es4. reflexivity.
Qed.

Lemma handle_Ok (m : DB Response) onError s r s1 :
  m s = Ok r s1 -> handle m onError s = (r, s1).
Proof. unfold handle. intros ->. reflexivity. Qed.

Lemma handle_transaction {A} (m : DB A) (k : A -> Response) onError s :
  handle (bind (withTransaction m) (fun a => ret (k a))) onError s
  = match m s with
    | Ok a s1 => (k a, s1)
    | Throw e _ => (onError e, s)
    end.
Proof.
  unfold handle, bind, withTransaction, ret. destruct (m s); reflexivity.
Qed.

Lemma bookingError_not_created e : statusCode (bookingError e) <> 201.
Proof.
  unfold bookingError.
  destruct (match code e with Some c => (c =? 11000)%Z | None => false end);
    [cbn; discriminate|].
  destruct (JS.includes "Insufficient" (message e)
            || JS.includes "not found" (message e)
            || JS.includes "must be specified" (message e)); cbn; discriminate.
Qed.

(** The booking route either answers something else than [201] and leaves the
    store as it was, or its transaction returned and was committed. *)
Lemma bookAppointment_cases env reqUser req s :
  (statusCode (fst (bookAppointment env reqUser req s)) <> 201
   /\ snd (bookAppointment env reqUser req s) = s)
  \/ (exists target a,
        targetUser reqUser req = inr target
        /\ bookingTransaction env reqUser target req s
           = Ok a (snd (bookAppointment env reqUser req s))
        /\ fst (bookAppointment env reqUser req s)
           = respond 201 (BAppointment a)).
Proof.
  unfold bookAppointment.
  destruct (targetUser reqUser req) as [refusal|target] eqn:Ht.
  - left. split; [|reflexivity]. cbn [fst].
    unfold targetUser in Ht.
    destruct (isStaffRole (User.role reqUser)).
    + destruct (patientId req); inversion Ht. cbn. discriminate.
    + destruct (negb (Role_eqb (User.role reqUser) Patient)); inversion Ht.
      cbn. discriminate.
  - destruct (existingExact target req s);
      [left; split; [cbn; discriminate|reflexivity]|].
    destruct (softConflict env target req s) as [[appt diff]|];
      [left; split; [cbn; discriminate|reflexivity]|].
    rewrite handle_transaction.
    destruct (bookingTransaction env reqUser target req s) as [a s1|e s1] eqn:Hb.
    + right. exists target, a. cbn [fst snd].
      split; [reflexivity|]. split; [exact Hb|reflexivity].
    + left. split; [apply bookingError_not_created|reflexivity].
Qed.



(** Scenario 1: patient A books Dr. X, cost 50, balance 100: the balance
    becomes 50. *)
Example scenario_1_booking :
  let out :=
    bookAppointment Sample.env Sample.patientA
      (Sample.request "2026-03-12" "10:00 AM") Sample.store in
  statusCode (fst out) = 201
  /\ Sample.balanceOf 3 (snd out) = Some 50%float.
Proof. cbv zeta. split; vm_compute; reflexivity. Qed.

(** The fee collected in cash, with 0.1 in the wallet: the deposit of 50 and
    the debit of 50 leave 0.10000000000000142. *)
Example scenario_cash_booking_rounds :
  let out :=
    bookAppointment Sample.env Sample.staff
      (Sample.cashRequest "2026-03-12" "10:00 AM") Cases.thin in
  statusCode (fst out) = 201
  /\ Sample.balanceOf 3 Cases.thin = Some 0.1%float
  /\ Sample.balanceOf 3 (snd out) = Some 0.10000000000000142%float
  /\ ((0.1 + 50) + - 50)%float = 0.10000000000000142%float.
Proof. vm_compute. repeat split. Qed.

(** ** The unique index on (doctor, date, time) *)

Lemma sameSlot_refl a : Appointment.sameSlot a a = true.
Proof.
  unfold Appointment.sameSlot.
  rewrite Nat.eqb_refl, !String.eqb_refl. reflexivity.
Qed.

Lemma sameSlot_spec a b :
  Appointment.sameSlot a b = true <->
  Appointment.doctor a = Appointment.doctor b
  /\ Appointment.date a = Appointment.date b
  /\ Appointment.time a = Appointment.time b.
Proof.
  unfold Appointment.sameSlot. rewrite !andb_true_iff.
  rewrite Nat.eqb_eq, !String.eqb_eq. tauto.
Qed.

Lemma sameSlot_sym a b :
  Appointment.sameSlot a b = true -> Appointment.sameSlot b a = true.
Proof.
  rewrite !sameSlot_spec. intros (H1 & H2 & H3). auto.
Qed.

Lemma sameSlot_trans a b c :
  Appointment.sameSlot a b = true -> Appointment.sameSlot b c = true ->
  Appointment.sameSlot a c = true.
Proof.
  rewrite !sameSlot_spec. intros (H1 & H2 & H3) (K1 & K2 & K3).
  repeat split; congruence.
Qed.

(** Writes that leave the appointments alone and only advance the counter
    keep the index. *)
Lemma slotIndex_frame s s' :
  appointments s' = appointments s -> nextId s <= nextId s' ->
  slotIndexHolds s -> slotIndexHolds s'.
Proof.
  intros Ha Hn (H1 & H2 & H3). unfold slotIndexHolds. rewrite Ha.
  split; [exact H1|]. split; [|exact H3].
  intros a Hin. specialize (H2 a Hin). lia.
Qed.

Lemma sameKeys_ids l l' :
  sameKeys l l' -> map Appointment._id l' = map Appointment._id l.
Proof.
  induction 1 as [|a b l l' [E _] _ IH]; cbn; [reflexivity|].
  rewrite IH, E. reflexivity.
Qed.

Lemma sameKeys_in l l' b :
  sameKeys l l' -> In b l' ->
  exists a, In a l /\ Appointment._id a = Appointment._id b
            /\ Appointment.sameSlot a b = true.
Proof.
  induction 1 as [|a0 b0 l l' [E K] _ IH]; cbn; [intros []|].
  intros [<-|Hin].
  - exists a0. auto.
  - destruct (IH Hin) as (a & Ha & Hrest). exists a. auto.
Qed.

Lemma slotIndex_sameKeys s s' :
  sameKeys (appointments s) (appointments s') -> nextId s <= nextId s' ->
  slotIndexHolds s -> slotIndexHolds s'.
Proof.
  intros Hk Hn (H1 & H2 & H3). unfold slotIndexHolds.
  rewrite (sameKeys_ids _ _ Hk). split; [exact H1|]. split.
  - intros b Hb. destruct (sameKeys_in _ _ _ Hk Hb) as (a & Ha & E & _).
    specialize (H2 a Ha). lia.
  - intros x y Hx Hy Hxy.
    destruct (sameKeys_in _ _ _ Hk Hx) as (x0 & Hx0 & Ex & Kx).
    destruct (sameKeys_in _ _ _ Hk Hy) as (y0 & Hy0 & Ey & Ky).
    rewrite <- Ex, <- Ey. apply H3; auto.
    apply (sameSlot_trans _ _ _ Kx).
    apply (sameSlot_trans _ _ _ Hxy). apply sameSlot_sym, Ky.
Qed.

Lemma sameKeys_map (f : Appointment.t -> Appointment.t) l :
  (forall a, Appointment._id (f a) = Appointment._id a
             /\ Appointment.sameSlot a (f a) = true) ->
  sameKeys l (map f l).
Proof.
  intros Hf. induction l as [|a l IH]; cbn; constructor; auto.
  destruct (Hf a) as [E K]. split; [symmetry; exact E|exact K].
Qed.

Lemma sameKeys_updateFirst p (f : Appointment.t -> Appointment.t) l :
  (forall a, Appointment._id (f a) = Appointment._id a
             /\ Appointment.sameSlot a (f a) = true) ->
  sameKeys l (queueService.updateFirst p f l).
Proof.
  intros Hf. induction l as [|a l IH]; cbn; [constructor|].
  destruct (p a).
  - constructor.
    + destruct (Hf a) as [E K]. split; [symmetry; exact E|exact K].
    + clear. induction l; constructor; auto. split; [reflexivity|apply sameSlot_refl].
  - constructor; [split; [reflexivity|apply sameSlot_refl]|exact IH].
Qed.

Lemma createAppointment_slotIndex mk :
  (forall id, Appointment._id (mk id) = id) ->
  preserves slotIndexHolds (createAppointment mk).
Proof.
  intros Hid s (H1 & H2 & H3). unfold after, createAppointment.
  destruct (negb (validAppointment (mk (nextId s)))); [repeat split; assumption|].
  destruct (slotHeld (mk (nextId s)) (appointments s)) eqn:Hheld;
    [repeat split; assumption|].
  unfold slotHeld in Hheld.
  assert (Hfree : forall b, In b (appointments s) ->
                    Appointment.sameSlot (mk (nextId s)) b = false).
  { intros b Hb. destruct (Appointment.sameSlot (mk (nextId s)) b) eqn:E; auto.
    assert (existsb (Appointment.sameSlot (mk (nextId s))) (appointments s) = true)
      by (apply existsb_exists; exists b; auto).
    congruence. }
  unfold slotIndexHolds. cbn. split; [|split].
  - rewrite map_app. cbn. rewrite Hid.
    apply NoDup_app; [exact H1 | repeat constructor; intros [] | ].
    intros x Hx [E|[]]. apply in_map_iff in Hx.
    destruct Hx as (a & Ea & Ha). specialize (H2 a Ha). lia.
  - intros a Ha. apply in_app_or in Ha. destruct Ha as [Ha|[<-|[]]].
    + specialize (H2 a Ha). lia.
    + rewrite Hid. lia.
  - intros a b Ha Hb Hab.
    apply in_app_or in Ha. apply in_app_or in Hb.
    destruct Ha as [Ha|[<-|[]]]; destruct Hb as [Hb|[<-|[]]].
    + apply H3; auto.
    + apply sameSlot_sym in Hab. rewrite (Hfree a Ha) in Hab. discriminate.
    + rewrite (Hfree b Hb) in Hab. discriminate.
    + reflexivity.
Qed.

Lemma in_replaceAppointment a l x :
  In x (replaceAppointment a l) ->
  (x = a /\ exists x0, In x0 l /\ Appointment._id x0 = Appointment._id a)
  \/ (In x l /\ Appointment._id x <> Appointment._id a).
Proof.
  unfold replaceAppointment. intros Hx. apply in_map_iff in Hx.
  destruct Hx as (x0 & E & Hx0).
  destruct (Nat.eqb_spec (Appointment._id x0) (Appointment._id a)) as [Eid|Nid].
  - left. subst x. split; [reflexivity|]. exists x0. auto.
  - right. subst x. auto.
Qed.

Lemma replaceAppointment_ids a l :
  map Appointment._id (replaceAppointment a l) = map Appointment._id l.
Proof.
  unfold replaceAppointment. induction l as [|b l IH]; cbn; [reflexivity|].
  rewrite IH.
  destruct (Nat.eqb_spec (Appointment._id b) (Appointment._id a)) as [E|_];
    [rewrite E|]; reflexivity.
Qed.

Lemma findAppointment_some id s a :
  findAppointment id s = Some a ->
  In a (appointments s) /\ Appointment._id a = id.
Proof.
  unfold findAppointment. intros H. apply find_some in H.
  rewrite Nat.eqb_eq in H. exact H.
Qed.

Lemma findAppointment_none id s x :
  findAppointment id s = None -> In x (appointments s) ->
  Appointment._id x <> id.
Proof.
  unfold findAppointment. intros H Hx E.
  pose proof (find_none _ _ H x Hx) as K. cbn in K.
  rewrite E, Nat.eqb_refl in K. discriminate.
Qed.

Lemma saveAppointment_slotIndex a :
  preserves slotIndexHolds (saveAppointment a).
Proof.
  intros s Hinv. pose proof Hinv as (H1 & H2 & H3).
  unfold after, saveAppointment.
  destruct (negb (validAppointment a)); [exact Hinv|].
  destruct (slotChanged a s && slotTaken a (appointments s)) eqn:Hchk;
    [exact Hinv|].
  unfold slotIndexHolds. cbn. rewrite replaceAppointment_ids.
  split; [exact H1|]. split.
  - intros x Hx. apply in_replaceAppointment in Hx.
    destruct Hx as [[-> (x0 & Hx0 & E)]|[Hx _]].
    + rewrite <- E. apply H2, Hx0.
    + apply H2, Hx.
  - assert (Hclash : forall y, In y (appointments s) ->
                Appointment._id y <> Appointment._id a ->
                (exists x0, In x0 (appointments s)
                            /\ Appointment._id x0 = Appointment._id a) ->
                Appointment.sameSlot a y = true -> False).
    { intros y Hy Ny (x0 & Hx0 & Ex0) Hay.
      assert (Htaken : slotTaken a (appointments s) = true).
      { unfold slotTaken. apply existsb_exists. exists y. split; [exact Hy|].
        rewrite Hay, andb_true_r. apply negb_true_iff, Nat.eqb_neq, Ny. }
      rewrite Htaken, andb_true_r in Hchk. unfold slotChanged in Hchk.
      destruct (findAppointment (Appointment._id a) s) as [old|] eqn:Hold.
      - apply negb_false_iff in Hchk.
        apply findAppointment_some in Hold. destruct Hold as [Hin Eold].
        apply Ny. rewrite <- Eold. symmetry. apply H3; auto.
        apply (sameSlot_trans _ _ _ Hchk Hay).
      - apply (findAppointment_none _ _ x0 Hold Hx0 Ex0). }
    intros x y Hx Hy Hxy.
    apply in_replaceAppointment in Hx. apply in_replaceAppointment in Hy.
    destruct Hx as [[-> Hxa]|[Hx Nx]]; destruct Hy as [[-> Hya]|[Hy Ny]].
    + reflexivity.
    + exfalso. apply (Hclash y Hy Ny Hxa Hxy).
    + exfalso. apply (Hclash x Hx Nx Hya). apply sameSlot_sym, Hxy.
    + apply H3; auto.
Qed.

Lemma completeTodaysAppointment_slotIndex u d t :
  preserves slotIndexHolds (queueService.completeTodaysAppointment u d t).
Proof.
  intros s H. unfold after, queueService.completeTodaysAppointment, modify.
  apply (slotIndex_sameKeys s); [|cbn; lia|exact H]. cbn.
  apply sameKeys_updateFirst. intros a.
  split; [reflexivity|exact (sameSlot_refl a)].
Qed.

Lemma markSent_slotIndex rt id at_ :
  preserves slotIndexHolds (DoctorReminderService.markSent rt id at_).
Proof.
  intros s H. unfold after, DoctorReminderService.markSent, modify.
  apply (slotIndex_sameKeys s); [|cbn; lia|exact H]. cbn.
  apply sameKeys_map. intros a.
  destruct (Nat.eqb (Appointment._id a) id); [|split; [reflexivity|apply sameSlot_refl]].
  destruct rt; split; try reflexivity; exact (sameSlot_refl a).
Qed.

Lemma performDbOperations_slotIndex d :
  preserves slotIndexHolds (walletService.performDbOperations d).
Proof.
  intros s H. unfold after. rewrite performDbOperations_eq.
  destruct (walletService.findWallet (walletService.userId d) s) as [w|];
    [|exact H].
  destruct (overdraws d w); [exact H|].
  destruct (wellFormed d);
    [|unfold refused; destruct (PrimFloat.is_nan _); [exact H|]];
    apply (slotIndex_frame s); [reflexivity|cbn; lia|exact H| | |];
    first [reflexivity|cbn; lia|exact H].
Qed.

(** A write outside the appointments keeps the index. *)
Ltac slot_write :=
  match goal with
  | |- preserves slotIndexHolds _ =>
      let s := fresh "s" in
      let H := fresh "H" in
      intros s H; unfold after;
      unfold createNotification, createQueueItem, modify,
        walletRoutes.saveRedeemCode, queueService.leaveQueue,
        queueService.setQueueStatus, queueService.removePatientFromQueue;
      repeat match goal with
             | |- context [if ?b then _ else _] => destruct b
             end;
      first [ exact H
            | apply (slotIndex_frame s); [reflexivity|cbn; lia|exact H] ]
  end.

Ltac slot_step :=
  first [ apply performDbOperations_slotIndex
        | apply saveAppointment_slotIndex
        | apply completeTodaysAppointment_slotIndex
        | apply markSent_slotIndex
        | apply createAppointment_slotIndex; intros; reflexivity
        | slot_write ].

Lemma sendDoctorReminder_slotIndex env c rt :
  preserves slotIndexHolds (DoctorReminderService.sendDoctorReminder env c rt).
Proof.
  unfold DoctorReminderService.sendDoctorReminder.
  preserve_with slot_step.
Qed.

(** Each operation keeps the unique index. *)
Lemma run_slotIndex op s : slotIndexHolds s -> slotIndexHolds (run op s).
Proof.
  intros H. destruct op; cbn [run].
  - unfold after, walletService.getOrCreateWallet.
    destruct (walletService.findWallet userId s); [exact H|].
    apply (slotIndex_frame s); [reflexivity|cbn; lia|exact H].
  - unfold walletRoutes.deposit. handler_cases H.
    unfold walletService.createTransactionAndUpdateWallet.
    preserve_with slot_step.
  - unfold walletRoutes.redeemCode. handler_cases H.
    unfold walletService.createTransactionAndUpdateWallet.
    preserve_with slot_step.
  - unfold walletRoutes.addFunds. handler_cases H.
    unfold walletService.createTransactionAndUpdateWallet.
    preserve_with slot_step.
  - unfold appointmentsRoutes.bookAppointment. handler_cases H.
    unfold appointmentsRoutes.bookingTransaction,
      appointmentsRoutes.bookingChecks,
      walletService.createTransactionAndUpdateWallet.
    preserve_with slot_step.
  - unfold appointmentsRoutes.updateAppointment. handler_cases H.
    unfold appointmentsRoutes.updateTransaction,
      walletService.createTransactionAndUpdateWallet.
    preserve_with slot_step.
  - unfold appointmentsRoutes.resolveCancellation. handler_cases H.
    unfold appointmentsRoutes.resolveTransaction,
      walletService.createTransactionAndUpdateWallet.
    preserve_with slot_step.
  - unfold appointmentsRoutes.doctorCancel. handler_cases H.
    preserve_with slot_step.
  - unfold appointmentsRoutes.reschedule. handler_cases H.
    unfold appointmentsRoutes.rescheduleTransaction. preserve_with slot_step.
  - unfold appointmentsRoutes.updateStatus. handler_cases H.
    preserve_with slot_step.
  - handler_cases H. unfold queueService.joinQueue. preserve_with slot_step.
  - handler_cases H. preserve_with slot_step.
  - handler_cases H. unfold queueService.callNextPatient.
    preserve_with slot_step.
  - handler_cases H. unfold queueService.holdPatient.
    preserve_with slot_step.
  - handler_cases H. unfold queueService.requeuePatient.
    preserve_with slot_step.
  - handler_cases H. unfold queueService.checkInAppointment.
    preserve_with slot_step.
  - handler_cases H. preserve_with slot_step.
  - handler_cases H. unfold DoctorReminderService.processReminders.
    apply preserves_bind; [apply preserves_gets|intros].
    apply remindEach_preserves. intros. apply sendDoctorReminder_slotIndex.
Qed.

Lemma runAll_slotIndex ops :
  forall s, slotIndexHolds s -> slotIndexHolds (runAll ops s).
Proof.
  unfold runAll. induction ops as [|op ops IH]; intros s H; cbn; [exact H|].
  apply IH, run_slotIndex, H.
Qed.

Lemma held_slot_asked req b target c id :
  asksSlotOf req b -> doctorId req = Some (ctxDoctorId c) ->
  Appointment.sameSlot (newAppointment target req c id) b = true.
Proof.
  intros (Hd & Hdate & Htime) Hc. apply sameSlot_spec. cbn.
  rewrite Hd in Hc. inversion Hc. auto.
Qed.

Lemma slotHeld_in a l b :
  In b l -> Appointment.sameSlot a b = true -> slotHeld a l = true.
Proof.
  intros Hb Hab. unfold slotHeld. apply existsb_exists. exists b. auto.
Qed.

(** A booking that asks for a slot some stored appointment holds never
    creates anything. *)
Lemma held_slot_is_never_booked env reqUser req s b :
  In b (appointments s) -> asksSlotOf req b ->
  statusCode (fst (bookAppointment env reqUser req s)) <> 201
  /\ snd (bookAppointment env reqUser req s) = s.
Proof.
  intros Hb Hask.
  destruct (bookAppointment_cases env reqUser req s)
    as [H|(target & a & Ht & Hbook & Hr)]; [exact H|exfalso].
  apply bookingTransaction_Ok in Hbook.
  destruct Hbook as (c & s1 & w1 & Hc & Ea & _ & Hfree & _).
  pose proof (bookingChecks_appointments _ _ _ _ _ _ _ Hc) as [Happ _].
  apply bookingChecks_Ok in Hc. destruct Hc as (Hd & _).
  rewrite Happ in Hfree.
  rewrite (slotHeld_in a _ b Hb) in Hfree; [discriminate|].
  subst a. apply held_slot_asked; assumption.
Qed.

(** ... and when it gets as far as the insert, the answer is [409]: from
    one of the two conflict checks made before the transaction, or from the
    index refusing the insert. *)
Lemma held_slot_conflict env reqUser req s b :
  In b (appointments s) -> asksSlotOf req b ->
  reachesInsert env reqUser req s ->
  statusCode (fst (bookAppointment env reqUser req s)) = 409
  /\ (forall target,
        targetUser reqUser req = inr target ->
        existingExact target req s = None ->
        softConflict env target req s = None ->
        fst (bookAppointment env reqUser req s)
        = respond 409 (BError slotJustBooked)).
Proof.
  intros Hb Hask (target & c & s1 & Ht & Hc & Hv).
  assert (Hthrow : bookingTransaction env reqUser target req s
                   = Throw duplicateKeyError s1).
  { unfold bookingTransaction, bind. rewrite Hc.
    unfold createAppointment. rewrite Hv. cbn [negb].
    pose proof (bookingChecks_appointments _ _ _ _ _ _ _ Hc) as [Happ _].
    pose proof (bookingChecks_Ok _ _ _ _ _ _ _ Hc) as (Hd & _).
    rewrite Happ, (slotHeld_in _ _ b Hb); [reflexivity|].
    apply held_slot_asked; assumption. }
  unfold bookAppointment. rewrite Ht. split.
  - destruct (existingExact target req s); [reflexivity|].
    destruct (softConflict env target req s) as [[appt diff]|]; [reflexivity|].
    rewrite handle_transaction, Hthrow. reflexivity.
  - intros target' Ht' He Hs. inversion Ht'; subst target'.
    rewrite He, Hs, handle_transaction, Hthrow. reflexivity.
Qed.

Lemma filter_at_most_one {A} (f : A -> nat) (p : A -> bool) (l : list A) :
  NoDup (map f l) ->
  (forall x y, In x l -> In y l -> p x = true -> p y = true -> f x = f y) ->
  List.length (filter p l) <= 1.
Proof.
  induction l as [|x l IH]; cbn; intros Hnd Hsame; [lia|].
  inversion Hnd as [|? ? Hnotin Hnd']; subst.
  destruct (p x) eqn:Hpx.
  - assert (Hnil : filter p l = []).
    { destruct (filter p l) as [|y r] eqn:Hf; [reflexivity|exfalso].
      assert (Hy : In y (filter p l)) by (rewrite Hf; left; reflexivity).
      apply filter_In in Hy. destruct Hy as [Hy Hpy].
      apply Hnotin. rewrite (Hsame x y); auto.
      apply in_map, Hy. }
    rewrite Hnil. cbn. lia.
  - apply IH; [exact Hnd'|]. intros y z Hy Hz. apply Hsame; auto.
Qed.

Lemma slotIndex_at_most_one_upcoming s doctor date time :
  slotIndexHolds s -> List.length (upcomingAt doctor date time s) <= 1.
Proof.
  intros (H1 & _ & H3). unfold upcomingAt.
  apply (filter_at_most_one Appointment._id); [exact H1|].
  intros x y Hx Hy Hpx Hpy. apply H3; auto.
  rewrite !andb_true_iff in Hpx, Hpy.
  destruct Hpx as [[[Dx Tx] Mx] _]. destruct Hpy as [[[Dy Ty] My] _].
  apply Nat.eqb_eq in Dx, Dy. apply String.eqb_eq in Tx, Ty, Mx, My.
  apply sameSlot_spec. repeat split; congruence.
Qed.

(** C2.  From a store in which the unique index holds (such as one without
    appointments yet), after any sequence of operations: for every doctor,
    date and time there is at most one [Upcoming] appointment; and a booking
    request for the doctor, date and time of a stored [Upcoming] appointment
    creates nothing, leaves the store as it was, and, when it passes every
    check that precedes the insert, is answered [409 Conflict]. *)
Theorem no_double_booking (ops : list Operation) (s0 : Store) :
  slotIndexHolds s0 ->
  (forall doctor date time,
     List.length (upcomingAt doctor date time (runAll ops s0)) <= 1)
  /\ (forall env reqUser req b,
        In b (appointments (runAll ops s0)) ->
        Appointment.status b = Upcoming ->
        asksSlotOf req b ->
        statusCode (fst (bookAppointment env reqUser req (runAll ops s0))) <> 201
        /\ snd (bookAppointment env reqUser req (runAll ops s0)) = runAll ops s0
        /\ (reachesInsert env reqUser req (runAll ops s0) ->
            statusCode (fst (bookAppointment env reqUser req (runAll ops s0)))
            = 409)).
Proof.
  intros H0. pose proof (runAll_slotIndex ops s0 H0) as H. split.
  - intros. apply slotIndex_at_most_one_upcoming, H.
  - intros env reqUser req b Hb _ Hask.
    destruct (held_slot_is_never_booked env reqUser req _ b Hb Hask) as [N E].
    split; [exact N|]. split; [exact E|].
    intros Hr. apply (held_slot_conflict env reqUser req _ b Hb Hask Hr).
Qed.

(** ** A slot stays taken while its appointment stays in place *)

Section Held.

Variable b0 : Appointment.t.

Lemma held_step {A} (m : DB A) :
  preserves slotIndexHolds m ->
  (forall s, slotIndexHolds s -> stillHolds b0 s -> stillHolds b0 (after m s)) ->
  preserves (heldInPlace b0) m.
Proof.
  intros Hi Hs s [H S]. split; [apply Hi, H|apply Hs; assumption].
Qed.

Lemma stillHolds_frame s s' :
  appointments s' = appointments s -> stillHolds b0 s -> stillHolds b0 s'.
Proof. intros E (b & Hb & K). exists b. rewrite E. auto. Qed.

Lemma sameKeys_forth l l' b :
  sameKeys l l' -> In b l ->
  exists b', In b' l' /\ Appointment._id b' = Appointment._id b
             /\ Appointment.sameSlot b b' = true.
Proof.
  unfold sameKeys. induction 1 as [|x y l l' [E K] _ IH]; [intros []|].
  intros [<-|Hb].
  - exists y. split; [left; reflexivity|]. split; [congruence|exact K].
  - destruct (IH Hb) as (b' & Hb' & K'). exists b'.
    split; [right; exact Hb'|exact K'].
Qed.

Lemma stillHolds_sameKeys s s' :
  sameKeys (appointments s) (appointments s') ->
  stillHolds b0 s -> stillHolds b0 s'.
Proof.
  intros Hk (b & Hb & Eid & Hs).
  destruct (sameKeys_forth _ _ b Hk Hb) as (b' & Hb' & E' & K').
  exists b'. split; [exact Hb'|]. split; [congruence|].
  apply (sameSlot_trans _ _ _ Hs K').
Qed.

(** The appointment a search finds, in a store where [b0] is held in place,
    has the slot of [b0] if it has its identifier. *)
Lemma found_akin p s appt :
  heldInPlace b0 s -> find p (appointments s) = Some appt -> akin b0 appt.
Proof.
  intros H Hf E. destruct H as [(Hnd & _ & _) (b & Hb & Eid & Hs)].
  apply find_some in Hf. destruct Hf as [Hin _].
  assert (appt = b).
  { rewrite <- Eid in E. clear - Hnd Hin Hb E.
    induction (appointments s) as [|x l IH]; [destruct Hin|].
    cbn in Hnd. inversion Hnd as [|? ? Hx Hl]; subst.
    destruct Hin as [<-|Hin]; destruct Hb as [<-|Hb]; auto.
    - exfalso. apply Hx. rewrite E. apply in_map, Hb.
    - exfalso. apply Hx. rewrite <- E. apply in_map, Hin. }
  subst. exact Hs.
Qed.

Lemma held_bind_search {B} p (f : option Appointment.t -> DB B) :
  (forall appt, akin b0 appt -> preserves (heldInPlace b0) (f (Some appt))) ->
  preserves (heldInPlace b0) (f None) ->
  preserves (heldInPlace b0)
    (bind (gets (fun s => find p (appointments s))) f).
Proof.
  intros Hsome Hnone s H. unfold after, bind, gets.
  destruct (find p (appointments s)) as [appt|] eqn:Hf.
  - apply (Hsome appt (found_akin p s appt H Hf) s H).
  - apply (Hnone s H).
Qed.

Lemma held_bind_find {B} id (f : option Appointment.t -> DB B) :
  (forall appt, akin b0 appt -> preserves (heldInPlace b0) (f (Some appt))) ->
  preserves (heldInPlace b0) (f None) ->
  preserves (heldInPlace b0) (bind (gets (findAppointment id)) f).
Proof. apply held_bind_search. Qed.

Lemma saveAppointment_held a :
  akin b0 a -> preserves (heldInPlace b0) (saveAppointment a).
Proof.
  intros Ha. apply held_step; [apply saveAppointment_slotIndex|].
  intros s _ (b & Hb & Eid & Hs). unfold after, saveAppointment.
  destruct (negb (validAppointment a)); [exists b; auto|].
  destruct (slotChanged a s && slotTaken a (appointments s));
    [exists b; auto|].
  cbn [appointments set_appointments]. unfold replaceAppointment.
  destruct (Nat.eqb_spec (Appointment._id b) (Appointment._id a)) as [E|N].
  - exists a. split.
    + apply in_map_iff. exists b. split; [|exact Hb].
      rewrite E, Nat.eqb_refl. reflexivity.
    + split; [congruence|]. apply Ha. congruence.
  - exists b. split; [|auto].
    apply in_map_iff. exists b. split; [|exact Hb].
    apply Nat.eqb_neq in N. rewrite N. reflexivity.
Qed.

Lemma createAppointment_held mk :
  (forall id, Appointment._id (mk id) = id) ->
  preserves (heldInPlace b0) (createAppointment mk).
Proof.
  intros Hid. apply held_step; [apply createAppointment_slotIndex, Hid|].
  intros s _ (b & Hb & K). unfold after, createAppointment.
  destruct (negb (validAppointment (mk (nextId s)))); [exists b; auto|].
  destruct (slotHeld (mk (nextId s)) (appointments s)); [exists b; auto|].
  exists b. split; [|exact K]. cbn. apply in_or_app. left. exact Hb.
Qed.

Lemma completeTodaysAppointment_held u d t :
  preserves (heldInPlace b0) (queueService.completeTodaysAppointment u d t).
Proof.
  apply held_step; [apply completeTodaysAppointment_slotIndex|].
  intros s _. apply stillHolds_sameKeys.
  unfold after, queueService.completeTodaysAppointment, modify. cbn.
  apply sameKeys_updateFirst. intros a.
  split; [reflexivity|exact (sameSlot_refl a)].
Qed.

Lemma markSent_held rt id at_ :
  preserves (heldInPlace b0) (DoctorReminderService.markSent rt id at_).
Proof.
  apply held_step; [apply markSent_slotIndex|].
  intros s _. apply stillHolds_sameKeys.
  unfold after, DoctorReminderService.markSent, modify. cbn.
  apply sameKeys_map. intros a.
  destruct (Nat.eqb (Appointment._id a) id); [|split; [reflexivity|apply sameSlot_refl]].
  destruct rt; split; try reflexivity; exact (sameSlot_refl a).
Qed.

Lemma performDbOperations_held d :
  preserves (heldInPlace b0) (walletService.performDbOperations d).
Proof.
  apply held_step; [apply performDbOperations_slotIndex|].
  intros s _ S. unfold after. rewrite performDbOperations_eq.
  destruct (walletService.findWallet (walletService.userId d) s) as [w|];
    [|exact S].
  destruct (overdraws d w); [exact S|].
  destruct (wellFormed d);
    [|unfold refused; destruct (PrimFloat.is_nan _); [exact S|]];
    exact S.
Qed.

Lemma held_bind_found {B} (x : Appointment.t) (e : Error)
    (f : Appointment.t -> DB B) :
  preserves (heldInPlace b0) (f x) ->
  preserves (heldInPlace b0) (bind (appointmentsRoutes.orThrow (Some x) e) f).
Proof. intros H s Hs. exact (H s Hs). Qed.

Lemma held_bind_returning {A B} (R : A -> Prop) (m : DB A) (f : A -> DB B) :
  preserves (heldInPlace b0) m ->
  (forall s a s', m s = Ok a s' -> R a) ->
  (forall a, R a -> preserves (heldInPlace b0) (f a)) ->
  preserves (heldInPlace b0) (bind m f).
Proof.
  intros Hm Hr Hf s H. specialize (Hm s H).
  unfold after, bind in *. destruct (m s) as [a s'|e s'] eqn:E; [|exact Hm].
  apply (Hf a (Hr s a s' E) s' Hm).
Qed.

End Held.

Ltac held_write :=
  match goal with
  | |- preserves (heldInPlace ?b0) _ =>
      let s := fresh "s" in
      let H := fresh "H" in
      let S := fresh "S" in
      intros s [H S]; unfold after;
      unfold createNotification, createQueueItem, modify,
        walletRoutes.saveRedeemCode, queueService.leaveQueue,
        queueService.setQueueStatus, queueService.removePatientFromQueue;
      repeat match goal with
             | |- context [if ?b then _ else _] => destruct b
             end;
      first [ exact (conj H S)
            | split;
              [ apply (slotIndex_frame s); [reflexivity|cbn; lia|exact H]
              | exact S ] ]
  end.

Ltac akin_now :=
  match goal with
  | K : akin _ ?appt |- akin _ _ =>
      let E := fresh "E" in
      intros E; specialize (K E);
      unfold Appointment.sameSlot in *; cbn in *; exact K
  end.

Ltac held_step_tac :=
  first [ apply held_bind_find; [intros ? ?; cbv beta iota|cbv beta iota]
        | apply held_bind_search; [intros ? ?; cbv beta iota|cbv beta iota]
        | apply held_bind_found
        | apply performDbOperations_held
        | apply saveAppointment_held; akin_now
        | apply completeTodaysAppointment_held
        | apply markSent_held
        | apply createAppointment_held; intros; reflexivity
        | held_write ].

Lemma sendDoctorReminder_held b0 env c rt :
  preserves (heldInPlace b0) (DoctorReminderService.sendDoctorReminder env c rt).
Proof.
  unfold DoctorReminderService.sendDoctorReminder.
  preserve_with held_step_tac.
Qed.

Lemma updateTransaction_held b0 env reqUser id status :
  preserves (heldInPlace b0)
    (appointmentsRoutes.updateTransaction env reqUser id status).
Proof.
  unfold appointmentsRoutes.updateTransaction.
  apply held_bind_find; [intros appt K; cbv beta iota|cbv beta iota];
    [|preserve_with held_step_tac].
  apply held_bind_found.
  do 3 (apply preserves_bind; [apply preserves_gets|intros]).
  apply preserves_bind; [preserve_with held_step_tac|intros].
  do 2 (apply preserves_bind; [apply preserves_throwIf|intros]).
  apply (held_bind_returning b0 (akin b0)).
  - unfold walletService.createTransactionAndUpdateWallet.
    preserve_with held_step_tac.
  - intros s0 x s' E.
    destruct (_ && _) in E.
    + apply bind_Ok in E. destruct E as (h & s1 & _ & E).
      apply bind_Ok in E. destruct E as (u & s2 & _ & E).
      apply ret_Ok in E. destruct E as [-> _].
      intros Eid. specialize (K Eid).
      unfold Appointment.sameSlot in *. cbn in *. exact K.
    + apply ret_Ok in E. destruct E as [-> _].
      intros Eid. specialize (K Eid).
      unfold Appointment.sameSlot in *. cbn in *. exact K.
  - intros appt2 K2. preserve_with held_step_tac.
Qed.

Lemma run_held b0 op s :
  keepsInPlace op = true -> heldInPlace b0 s -> heldInPlace b0 (run op s).
Proof.
  intros Hop H. destruct op; cbn [run]; cbn [keepsInPlace] in Hop;
    try discriminate Hop.
  - unfold after, walletService.getOrCreateWallet.
    destruct (walletService.findWallet userId s); [exact H|].
    destruct H as [H S]. split; [|exact S].
    apply (slotIndex_frame s); [reflexivity|cbn; lia|exact H].
  - unfold walletRoutes.deposit. handler_cases H.
    unfold walletService.createTransactionAndUpdateWallet.
    preserve_with held_step_tac.
  - unfold walletRoutes.redeemCode. handler_cases H.
    unfold walletService.createTransactionAndUpdateWallet.
    preserve_with held_step_tac.
  - unfold walletRoutes.addFunds. handler_cases H.
    unfold walletService.createTransactionAndUpdateWallet.
    preserve_with held_step_tac.
  - unfold appointmentsRoutes.bookAppointment. handler_cases H.
    unfold appointmentsRoutes.bookingTransaction,
      appointmentsRoutes.bookingChecks,
      walletService.createTransactionAndUpdateWallet.
    preserve_with held_step_tac.
  - unfold appointmentsRoutes.updateAppointment. handler_cases H.
    preserve_with ltac:(apply updateTransaction_held).
  - destruct action; try discriminate Hop.
    unfold appointmentsRoutes.resolveCancellation. handler_cases H.
    unfold appointmentsRoutes.resolveTransaction,
      walletService.createTransactionAndUpdateWallet.
    preserve_with held_step_tac.
  - unfold appointmentsRoutes.doctorCancel. handler_cases H.
    preserve_with held_step_tac.
  - unfold appointmentsRoutes.updateStatus.
    destruct (findAppointment id s) as [appt|] eqn:Hf; [|exact H].
    pose proof (found_akin b0 _ s appt H Hf) as K.
    handler_cases H.
    preserve_with held_step_tac.
  - handler_cases H. unfold queueService.joinQueue. preserve_with held_step_tac.
  - handler_cases H. preserve_with held_step_tac.
  - handler_cases H. unfold queueService.callNextPatient.
    preserve_with held_step_tac.
  - handler_cases H. unfold queueService.holdPatient.
    preserve_with held_step_tac.
  - handler_cases H. unfold queueService.requeuePatient.
    preserve_with held_step_tac.
  - handler_cases H. unfold queueService.checkInAppointment.
    preserve_with held_step_tac.
  - handler_cases H. preserve_with held_step_tac.
  - handler_cases H. unfold DoctorReminderService.processReminders.
    apply preserves_bind; [apply preserves_gets|intros].
    apply remindEach_preserves. intros. apply sendDoctorReminder_held.
Qed.

Lemma runAll_held b0 ops :
  forall s, forallb keepsInPlace ops = true ->
            heldInPlace b0 s -> heldInPlace b0 (runAll ops s).
Proof.
  unfold runAll. induction ops as [|op ops IH]; intros s Hops H; cbn;
    [exact H|].
  cbn in Hops. apply andb_true_iff in Hops. destruct Hops as [Hop Hops].
  apply (IH _ Hops). apply run_held; assumption.
Qed.

Lemma held_slot_turnedAway env reqUser req s b :
  In b (appointments s) -> asksSlotOf req b -> turnedAway env reqUser req s.
Proof.
  intros Hb Hask.
  destruct (held_slot_is_never_booked env reqUser req s b Hb Hask) as [N E].
  split; [exact N|]. split; [exact E|].
  intros Hr. apply (held_slot_conflict env reqUser req s b Hb Hask Hr).
Qed.

(** C10, as the code has it.  The index covers every status: while an
    appointment is stored -- [Upcoming], [Cancelled], [Completed], [NoShow]
    or [DoctorCancelled] -- a booking request for its doctor, date and time,
    by any caller for any patient, is turned away: it creates nothing,
    leaves the store as it was, and is answered [409 Conflict] when it
    passes every check that precedes the insert.  And the appointment stays
    in place, whatever becomes of its status: from a store in which the
    index holds, after any sequence of operations among which there is
    neither a reschedule nor a redirecting or rescheduling resolution, an
    appointment with the same identifier, doctor, date and time is still
    stored, and the request is still turned away. *)
Theorem slot_blocked_whatever_the_status env reqUser req s b
    (status : AppointmentStatus) :
  In b (appointments s) ->
  Appointment.status b = status ->
  asksSlotOf req b ->
  turnedAway env reqUser req s
  /\ (slotIndexHolds s ->
      forall ops, forallb keepsInPlace ops = true ->
        (exists b', In b' (appointments (runAll ops s))
                    /\ Appointment._id b' = Appointment._id b
                    /\ asksSlotOf req b')
        /\ turnedAway env reqUser req (runAll ops s)).
Proof.
  intros Hb _ Hask.
  split; [exact (held_slot_turnedAway env reqUser req s b Hb Hask)|].
  intros Hidx ops Hops.
  assert (H0 : heldInPlace b s).
  { split; [exact Hidx|]. exists b. split; [exact Hb|].
    split; [reflexivity|apply sameSlot_refl]. }
  destruct (runAll_held b ops s Hops H0) as [_ (b' & Hb' & Eid & Hs)].
  assert (Hask' : asksSlotOf req b').
  { apply sameSlot_spec in Hs. destruct Hs as (E1 & E2 & E3).
    destruct Hask as (A1 & A2 & A3). unfold asksSlotOf.
    rewrite <- E1, <- E2, <- E3. auto. }
  split; [exists b'; auto|].
  exact (held_slot_turnedAway env reqUser req _ b' Hb' Hask').
Qed.

Lemma slot_blocked_whatever_the_status_witness :
  let req := Sample.request "2026-03-12" "10:00 AM" in
  let later :=
    runAll [ OpDoctorCancel Sample.env Sample.doctorX 20;
             OpResolve Sample.env Sample.patientA 20 ActRefund None None;
             OpUpdateStatus 20 Completed ] Sample.cancelled in
  In (Sample.slot Cancelled true) (appointments Sample.cancelled)
  /\ Appointment.status (Sample.slot Cancelled true) = Cancelled
  /\ asksSlotOf req (Sample.slot Cancelled true)
  /\ slotIndexHolds Sample.cancelled
  /\ reachesInsert Sample.env Sample.patientB req Sample.cancelled
  /\ statusCode (fst (bookAppointment Sample.env Sample.patientB req
                        Sample.cancelled)) = 409
  /\ map Appointment.status (appointments later) = [Completed]
  /\ turnedAway Sample.env Sample.patientB req later.
Proof.
  intros req later.
  assert (H1 : In (Sample.slot Cancelled true) (appointments Sample.cancelled))
    by (vm_compute; left; reflexivity).
  assert (H2 : Appointment.status (Sample.slot Cancelled true) = Cancelled)
    by reflexivity.
  assert (H3 : asksSlotOf req (Sample.slot Cancelled true))
    by (repeat split).
  assert (H4 : reachesInsert Sample.env Sample.patientB req Sample.cancelled).
  { unfold reachesInsert. do 3 eexists.
    split; [vm_compute; reflexivity|].
    split; vm_compute; reflexivity. }
  assert (H5 : slotIndexHolds Sample.cancelled).
  { unfold slotIndexHolds.
    change (appointments Sample.cancelled) with [Sample.slot Cancelled true].
    split; [repeat constructor; intros []|]. split.
    - intros a [<-|[]]. vm_compute. lia.
    - intros a b' [<-|[]] [<-|[]] _. reflexivity. }
  destruct (slot_blocked_whatever_the_status Sample.env Sample.patientB req
              Sample.cancelled (Sample.slot Cancelled true) Cancelled
              H1 H2 H3) as [Hnow Hlater].
  split; [exact H1|]. split; [exact H2|]. split; [exact H3|].
  split; [exact H5|]. split; [exact H4|].
  split; [exact (proj1 (proj2 (proj2 Hnow) H4))|].
  split; [vm_compute; reflexivity|].
  exact (proj2 (Hlater H5
                  [ OpDoctorCancel Sample.env Sample.doctorX 20;
                    OpResolve Sample.env Sample.patientA 20 ActRefund None
                      None;
                    OpUpdateStatus 20 Completed ] eq_refl)).
Defined.

(** C10, the claim as stated fails: the block is not permanent.  Amal's
    cancelled appointment holds Dr. X's slot of the 12th at 10:00 AM, and
    Bilal's request for it is answered [409].  The reschedule route, which
    looks at no status, moves the cancelled appointment to the 13th; Bilal's
    same request is then answered [201]. *)
Lemma moved_appointment_frees_its_slot :
  let req := Sample.request "2026-03-12" "10:00 AM" in
  let op := OpReschedule Sample.env 20 "2026-03-13" "9:30 AM" in
  map (fun a => (Appointment.doctor a, Appointment.date a,
                 Appointment.time a, Appointment.status a))
      (appointments Sample.cancelled)
  = [(2, "2026-03-12", "10:00 AM", Cancelled)]
  /\ statusCode (fst (bookAppointment Sample.env Sample.patientB req
                        Sample.cancelled)) = 409
  /\ statusCode (fst (bookAppointment Sample.env Sample.patientB req
                        (run op Sample.cancelled))) = 201
  /\ ~ (forall ops,
          statusCode (fst (bookAppointment Sample.env Sample.patientB req
                             (runAll ops Sample.cancelled))) <> 201).
Proof.
  cbv zeta.
  split; [vm_compute; reflexivity|]. split; [vm_compute; reflexivity|].
  split; [vm_compute; reflexivity|].
  intros K.
  apply (K [OpReschedule Sample.env 20 "2026-03-13" "9:30 AM"]).
  vm_compute. reflexivity.
Qed.

Lemma slotIndex_initial s : appointments s = [] -> slotIndexHolds s.
Proof.
  intros E. unfold slotIndexHolds. rewrite E. cbn.
  split; [constructor|]. split; [intros ? []|intros ? ? []].
Qed.



Lemma no_double_booking_witness :
  slotIndexHolds Sample.store
  /\ (forall doctor date time,
        List.length (upcomingAt doctor date time
                       (runAll Sample.day Sample.store)) <= 1)
  /\ (forall env reqUser req b,
        In b (appointments (runAll Sample.day Sample.store)) ->
        Appointment.status b = Upcoming ->
        asksSlotOf req b ->
        statusCode (fst (bookAppointment env reqUser req
                           (runAll Sample.day Sample.store))) <> 201
        /\ snd (bookAppointment env reqUser req
                  (runAll Sample.day Sample.store))
           = runAll Sample.day Sample.store
        /\ (reachesInsert env reqUser req (runAll Sample.day Sample.store) ->
            statusCode (fst (bookAppointment env reqUser req
                               (runAll Sample.day Sample.store))) = 409)).
Proof.
  assert (H : slotIndexHolds Sample.store)
    by (apply slotIndex_initial; reflexivity).
  split; [exact H|].
  exact (no_double_booking Sample.day Sample.store H).
Defined.

(** A second booking of the slot patient A holds, by patient B: it reaches
    the insert and is answered [409]. *)
Example scenario_second_booking_conflicts :
  reachesInsert Sample.env Sample.patientB
    (Sample.request "2026-03-12" "10:00 AM") Sample.booked
  /\ bookAppointment Sample.env Sample.patientB
       (Sample.request "2026-03-12" "10:00 AM") Sample.booked
     = (respond 409 (BError slotJustBooked), Sample.booked).
Proof.
  split; [|vm_compute; reflexivity].
  unfold reachesInsert. do 3 eexists.
  split; [vm_compute; reflexivity|].
  split; [vm_compute; reflexivity|vm_compute; reflexivity].
Qed.

(** ** Cancellation by the patient *)

Arguments walletService.createTransactionAndUpdateWallet : simpl never.
Arguments saveAppointment : simpl never.
Arguments createNotification : simpl never.
Arguments policyRefund : simpl never.
Arguments cancellationRefund : simpl never.
Arguments apologyRefund : simpl never.

Lemma find_replaceAppointment id l appt a' :
  find (fun a => Nat.eqb (Appointment._id a) id) l = Some appt ->
  Appointment._id a' = Appointment._id appt ->
  find (fun a => Nat.eqb (Appointment._id a) id) (replaceAppointment a' l)
  = Some a'.
Proof.
  intros Hf E. unfold replaceAppointment.
  assert (Eid : Appointment._id appt = id).
  { apply find_some in Hf. apply Nat.eqb_eq, Hf. }
  induction l as [|x l IH]; cbn in *; [discriminate|].
  destruct (Nat.eqb (Appointment._id x) id) eqn:Hx.
  - inversion Hf; subst x. rewrite E, Nat.eqb_refl. cbn.
    rewrite E, Eid, Nat.eqb_refl. reflexivity.
  - destruct (Nat.eqb_spec (Appointment._id x) (Appointment._id a')) as [K|_].
    + rewrite E, Eid in K. apply Nat.eqb_neq in Hx. contradiction.
    + cbn. rewrite Hx. apply IH, Hf.
Qed.

(** A save that leaves the indexed fields alone goes through. *)
Lemma saveAppointment_same_slot a appt s :
  findAppointment (Appointment._id a) s = Some appt ->
  Appointment.sameSlot appt a = true ->
  validAppointment a = true ->
  saveAppointment a s
  = Ok tt (set_appointments (replaceAppointment a (appointments s)) s).
Proof.
  intros Hf Hs Hv. unfold saveAppointment, slotChanged.
  rewrite Hv, Hf, Hs. reflexivity.
Qed.

Lemma updateAppointment_unfold env reqUser id status s :
  updateAppointment env reqUser id status s
  = match updateTransaction env reqUser id status s with
    | Ok populatedAppt s1 =>
        (respond 200 (match populatedAppt with
                      | Some a => BAppointment a
                      | None => BNull
                      end), s1)
    | Throw e _ => (updateError e, s)
    end.
Proof. unfold updateAppointment. apply handle_transaction. Qed.

Lemma updateError_not_ok e : statusCode (updateError e) <> 200.
Proof.
  unfold updateError.
  destruct (JS.includes "Not authorized" (message e)
            || JS.includes "can only cancel" (message e));
    [cbn; discriminate|].
  destruct (JS.includes "not found" (message e)); cbn; discriminate.
Qed.

Lemma cancel_eval_no_refund env reqUser id s appt h :
  User.role reqUser = Patient ->
  findAppointment id s = Some appt ->
  Appointment.user appt = User._id reqUser ->
  findHospital (Appointment.hospital appt) s = Some h ->
  validAppointment appt = true ->
  negb (Appointment.isRefunded appt)
  && (0 <? policyRefund (Appointment.cost appt)
                        (Hospital.refundPolicyPercentage h))%float = false ->
  updateTransaction env reqUser id Cancelled s
  = Ok (Some (Appointment.set_isRefunded true
                (Appointment.set_status Cancelled appt)))
       (after (createNotification env (Appointment.user appt) "appointment"
                 "Appointment Cancelled")
              (set_appointments
                 (replaceAppointment
                    (Appointment.set_isRefunded true
                       (Appointment.set_status Cancelled appt))
                    (appointments s)) s)).
Proof.
  intros Hrole Hfind Huser Hhosp Hv Hno.
  assert (Eid : Appointment._id appt = id)
    by (apply findAppointment_some in Hfind; apply Hfind).
  assert (Hown : Nat.eqb (Appointment.user appt) (User._id reqUser) = true)
    by (rewrite Huser; apply Nat.eqb_refl).
  unfold updateTransaction, bind, gets, orThrow, ret, throwIf, throw.
  rewrite Hfind, Hhosp, Hrole, Hown. cbn.
  destruct (Appointment.isRefunded appt) eqn:Href; cbn.
  - set (a' := Appointment.set_isRefunded true
                 (Appointment.set_status Cancelled appt)).
    replace (Appointment.set_status Cancelled appt) with a'
      by (unfold a'; destruct appt; cbn in *; subst; reflexivity).
    rewrite (saveAppointment_same_slot _ appt); cbn; try assumption;
      [|rewrite Eid; exact Hfind|exact (sameSlot_refl appt)].
    unfold after.
    destruct (createNotification env _ _ _ _) as [b s1|e s1] eqn:Hn.
    + apply createNotification_Ok in Hn. destruct Hn as (_ & _ & Ha & _).
      unfold findAppointment. rewrite Ha. cbn. rewrite Eid.
      rewrite (find_replaceAppointment id _ appt); [|exact Hfind|reflexivity].
      reflexivity.
    + unfold createNotification in Hn.
      destruct (_ && _) in Hn; discriminate.
  - cbn in Hno. rewrite Hno. cbn.
    rewrite (saveAppointment_same_slot _ appt); cbn; try assumption;
      [|rewrite Eid; exact Hfind|exact (sameSlot_refl appt)].
    unfold after.
    destruct (createNotification env _ _ _ _) as [b s1|e s1] eqn:Hn.
    + apply createNotification_Ok in Hn. destruct Hn as (_ & _ & Ha & _).
      unfold findAppointment. rewrite Ha. cbn. rewrite Eid.
      rewrite (find_replaceAppointment id _ appt); [|exact Hfind|reflexivity].
      reflexivity.
    + unfold createNotification in Hn.
      destruct (_ && _) in Hn; discriminate.
Qed.

Lemma createTransactionAndUpdateWallet_eval d b s wallet :
  walletService.findWallet (walletService.userId d) s = Some wallet ->
  overdraws d wallet = false ->
  wellFormed d = true ->
  walletService.createTransactionAndUpdateWallet (walletService.given d) b s
  = Ok (transactionOf d (Wallet._id wallet) (nextId s)) (posted d wallet s).
Proof.
  intros Hw Ho Hwf. rewrite createTransactionAndUpdateWallet_given.
  assert (H : walletService.performDbOperations d s
              = Ok (transactionOf d (Wallet._id wallet) (nextId s))
                   (posted d wallet s)).
  { rewrite performDbOperations_eq, Hw, Ho, Hwf. reflexivity. }
  destruct b; [exact H|]. unfold withTransaction. rewrite H. reflexivity.
Qed.

(** A refund of a positive amount passes the schema. *)
Lemma cancellationRefund_wellFormed appt refund ty dr h :
  (0 <? refund)%float = true ->
  wellFormed (cancellationRefund appt refund ty dr h) = true.
Proof.
  intros Hpos. unfold wellFormed, cancellationRefund.
  cbn [walletService.amount walletService.description].
  rewrite (positive_is_a_number refund Hpos). reflexivity.
Qed.

Lemma cancel_eval_refund env reqUser id s appt h ty dr w :
  User.role reqUser = Patient ->
  findAppointment id s = Some appt ->
  Appointment.user appt = User._id reqUser ->
  findHospital (Appointment.hospital appt) s = Some h ->
  validAppointment appt = true ->
  Appointment.isRefunded appt = false ->
  (0 <? policyRefund (Appointment.cost appt)
                     (Hospital.refundPolicyPercentage h))%float = true ->
  findAppointmentType (Appointment.appointmentType appt) s = Some ty ->
  findUser (Appointment.doctor appt) s = Some dr ->
  walletService.findWallet (Appointment.user appt) s = Some w ->
  let a' := Appointment.set_isRefunded true
              (Appointment.set_status Cancelled appt) in
  let d := cancellationRefund (Appointment.set_status Cancelled appt)
             (policyRefund (Appointment.cost appt)
                           (Hospital.refundPolicyPercentage h)) ty dr h in
  updateTransaction env reqUser id Cancelled s
  = Ok (Some a')
       (after (createNotification env (Appointment.user appt) "appointment"
                 "Appointment Cancelled")
              (set_appointments
                 (replaceAppointment a' (appointments (posted d w s)))
                 (posted d w s))).
Proof.
  intros Hrole Hfind Huser Hhosp Hv Href Hpos Hty Hdr Hw a' d.
  assert (Eid : Appointment._id appt = id)
    by (apply findAppointment_some in Hfind; apply Hfind).
  assert (Hown : Nat.eqb (Appointment.user appt) (User._id reqUser) = true)
    by (rewrite Huser; apply Nat.eqb_refl).
  unfold updateTransaction, bind, gets, orThrow, ret, throwIf, throw.
  rewrite Hfind, Hhosp, Hrole, Hown, Hty, Hdr. cbn.
  rewrite Href. cbn. rewrite Hpos.
  fold d.
  rewrite (createTransactionAndUpdateWallet_eval d true s w);
    [|exact Hw|reflexivity|exact (cancellationRefund_wellFormed _ _ _ _ _ Hpos)].
  fold a'.
  rewrite (saveAppointment_same_slot a' appt); try assumption;
    [|rewrite <- Eid in Hfind; exact Hfind|exact (sameSlot_refl appt)].
  unfold after.
  destruct (createNotification env _ _ _ _) as [b s1|e s1] eqn:Hn.
  - apply createNotification_Ok in Hn. destruct Hn as (_ & _ & Ha & _).
    unfold findAppointment. rewrite Ha. cbn [appointments set_appointments].
    change (Appointment._id a') with (Appointment._id appt). rewrite Eid.
    rewrite (find_replaceAppointment id _ appt); [|exact Hfind|reflexivity].
    reflexivity.
  - unfold createNotification in Hn.
    destruct (_ && _) in Hn; discriminate.
Qed.

Lemma createNotification_after env u t ti s :
  wallets (after (createNotification env u t ti) s) = wallets s
  /\ transactions (after (createNotification env u t ti) s) = transactions s
  /\ appointments (after (createNotification env u t ti) s) = appointments s
  /\ queueItems (after (createNotification env u t ti) s) = queueItems s
  /\ users (after (createNotification env u t ti) s) = users s
  /\ hospitals (after (createNotification env u t ti) s) = hospitals s
  /\ appointmentTypes (after (createNotification env u t ti) s)
     = appointmentTypes s.
Proof.
  unfold after.
  destruct (createNotification env u t ti s) as [b s1|e s1] eqn:Hn.
  - apply createNotification_Ok in Hn. exact Hn.
  - unfold createNotification in Hn. destruct (_ && _) in Hn; discriminate.
Qed.

(** What a returned cancellation found on its way. *)
Lemma cancel_Ok_found env reqUser id s appt h r s1 :
  findAppointment id s = Some appt ->
  findHospital (Appointment.hospital appt) s = Some h ->
  updateTransaction env reqUser id Cancelled s = Ok r s1 ->
  validAppointment appt = true
  /\ (negb (Appointment.isRefunded appt)
      && (0 <? policyRefund (Appointment.cost appt)
                            (Hospital.refundPolicyPercentage h))%float = true ->
      exists ty dr w,
        findAppointmentType (Appointment.appointmentType appt) s = Some ty
        /\ findUser (Appointment.doctor appt) s = Some dr
        /\ walletService.findWallet (Appointment.user appt) s = Some w).
Proof.
  intros Hfind Hhosp H. unfold updateTransaction in H.
  apply bind_Ok in H. destruct H as (mAppt & st & H1 & H).
  apply gets_Ok in H1. destruct H1 as [-> ->]. rewrite Hfind in H.
  apply bind_Ok in H. destruct H as (a0 & st & H1 & H).
  apply orThrow_Ok in H1. destruct H1 as [E ->]. inversion E; subst a0.
  apply bind_Ok in H. destruct H as (mh & st & H1 & H).
  apply gets_Ok in H1. destruct H1 as [-> ->]. rewrite Hhosp in H.
  cbn [AppointmentStatus_eqb andb] in H.
  cbn [Appointment.isRefunded Appointment.set_status Appointment.cost] in H.
  ok_inv.
  all: repeat match goal with
              | K : Some _ = Some _ |- _ => inversion K; subst; clear K
              end.
  all: try match goal with
           | K : saveAppointment _ _ = Ok _ _ |- _ =>
               apply saveAppointment_Ok in K; destruct K as [Hv _]
           end.
  all: split; [exact Hv|].
  all: try (intros K; rewrite ?Hif, ?Hif0, ?Hif1, ?Hif2 in K;
            cbn in K; discriminate K).
  all: intros _.
  all: match goal with
       | K : walletService.createTransactionAndUpdateWallet _ _ _ = Ok _ _ |- _ =>
           apply createTransactionAndUpdateWallet_Ok in K;
           destruct K as (w & Hw & _)
       end.
  all: eexists; eexists; exists w; repeat split; eassumption.
Qed.

(** C4, as the code has it.  The patient's cancellation of their own
    appointment does not look at the appointment's current status.  When it
    is performed (answer [200]) the appointment is stored [Cancelled] with
    [isRefunded] set and, if [isRefunded] was not set and the double
    [cost * (refundPolicyPercentage / 100)] is above 0, exactly one credit
    of that amount referencing the appointment is recorded on the patient's
    wallet, whose balance becomes the double [balance + refund]; otherwise
    ledger and wallets are untouched.  Repeating the
    cancellation records no further transaction.  A cancellation that is not
    performed changes nothing.  It is performed whenever the stored
    appointment is valid and, for a refund that is due, the appointment's
    service, doctor and the patient's wallet exist. *)
Theorem patient_cancellation_refunds_once env reqUser id s appt h :
  User.role reqUser = Patient ->
  findAppointment id s = Some appt ->
  Appointment.user appt = User._id reqUser ->
  findHospital (Appointment.hospital appt) s = Some h ->
  let refund := policyRefund (Appointment.cost appt)
                             (Hospital.refundPolicyPercentage h) in
  let due := negb (Appointment.isRefunded appt) && (0 <? refund)%float in
  let a' := Appointment.set_isRefunded true
              (Appointment.set_status Cancelled appt) in
  let out := updateAppointment env reqUser id Cancelled s in
  (statusCode (fst out) <> 200 -> snd out = s)
  /\ (statusCode (fst out) = 200 ->
      fst out = respond 200 (BAppointment a')
      /\ findAppointment id (snd out) = Some a'
      /\ (if due
          then exists w t,
                 walletService.findWallet (Appointment.user appt) s = Some w
                 /\ transactions (snd out) = transactions s ++ [t]
                 /\ Transaction.type t = credit
                 /\ Transaction.transactionType t = Refund
                 /\ Transaction.amount t = refund
                 /\ Transaction.referenceId t = RefObject id
                 /\ Transaction.wallet t = Wallet._id w
                 /\ walletService.findWallet (Appointment.user appt) (snd out)
                    = Some {| Wallet._id := Wallet._id w;
                              Wallet.user := Wallet.user w;
                              Wallet.balance :=
                                (Wallet.balance w + refund)%float |}
          else transactions (snd out) = transactions s
               /\ wallets (snd out) = wallets s)
      /\ forall env',
           transactions (snd (updateAppointment env' reqUser id Cancelled
                                (snd out)))
           = transactions (snd out))
  /\ (validAppointment appt = true ->
      (due = true ->
       exists ty dr w,
         findAppointmentType (Appointment.appointmentType appt) s = Some ty
         /\ findUser (Appointment.doctor appt) s = Some dr
         /\ walletService.findWallet (Appointment.user appt) s = Some w) ->
      statusCode (fst out) = 200).
Proof.
  intros Hrole Hfind Huser Hhosp refund due a' out.
  assert (Eid : Appointment._id appt = id)
    by (apply findAppointment_some in Hfind; apply Hfind).
  (* what the route does, by cases on the refund being due *)
  assert (Heval :
    validAppointment appt = true ->
    (due = true ->
       exists ty dr w,
         findAppointmentType (Appointment.appointmentType appt) s = Some ty
         /\ findUser (Appointment.doctor appt) s = Some dr
         /\ walletService.findWallet (Appointment.user appt) s = Some w) ->
    exists s1,
      out = (respond 200 (BAppointment a'), s1)
      /\ findAppointment id s1 = Some a'
      /\ hospitals s1 = hospitals s
      /\ (if due
          then exists w t,
                 walletService.findWallet (Appointment.user appt) s = Some w
                 /\ transactions s1 = transactions s ++ [t]
                 /\ Transaction.type t = credit
                 /\ Transaction.transactionType t = Refund
                 /\ Transaction.amount t = refund
                 /\ Transaction.referenceId t = RefObject id
                 /\ Transaction.wallet t = Wallet._id w
                 /\ walletService.findWallet (Appointment.user appt) s1
                    = Some {| Wallet._id := Wallet._id w;
                              Wallet.user := Wallet.user w;
                              Wallet.balance :=
                                (Wallet.balance w + refund)%float |}
          else transactions s1 = transactions s /\ wallets s1 = wallets s)).
  { intros Hv Hex. unfold out. rewrite updateAppointment_unfold.
    destruct due eqn:Hdue.
    - destruct (Hex eq_refl) as (ty & dr & w & Hty & Hdr & Hw).
      unfold due in Hdue. apply andb_true_iff in Hdue.
      destruct Hdue as [Href Hpos]. apply negb_true_iff in Href.
      rewrite (cancel_eval_refund env reqUser id s appt h ty dr w); auto.
      eexists. split; [reflexivity|].
      match goal with
      | |- context [after ?m ?st] =>
          destruct (createNotification_after env (Appointment.user appt)
                      "appointment" "Appointment Cancelled" st)
            as (Nw & Nt & Na & _ & _ & Nh & _)
      end.
      split; [|split].
      + unfold findAppointment. rewrite Na. cbn [appointments set_appointments].
        apply (find_replaceAppointment id _ appt); [exact Hfind|reflexivity].
      + rewrite Nh. reflexivity.
      + exists w. eexists. split; [exact Hw|].
        split; [rewrite Nt; reflexivity|].
        split; [reflexivity|]. split; [reflexivity|]. split; [reflexivity|].
        split; [rewrite <- Eid; reflexivity|]. split; [reflexivity|].
        apply (findWallet_incBalance _ w refund s); [exact Hw|].
        rewrite Nw. reflexivity.
    - rewrite (cancel_eval_no_refund env reqUser id s appt h); auto.
      eexists. split; [reflexivity|].
      match goal with
      | |- context [after ?m ?st] =>
          destruct (createNotification_after env (Appointment.user appt)
                      "appointment" "Appointment Cancelled" st)
            as (Nw & Nt & Na & _ & _ & Nh & _)
      end.
      split; [|split; [|split]].
      + unfold findAppointment. rewrite Na. cbn [appointments set_appointments].
        apply (find_replaceAppointment id _ appt); [exact Hfind|reflexivity].
      + rewrite Nh. reflexivity.
      + rewrite Nt. reflexivity.
      + rewrite Nw. reflexivity. }
  assert (Hfail : statusCode (fst out) <> 200 -> snd out = s).
  { unfold out. rewrite updateAppointment_unfold.
    destruct (updateTransaction env reqUser id Cancelled s) as [r s1|e s1];
      cbn [fst snd]; [intros N; exfalso; apply N; reflexivity|reflexivity]. }
  split; [exact Hfail|]. split.
  - intros Hok.
    assert (Hfound : validAppointment appt = true
                     /\ (due = true ->
                         exists ty dr w,
                           findAppointmentType (Appointment.appointmentType appt) s
                           = Some ty
                           /\ findUser (Appointment.doctor appt) s = Some dr
                           /\ walletService.findWallet (Appointment.user appt) s
                              = Some w)).
    { unfold out in Hok. rewrite updateAppointment_unfold in Hok.
      destruct (updateTransaction env reqUser id Cancelled s) as [r s1|e s1] eqn:Hu.
      - apply (cancel_Ok_found env reqUser id s appt h r s1 Hfind Hhosp Hu).
      - exfalso. apply (updateError_not_ok e). exact Hok. }
    destruct Hfound as [Hv Hex].
    destruct (Heval Hv Hex) as (s1 & Eout & Hf1 & Hh1 & Hrest).
    rewrite Eout. cbn [fst snd].
    split; [reflexivity|]. split; [exact Hf1|]. split; [exact Hrest|].
    (* the repeated cancellation: [isRefunded] is set, nothing is due *)
    intros env'. rewrite updateAppointment_unfold.
    destruct (updateTransaction env' reqUser id Cancelled s1) as [r s2|e s2] eqn:Hu;
      cbn [snd]; [|reflexivity].
    assert (Hh' : findHospital (Appointment.hospital a') s1 = Some h).
    { unfold findHospital in *. rewrite Hh1. exact Hhosp. }
    destruct (cancel_Ok_found env' reqUser id s1 a' h r s2 Hf1 Hh' Hu) as [Hv' _].
    rewrite (cancel_eval_no_refund env' reqUser id s1 a' h) in Hu;
      try assumption; try reflexivity.
    injection Hu as _ <-.
    rewrite (proj1 (proj2 (createNotification_after _ _ _ _ _))).
    reflexivity.
  - intros Hv Hex. destruct (Heval Hv Hex) as (s1 & Eout & _).
    rewrite Eout. reflexivity.
Qed.

(** C4, the claim as stated fails: an appointment the staff marked
    [Completed] is cancelled by the patient all the same -- answer [200],
    status [Cancelled], and the policy refund of 40 credited (50 -> 90). *)
Lemma completed_appointment_can_still_be_cancelled :
  findAppointment 20 Sample.completed = Some (Sample.slot Completed false)
  /\ statusCode (fst (updateAppointment Sample.env Sample.patientA 20
                        Cancelled Sample.completed)) = 200
  /\ findAppointment 20
       (snd (updateAppointment Sample.env Sample.patientA 20 Cancelled
               Sample.completed))
     = Some (Sample.slot Cancelled true)
  /\ Sample.balanceOf 3 Sample.completed = Some 50%float
  /\ Sample.balanceOf 3
       (snd (updateAppointment Sample.env Sample.patientA 20 Cancelled
               Sample.completed)) = Some 90%float.
Proof.
  split; [vm_compute; reflexivity|].
  split; [vm_compute; reflexivity|].
  split; [vm_compute; reflexivity|].
  split; vm_compute; reflexivity.
Qed.

Lemma patient_cancellation_refunds_once_witness :
  User.role Sample.patientA = Patient
  /\ findAppointment 20 Sample.booked = Some (Sample.slot Upcoming false)
  /\ Appointment.user (Sample.slot Upcoming false) = User._id Sample.patientA
  /\ findHospital (Appointment.hospital (Sample.slot Upcoming false))
       Sample.booked = Some Sample.hospital
  /\ statusCode (fst (updateAppointment Sample.env Sample.patientA 20
                        Cancelled Sample.booked)) = 200
  /\ forall env',
       transactions
         (snd (updateAppointment env' Sample.patientA 20 Cancelled
                 (snd (updateAppointment Sample.env Sample.patientA 20
                         Cancelled Sample.booked))))
       = transactions
           (snd (updateAppointment Sample.env Sample.patientA 20 Cancelled
                   Sample.booked)).
Proof.
  assert (H1 : User.role Sample.patientA = Patient) by reflexivity.
  assert (H2 : findAppointment 20 Sample.booked
               = Some (Sample.slot Upcoming false))
    by (vm_compute; reflexivity).
  assert (H3 : Appointment.user (Sample.slot Upcoming false)
               = User._id Sample.patientA) by reflexivity.
  assert (H4 : findHospital (Appointment.hospital (Sample.slot Upcoming false))
                 Sample.booked = Some Sample.hospital)
    by (vm_compute; reflexivity).
  assert (H5 : statusCode (fst (updateAppointment Sample.env Sample.patientA 20
                                  Cancelled Sample.booked)) = 200)
    by (vm_compute; reflexivity).
  split; [exact H1|]. split; [exact H2|]. split; [exact H3|].
  split; [exact H4|]. split; [exact H5|].
  exact (proj2 (proj2 (proj2
           (proj1 (proj2
              (patient_cancellation_refunds_once Sample.env Sample.patientA 20
                 Sample.booked (Sample.slot Upcoming false) Sample.hospital
                 H1 H2 H3 H4)) H5)))).
Defined.

(** Scenario 2: patient A cancels at a hospital refunding 80%: a credit of
    40, [isRefunded] set, status [Cancelled]. *)
Example scenario_2_cancellation :
  findAppointment 20 Sample.cancelled = Some (Sample.slot Cancelled true)
  /\ exists t, transactions Sample.cancelled
               = transactions Sample.booked ++ [t]
               /\ Transaction.type t = credit
               /\ Transaction.transactionType t = Refund
               /\ Transaction.amount t = 40%float.
Proof.
  split; [vm_compute; reflexivity|].
  eexists. split; [vm_compute; reflexivity|].
  split; [reflexivity|]. split; [reflexivity|vm_compute; reflexivity].
Qed.

(** The refund is computed in doubles: a cost of 10 at 7% is refunded
    0.7000000000000001. *)
Example scenario_refund_rounds :
  policyRefund 10 7 = 0.7000000000000001%float
  /\ policyRefund 50 80 = 40%float.
Proof. split; reflexivity. Qed.

(** ** Resolution of a doctor's cancellation *)

Lemma resolveCancellation_unfold env reqUser id action newDoctorId newSlot s :
  resolveCancellation env reqUser id action newDoctorId newSlot s
  = match resolveTransaction env reqUser id action newDoctorId newSlot s with
    | Ok result s1 => (respond 200 result, s1)
    | Throw e _ => (respond 400 (BError (message e)), s)
    end.
Proof. unfold resolveCancellation. apply handle_transaction. Qed.

(** What a returned resolution found: the appointment was [DoctorCancelled]
    and [Pending], and the caller is its patient. *)
Lemma resolve_Ok_guards env reqUser id action newDoctorId newSlot s r s1 :
  resolveTransaction env reqUser id action newDoctorId newSlot s = Ok r s1 ->
  exists appt user,
    findAppointment id s = Some appt
    /\ findUser (Appointment.user appt) s = Some user
    /\ User._id user = User._id reqUser
    /\ Appointment.status appt = DoctorCancelled
    /\ Appointment.cancellationResolution appt = Pending.
Proof.
  intros H. unfold resolveTransaction in H.
  apply bind_Ok in H. destruct H as (mAppt & st & H1 & H).
  apply gets_Ok in H1. destruct H1 as [-> ->].
  apply bind_Ok in H. destruct H as (appt & st & H1 & H).
  apply orThrow_Ok in H1. destruct H1 as [Hfind ->].
  apply bind_Ok in H. destruct H as (md & st & H1 & H).
  apply gets_Ok in H1. destruct H1 as [-> ->].
  apply bind_Ok in H. destruct H as (mh & st & H1 & H).
  apply gets_Ok in H1. destruct H1 as [-> ->].
  apply bind_Ok in H. destruct H as (mu & st & H1 & H).
  apply gets_Ok in H1. destruct H1 as [-> ->].
  apply bind_Ok in H. destruct H as (user & st & H1 & H).
  apply orThrow_Ok in H1. destruct H1 as [Huser ->].
  apply bind_Ok in H. destruct H as (u1 & st & H1 & H).
  apply throwIf_Ok in H1. destruct H1 as [Hown ->].
  apply bind_Ok in H. destruct H as (u2 & st & H1 & H).
  apply throwIf_Ok in H1. destruct H1 as [Hst ->].
  apply bind_Ok in H. destruct H as (u3 & st & H1 & H).
  apply throwIf_Ok in H1. destruct H1 as [Hres ->].
  exists appt, user. split; [exact Hfind|]. split; [exact Huser|].
  apply negb_false_iff in Hown, Hst, Hres. apply Nat.eqb_eq in Hown.
  split; [exact Hown|].
  split; [destruct (Appointment.status appt); try discriminate; reflexivity|].
  destruct (Appointment.cancellationResolution appt); try discriminate;
    reflexivity.
Qed.

(** The resolution route, once its guards are passed. *)
Lemma resolveTransaction_guarded env reqUser id action newDoctorId newSlot s
    appt user :
  findAppointment id s = Some appt ->
  findUser (Appointment.user appt) s = Some user ->
  User._id user = User._id reqUser ->
  resolveTransaction env reqUser id action newDoctorId newSlot s
  = if negb (AppointmentStatus_eqb (Appointment.status appt) DoctorCancelled)
    then Throw (mkError notCancelledByDoctor) s
    else if negb (Resolution_eqb (Appointment.cancellationResolution appt)
                                 Pending)
    then Throw (mkError alreadyResolved) s
    else resolveTransaction env reqUser id action newDoctorId newSlot s.
Proof.
  intros Hfind Huser Hown.
  destruct (negb (AppointmentStatus_eqb (Appointment.status appt)
                                        DoctorCancelled)) eqn:Hst.
  - unfold resolveTransaction, bind, gets, orThrow, ret, throwIf, throw.
    rewrite Hfind, Huser, Hown, Nat.eqb_refl. cbn [negb]. rewrite Hst.
    reflexivity.
  - destruct (negb (Resolution_eqb (Appointment.cancellationResolution appt)
                                   Pending)) eqn:Hres; [|reflexivity].
    unfold resolveTransaction, bind, gets, orThrow, ret, throwIf, throw.
    rewrite Hfind, Huser, Hown, Nat.eqb_refl. cbn [negb]. rewrite Hst, Hres.
    reflexivity.
Qed.

Lemma findUser_id id s u : findUser id s = Some u -> User._id u = id.
Proof.
  unfold findUser. intros H. apply find_some in H. apply Nat.eqb_eq, H.
Qed.

Lemma posted_frame d w s :
  appointments (posted d w s) = appointments s
  /\ users (posted d w s) = users s
  /\ hospitals (posted d w s) = hospitals s
  /\ queueItems (posted d w s) = queueItems s.
Proof. repeat split. Qed.

(** The chosen refund: the appointment is stored [Cancelled] / [Refunded]
    with [isRefunded] set, and its whole cost is credited when positive. *)
Lemma resolve_refund_Ok env reqUser id newDoctorId newSlot s r s1 appt :
  findAppointment id s = Some appt ->
  resolveTransaction env reqUser id ActRefund newDoctorId newSlot s = Ok r s1 ->
  let a' := Appointment.set_cancellationResolution Refunded
              (Appointment.set_isRefunded true
                 (Appointment.set_status Cancelled appt)) in
  r = BMessage "Full refund processed successfully"
  /\ findAppointment id s1 = Some a'
  /\ users s1 = users s
  /\ (if (0 <? Appointment.cost appt)%float
      then exists w t,
             walletService.findWallet (Appointment.user appt) s = Some w
             /\ transactions s1 = transactions s ++ [t]
             /\ Transaction.type t = credit
             /\ Transaction.transactionType t = Refund
             /\ Transaction.amount t = Appointment.cost appt
             /\ Transaction.referenceId t = RefObject id
             /\ Transaction.wallet t = Wallet._id w
             /\ walletService.findWallet (Appointment.user appt) s1
                = Some {| Wallet._id := Wallet._id w;
                          Wallet.user := Wallet.user w;
                          Wallet.balance :=
                            (Wallet.balance w + Appointment.cost appt)%float |}
      else transactions s1 = transactions s /\ wallets s1 = wallets s).
Proof.
  intros Hfind H a'.
  assert (Eid : Appointment._id appt = id)
    by (apply findAppointment_some in Hfind; apply Hfind).
  unfold resolveTransaction in H.
  apply bind_Ok in H. destruct H as (mAppt & st & H1 & H).
  apply gets_Ok in H1. destruct H1 as [-> ->]. rewrite Hfind in H.
  apply bind_Ok in H. destruct H as (a0 & st & H1 & H).
  apply orThrow_Ok in H1. destruct H1 as [E ->]. inversion E; subst a0.
  ok_inv.
  all: repeat match goal with
              | K : Some _ = Some _ |- _ => inversion K; subst; clear K
              end.
  all: repeat match goal with
              | K : saveAppointment _ _ = Ok _ _ |- _ =>
                  apply saveAppointment_Ok in K; destruct K as [_ ->]
              | K : createNotification _ _ _ _ _ = Ok _ _ |- _ =>
                  apply createNotification_Ok in K;
                  destruct K as (Nw & Nt & Na & _ & Nu & _)
              | K : walletService.createTransactionAndUpdateWallet _ _ _ = Ok _ _
                |- _ =>
                  apply createTransactionAndUpdateWallet_Ok in K;
                  destruct K as (w & Hw & _ & _ & ->)
              end.
  all: split; [reflexivity|].
  all: split;
    [unfold findAppointment; rewrite Na; cbn [appointments set_appointments];
     apply (find_replaceAppointment _ _ appt); [exact Hfind|reflexivity]|].
  all: split; [rewrite Nu; reflexivity|].
  - assert (Eu : User._id v2 = Appointment.user appt)
      by (eapply findUser_id; eassumption).
    unfold apologyRefund in Hw. cbn [walletService.userId] in Hw.
    rewrite Eu in Hw.
    exists w. eexists. split; [exact Hw|].
    split; [rewrite Nt; reflexivity|].
    split; [reflexivity|]. split; [reflexivity|]. split; [reflexivity|].
    split; [reflexivity|]. split; [reflexivity|].
    apply (findWallet_incBalance _ w (Appointment.cost appt) s); [exact Hw|].
    rewrite Nw. reflexivity.
  - split; [rewrite Nt|rewrite Nw]; reflexivity.
Qed.

(** The status and sub-state a resolution leaves. *)
Lemma resolve_Ok_leaves_resolved env reqUser id action newDoctorId newSlot s
    r s1 appt :
  findAppointment id s = Some appt ->
  resolveTransaction env reqUser id action newDoctorId newSlot s = Ok r s1 ->
  exists a',
    findAppointment id s1 = Some a'
    /\ Appointment.user a' = Appointment.user appt
    /\ users s1 = users s
    /\ match action with
       | ActRefund =>
           Appointment.status a' = Cancelled
           /\ Appointment.cancellationResolution a' = Refunded
       | ActRedirect =>
           Appointment.status a' = Upcoming
           /\ Appointment.cancellationResolution a' = Redirected
           /\ Some (Appointment.doctor a') = newDoctorId
       | ActReschedule =>
           Appointment.status a' = Upcoming
           /\ Appointment.cancellationResolution a' = Rescheduled
           /\ Appointment.doctor a' = Appointment.doctor appt
       | ActOther => False
       end.
Proof.
  intros Hfind H.
  destruct action.
  - destruct (resolve_refund_Ok env reqUser id newDoctorId newSlot s r s1 appt
                Hfind H) as (_ & Hf & Hu & _).
    eexists. split; [exact Hf|]. repeat split. exact Hu.
  - unfold resolveTransaction in H.
    apply bind_Ok in H. destruct H as (mAppt & st & H1 & H).
    apply gets_Ok in H1. destruct H1 as [-> ->]. rewrite Hfind in H.
    apply bind_Ok in H. destruct H as (a0 & st & H1 & H).
    apply orThrow_Ok in H1. destruct H1 as [E ->]. inversion E; subst a0.
    ok_inv.
    all: repeat match goal with
                | K : saveAppointment _ _ = Ok _ _ |- _ =>
                    apply saveAppointment_Ok in K; destruct K as [_ ->]
                end.
    all: destruct newSlot as [[d t]|].
    all: eexists; split;
      [unfold findAppointment; cbn [appointments set_appointments];
       apply (find_replaceAppointment _ _ appt); [exact Hfind|reflexivity]|].
    all: repeat split.
  - unfold resolveTransaction in H.
    apply bind_Ok in H. destruct H as (mAppt & st & H1 & H).
    apply gets_Ok in H1. destruct H1 as [-> ->]. rewrite Hfind in H.
    apply bind_Ok in H. destruct H as (a0 & st & H1 & H).
    apply orThrow_Ok in H1. destruct H1 as [E ->]. inversion E; subst a0.
    ok_inv.
    all: repeat match goal with
                | K : saveAppointment _ _ = Ok _ _ |- _ =>
                    apply saveAppointment_Ok in K; destruct K as [_ ->]
                end.
    all: eexists; split;
      [unfold findAppointment; cbn [appointments set_appointments];
       apply (find_replaceAppointment _ _ appt); [exact Hfind|reflexivity]|].
    all: repeat split.
  - unfold resolveTransaction in H. ok_inv.
Qed.

(** What the resolution route does.  A resolution that is not performed
    changes nothing.  One that is performed (answer [200]) found the
    caller's own appointment [DoctorCancelled] and [Pending]; it leaves it
    [Cancelled] / [Refunded] (refund), [Upcoming] / [Redirected] (redirect,
    with the new doctor) or [Upcoming] / [Rescheduled] (reschedule); the
    refund credits the whole stored cost when it is positive, whatever the
    hospital's refund percentage, and sets [isRefunded].  An attempt made on
    the store a resolution left, by the same caller and whatever the action,
    is refused with [400] and "This appointment is not cancelled by doctor",
    the store unchanged: the status guard comes first.  "Resolution already
    processed" is the answer for an appointment that is [DoctorCancelled]
    with a sub-state other than [Pending]. *)
Lemma resolution_guards_and_effects env reqUser id action
    newDoctorId newSlot s :
  let out := resolveCancellation env reqUser id action newDoctorId newSlot s in
  (statusCode (fst out) <> 200 -> snd out = s)
  /\ (statusCode (fst out) = 200 ->
      exists appt a',
        findAppointment id s = Some appt
        /\ Appointment.user appt = User._id reqUser
        /\ Appointment.status appt = DoctorCancelled
        /\ Appointment.cancellationResolution appt = Pending
        /\ findAppointment id (snd out) = Some a'
        /\ match action with
           | ActRefund =>
               a' = Appointment.set_cancellationResolution Refunded
                      (Appointment.set_isRefunded true
                         (Appointment.set_status Cancelled appt))
               /\ (if (0 <? Appointment.cost appt)%float
                   then exists w t,
                     walletService.findWallet (Appointment.user appt) s = Some w
                     /\ transactions (snd out) = transactions s ++ [t]
                     /\ Transaction.type t = credit
                     /\ Transaction.transactionType t = Refund
                     /\ Transaction.amount t = Appointment.cost appt
                     /\ Transaction.referenceId t = RefObject id
                     /\ Transaction.wallet t = Wallet._id w
                     /\ walletService.findWallet (Appointment.user appt) (snd out)
                        = Some {| Wallet._id := Wallet._id w;
                                  Wallet.user := Wallet.user w;
                                  Wallet.balance :=
                                    (Wallet.balance w
                                     + Appointment.cost appt)%float |}
                   else transactions (snd out) = transactions s
                        /\ wallets (snd out) = wallets s)
           | ActRedirect =>
               Appointment.status a' = Upcoming
               /\ Appointment.cancellationResolution a' = Redirected
               /\ Some (Appointment.doctor a') = newDoctorId
           | ActReschedule =>
               Appointment.status a' = Upcoming
               /\ Appointment.cancellationResolution a' = Rescheduled
               /\ Appointment.doctor a' = Appointment.doctor appt
           | ActOther => False
           end
        /\ forall env' action' newDoctorId' newSlot',
             resolveCancellation env' reqUser id action' newDoctorId' newSlot'
               (snd out)
             = (respond 400 (BError notCancelledByDoctor), snd out))
  /\ (forall appt user,
        findAppointment id s = Some appt ->
        findUser (Appointment.user appt) s = Some user ->
        User._id user = User._id reqUser ->
        Appointment.status appt = DoctorCancelled ->
        Appointment.cancellationResolution appt <> Pending ->
        out = (respond 400 (BError alreadyResolved), s)).
Proof.
  cbv zeta. rewrite resolveCancellation_unfold.
  destruct (resolveTransaction env reqUser id action newDoctorId newSlot s)
    as [r s1|e s1] eqn:Hr; cbn [fst snd statusCode respond].
  - split; [intros N; exfalso; apply N; reflexivity|]. split.
    + intros _.
      destruct (resolve_Ok_guards _ _ _ _ _ _ _ _ _ Hr)
        as (appt & user & Hfind & Huser & Hown & Hst & Hres).
      destruct (resolve_Ok_leaves_resolved _ _ _ _ _ _ _ _ _ appt Hfind Hr)
        as (a' & Hf' & Hu' & Hus & Hact).
      exists appt, a'.
      split; [exact Hfind|].
      split; [rewrite <- Hown; symmetry; eapply findUser_id; exact Huser|].
      split; [exact Hst|]. split; [exact Hres|]. split; [exact Hf'|]. split.
      * destruct action; try exact Hact.
        destruct (resolve_refund_Ok env reqUser id newDoctorId newSlot s r s1
                    appt Hfind Hr) as (_ & Hf2 & _ & Hrest).
        split; [rewrite Hf' in Hf2; inversion Hf2; reflexivity|exact Hrest].
      * intros env' action' nd' ns'. rewrite resolveCancellation_unfold.
        assert (Huser' : findUser (Appointment.user a') s1 = Some user).
        { unfold findUser in *. rewrite Hus, Hu'. exact Huser. }
        rewrite (resolveTransaction_guarded env' reqUser id action' nd' ns' s1
                   a' user Hf' Huser' Hown).
        assert (Hne : AppointmentStatus_eqb (Appointment.status a')
                                            DoctorCancelled = false).
        { destruct action; try contradiction;
            destruct Hact as (-> & _); reflexivity. }
        rewrite Hne. reflexivity.
    + intros appt user Hfind Huser Hown Hst Hres. exfalso.
      destruct (resolve_Ok_guards _ _ _ _ _ _ _ _ _ Hr)
        as (appt0 & _ & Hfind0 & _ & _ & _ & Hres0).
      rewrite Hfind in Hfind0. inversion Hfind0; subst appt0.
      apply Hres, Hres0.
  - split; [reflexivity|]. split; [intros K; discriminate K|].
    intros appt user Hfind Huser Hown Hst Hres.
    rewrite (resolveTransaction_guarded env reqUser id action newDoctorId
               newSlot s appt user Hfind Huser Hown) in Hr.
    rewrite Hst in Hr. cbn in Hr.
    destruct (Appointment.cancellationResolution appt); cbn in Hr;
      try (inversion Hr; reflexivity).
    exfalso. apply Hres. reflexivity.
Qed.

(** C5, where the code departs from the claim.  Patient A resolves the
    appointment Dr. X cancelled by choosing the refund: answer [200], the
    whole cost of 50 credited (50 -> 100).  A second attempt on that store
    is refused, but with "This appointment is not cancelled by doctor": the
    status guard comes before the sub-state guard, whose "Resolution already
    processed" a resolved appointment therefore never reaches.  And the
    resolution is not once-only: the doctor-cancel route, which looks at
    neither status nor sub-state, marks the refunded appointment
    [DoctorCancelled] / [Pending] again, and the refund chosen a second time
    is answered [200] and credits the cost a second time (100 -> 150), with
    a second [Refund] transaction referencing the same appointment. *)
Theorem resolved_appointment_is_refunded_again :
  let first :=
    resolveCancellation Sample.env Sample.patientA 20 ActRefund None None
      Sample.doctorCancelled in
  let second :=
    resolveCancellation Sample.env Sample.patientA 20 ActRefund None None
      (snd first) in
  let reopened :=
    doctorCancel Sample.env Sample.doctorX 20 (snd first) in
  let third :=
    resolveCancellation Sample.env Sample.patientA 20 ActRefund None None
      (snd reopened) in
  statusCode (fst first) = 200
  /\ Sample.balanceOf 3 Sample.doctorCancelled = Some 50%float
  /\ Sample.balanceOf 3 (snd first) = Some 100%float
  /\ option_map (fun a => (Appointment.status a,
                           Appointment.cancellationResolution a,
                           Appointment.isRefunded a))
       (findAppointment 20 (snd first)) = Some (Cancelled, Refunded, true)
  /\ second = (respond 400 (BError notCancelledByDoctor), snd first)
  /\ fst second <> respond 400 (BError alreadyResolved)
  /\ statusCode (fst reopened) = 200
  /\ option_map (fun a => (Appointment.status a,
                           Appointment.cancellationResolution a,
                           Appointment.isRefunded a))
       (findAppointment 20 (snd reopened))
     = Some (DoctorCancelled, Pending, true)
  /\ statusCode (fst third) = 200
  /\ Sample.balanceOf 3 (snd third) = Some 150%float
  /\ map (fun t => (Transaction.transactionType t, Transaction.amount t,
                    Transaction.referenceId t))
         (skipn (List.length (transactions Sample.doctorCancelled))
                (transactions (snd third)))
     = [(Refund, 50%float, RefObject 20); (Refund, 50%float, RefObject 20)].
Proof.
  cbv zeta.
  split; [vm_compute; reflexivity|]. split; [vm_compute; reflexivity|].
  split; [vm_compute; reflexivity|]. split; [vm_compute; reflexivity|].
  split; [vm_compute; reflexivity|]. split; [vm_compute; discriminate|].
  split; [vm_compute; reflexivity|]. split; [vm_compute; reflexivity|].
  split; [vm_compute; reflexivity|]. split; vm_compute; reflexivity.
Qed.

(** Scenario 4: the refund of the appointment Dr. X cancelled credits the
    whole cost, 50, at a hospital whose policy is 80%. *)
Example scenario_4_full_refund :
  Hospital.refundPolicyPercentage Sample.hospital = 80%float
  /\ Sample.balanceOf 3 Sample.doctorCancelled = Some 50%float
  /\ Sample.balanceOf 3 Sample.resolved = Some 100%float.
Proof.
  split; [reflexivity|]. split; vm_compute; reflexivity.
Qed.

(** ** The availability route *)



(** The route for a doctor with a working window that day at that hospital,
    window and booked times being well-formed: the slot is the start of the
    window or the end of the last of the existing appointments -- the last
    in the order of [existingAppointments], which sorts the text of [time]
    -- adjusted when the day is today; the schedule is full exactly when
    slot plus duration passes the end of the window, an end not after the
    start counting as the day after. *)
Lemma availability_eval env doctorId date typeId hospitalId s doctor ty d
    start stop :
  date <> "" ->
  findUser doctorId s = Some doctor ->
  findAppointmentType typeId s = Some ty ->
  inUnavailabilityEpisode (newDate env date) doctor = false ->
  dayAvailability doctor (dayName env date) hospitalId = Some d ->
  Availability.isAvailable d = true ->
  timeToMinutes (Availability.startTime d) = Some (Some start) ->
  timeToMinutes (Availability.endTime d) = Some (Some stop) ->
  forall base,
    slotAfterExisting (Some start)
      (existingAppointments doctorId hospitalId date s) s = Some (Some base) ->
    let slot := if String.eqb date (today env)
                then if (base <? currentMinutes env + 15)%Z
                     then roundUpTo5 (currentMinutes env + 15)
                     else base
                else base in
    let windowEnd := if (stop <=? start)%Z then (stop + 24 * 60)%Z else stop in
    availability env doctorId date (Some typeId) (Some hospitalId) s
    = if (windowEnd <? slot + AppointmentType.duration ty)%Z
      then respond 200 (BSlot None None scheduleFull)
      else respond 200
             (BSlot (Some (minutesToTime (Some slot)))
                    (Some (List.length
                             (existingAppointments doctorId hospitalId date s)
                           + 1))
                    "Available").
Proof.
  intros Hdate Hdoc Hty Hun Hday Hav Hstart Hstop base Hbase slot windowEnd.
  unfold availability.
  assert (Hd : String.eqb date "" = false) by (apply String.eqb_neq, Hdate).
  rewrite Hd, Hdoc, Hty, Hun, Hday, Hav, Hstart, Hstop, Hbase. cbn [negb].
  unfold shiftEnd, todayAdjusted, bookingBuffer, JS.gt, JS.le, JS.lt, JS.add.
  unfold slot, windowEnd.
  destruct (stop <=? start)%Z; destruct (String.eqb date (today env));
    try destruct (base <? currentMinutes env + 15)%Z; reflexivity.
Qed.


(** [sortByTime] permutes its list and orders it by the text of [time]. *)
Lemma insertByTime_perm a l : Permutation (a :: l) (insertByTime a l).
Proof.
  induction l as [|b l IH]; cbn; [apply Permutation_refl|].
  destruct (String.leb (Appointment.time a) (Appointment.time b)).
  - apply Permutation_refl.
  - eapply perm_trans; [apply perm_swap|].
    apply perm_skip, IH.
Qed.

Lemma sortByTime_perm l : Permutation l (sortByTime l).
Proof.
  induction l as [|a l IH]; cbn; [constructor|].
  eapply perm_trans; [apply perm_skip, IH|].
  apply insertByTime_perm.
Qed.

(** Every printed time of the day reads back as the minute it stands for. *)
Lemma minutesToTime_roundtrip m :
  (0 <= m < 1440)%Z -> timeToMinutes (minutesToTime (Some m)) = Some (Some m).
Proof.
  intros Hm.
  assert (Hall : forallb (fun n => match timeToMinutes
                                          (minutesToTime (Some (Z.of_nat n))) with
                                   | Some (Some r) => (r =? Z.of_nat n)%Z
                                   | _ => false
                                   end) (seq 0 1440) = true)
    by (vm_compute; reflexivity).
  rewrite forallb_forall in Hall.
  specialize (Hall (Z.to_nat m)).
  rewrite Z2Nat.id in Hall by lia.
  assert (Hin : In (Z.to_nat m) (seq 0 1440)) by (apply in_seq; lia).
  specialize (Hall Hin).
  destruct (timeToMinutes (minutesToTime (Some m))) as [[r|]|];
    try discriminate.
  apply Z.eqb_eq in Hall. subst r. reflexivity.
Qed.

(** Boundary: Dr. X, window 09:00 to 15:00, no booking yet: the first slot
    is 9:00 AM. *)
Example first_slot_of_the_day :
  availability Sample.env 2 "2026-03-17" (Some 5) (Some 1) Sample.store
  = respond 200 (BSlot (Some "9:00 AM") (Some 1) "Available").
Proof. vm_compute. reflexivity. Qed.

(** Boundary: Dr. Y, window 20:00 to 00:00, last booking at 11:30 PM: the
    end counts as 24:00 and 11:45 PM is offered for a 15-minute service. *)
Example midnight_wrap :
  availability Sample.env 9 "2026-03-17" (Some 5) (Some 1) Sample.lateBooked
  = respond 200 (BSlot (Some "11:45 PM") (Some 2) "Available").
Proof. vm_compute. reflexivity. Qed.

(** Today at 10:00 with nothing booked: not 9:00 AM but 10:15 AM. *)
Example today_is_floored :
  availability Sample.env 2 "2026-03-10" (Some 5) (Some 1) Sample.store
  = respond 200 (BSlot (Some "10:15 AM") (Some 1) "Available").
Proof. vm_compute. reflexivity. Qed.

(** C6, where the code departs from the claim.  Dr. X has two [Upcoming]
    appointments next Tuesday, at 9:45 AM and at 10:00 AM, 15 minutes each.
    The query orders them by the text of [time], which puts "10:00 AM"
    before "9:45 AM"; the route takes 9:45 AM for the last one and offers
    10:00 AM, a time that is booked, where the last appointment in time ends
    at 10:15 AM. *)
Theorem availability_takes_the_last_time_in_text_order :
  map Appointment.time (appointments Sample.twoBooked) = ["9:45 AM"; "10:00 AM"]
  /\ map Appointment.status (appointments Sample.twoBooked)
     = [Upcoming; Upcoming]
  /\ map Appointment.time
       (existingAppointments 2 1 "2026-03-17" Sample.twoBooked)
     = ["10:00 AM"; "9:45 AM"]
  /\ timeToMinutes "9:45 AM" = Some (Some 585%Z)
  /\ timeToMinutes "10:00 AM" = Some (Some 600%Z)
  /\ availability Sample.env 2 "2026-03-17" (Some 5) (Some 1) Sample.twoBooked
     = respond 200 (BSlot (Some "10:00 AM") (Some 3) "Available")
  /\ minutesToTime (Some (Z.max 540 (600 + 15))) = "10:15 AM".
Proof. repeat split; vm_compute; reflexivity. Qed.

(** ** The queue *)

(** Joining is refused whenever the patient has an active entry, at whatever
    doctor. *)
Lemma joinQueue_refuses_active_patient env userId doctorId hospitalId s q :
  activeEntryOf userId s = Some q ->
  queueService.joinQueue env userId doctorId hospitalId s
  = Throw (mkError "You are already in a queue.") s.
Proof.
  intros H. unfold queueService.joinQueue, bind, gets. rewrite H. reflexivity.
Qed.

(** Check-in is refused when the patient has an active entry with the doctor
    of the appointment. *)
Lemma checkIn_refuses_same_doctor env appointmentId s appointment doctor q :
  findAppointment appointmentId s = Some appointment ->
  findUser (Appointment.doctor appointment) s = Some doctor ->
  find (fun q => Nat.eqb (QueueItem.doctor q) (User._id doctor)
                 && matchesId (Appointment.user appointment) (QueueItem.user q)
                 && isActiveStatus (QueueItem.status q))
       (queueItems s) = Some q ->
  queueService.checkInAppointment env appointmentId s
  = Throw (mkError "Patient is already in the queue.") s.
Proof.
  intros Ha Hd Hq.
  unfold queueService.checkInAppointment, bind, gets, orThrow, ret.
  rewrite Ha, Hd, Hq. reflexivity.
Qed.

(** The active entries of a patient. *)
Lemma active_entries_example :
  filter (fun q => matchesId 3 (QueueItem.user q)
                   && isActiveStatus (QueueItem.status q))
         (queueItems Sample.queuedElsewhere)
  <> [].
Proof. vm_compute. discriminate. Qed.

(** C7, where the code departs from the claim.  Patient A waits in the queue
    of Dr. X and has an appointment with Dr. Y.  Check-in of that appointment
    looks for an active entry with Dr. Y only, finds none, and adds a second
    [Waiting] entry for the same patient. *)
Theorem checkIn_adds_a_second_active_entry :
  (exists q, activeEntryOf 3 Sample.queuedElsewhere = Some q
             /\ QueueItem.doctor q = 2 /\ QueueItem.status q = Waiting)
  /\ (exists a, findAppointment 20 Sample.queuedElsewhere = Some a
                /\ Appointment.user a = 3 /\ Appointment.doctor a = 9)
  /\ exists s',
       queueService.checkInAppointment Sample.env 20 Sample.queuedElsewhere
       = Ok tt s'
       /\ map (fun q => (QueueItem.user q, QueueItem.doctor q,
                         QueueItem.status q))
              (filter (fun q => matchesId 3 (QueueItem.user q)
                                && isActiveStatus (QueueItem.status q))
                      (queueItems s'))
          = [(Some 3, 2, Waiting); (Some 3, 9, Waiting)].
Proof.
  split; [eexists; split; [vm_compute; reflexivity|split; reflexivity]|].
  split; [eexists; split; [vm_compute; reflexivity|split; reflexivity]|].
  eexists. split; vm_compute; reflexivity.
Qed.

(** ** Call-next *)

Lemma NoDup_map_eq {A} (f : A -> nat) (l : list A) x y :
  NoDup (map f l) -> In x l -> In y l -> f x = f y -> x = y.
Proof.
  induction l as [|a l IH]; cbn; intros Hnd Hx Hy E; [contradiction|].
  inversion Hnd as [|? ? Hnotin Hnd']; subst.
  destruct Hx as [<-|Hx]; destruct Hy as [<-|Hy]; auto.
  - exfalso. apply Hnotin. rewrite E. apply in_map, Hy.
  - exfalso. apply Hnotin. rewrite <- E. apply in_map, Hx.
Qed.

Lemma filter_map_same {A} (p : A -> bool) (f : A -> A) (l : list A) :
  (forall q, In q l -> f q = q \/ (p q = false /\ p (f q) = false)) ->
  filter p (map f l) = filter p l.
Proof.
  induction l as [|a l IH]; cbn; intros H; [reflexivity|].
  rewrite IH by (intros q Hq; apply H; right; exact Hq).
  destruct (H a (or_introl eq_refl)) as [E|[E1 E2]].
  - rewrite E. reflexivity.
  - rewrite E1, E2. reflexivity.
Qed.

(** [earliest] returns an entry of the list with the least [checkInTime]. *)
Lemma earliest_spec l n :
  queueService.earliest l = Some n ->
  In n l /\ forall w, In w l -> (QueueItem.checkInTime n <= QueueItem.checkInTime w)%Z.
Proof.
  revert n. induction l as [|q l IH]; cbn; intros n H; [discriminate|].
  destruct (queueService.earliest l) as [r|] eqn:Hr.
  - destruct (IH r eq_refl) as [Hin Hmin].
    destruct (Z.leb_spec (QueueItem.checkInTime q) (QueueItem.checkInTime r))
      as [L|G]; inversion H; subst n.
    + split; [left; reflexivity|].
      intros w [<-|Hw]; [lia|]. specialize (Hmin w Hw). lia.
    + split; [right; exact Hin|].
      intros w [<-|Hw]; [lia|]. apply Hmin, Hw.
  - inversion H; subst n. destruct l as [|x l']; [|cbn in Hr;
      destruct (queueService.earliest l'); [destruct (_ <=? _)%Z|]; discriminate].
    split; [left; reflexivity|]. intros w [<-|[]]. lia.
Qed.

Lemma earliest_none l : queueService.earliest l = None -> l = [].
Proof.
  destruct l as [|q l]; [reflexivity|]. cbn.
  destruct (queueService.earliest l); [destruct (_ <=? _)%Z|]; discriminate.
Qed.

Lemma earliestWaiting_spec doctorId s n :
  queueService.earliestWaiting doctorId s = Some n ->
  In n (queueItems s)
  /\ QueueItem.doctor n = doctorId
  /\ QueueItem.status n = Waiting
  /\ forall w, In w (queueItems s) -> QueueItem.doctor w = doctorId ->
       QueueItem.status w = Waiting ->
       (QueueItem.checkInTime n <= QueueItem.checkInTime w)%Z.
Proof.
  unfold queueService.earliestWaiting. intros H.
  apply earliest_spec in H. destruct H as [Hin Hmin].
  apply filter_In in Hin. destruct Hin as [Hin Hp].
  apply andb_true_iff in Hp. destruct Hp as [Hd Hs].
  apply Nat.eqb_eq in Hd.
  split; [exact Hin|]. split; [exact Hd|].
  split; [destruct (QueueItem.status n); try discriminate; reflexivity|].
  intros w Hw Hwd Hws. apply Hmin. apply filter_In. split; [exact Hw|].
  rewrite Hwd, Hws, Nat.eqb_refl. reflexivity.
Qed.

Lemma currentlyServing_spec doctorId s c :
  queueService.currentlyServing doctorId s = Some c ->
  In c (queueItems s) /\ QueueItem.doctor c = doctorId
  /\ QueueItem.status c = Serving.
Proof.
  unfold queueService.currentlyServing. intros H. apply find_some in H.
  destruct H as [Hin Hp]. apply andb_true_iff in Hp. destruct Hp as [Hd Hs].
  apply Nat.eqb_eq in Hd. split; [exact Hin|]. split; [exact Hd|].
  destruct (QueueItem.status c); try discriminate; reflexivity.
Qed.

Lemma Store_ext (s t : Store) :
  users s = users t -> hospitals s = hospitals t ->
  appointmentTypes s = appointmentTypes t ->
  appointments s = appointments t -> queueItems s = queueItems t ->
  wallets s = wallets t -> transactions s = transactions t ->
  notifications s = notifications t -> redeemCodes s = redeemCodes t ->
  nextId s = nextId t -> s = t.
Proof. destruct s, t; cbn; intros; subst; reflexivity. Qed.

Lemma isEntry_status o q st :
  isEntry o (QueueItem.set_status st q) = isEntry o q.
Proof. destruct o; reflexivity. Qed.

Lemma served_is_not_waiting doctorId l c q :
  NoDup (map QueueItem._id l) ->
  In c l -> QueueItem.status c = Serving -> In q l ->
  isEntry (Some c) q = true ->
  (Nat.eqb (QueueItem.doctor q) doctorId
   && QueueStatus_eqb (QueueItem.status q) Waiting) = false.
Proof.
  intros Hnd Hc Hs Hq E. cbn in E. apply Nat.eqb_eq in E.
  rewrite (NoDup_map_eq QueueItem._id l q c Hnd Hq Hc E), Hs.
  apply andb_false_r.
Qed.

(** The waiting line of a doctor is the same once the served entry is
    marked [Done]. *)
Lemma waiting_after_done doctorId l c :
  NoDup (map QueueItem._id l) ->
  (forall cc, c = Some cc -> In cc l /\ QueueItem.status cc = Serving) ->
  filter (fun q => Nat.eqb (QueueItem.doctor q) doctorId
                   && QueueStatus_eqb (QueueItem.status q) Waiting)
         (map (fun q => if isEntry c q then QueueItem.set_status Done q else q) l)
  = filter (fun q => Nat.eqb (QueueItem.doctor q) doctorId
                     && QueueStatus_eqb (QueueItem.status q) Waiting) l.
Proof.
  intros Hnd Hc. apply filter_map_same. intros q Hq.
  destruct (isEntry c q) eqn:E; [right|left; reflexivity].
  destruct c as [cc|]; [|discriminate].
  destruct (Hc cc eq_refl) as [Hin Hs].
  split; [apply (served_is_not_waiting doctorId l cc q); assumption|].
  cbn. apply andb_false_r.
Qed.

(** Marking the served entry [Done] and then promoting the next one, as one
    pass over the queue. *)
Lemma done_then_serving l c n :
  NoDup (map QueueItem._id l) ->
  (forall cc, c = Some cc -> In cc l /\ QueueItem.status cc = Serving) ->
  (forall nn, n = Some nn -> In nn l /\ QueueItem.status nn = Waiting) ->
  map (fun q => if isEntry n q then QueueItem.set_status Serving q else q)
      (map (fun q => if isEntry c q then QueueItem.set_status Done q else q) l)
  = map (fun q => if isEntry c q then QueueItem.set_status Done q
                  else if isEntry n q then QueueItem.set_status Serving q
                  else q) l.
Proof.
  intros Hnd Hc Hn. rewrite map_map. apply map_ext_in. intros q Hq.
  destruct (isEntry c q) eqn:Ec; [|reflexivity].
  rewrite isEntry_status.
  destruct (isEntry n q) eqn:En; [exfalso|reflexivity].
  destruct c as [cc|]; [|discriminate]. destruct n as [nn|]; [|discriminate].
  destruct (Hc cc eq_refl) as [Hcin Hcs]. destruct (Hn nn eq_refl) as [Hnin Hns].
  cbn in Ec, En. apply Nat.eqb_eq in Ec, En.
  rewrite <- (NoDup_map_eq QueueItem._id l q cc Hnd Hq Hcin Ec) in Hcs.
  rewrite <- (NoDup_map_eq QueueItem._id l q nn Hnd Hq Hnin En) in Hns.
  congruence.
Qed.

(** C8.  [callNextPatient] always returns.  In one pass over the queue, the
    doctor's [Serving] entry, if any, becomes [Done] and the [Waiting] entry
    of the doctor with the least [checkInTime] becomes [Serving] and is the
    result; when the served entry belongs to a registered patient, the first
    [Upcoming] appointment of that patient with this doctor dated today
    becomes [Completed]; afterwards one "Next in Line" notification is stored
    for the patient of the entry that is then the earliest [Waiting] one, if
    it has a registered patient and the insert goes through -- and when it
    does not, the call returns the same result and leaves the same queue and
    appointments. *)
Theorem callNext_finishes_promotes_and_notifies env doctorId s :
  NoDup (map QueueItem._id (queueItems s)) ->
  let serving := queueService.currentlyServing doctorId s in
  let next := queueService.earliestWaiting doctorId s in
  exists s',
    queueService.callNextPatient env doctorId s
    = Ok (option_map (QueueItem.set_status Serving) next) s'
    /\ queueItems s'
       = map (fun q => if isEntry serving q then QueueItem.set_status Done q
                       else if isEntry next q
                       then QueueItem.set_status Serving q
                       else q)
             (queueItems s)
    /\ appointments s'
       = match serving with
         | Some c =>
             match QueueItem.user c with
             | Some u =>
                 queueService.updateFirst
                   (upcomingToday u doctorId (todayISO env))
                   (Appointment.set_status Completed) (appointments s)
             | None => appointments s
             end
         | None => appointments s
         end
    /\ (forall n, next = Some n ->
          In n (queueItems s) /\ QueueItem.doctor n = doctorId
          /\ QueueItem.status n = Waiting
          /\ forall w, In w (queueItems s) -> QueueItem.doctor w = doctorId ->
               QueueItem.status w = Waiting ->
               (QueueItem.checkInTime n <= QueueItem.checkInTime w)%Z)
    /\ notifications s'
       = notifications s
         ++ nextInLine env (nextId s) (queueService.earliestWaiting doctorId s')
    /\ wallets s' = wallets s /\ transactions s' = transactions s.
Proof.
  intros Hnd serving next.
  assert (Hc : forall cc, serving = Some cc ->
                 In cc (queueItems s) /\ QueueItem.status cc = Serving).
  { intros cc E. apply currentlyServing_spec in E. tauto. }
  assert (Hn : forall nn, next = Some nn ->
                 In nn (queueItems s) /\ QueueItem.status nn = Waiting).
  { intros nn E. apply earliestWaiting_spec in E. tauto. }
  (* the store once the served entry is finished *)
  set (s1 := set_appointments
               (match serving with
                | Some c =>
                    match QueueItem.user c with
                    | Some u =>
                        queueService.updateFirst
                          (upcomingToday u doctorId (todayISO env))
                          (Appointment.set_status Completed) (appointments s)
                    | None => appointments s
                    end
                | None => appointments s
                end)
               (set_queueItems
                  (map (fun q => if isEntry serving q
                                 then QueueItem.set_status Done q else q)
                       (queueItems s)) s)).
  assert (Hnext1 : queueService.earliestWaiting doctorId s1 = next).
  { unfold queueService.earliestWaiting, next, s1. cbn [queueItems set_appointments set_queueItems].
    rewrite (waiting_after_done doctorId (queueItems s) serving Hnd Hc).
    reflexivity. }
  set (s2 := set_queueItems
               (map (fun q => if isEntry next q
                              then QueueItem.set_status Serving q else q)
                    (queueItems s1)) s1).
  set (up := queueService.earliestWaiting doctorId s2).
  set (s3 := set_nextId
               (nextId s + List.length (nextInLine env (nextId s) up))
               (set_notifications
                  (notifications s ++ nextInLine env (nextId s) up) s2)).
  exists s3.
  assert (Hq3 : queueItems s3
                = map (fun q => if isEntry serving q
                                then QueueItem.set_status Done q
                                else if isEntry next q
                                then QueueItem.set_status Serving q
                                else q) (queueItems s)).
  { unfold s3, s2, s1. cbn [queueItems set_appointments set_queueItems set_nextId set_notifications].
    apply done_then_serving; assumption. }
  assert (Hup : queueService.earliestWaiting doctorId s3 = up)
    by reflexivity.
  split; [|split; [exact Hq3|split; [reflexivity|split;
            [intros n E; apply earliestWaiting_spec, E|
             split; [rewrite Hup; reflexivity|split; reflexivity]]]]].
  (* running the service *)
  unfold queueService.callNextPatient.
  assert (Hstep1 :
    match serving with
    | Some serving0 =>
        (queueService.setQueueStatus (QueueItem._id serving0) Done ;;;
         match QueueItem.user serving0 with
         | Some u =>
             queueService.completeTodaysAppointment u doctorId (todayISO env)
         | None => ret tt
         end)%db
    | None => ret tt
    end s = Ok tt s1).
  { unfold s1.
    destruct serving as [c|];
      [|unfold ret, isEntry; rewrite map_id; destruct s; reflexivity].
    unfold bind, queueService.setQueueStatus, modify, isEntry.
    destruct (QueueItem.user c) as [u|].
    - unfold queueService.completeTodaysAppointment, modify, upcomingToday.
      reflexivity.
    - unfold ret. cbn. destruct s; reflexivity. }
  unfold bind at 1. unfold gets at 1. fold serving.
  unfold bind at 1. rewrite Hstep1.
  unfold bind at 1. unfold gets at 1. rewrite Hnext1.
  assert (Hstep2 :
    match next with
    | Some q =>
        (queueService.setQueueStatus (QueueItem._id q) Serving ;;;
         ret (Some (QueueItem.set_status Serving q)))%db
    | None => ret None
    end s1 = Ok (option_map (QueueItem.set_status Serving) next) s2).
  { unfold s2. destruct next as [q|]; cbn [option_map isEntry].
    - unfold bind, queueService.setQueueStatus, modify, ret. reflexivity.
    - unfold ret. rewrite map_id. destruct s1; reflexivity. }
  unfold bind at 1. rewrite Hstep2.
  unfold bind at 1. unfold gets at 1. fold up.
  unfold s3, nextInLine.
  destruct up as [q|]; [destruct (QueueItem.user q) as [u|]|].
  - unfold bind, createNotification, ret. cbn [existsb notificationTypes].
    replace (String.eqb "system" "appointment" || (String.eqb "system" "reminder"
             || (String.eqb "system" "wallet" || (String.eqb "system" "system"
             || (String.eqb "system" "emergency" || false))))) with true
      by reflexivity.
    cbn [andb].
    destruct (inAppStored env u); cbn [List.length].
    + rewrite Nat.add_1_r. reflexivity.
    + rewrite app_nil_r, Nat.add_0_r. f_equal; try (apply Store_ext; reflexivity).
  - unfold bind, ret. cbn [List.length]. rewrite app_nil_r, Nat.add_0_r.
    f_equal; try (apply Store_ext; reflexivity).
  - unfold bind, ret. cbn [List.length]. rewrite app_nil_r, Nat.add_0_r.
    f_equal; try (apply Store_ext; reflexivity).
Qed.

Lemma callNext_finishes_promotes_and_notifies_witness :
  NoDup (map QueueItem._id (queueItems Sample.waitingRoom))
  /\ exists s',
       queueService.callNextPatient Sample.env 2 Sample.waitingRoom
       = Ok (option_map (QueueItem.set_status Serving)
               (queueService.earliestWaiting 2 Sample.waitingRoom)) s'
       /\ map QueueItem.status (queueItems s') = [Done; Serving; Waiting]
       /\ map Appointment.status (appointments s') = [Completed]
       /\ map Notification.user (notifications s') = [3; 4].
Proof.
  assert (H : NoDup (map QueueItem._id (queueItems Sample.waitingRoom))).
  { vm_compute. repeat constructor; cbn; intuition discriminate. }
  split; [exact H|].
  destruct (callNext_finishes_promotes_and_notifies Sample.env 2
              Sample.waitingRoom H) as (s' & E & Hq & Ha & _ & Hn & _).
  exists s'. split; [exact E|].
  rewrite Hn, Hq, Ha.
  assert (Eup : queueService.earliestWaiting 2 s'
                = nth_error (queueItems Sample.waitingRoom) 2).
  { unfold queueService.earliestWaiting. rewrite Hq. vm_compute. reflexivity. }
  rewrite Eup. vm_compute. repeat split.
Defined.

(* ------------------------------------------------------------------ *)
(** ** Reminder passes *)

Import DoctorReminderService.

Lemma reminded_id rt at_ ids a :
  Appointment._id (reminded rt at_ ids a) = Appointment._id a.
Proof.
  unfold reminded. destruct (existsb (Nat.eqb (Appointment._id a)) ids); [destruct rt|]; reflexivity.
Qed.

Lemma reminded_nil rt at_ a : reminded rt at_ [] a = a.
Proof. reflexivity. Qed.

(** Recording one more identifier, before the others. *)
Lemma reminded_cons rt at_ id ids a :
  reminded rt at_ ids (reminded rt at_ [id] a) = reminded rt at_ (id :: ids) a.
Proof.
  unfold reminded at 2. cbn [existsb]. rewrite orb_false_r.
  unfold reminded at 2. cbn [existsb].
  destruct (Nat.eqb (Appointment._id a) id) eqn:E; cbn [orb].
  - unfold reminded.
    destruct rt; cbn [Appointment._id Appointment.set_reminder24h
                      Appointment.set_reminder1h];
      destruct (existsb (Nat.eqb (Appointment._id a)) ids); destruct a; reflexivity.
  - reflexivity.
Qed.

Lemma reminded_status rt at_ ids a :
  Appointment.status (reminded rt at_ ids a) = Appointment.status a.
Proof.
  unfold reminded. destruct (existsb (Nat.eqb (Appointment._id a)) ids); [destruct rt|]; reflexivity.
Qed.

Lemma reminded_flag rt at_ ids a :
  reminderSent rt (reminded rt at_ ids a)
  = existsb (Nat.eqb (Appointment._id a)) ids || reminderSent rt a.
Proof.
  unfold reminded. destruct (existsb (Nat.eqb (Appointment._id a)) ids); [destruct rt|]; reflexivity.
Qed.

Lemma reminded_at rt at_ ids a :
  existsb (Nat.eqb (Appointment._id a)) ids = true ->
  reminderSentAt rt (reminded rt at_ ids a) = Some at_.
Proof.
  intros E. unfold reminded. rewrite E. destruct rt; reflexivity.
Qed.

Lemma existsb_eqb_In (id : ObjectId) ids :
  existsb (Nat.eqb id) ids = true <-> In id ids.
Proof.
  rewrite existsb_exists. split.
  - intros (x & Hx & E). apply Nat.eqb_eq in E. subst. exact Hx.
  - intros H. exists id. split; [exact H|apply Nat.eqb_refl].
Qed.

Lemma sentIds_app ds ds' : sentIds (ds ++ ds') = sentIds ds ++ sentIds ds'.
Proof. unfold sentIds. rewrite filter_app, map_app. reflexivity. Qed.

(** [sendDoctorReminder] always returns a result for the candidate's
    appointment, and writes the flag exactly when the send succeeded. *)
Lemma sendDoctorReminder_spec env c rt s :
  exists res s',
    sendDoctorReminder env c rt s = Ok res s'
    /\ appointmentId res = Appointment._id (appointment c)
    /\ users s' = users s
    /\ appointments s'
       = map (reminded rt (now env) (sentIds [res])) (appointments s).
Proof.
  assert (Hfail : forall msg,
    exists res s', ret (failure c msg) s = Ok res s'
      /\ appointmentId res = Appointment._id (appointment c)
      /\ users s' = users s
      /\ appointments s'
         = map (reminded rt (now env) (sentIds [res])) (appointments s)).
  { intros msg. exists (failure c msg), s.
    repeat split. cbn. rewrite map_id. reflexivity. }
  unfold sendDoctorReminder.
  destruct (doctor c) as [dr|]; [|apply Hfail].
  destruct (User.isDisabled (account dr) || negb (User.isActive (account dr)));
    [apply Hfail|].
  match goal with |- context [negb (ReminderPreferences.enabled ?p)] =>
    destruct (negb (ReminderPreferences.enabled p)); [apply Hfail|];
    destruct rt;
    [destruct (negb (ReminderPreferences.reminder24h p)); [apply Hfail|]
    |destruct (negb (ReminderPreferences.reminder1h p)); [apply Hfail|]]
  end;
  (destruct (patient c); [|apply Hfail]);
  unfold bind, markSent, modify, ret;
  destruct (delivered env (User._id (account dr)) "reminder");
  eexists; eexists; (split; [reflexivity|]); repeat split;
  cbn [appointments set_appointments sentIds filter map success appointmentId];
  try (symmetry; apply map_id);
  apply map_ext; intros a; unfold reminded; cbn [existsb];
  rewrite orb_false_r; reflexivity.
Qed.

Lemma sentIds_cons res ds :
  sentIds (res :: ds) = sentIds [res] ++ sentIds ds.
Proof. exact (sentIds_app [res] ds). Qed.

Lemma sentIds_one res :
  sentIds [res] = if success res then [appointmentId res] else [].
Proof. unfold sentIds. cbn. destruct (success res); reflexivity. Qed.

Lemma reminded_step rt at_ res ds a :
  reminded rt at_ (sentIds ds) (reminded rt at_ (sentIds [res]) a)
  = reminded rt at_ (sentIds (res :: ds)) a.
Proof.
  rewrite (sentIds_cons res ds), sentIds_one.
  destruct (success res); [apply reminded_cons|reflexivity].
Qed.

(** The loop of a pass returns; it appends its sends to the details in the
    order of the candidates, and the appointments it leaves are those of the
    start with the flag recorded for the successful sends. *)
Lemma remindEach_spec env rt sw ew l :
  forall r s,
  exists r' s' ds,
    remindEach env rt sw ew l r s = Ok r' s'
    /\ details r' = details r ++ ds
    /\ users s' = users s
    /\ appointments s'
       = map (reminded rt (now env) (sentIds ds)) (appointments s)
    /\ (forall id, In id (sentIds ds) ->
          In id (map (fun c => Appointment._id (appointment c)) l))
    /\ (NoDup (map (fun c => Appointment._id (appointment c)) l) ->
        NoDup (sentIds ds)).
Proof.
  induction l as [|c rest IH]; intros r s.
  - exists r, s, []. cbn [remindEach]. unfold ret.
    split; [reflexivity|]. split; [symmetry; apply app_nil_r|].
    split; [reflexivity|]. split; [symmetry; apply map_id|].
    split; [intros id []|intros _; constructor].
  - assert (Hskip :
      exists r' s' ds,
        remindEach env rt sw ew rest (skip r) s = Ok r' s'
        /\ details r' = details r ++ ds
        /\ users s' = users s
        /\ appointments s'
           = map (reminded rt (now env) (sentIds ds)) (appointments s)
        /\ (forall id, In id (sentIds ds) ->
              In id (map (fun c => Appointment._id (appointment c))
                         (c :: rest)))
        /\ (NoDup (map (fun c => Appointment._id (appointment c)) (c :: rest))
            -> NoDup (sentIds ds))).
    { destruct (IH (skip r) s) as (r' & s' & ds & E & Hd & Hu & Ha & Hin & Hnd).
      exists r', s', ds. split; [exact E|]. split; [exact Hd|].
      split; [exact Hu|]. split; [exact Ha|]. split.
      - intros id H. right. apply Hin, H.
      - intros H. inversion H; subst. apply Hnd. assumption. }
    cbn [remindEach].
    match goal with |- context [if negb ?b then _ else _] =>
      destruct (negb b); [exact Hskip|] end.
    match goal with |- context [if JS.lt ?x ?y then _ else _] =>
      destruct (JS.lt x y); [exact Hskip|] end.
    clear Hskip.
    destruct (sendDoctorReminder_spec env c rt s)
      as (res & s1 & E1 & Hid & Hu1 & Ha1).
    unfold bind. rewrite E1.
    destruct (IH (record res r) s1)
      as (r' & s' & ds & E & Hd & Hu & Ha & Hin & Hnd).
    exists r', s', (res :: ds). split; [exact E|].
    split.
    { rewrite Hd. cbn [record details]. rewrite <- app_assoc. reflexivity. }
    split; [congruence|]. split.
    { rewrite Ha, Ha1, map_map. apply map_ext. intros a.
      apply reminded_step. }
    rewrite (sentIds_cons res ds), sentIds_one. split.
    + intros id H. apply in_app_or in H. destruct H as [H|H].
      * destruct (success res); [|destruct H].
        destruct H as [<-|[]]. left. symmetry. exact Hid.
      * right. apply Hin, H.
    + intros H. inversion H as [|x xs Hx Hrest]; subst.
      destruct (success res); cbn [app]; [|apply Hnd, Hrest].
      constructor; [|apply Hnd, Hrest].
      rewrite Hid. intros K. apply Hx, Hin, K.
Qed.

Lemma NoDup_map_filter {A B} (f : A -> B) (p : A -> bool) l :
  NoDup (map f l) -> NoDup (map f (filter p l)).
Proof.
  induction l as [|x l IH]; intros H; [constructor|].
  inversion H as [|y ys Hx Hl]; subst. cbn [filter].
  destruct (p x); [|apply IH, Hl].
  cbn [map]. constructor; [|apply IH, Hl].
  intros K. apply Hx. apply in_map_iff in K. destruct K as (z & Ez & Hz).
  apply filter_In in Hz. apply in_map_iff. exists z. tauto.
Qed.

Lemma candidates_ids rt s :
  map (fun c => Appointment._id (appointment c)) (candidates rt s)
  = map Appointment._id
      (filter (fun a => AppointmentStatus_eqb (Appointment.status a) Upcoming
                        && negb (reminderSent rt a))
              (appointments s)).
Proof. unfold candidates. rewrite map_map. reflexivity. Qed.

(** A pass returns; see [remindEach_spec]. *)
Lemma processReminders_spec env rt s :
  exists r' s',
    processReminders env rt s = Ok r' s'
    /\ users s' = users s
    /\ appointments s'
       = map (reminded rt (now env) (successes r')) (appointments s)
    /\ (forall id, In id (successes r') ->
          exists c, In c (candidates rt s)
                    /\ Appointment._id (appointment c) = id)
    /\ (NoDup (map Appointment._id (appointments s)) ->
        NoDup (successes r')).
Proof.
  unfold processReminders, bind, gets.
  match goal with |- context [remindEach env rt ?sw ?ew ?l ?r s] =>
    destruct (remindEach_spec env rt sw ew l r s)
      as (r' & s' & ds & E & Hd & Hu & Ha & Hin & Hnd) end.
  cbn [details app] in Hd.
  assert (Hs : successes r' = sentIds ds)
    by (unfold successes; rewrite Hd; reflexivity).
  exists r', s'. rewrite Hs. split; [exact E|]. split; [exact Hu|].
  split; [exact Ha|]. split.
  - intros id H. apply Hin in H. apply in_map_iff in H.
    destruct H as (c & Ec & Hc). exists c. tauto.
  - intros H. apply Hnd. rewrite candidates_ids.
    apply NoDup_map_filter, H.
Qed.

Lemma find_map_reminded rt at_ ids id l :
  find (fun a => Nat.eqb (Appointment._id a) id) (map (reminded rt at_ ids) l)
  = option_map (reminded rt at_ ids)
      (find (fun a => Nat.eqb (Appointment._id a) id) l).
Proof.
  induction l as [|a l IH]; [reflexivity|].
  cbn [map find]. rewrite reminded_id.
  destruct (Nat.eqb (Appointment._id a) id); [reflexivity|exact IH].
Qed.

Lemma find_some_of_In id (l : list Appointment.t) :
  In id (map Appointment._id l) ->
  exists a, find (fun a => Nat.eqb (Appointment._id a) id) l = Some a
            /\ Appointment._id a = id.
Proof.
  induction l as [|a l IH]; intros H; [destruct H|].
  cbn [find]. destruct (Nat.eqb (Appointment._id a) id) eqn:E.
  - exists a. split; [reflexivity|apply Nat.eqb_eq, E].
  - destruct H as [H|H]; [apply Nat.eqb_neq in E; contradiction|].
    apply IH, H.
Qed.

(** A successful send leaves the flag of the class and the time of the send
    on the appointment, which is then no candidate of the class. *)
Lemma sendDoctorReminder_marks env c rt s res s' :
  In (Appointment._id (appointment c)) (map Appointment._id (appointments s)) ->
  sendDoctorReminder env c rt s = Ok res s' ->
  success res = true ->
  (exists a, findAppointment (Appointment._id (appointment c)) s' = Some a
             /\ reminderSent rt a = true
             /\ reminderSentAt rt a = Some (now env))
  /\ ~ In (Appointment._id (appointment c))
          (map (fun c' => Appointment._id (appointment c')) (candidates rt s')).
Proof.
  intros Hin E Hs.
  destruct (sendDoctorReminder_spec env c rt s)
    as (res0 & s0 & E0 & Hid & _ & Ha).
  rewrite E in E0. inversion E0; subst res0 s0. clear E0.
  rewrite sentIds_one, Hs, Hid in Ha.
  split.
  - destruct (find_some_of_In _ (appointments s) Hin) as (a & Ef & Ea).
    exists (reminded rt (now env) [Appointment._id (appointment c)] a).
    assert (Hex : existsb (Nat.eqb (Appointment._id a))
                    [Appointment._id (appointment c)] = true)
      by (apply existsb_eqb_In; left; symmetry; exact Ea).
    split; [|split].
    + unfold findAppointment. rewrite Ha, find_map_reminded, Ef. reflexivity.
    + rewrite reminded_flag, Hex. reflexivity.
    + apply reminded_at, Hex.
  - rewrite candidates_ids. intros K. apply in_map_iff in K.
    destruct K as (a' & Ea' & Hf). apply filter_In in Hf.
    destruct Hf as [Hf Hp]. apply andb_true_iff in Hp. destruct Hp as [_ Hp].
    apply negb_true_iff in Hp.
    rewrite Ha in Hf. apply in_map_iff in Hf. destruct Hf as (a0 & <- & _).
    rewrite reminded_flag in Hp. apply orb_false_iff in Hp.
    destruct Hp as [Hp _]. rewrite reminded_id in Ea'.
    assert (Hex : existsb (Nat.eqb (Appointment._id a0))
                    [Appointment._id (appointment c)] = true)
      by (apply existsb_eqb_In; left; symmetry; exact Ea').
    congruence.
Qed.

(** C9.  From a store whose appointments have distinct identifiers, two
    reminder passes of the same class run one after the other both return,
    and no appointment has a successful send in both, nor twice in one: each
    successful send of the first pass left the appointment's flag of the
    class set, with the time of the send as its sent-at timestamp, and the
    candidates the second pass reads have the flag unset, so none of them
    was sent a reminder by the first.  And [sendDoctorReminder] itself,
    whatever appointment object it is given: when it reports a success for
    a stored appointment, it has set that appointment's flag of the class
    and the sent-at timestamp, and the appointment is no candidate of the
    class any more. *)
Theorem reminder_passes_send_once env1 env2 rt s :
  NoDup (map Appointment._id (appointments s)) ->
  (exists r1 s1 r2 s2,
     processReminders env1 rt s = Ok r1 s1
     /\ processReminders env2 rt s1 = Ok r2 s2
     /\ NoDup (successes r1 ++ successes r2)
     /\ (forall id, In id (successes r1) ->
           exists a, findAppointment id s1 = Some a
                     /\ reminderSent rt a = true
                     /\ reminderSentAt rt a = Some (now env1))
     /\ (forall c, In c (candidates rt s1) ->
           reminderSent rt (appointment c) = false
           /\ ~ In (Appointment._id (appointment c)) (successes r1)))
  /\ (forall c res s',
        In (Appointment._id (appointment c))
           (map Appointment._id (appointments s)) ->
        sendDoctorReminder env1 c rt s = Ok res s' ->
        success res = true ->
        (exists a,
           findAppointment (Appointment._id (appointment c)) s' = Some a
           /\ reminderSent rt a = true
           /\ reminderSentAt rt a = Some (now env1))
        /\ ~ In (Appointment._id (appointment c))
                (map (fun c' => Appointment._id (appointment c'))
                     (candidates rt s'))).
Proof.
  intros Hnd.
  split; [|intros c res s'; apply sendDoctorReminder_marks].
  destruct (processReminders_spec env1 rt s)
    as (r1 & s1 & E1 & Hu1 & Ha1 & Hin1 & Hnd1).
  destruct (processReminders_spec env2 rt s1)
    as (r2 & s2 & E2 & Hu2 & Ha2 & Hin2 & Hnd2).
  assert (Hids : map Appointment._id (appointments s1)
                 = map Appointment._id (appointments s)).
  { rewrite Ha1, map_map. apply map_ext. intros a. apply reminded_id. }
  assert (Hcand : forall c, In c (candidates rt s1) ->
            reminderSent rt (appointment c) = false
            /\ ~ In (Appointment._id (appointment c)) (successes r1)).
  { intros c Hc. unfold candidates in Hc. apply in_map_iff in Hc.
    destruct Hc as (a & <- & Ha). cbn [appointment].
    apply filter_In in Ha. destruct Ha as [Ha Hp].
    apply andb_true_iff in Hp. destruct Hp as [_ Hp].
    apply negb_true_iff in Hp. split; [exact Hp|].
    rewrite Ha1 in Ha. apply in_map_iff in Ha. destruct Ha as (a0 & <- & _).
    rewrite reminded_flag in Hp. apply orb_false_iff in Hp.
    rewrite reminded_id. intros K. apply existsb_eqb_In in K.
    destruct Hp as [Hp _]. congruence. }
  exists r1, s1, r2, s2. split; [exact E1|]. split; [exact E2|].
  split; [|split; [|exact Hcand]].
  - apply NoDup_app.
    + apply Hnd1, Hnd.
    + apply Hnd2. rewrite Hids. exact Hnd.
    + intros id H1 H2. destruct (Hin2 id H2) as (c & Hc & <-).
      exact (proj2 (Hcand c Hc) H1).
  - intros id H. destruct (Hin1 id H) as (c & Hc & Ec).
    assert (Hid : In id (map Appointment._id (appointments s))).
    { unfold candidates in Hc. apply in_map_iff in Hc.
      destruct Hc as (a & <- & Ha). apply filter_In in Ha.
      apply in_map_iff. exists a. cbn [appointment] in Ec. tauto. }
    destruct (find_some_of_In id (appointments s) Hid) as (a & Ef & Ea).
    exists (reminded rt (now env1) (successes r1) a).
    assert (Hex : existsb (Nat.eqb (Appointment._id a)) (successes r1) = true)
      by (apply existsb_eqb_In; rewrite Ea; exact H).
    split; [|split].
    + unfold findAppointment. rewrite Ha1, find_map_reminded, Ef. reflexivity.
    + rewrite reminded_flag, Hex. reflexivity.
    + apply reminded_at, Hex.
Qed.

Lemma reminder_passes_send_once_witness :
  NoDup (map Appointment._id (appointments Sample.booked))
  /\ (exists r1 s1 r2 s2,
        processReminders Sample.dayBefore R24h Sample.booked = Ok r1 s1
        /\ processReminders Sample.dayBefore R24h s1 = Ok r2 s2
        /\ NoDup (successes r1 ++ successes r2))
  /\ exists res s',
       sendDoctorReminder Sample.dayBefore Cases.briefed R24h Sample.booked
       = Ok res s'
       /\ success res = true
       /\ option_map (fun a => (reminderSent R24h a, reminderSentAt R24h a))
            (findAppointment 20 s')
          = Some (true, Some (now Sample.dayBefore))
       /\ candidates R24h s' = [].
Proof.
  assert (H : NoDup (map Appointment._id (appointments Sample.booked))).
  { vm_compute. repeat constructor; cbn; intuition discriminate. }
  split; [exact H|].
  destruct (reminder_passes_send_once Sample.dayBefore Sample.dayBefore R24h
              Sample.booked H)
    as ((r1 & s1 & r2 & s2 & E1 & E2 & Hnd & _) & Hsend).
  split; [exists r1, s1, r2, s2; auto|].
  destruct (sendDoctorReminder Sample.dayBefore Cases.briefed R24h
              Sample.booked) as [res s'|e s'] eqn:E;
    [|vm_compute in E; discriminate].
  assert (Hs : success res = true).
  { assert (K : match sendDoctorReminder Sample.dayBefore Cases.briefed R24h
                        Sample.booked with
                | Ok r _ => success r
                | Throw _ _ => false
                end = true) by (vm_compute; reflexivity).
    rewrite E in K. exact K. }
  assert (Hin : In (Appointment._id (appointment Cases.briefed))
                   (map Appointment._id (appointments Sample.booked)))
    by (vm_compute; auto).
  destruct (Hsend Cases.briefed res s' Hin E Hs) as ((a & Ef & Hf & Hat) & _).
  exists res, s'. split; [reflexivity|]. split; [exact Hs|].
  split.
  - change (Appointment._id (appointment Cases.briefed)) with 20 in Ef.
    rewrite Ef. cbn [option_map]. rewrite Hf, Hat. reflexivity.
  - assert (K : match sendDoctorReminder Sample.dayBefore Cases.briefed R24h
                        Sample.booked with
                | Ok _ s0 => candidates R24h s0
                | Throw _ _ => []
                end = []) by (vm_compute; reflexivity).
    rewrite E in K. exact K.
Defined.

(** Two passes on the day before the appointment of [Sample.booked]: each
    finds it, tries it and reports the failure "Doctor has disabled
    appointment reminders"; the flag stays unset. *)
Example scenario_two_reminder_passes :
  let s1 := after (processReminders Sample.dayBefore R24h) Sample.booked in
  s1 = Sample.booked
  /\ map (reminderSent R24h) (appointments s1) = [false]
  /\ map (fun c => Appointment._id (appointment c)) (candidates R24h s1) = [20]
  /\ match processReminders Sample.dayBefore R24h s1 with
     | Ok r _ =>
         total r = 1 /\ sent r = 0 /\ failed r = 1
         /\ map error (details r)
            = [Some "Doctor has disabled appointment reminders"]
     | Throw _ _ => False
     end.
Proof. vm_compute. repeat split. Qed.

(* ------------------------------------------------------------------ *)
(** * Further properties of the code *)

(** ** The wallet service and the wallet routes *)

(** [!x || x <= 0] is false for the doubles above 0 only, the positive
    infinity among them. *)
Lemma invalidAmount_spec x :
  walletRoutes.invalidAmount x = negb (0 <? x)%float.
Proof.
  unfold walletRoutes.invalidAmount, falsyNumber, PrimFloat.is_nan.
  rewrite !FloatAxioms.eqb_spec, FloatAxioms.leb_spec, FloatAxioms.ltb_spec.
  change (Prim2SF 0) with (S754_zero false).
  unfold SFeqb, SFleb, SFltb.
  destruct (Prim2SF x) as [sg|sg| |sg m e]; cbn;
    try reflexivity; try (destruct sg; reflexivity).
  assert (Ke : IntDef.Z.compare e e = Eq) by apply Z.compare_refl.
  assert (Km : PosDef.Pos.compare_cont Eq m m = Eq)
    by apply Pos.compare_cont_refl.
  rewrite Ke, Km. destruct sg; reflexivity.
Qed.

(** The wallet of the user once a transaction is posted, in any store that
    has the wallets of [posted]. *)
Lemma findWallet_posted d w s s2 :
  walletService.findWallet (walletService.userId d) s = Some w ->
  wallets s2 = wallets (posted d w s) ->
  walletService.findWallet (walletService.userId d) s2
  = Some {| Wallet._id := Wallet._id w; Wallet.user := Wallet.user w;
            Wallet.balance := (Wallet.balance w + signedChange d)%float |}.
Proof.
  intros Hw E. apply (findWallet_incBalance _ _ _ s); [exact Hw|].
  rewrite E. reflexivity.
Qed.

(** X1.  [createTransactionAndUpdateWallet], whatever object it is given, in
    the caller's session or in its own.  It throws in five cases only: one
    of the six required fields is undefined ("Missing required fields for
    transaction."), the user has no wallet, the transaction is a debit above
    the balance, the amount is [NaN] (refused when the operand of [$inc] is
    cast), the description is empty (refused when the transaction is
    saved).  When it throws nothing was written, with one exception: the
    empty description in the caller's session, where the balance has moved
    already and is left to the caller's transaction.  When it returns, every
    required field was defined, the user's wallet moved by the signed
    amount -- the balance is the double [balance + amount], or [balance +
    (- amount)] for a debit --, the returned transaction is the one entry
    added to the ledger, and a debit was not above the balance. *)
Theorem wallet_transaction_posts_or_writes_nothing o existingSession s :
  match walletService.createTransactionAndUpdateWallet o existingSession s with
  | Throw e s' =>
      match walletService.required o with
      | None => e = mkError "Missing required fields for transaction." /\ s' = s
      | Some d =>
          match walletService.findWallet (walletService.userId d) s with
          | None => e = mkError "Wallet not found for this user." /\ s' = s
          | Some w =>
              (walletService.type d = debit
               /\ (Wallet.balance w <? walletService.amount d)%float = true
               /\ e = mkError "Insufficient wallet balance." /\ s' = s)
              \/ (overdraws d w = false
                  /\ PrimFloat.is_nan (walletService.amount d) = true
                  /\ e = walletService.incCastError /\ s' = s)
              \/ (overdraws d w = false
                  /\ PrimFloat.is_nan (walletService.amount d) = false
                  /\ walletService.description d = ""
                  /\ e = walletService.transactionValidationError
                  /\ s' = if existingSession then moved d w s else s)
          end
      end
  | Ok t s' =>
      exists d w,
        walletService.required o = Some d
        /\ walletService.findWallet (walletService.userId d) s = Some w
        /\ (walletService.type d = debit ->
            (Wallet.balance w <? walletService.amount d)%float = false)
        /\ PrimFloat.is_nan (walletService.amount d) = false
        /\ walletService.description d <> ""
        /\ transactions s' = transactions s ++ [t]
        /\ Transaction.wallet t = Wallet._id w
        /\ Transaction.user t = walletService.userId d
        /\ Transaction.amount t = walletService.amount d
        /\ Transaction.type t = walletService.type d
        /\ walletService.findWallet (walletService.userId d) s'
           = Some {| Wallet._id := Wallet._id w; Wallet.user := Wallet.user w;
                     Wallet.balance :=
                       (Wallet.balance w
                        + match walletService.type d with
                          | credit => walletService.amount d
                          | debit => - walletService.amount d
                          end)%float |}
        /\ appointments s' = appointments s
        /\ queueItems s' = queueItems s
  end.
Proof.
  unfold walletService.createTransactionAndUpdateWallet.
  destruct (walletService.required o) as [d|]; [|split; reflexivity].
  assert (Hp : (if existingSession then walletService.performDbOperations d
                else withTransaction (walletService.performDbOperations d)) s
               = match walletService.performDbOperations d s with
                 | Ok t s' => Ok t s'
                 | Throw e s' => Throw e (if existingSession then s' else s)
                 end).
  { unfold withTransaction. destruct existingSession;
      destruct (walletService.performDbOperations d s); reflexivity. }
  rewrite Hp, performDbOperations_eq. clear Hp.
  destruct (walletService.findWallet (walletService.userId d) s) as [w|] eqn:Hw.
  2:{ split; [reflexivity|destruct existingSession; reflexivity]. }
  destruct (overdraws d w) eqn:Ho.
  { left. unfold overdraws in Ho.
    destruct (walletService.type d); [discriminate|].
    repeat split; [exact Ho|destruct existingSession; reflexivity]. }
  destruct (wellFormed d) eqn:Hwf.
  - unfold wellFormed in Hwf. apply andb_true_iff in Hwf.
    destruct Hwf as [Hn Hd]. apply negb_true_iff in Hn, Hd.
    exists d, w. split; [reflexivity|]. split; [exact Hw|]. split.
    { intros Hty. unfold overdraws in Ho. rewrite Hty in Ho. exact Ho. }
    split; [exact Hn|]. split; [apply String.eqb_neq, Hd|].
    split; [reflexivity|]. split; [reflexivity|]. split; [reflexivity|].
    split; [reflexivity|]. split; [reflexivity|]. split; [|split; reflexivity].
    rewrite (findWallet_posted d w s _ Hw eq_refl).
    unfold signedChange. reflexivity.
  - unfold refused, wellFormed in *.
    destruct (PrimFloat.is_nan (walletService.amount d)) eqn:Hn.
    + right. left. repeat split. destruct existingSession; reflexivity.
    + right. right. cbn [negb andb] in Hwf. apply negb_false_iff in Hwf.
      apply String.eqb_eq in Hwf. repeat split. exact Hwf.
Qed.

Lemma find_app_last {A} (p : A -> bool) l x :
  find p l = None -> p x = true -> find p (l ++ [x]) = Some x.
Proof.
  induction l as [|y l IH]; cbn; intros Hn Hx; [rewrite Hx; reflexivity|].
  destruct (p y); [discriminate|]. apply IH; assumption.
Qed.

(** X2.  [getOrCreateWallet] always returns a wallet of the user, which is
    then the wallet [findOne] finds; asking again returns the same wallet and
    writes nothing.  An existing wallet is returned as it is, with nothing
    written; a missing one is created with balance 0 at the end of the
    collection.  The ledger is not touched. *)
Theorem getOrCreateWallet_creates_once u s :
  exists w s',
    walletService.getOrCreateWallet u s = Ok w s'
    /\ Wallet.user w = u
    /\ walletService.findWallet u s' = Some w
    /\ walletService.getOrCreateWallet u s' = Ok w s'
    /\ match walletService.findWallet u s with
       | Some w0 => w = w0 /\ s' = s
       | None => Wallet.balance w = 0%float /\ wallets s' = wallets s ++ [w]
       end
    /\ transactions s' = transactions s.
Proof.
  unfold walletService.getOrCreateWallet.
  destruct (walletService.findWallet u s) as [w0|] eqn:Hw.
  - exists w0, s. rewrite Hw. repeat split.
    unfold walletService.findWallet in Hw. apply find_some in Hw.
    apply Nat.eqb_eq, Hw.
  - unfold walletService.createWallet.
    eexists; eexists. split; [reflexivity|].
    assert (Hf : walletService.findWallet u
                   (set_nextId (S (nextId s))
                      (set_wallets
                         (wallets s
                          ++ [{| Wallet._id := nextId s; Wallet.user := u;
                                 Wallet.balance := 0%float |}]) s))
                 = Some {| Wallet._id := nextId s; Wallet.user := u;
                           Wallet.balance := 0%float |}).
    { unfold walletService.findWallet. cbn [wallets set_nextId set_wallets].
      apply find_app_last; [exact Hw|apply Nat.eqb_refl]. }
    rewrite Hf. repeat split.
Qed.


(** A deposit of 25 by Amal, what the route answers to an amount of 0 and
    to what [parseFloat] makes of a text that is no number, and the deposit
    of the positive infinity, which the route accepts. *)
Example scenario_deposit :
  let r := walletRoutes.deposit Sample.env Sample.patientA 25 Sample.store in
  fst r = respond 200 (BSuccessAmount 25)
  /\ Sample.balanceOf 3 (snd r) = Some 125%float
  /\ List.length (transactions (snd r)) = 3
  /\ walletRoutes.deposit Sample.env Sample.patientA 0 Sample.store
     = (respond 400 (BError "Please provide a valid positive amount."),
        Sample.store)
  /\ walletRoutes.deposit Sample.env Sample.patientA nan Sample.store
     = (respond 400 (BError "Please provide a valid positive amount."),
        Sample.store)
  /\ (let r' := walletRoutes.deposit Sample.env Sample.patientA infinity
                  Sample.store in
      fst r' = respond 200 (BSuccessAmount infinity)
      /\ Sample.balanceOf 3 (snd r') = Some infinity).
Proof. vm_compute. repeat split. Qed.

Lemma toUpperCase_empty s : JS.toUpperCase s = "" -> s = "".
Proof. destruct s; [reflexivity|discriminate]. Qed.






(** X5.  [POST /api/users/:id/add-funds], for the double [parseFloat] read
    in the body.  Whatever is not answered [200] wrote nothing -- a caller
    who is neither hospital manager nor super admin ([403]), an amount that
    is not a double above 0 ([400]), a user without wallet ([404]) -- and
    for a manager or super admin, an amount above 0 and a user with a
    wallet, the route answers [200] with the new balance, the double [old
    balance + amount], which is the balance stored, and the ledger has one
    more credit of that amount. *)
Theorem addFunds_answers_the_new_balance env reqUser id parsedAmount descr s :
  let r := walletRoutes.addFunds env reqUser id parsedAmount descr s in
  (statusCode (fst r) <> 200 -> snd r = s)
  /\ (User.role reqUser = HospitalManager \/ User.role reqUser = SuperAdmin ->
      forall w, (0 <? parsedAmount)%float = true ->
        walletService.findWallet id s = Some w ->
        fst r = respond 200 (BBalance (Wallet.balance w + parsedAmount)%float)
        /\ walletService.findWallet id (snd r)
           = Some {| Wallet._id := Wallet._id w; Wallet.user := Wallet.user w;
                     Wallet.balance :=
                       (Wallet.balance w + parsedAmount)%float |}
        /\ exists t,
             transactions (snd r) = transactions s ++ [t]
             /\ Transaction.wallet t = Wallet._id w
             /\ Transaction.type t = credit
             /\ Transaction.amount t = parsedAmount)
  /\ (walletService.findWallet id s = None -> statusCode (fst r) <> 200)
  /\ ((0 <? parsedAmount)%float = false -> statusCode (fst r) <> 200).
Proof.
  intros r. subst r. unfold walletRoutes.addFunds.
  destruct (Role_eqb (User.role reqUser) HospitalManager
            || Role_eqb (User.role reqUser) SuperAdmin) eqn:Hrole; cbn [negb].
  2:{ split; [reflexivity|]. split; [|split; cbn; discriminate].
      intros [E|E]; rewrite E in Hrole; discriminate. }
  rewrite invalidAmount_spec.
  destruct (0 <? parsedAmount)%float eqn:Hpos; cbn [negb].
  2:{ split; [reflexivity|]. split; [intros _ w K; discriminate|].
      split; cbn; discriminate. }
  destruct (walletService.findWallet id s) as [w|] eqn:Hw.
  2:{ split; [reflexivity|]. split; [intros _ w _ K; discriminate|].
      split; [cbn; discriminate|intros K; discriminate]. }
  set (d := {| walletService.userId := id;
               walletService.amount := parsedAmount;
               walletService.type := credit;
               walletService.transactionType := Deposit;
               walletService.description :=
                 if String.eqb descr "" then "Admin deposit." else descr;
               walletService.referenceId := RefStamp "ADMIN_DEPOSIT_" (now env);
               walletService.hospitalId := None |}).
  assert (Hwf : wellFormed d = true).
  { unfold wellFormed; cbn [d walletService.amount walletService.description].
    rewrite (positive_is_a_number _ Hpos). cbn [negb andb].
    destruct (String.eqb descr "") eqn:Hd; [reflexivity|].
    rewrite Hd. reflexivity. }
  unfold handle, bind.
  rewrite createTransactionAndUpdateWallet_given. unfold withTransaction.
  rewrite performDbOperations_eq. cbn [walletService.userId d]. rewrite Hw.
  change (overdraws d w) with false. cbv iota. rewrite Hwf.
  destruct (createNotification env id "wallet" walletRoutes.walletCredited
              (posted d w s)) as [b s2|e s2] eqn:Hn.
  2:{ unfold createNotification in Hn. destruct (_ && _) in Hn; discriminate. }
  apply createNotification_Ok in Hn. destruct Hn as (Hwal & Htx & _).
  unfold gets.
  pose proof (findWallet_posted d w s s2 Hw Hwal) as Hw2.
  cbn [walletService.userId d] in Hw2. rewrite Hw2. unfold ret. cbn [fst snd].
  split; [intros K; exfalso; apply K; reflexivity|].
  split; [|split; intros K; discriminate].
  intros _ w' _ K. inversion K; subst w'.
  split; [reflexivity|]. split; [exact Hw2|].
  exists (transactionOf d (Wallet._id w) (nextId s)).
  rewrite Htx. repeat split.
Qed.

(** The manager credits 40 to Bilal; a patient may not. *)
Example scenario_add_funds :
  let manager := Sample.person 30 HospitalManager "mona" in
  fst (walletRoutes.addFunds Sample.env manager 10 40 "" Sample.store)
  = respond 200 (BBalance 140)
  /\ walletRoutes.addFunds Sample.env Sample.patientA 10 40 "" Sample.store
     = (respond 403
          (BError "User role 'patient' is not authorized to access this route"),
        Sample.store)
  /\ fst (walletRoutes.addFunds Sample.env manager 4 40 "" Sample.store)
     = respond 404 (BError "Wallet not found").
Proof. vm_compute. repeat split. Qed.

(** ** The queue service *)

Lemma set_status_twice st st' q :
  QueueItem.set_status st (QueueItem.set_status st' q) = QueueItem.set_status st q.
Proof. destruct q; reflexivity. Qed.

Lemma set_status_same q : QueueItem.set_status (QueueItem.status q) q = q.
Proof. destruct q; reflexivity. Qed.

Lemma findQueueItem_setQueueStatus id st s q :
  findQueueItem id s = Some q ->
  find (fun x => Nat.eqb (QueueItem._id x) id)
       (map (fun x => if Nat.eqb (QueueItem._id x) id
                      then QueueItem.set_status st x else x) (queueItems s))
  = Some (QueueItem.set_status st q).
Proof.
  unfold findQueueItem. induction (queueItems s) as [|x l IH]; [discriminate|].
  cbn [find map]. destruct (Nat.eqb (QueueItem._id x) id) eqn:E.
  - intros H. inversion H; subst x. cbn [QueueItem._id QueueItem.set_status].
    destruct q; cbn in *. rewrite E. reflexivity.
  - rewrite E. exact IH.
Qed.

(** X6.  [holdPatient] and [requeuePatient].  An entry that is [Waiting] or
    [Serving] can be put on hold and, from there, back in line: it is then
    [Waiting] with the [checkInTime] it had, every other entry is as it was,
    and for an entry that was [Waiting] the whole store is back to what it
    was.  The refusals write nothing: an unknown entry, holding an entry that
    is neither [Serving] nor [Waiting], re-queueing one that is not [Held]. *)
Theorem hold_then_requeue_keeps_the_place id s :
  NoDup (map QueueItem._id (queueItems s)) ->
  match findQueueItem id s with
  | None =>
      queueService.holdPatient id s = Throw (mkError "Queue item not found") s
      /\ queueService.requeuePatient id s
         = Throw (mkError "Queue item not found") s
  | Some q =>
      (QueueItem.status q <> Held ->
       queueService.requeuePatient id s
       = Throw (mkError "Patient is not on hold.") s)
      /\ (QueueItem.status q <> Serving -> QueueItem.status q <> Waiting ->
          queueService.holdPatient id s
          = Throw (mkError "Cannot hold a patient with this status.") s)
      /\ (QueueItem.status q = Serving \/ QueueItem.status q = Waiting ->
          exists s1 s2,
            queueService.holdPatient id s
            = Ok (QueueItem.set_status Held q) s1
            /\ findQueueItem id s1 = Some (QueueItem.set_status Held q)
            /\ queueService.requeuePatient id s1
               = Ok (QueueItem.set_status Waiting q) s2
            /\ queueItems s2
               = map (fun x => if Nat.eqb (QueueItem._id x) id
                               then QueueItem.set_status Waiting q else x)
                     (queueItems s)
            /\ QueueItem.checkInTime (QueueItem.set_status Waiting q)
               = QueueItem.checkInTime q
            /\ (QueueItem.status q = Waiting -> s2 = s))
  end.
Proof.
  intros Hnd.
  destruct (findQueueItem id s) as [q|] eqn:Hq.
  2:{ unfold queueService.holdPatient, queueService.requeuePatient, bind, gets.
      rewrite Hq. split; reflexivity. }
  assert (Hin : In q (queueItems s) /\ QueueItem._id q = id).
  { unfold findQueueItem in Hq. apply find_some in Hq.
    split; [tauto|apply Nat.eqb_eq; tauto]. }
  destruct Hin as [Hin Hid].
  split; [|split].
  - intros Hs. unfold queueService.requeuePatient, bind, gets. rewrite Hq.
    cbn [orThrow ret]. destruct (QueueItem.status q); try reflexivity.
    contradiction.
  - intros H1 H2. unfold queueService.holdPatient, bind, gets. rewrite Hq.
    cbn [orThrow ret]. destruct (QueueItem.status q); try reflexivity;
      contradiction.
  - intros Hst.
    set (s1 := set_queueItems
                 (map (fun x => if Nat.eqb (QueueItem._id x) id
                                then QueueItem.set_status Held x else x)
                      (queueItems s)) s).
    set (s2 := set_queueItems
                 (map (fun x => if Nat.eqb (QueueItem._id x) id
                                then QueueItem.set_status Waiting x else x)
                      (queueItems s1)) s1).
    assert (Hq1 : findQueueItem id s1 = Some (QueueItem.set_status Held q)).
    { unfold findQueueItem, s1. cbn [queueItems set_queueItems].
      apply findQueueItem_setQueueStatus, Hq. }
    assert (Hitems : queueItems s2
              = map (fun x => if Nat.eqb (QueueItem._id x) id
                              then QueueItem.set_status Waiting q else x)
                    (queueItems s)).
    { unfold s2, s1. cbn [queueItems set_queueItems]. rewrite map_map.
      apply map_ext_in. intros x Hx.
      destruct (Nat.eqb (QueueItem._id x) id) eqn:E.
      - apply Nat.eqb_eq in E.
        rewrite (NoDup_map_eq QueueItem._id (queueItems s) x q Hnd Hx Hin)
          by congruence.
        replace (QueueItem._id (QueueItem.set_status Held q)) with id
          by (destruct q; exact (eq_sym Hid)).
        rewrite Nat.eqb_refl. apply set_status_twice.
      - rewrite E. reflexivity. }
    exists s1, s2. split; [|split; [exact Hq1|split; [|split; [exact Hitems|split]]]].
    + unfold queueService.holdPatient, bind, gets. rewrite Hq.
      cbn [orThrow ret]. unfold ret.
      destruct Hst as [-> | ->]; reflexivity.
    + unfold queueService.requeuePatient, bind, gets. rewrite Hq1.
      cbn [orThrow ret]. unfold ret. cbn. rewrite set_status_twice.
      reflexivity.
    + destruct q; reflexivity.
    + intros Hw. apply Store_ext; try reflexivity.
      rewrite Hitems. rewrite <- (map_id (queueItems s)) at 2.
      apply map_ext_in. intros x Hx.
      destruct (Nat.eqb (QueueItem._id x) id) eqn:E; [|reflexivity].
      apply Nat.eqb_eq in E.
      rewrite <- (NoDup_map_eq QueueItem._id (queueItems s) x q Hnd Hx Hin)
        by congruence.
      rewrite <- Hw.
      rewrite (NoDup_map_eq QueueItem._id (queueItems s) x q Hnd Hx Hin)
        by congruence.
      apply set_status_same.
Qed.

Lemma hold_then_requeue_keeps_the_place_witness :
  NoDup (map QueueItem._id (queueItems Sample.waitingRoom))
  /\ exists q s1 s2,
       findQueueItem 24 Sample.waitingRoom = Some q
       /\ queueService.holdPatient 24 Sample.waitingRoom
          = Ok (QueueItem.set_status Held q) s1
       /\ queueService.requeuePatient 24 s1
          = Ok (QueueItem.set_status Waiting q) s2
       /\ s2 = Sample.waitingRoom.
Proof.
  assert (H : NoDup (map QueueItem._id (queueItems Sample.waitingRoom))).
  { vm_compute. repeat constructor; cbn; intuition discriminate. }
  split; [exact H|].
  pose proof (hold_then_requeue_keeps_the_place 24 Sample.waitingRoom H) as K.
  destruct (findQueueItem 24 Sample.waitingRoom) as [q|] eqn:E;
    [|vm_compute in E; discriminate].
  assert (Hw : QueueItem.status q = Waiting)
    by (vm_compute in E; inversion E; reflexivity).
  destruct K as (_ & _ & K).
  destruct (K (or_intror Hw)) as (s1 & s2 & H1 & _ & H2 & _ & _ & H3).
  exists q, s1, s2. split; [reflexivity|]. split; [exact H1|].
  split; [exact H2|exact (H3 Hw)].
Defined.

(** What a call to [joinQueue] does to the queue, whether it returns or
    throws. *)
Lemma joinQueue_queue env userId doctorId hospitalId s :
  match queueService.joinQueue env userId doctorId hospitalId s with
  | Ok _ s1 =>
      activeEntryOf userId s = None
      /\ (exists dr, findUser doctorId s = Some dr
                     /\ User.role dr = Doctor
                     /\ In hospitalId (User.hospitals dr))
      /\ nextId s1 = S (nextId s)
      /\ exists n,
           queueItems s1
           = queueItems s
             ++ [{| QueueItem._id := nextId s;
                    QueueItem.user := Some userId;
                    QueueItem.walkInName := None;
                    QueueItem.doctor := doctorId;
                    QueueItem.hospital := hospitalId;
                    QueueItem.queueNumber := n;
                    QueueItem.status := Waiting;
                    QueueItem.checkInTime := now env |}]
  | Throw e s1 =>
      queueItems s1 = queueItems s /\ nextId s1 = nextId s
      /\ (activeEntryOf userId s <> None ->
          e = mkError "You are already in a queue." /\ s1 = s)
  end.
Proof.
  unfold queueService.joinQueue, bind, gets.
  destruct (activeEntryOf userId s) as [q0|] eqn:Ha.
  { cbn. split; [reflexivity|split; [reflexivity|intros _; split; reflexivity]]. }
  cbn [throwIf ret].
  destruct (findUser doctorId s) as [dr|] eqn:Hd.
  2:{ cbn. split; [reflexivity|split; [reflexivity|intros K; exfalso; apply K; reflexivity]]. }
  destruct (negb (Role_eqb (User.role dr) Doctor)
            || negb (existsb (Nat.eqb hospitalId) (User.hospitals dr))) eqn:Hc.
  { cbn. split; [reflexivity|split; [reflexivity|intros K; exfalso; apply K; reflexivity]]. }
  apply orb_false_iff in Hc. destruct Hc as [Hr Hh].
  apply negb_false_iff in Hr, Hh.
  assert (Hdr : exists dr0, Some dr = Some dr0 /\ User.role dr0 = Doctor
                            /\ In hospitalId (User.hospitals dr0)).
  { exists dr. split; [reflexivity|]. split.
    - destruct (User.role dr); try discriminate; reflexivity.
    - apply existsb_exists in Hh. destruct Hh as (x & Hx & E).
      apply Nat.eqb_eq in E. subst x. exact Hx. }
  cbn [throwIf ret throw].
  match goal with |- context [find ?p (appointments s)] =>
    destruct (find p (appointments s)) as [a|] end.
  - destruct (queueService.storedTicket a) as [n|].
    + cbn. split; [reflexivity|]. split; [exact Hdr|].
      split; [reflexivity|]. eexists. reflexivity.
    + unfold saveAppointment.
      match goal with |- context [if ?b then Throw validationError s else _] =>
        destruct b end.
      { cbn. split; [reflexivity|split; [reflexivity|intros K; exfalso; apply K; reflexivity]]. }
      match goal with |- context [if ?b then Throw duplicateKeyError s else _] =>
        destruct b end.
      { cbn. split; [reflexivity|split; [reflexivity|intros K; exfalso; apply K; reflexivity]]. }
      cbn. split; [reflexivity|]. split; [exact Hdr|].
      split; [reflexivity|]. eexists. reflexivity.
  - cbn. split; [reflexivity|]. split; [exact Hdr|].
    split; [reflexivity|]. eexists. reflexivity.
Qed.

Lemma find_none_app {A} (p : A -> bool) l x :
  find p l = None -> p x = false -> find p (l ++ [x]) = None.
Proof.
  induction l as [|y l IH]; cbn; intros Hn Hx; [rewrite Hx; reflexivity|].
  destruct (p y); [discriminate|]. apply IH; assumption.
Qed.

Lemma updateFirst_app_last {A} (p : A -> bool) (f : A -> A) l x :
  (forall y, In y l -> p y = false) -> p x = true ->
  queueService.updateFirst p f (l ++ [x]) = l ++ [f x].
Proof.
  induction l as [|y l IH]; cbn; intros Hn Hx; [rewrite Hx; reflexivity|].
  rewrite (Hn y (or_introl eq_refl)). rewrite IH; auto.
Qed.

(** X7.  [joinQueue] then [leaveQueue].  A join that returns found the
    patient without active entry and a doctor of that hospital, and appended
    one [Waiting] entry of the patient with that doctor: it is the patient's
    active entry.  When the patient then leaves, that entry is [Left], the
    entries of everyone else are as they were, and the patient has no active
    entry any more, so that a new join is not refused as "already in a
    queue". *)
Theorem join_then_leave_frees_the_patient env userId doctorId hospitalId s s1 :
  queueService.joinQueue env userId doctorId hospitalId s = Ok tt s1 ->
  exists q,
    activeEntryOf userId s = None
    /\ queueItems s1 = queueItems s ++ [q]
    /\ QueueItem.user q = Some userId
    /\ QueueItem.doctor q = doctorId
    /\ QueueItem.hospital q = hospitalId
    /\ QueueItem.status q = Waiting
    /\ activeEntryOf userId s1 = Some q
    /\ queueItems (after (queueService.leaveQueue userId) s1)
       = queueItems s ++ [QueueItem.set_status Left q]
    /\ activeEntryOf userId (after (queueService.leaveQueue userId) s1) = None
    /\ forall env' doctorId' hospitalId' e s2,
         queueService.joinQueue env' userId doctorId' hospitalId'
           (after (queueService.leaveQueue userId) s1) = Throw e s2 ->
         e <> mkError "You are already in a queue.".
Proof.
  intros H. pose proof (joinQueue_queue env userId doctorId hospitalId s) as K.
  rewrite H in K. destruct K as (Ha & _ & _ & n & Hq).
  eexists. split; [exact Ha|]. split; [exact Hq|].
  split; [reflexivity|]. split; [reflexivity|]. split; [reflexivity|].
  split; [reflexivity|].
  assert (Hnone : forall y, In y (queueItems s) ->
            (matchesId userId (QueueItem.user y)
             && isActiveStatus (QueueItem.status y)) = false).
  { intros y Hy. unfold activeEntryOf in Ha.
    apply (find_none _ _ Ha y Hy). }
  assert (Hleft : queueItems (after (queueService.leaveQueue userId) s1)
                  = queueItems s
                    ++ [QueueItem.set_status Left
                          {| QueueItem._id := nextId s;
                             QueueItem.user := Some userId;
                             QueueItem.walkInName := None;
                             QueueItem.doctor := doctorId;
                             QueueItem.hospital := hospitalId;
                             QueueItem.queueNumber := n;
                             QueueItem.status := Waiting;
                             QueueItem.checkInTime := now env |}]).
  { unfold after, queueService.leaveQueue, modify.
    cbn [queueItems set_queueItems]. rewrite Hq.
    apply updateFirst_app_last.
    - intros y Hy. specialize (Hnone y Hy).
      destruct (matchesId userId (QueueItem.user y)); [|reflexivity].
      cbn [andb] in *. destruct (QueueItem.status y); try discriminate;
        reflexivity.
    - cbn. rewrite Nat.eqb_refl. reflexivity. }
  assert (Hfree : activeEntryOf userId
                    (after (queueService.leaveQueue userId) s1) = None).
  { unfold activeEntryOf. rewrite Hleft.
    apply find_none_app; [exact Ha|]. cbn. apply andb_false_r. }
  split; [|split; [exact Hleft|split; [exact Hfree|]]].
  - unfold activeEntryOf. rewrite Hq.
    apply find_app_last; [exact Ha|]. cbn. rewrite Nat.eqb_refl. reflexivity.
  - intros env' doctorId' hospitalId' e s2 Hj E. subst e.
    unfold queueService.joinQueue, bind, gets in Hj. rewrite Hfree in Hj.
    cbn [throwIf ret] in Hj.
    destruct (findUser doctorId' _) as [dr|]; [|discriminate].
    destruct (negb (Role_eqb (User.role dr) Doctor) || _) in Hj;
      [discriminate|].
    cbn [throwIf ret] in Hj.
    match type of Hj with context [find ?p ?l] =>
      destruct (find p l) as [a|] end.
    + destruct (queueService.storedTicket a); [discriminate|].
      unfold saveAppointment in Hj.
      repeat match type of Hj with context [if ?b then _ else _] =>
        destruct b end; discriminate.
    + discriminate.
Qed.

Lemma join_then_leave_frees_the_patient_witness :
  exists s1,
    queueService.joinQueue Sample.env 10 2 1 Sample.store = Ok tt s1
    /\ activeEntryOf 10 (after (queueService.leaveQueue 10) s1) = None
    /\ exists s3,
         queueService.joinQueue Sample.env 10 9 1
           (after (queueService.leaveQueue 10) s1) = Ok tt s3.
Proof.
  destruct (queueService.joinQueue Sample.env 10 2 1 Sample.store)
    as [[] s1|e s1] eqn:E; [|vm_compute in E; discriminate].
  exists s1. split; [reflexivity|].
  destruct (join_then_leave_frees_the_patient Sample.env 10 2 1 Sample.store
              s1 E) as (q & _ & _ & _ & _ & _ & _ & _ & _ & Hfree & _).
  split; [exact Hfree|].
  vm_compute in E. inversion E; subst s1. vm_compute. eexists. reflexivity.
Defined.

(** ** One place in line per patient *)

Lemma queueDiscipline_frame s s' :
  queueItems s' = queueItems s -> nextId s <= nextId s' ->
  queueDiscipline s -> queueDiscipline s'.
Proof.
  intros Eq Hn (Hnd & Hid & Hone). unfold queueDiscipline, activeEntries.
  rewrite Eq. split; [exact Hnd|]. split; [|exact Hone].
  intros q Hq. specialize (Hid q Hq). lia.
Qed.

Lemma Forall2_map_in {A} (R : A -> A -> Prop) (g : A -> A) l :
  (forall x, In x l -> R x (g x)) -> Forall2 R l (map g l).
Proof.
  induction l as [|x l IH]; intros H; cbn; constructor.
  - apply H. left. reflexivity.
  - apply IH. intros y Hy. apply H. right. exact Hy.
Qed.

Lemma Forall2_updateFirst {A} (R : A -> A -> Prop) (p : A -> bool)
    (f : A -> A) l :
  (forall x, R x x) -> (forall x, R x (f x)) ->
  Forall2 R l (queueService.updateFirst p f l).
Proof.
  intros Hrefl Hf. induction l as [|x l IH]; cbn; [constructor|].
  destruct (p x); constructor; auto.
  clear IH. induction l; constructor; auto.
Qed.

Lemma sameEntries_ids l l' :
  Forall2 (fun q q' => QueueItem._id q' = QueueItem._id q
                       /\ QueueItem.user q' = QueueItem.user q
                       /\ (isActiveStatus (QueueItem.status q') = true ->
                           isActiveStatus (QueueItem.status q) = true))
          l l' ->
  map QueueItem._id l' = map QueueItem._id l.
Proof.
  induction 1 as [|q q' l l' (E & _) _ IH]; cbn; [reflexivity|].
  rewrite E, IH. reflexivity.
Qed.

Lemma sameEntries_active u l l' :
  Forall2 (fun q q' => QueueItem._id q' = QueueItem._id q
                       /\ QueueItem.user q' = QueueItem.user q
                       /\ (isActiveStatus (QueueItem.status q') = true ->
                           isActiveStatus (QueueItem.status q) = true))
          l l' ->
  List.length (filter (fun q => matchesId u (QueueItem.user q)
                                && isActiveStatus (QueueItem.status q)) l')
  <= List.length (filter (fun q => matchesId u (QueueItem.user q)
                                   && isActiveStatus (QueueItem.status q)) l).
Proof.
  induction 1 as [|q q' l l' (_ & Eu & Ha) _ IH]; cbn; [lia|].
  rewrite Eu.
  destruct (matchesId u (QueueItem.user q)); cbn [andb]; [|exact IH].
  destruct (isActiveStatus (QueueItem.status q')) eqn:E'.
  - rewrite (Ha eq_refl). cbn. lia.
  - destruct (isActiveStatus (QueueItem.status q)); cbn; lia.
Qed.

(** An update of the entries that keeps identifiers and patients and makes
    no entry active keeps the discipline. *)
Lemma queueDiscipline_update s s' :
  Forall2 (fun q q' => QueueItem._id q' = QueueItem._id q
                       /\ QueueItem.user q' = QueueItem.user q
                       /\ (isActiveStatus (QueueItem.status q') = true ->
                           isActiveStatus (QueueItem.status q) = true))
          (queueItems s) (queueItems s') ->
  nextId s <= nextId s' ->
  queueDiscipline s -> queueDiscipline s'.
Proof.
  intros HR Hn (Hnd & Hid & Hone). unfold queueDiscipline, activeEntries in *.
  pose proof (sameEntries_ids _ _ HR) as Hids.
  split; [rewrite Hids; exact Hnd|]. split.
  - intros q' Hq'.
    assert (K : In (QueueItem._id q') (map QueueItem._id (queueItems s)))
      by (rewrite <- Hids; apply in_map, Hq').
    apply in_map_iff in K. destruct K as (q & E & Hq).
    specialize (Hid q Hq). lia.
  - intros u. specialize (Hone u).
    eapply Nat.le_trans; [|exact Hone]. apply sameEntries_active, HR.
Qed.

Lemma setQueueStatus_discipline id st s :
  (isActiveStatus st = true ->
   forall q, In q (queueItems s) -> QueueItem._id q = id ->
     isActiveStatus (QueueItem.status q) = true) ->
  queueDiscipline s ->
  queueDiscipline (after (queueService.setQueueStatus id st) s).
Proof.
  intros Hact. unfold after, queueService.setQueueStatus, modify.
  apply queueDiscipline_update; [|cbn; lia]. cbn [queueItems set_queueItems].
  apply Forall2_map_in. intros q Hq.
  destruct (Nat.eqb (QueueItem._id q) id) eqn:E; [|tauto].
  apply Nat.eqb_eq in E. destruct q; cbn in *.
  split; [reflexivity|]. split; [reflexivity|].
  intros Hst. exact (Hact Hst _ Hq E).
Qed.

Lemma filter_nil_of_find {A} (p : A -> bool) l :
  find p l = None -> filter p l = [].
Proof.
  induction l as [|x l IH]; cbn; [reflexivity|].
  destruct (p x); [discriminate|exact IH].
Qed.

(** A new entry keeps the discipline when its patient, if it has one, had no
    active entry. *)
Lemma queueDiscipline_append s s' q :
  queueItems s' = queueItems s ++ [q] ->
  QueueItem._id q = nextId s -> nextId s < nextId s' ->
  (forall u, QueueItem.user q = Some u -> activeEntryOf u s = None) ->
  queueDiscipline s -> queueDiscipline s'.
Proof.
  intros Eq Hq Hn Hfree (Hnd & Hid & Hone).
  unfold queueDiscipline, activeEntries in *. rewrite Eq. split; [|split].
  - rewrite map_app. cbn [map]. apply NoDup_app.
    + exact Hnd.
    + repeat constructor. intros [].
    + intros i Hi [<-|[]]. apply in_map_iff in Hi.
      destruct Hi as (x & E & Hx). specialize (Hid x Hx). lia.
  - intros x Hx. apply in_app_or in Hx. destruct Hx as [Hx|[<-|[]]].
    + specialize (Hid x Hx). lia.
    + lia.
  - intros u. rewrite filter_app, length_app. cbn [filter].
    destruct (matchesId u (QueueItem.user q)) eqn:Hm; cbn [andb].
    + assert (Hu : QueueItem.user q = Some u).
      { unfold matchesId in Hm. destruct (QueueItem.user q) as [w|];
          [|discriminate]. apply Nat.eqb_eq in Hm. congruence. }
      specialize (Hfree u Hu). unfold activeEntryOf in Hfree.
      rewrite (filter_nil_of_find _ _ Hfree).
      destruct (isActiveStatus (QueueItem.status q)); cbn; lia.
    + specialize (Hone u). cbn. lia.
Qed.

Lemma createQueueItem_guarded_discipline env u doctor hospital n :
  preserves queueDiscipline
    (bind (gets (activeEntryOf u))
       (fun alreadyInQueue =>
          match alreadyInQueue with
          | Some _ => ret tt
          | None =>
              bind (createQueueItem env (Some u) None doctor hospital n)
                   (fun _ => ret tt)
          end)).
Proof.
  intros s H. unfold after, bind, gets.
  destruct (activeEntryOf u s) eqn:Ha; [exact H|].
  unfold createQueueItem, ret.
  eapply (queueDiscipline_append s); [reflexivity|reflexivity|cbn; lia| |exact H].
  cbn. intros u' E. inversion E; subst u'. exact Ha.
Qed.

(** A write outside the queue, or one that makes no entry active, keeps the
    discipline. *)
Ltac place_write :=
  match goal with
  | |- preserves queueDiscipline (queueService.setQueueStatus _ Done) =>
      let s := fresh "s" in
      let H := fresh "H" in
      intros s H; apply setQueueStatus_discipline; [discriminate|exact H]
  | |- preserves queueDiscipline (queueService.removePatientFromQueue _) =>
      let s := fresh "s" in
      let H := fresh "H" in
      intros s H; apply setQueueStatus_discipline; [discriminate|exact H]
  | |- preserves queueDiscipline (queueService.leaveQueue _) =>
      let s := fresh "s" in
      let H := fresh "H" in
      intros s H; unfold after, queueService.leaveQueue, modify;
      apply (queueDiscipline_update s); [|cbn; lia|exact H];
      apply Forall2_updateFirst;
      [ tauto | intros x; destruct x; cbn; split; [reflexivity|];
                split; [reflexivity|discriminate] ]
  | |- preserves queueDiscipline _ =>
      let s := fresh "s" in
      let H := fresh "H" in
      intros s H; unfold after;
      unfold createNotification, createAppointment, saveAppointment, modify,
        walletRoutes.saveRedeemCode, queueService.completeTodaysAppointment,
        DoctorReminderService.markSent;
      repeat match goal with
             | |- context [if ?b then _ else _] => destruct b
             end;
      first [ exact H
            | apply (queueDiscipline_frame s); [reflexivity|cbn; lia|exact H] ]
  end.

Lemma performDbOperations_discipline d :
  preserves queueDiscipline (walletService.performDbOperations d).
Proof.
  intros s H. unfold after. rewrite performDbOperations_eq.
  destruct (walletService.findWallet (walletService.userId d) s) as [w|];
    [|exact H].
  destruct (overdraws d w); [exact H|].
  destruct (wellFormed d);
    [|unfold refused; destruct (PrimFloat.is_nan _); [exact H|]];
    apply (queueDiscipline_frame s); first [reflexivity|cbn; lia|exact H].
Qed.

Ltac place_step :=
  first [ apply createQueueItem_guarded_discipline
        | apply performDbOperations_discipline
        | place_write ].

Lemma sendDoctorReminder_discipline env c rt :
  preserves queueDiscipline (DoctorReminderService.sendDoctorReminder env c rt).
Proof.
  unfold DoctorReminderService.sendDoctorReminder.
  preserve_with place_step.
Qed.

Lemma joinQueue_discipline env u d h :
  preserves queueDiscipline (queueService.joinQueue env u d h).
Proof.
  intros s H. unfold after.
  pose proof (joinQueue_queue env u d h s) as K.
  destruct (queueService.joinQueue env u d h s) as [[] s1|e s1].
  - destruct K as (Ha & _ & Hn & n & Hq).
    eapply (queueDiscipline_append s); [exact Hq|reflexivity|lia| |exact H].
    cbn. intros u' E. inversion E; subst u'. exact Ha.
  - destruct K as (Hq & Hn & _).
    apply (queueDiscipline_frame s); [exact Hq|lia|exact H].
Qed.

Lemma holdPatient_discipline id :
  preserves queueDiscipline (queueService.holdPatient id).
Proof.
  intros s H. unfold after, queueService.holdPatient, bind, gets.
  destruct (findQueueItem id s) as [q|] eqn:Hq; [|exact H].
  cbn [orThrow ret].
  destruct (negb (QueueStatus_eqb (QueueItem.status q) Serving
                  || QueueStatus_eqb (QueueItem.status q) Waiting)) eqn:Hc;
    [exact H|].
  cbn [throwIf ret].
  pose proof (setQueueStatus_discipline id Held s) as K.
  unfold after in K.
  destruct (queueService.setQueueStatus id Held s) as [[] s1|e s1] eqn:E;
    [|discriminate E].
  cbn [ret]. apply K; [|exact H].
  intros _ x Hx Ex.
  unfold findQueueItem in Hq. apply find_some in Hq. destruct Hq as [Hin Hid].
  apply Nat.eqb_eq in Hid.
  rewrite (NoDup_map_eq QueueItem._id (queueItems s) x q (proj1 H) Hx Hin)
    by congruence.
  destruct (QueueItem.status q); try discriminate; reflexivity.
Qed.

Lemma requeuePatient_discipline id :
  preserves queueDiscipline (queueService.requeuePatient id).
Proof.
  intros s H. unfold after, queueService.requeuePatient, bind, gets.
  destruct (findQueueItem id s) as [q|] eqn:Hq; [|exact H].
  cbn [orThrow ret].
  destruct (negb (QueueStatus_eqb (QueueItem.status q) Held)) eqn:Hc;
    [exact H|].
  cbn [throwIf ret].
  pose proof (setQueueStatus_discipline id Waiting s) as K.
  unfold after in K.
  destruct (queueService.setQueueStatus id Waiting s) as [[] s1|e s1] eqn:E;
    [|discriminate E].
  cbn [ret]. apply K; [|exact H].
  intros _ x Hx Ex.
  unfold findQueueItem in Hq. apply find_some in Hq. destruct Hq as [Hin Hid].
  apply Nat.eqb_eq in Hid.
  rewrite (NoDup_map_eq QueueItem._id (queueItems s) x q (proj1 H) Hx Hin)
    by congruence.
  destruct (QueueItem.status q); try discriminate; reflexivity.
Qed.

Lemma preserves_bind_gets {A B} (P : Store -> Prop) (f : Store -> A)
    (k : A -> DB B) :
  (forall s, P s -> P (after (k (f s)) s)) -> preserves P (bind (gets f) k).
Proof. intros H s Hs. unfold after, bind, gets. apply (H s Hs). Qed.

Lemma callNextPatient_discipline env d :
  preserves queueDiscipline (queueService.callNextPatient env d).
Proof.
  unfold queueService.callNextPatient.
  apply preserves_bind; [apply preserves_gets|intros serving].
  apply preserves_bind; [preserve_with place_step|intros _].
  apply preserves_bind_gets. intros s H.
  assert (Hrest : forall nextPatient : option QueueItem.t,
    preserves queueDiscipline
      (bind (gets (queueService.earliestWaiting d))
         (fun upNext =>
            bind match upNext with
                 | Some q =>
                     match QueueItem.user q with
                     | Some u =>
                         bind (createNotification env u "system" "Next in Line")
                              (fun _ => ret tt)
                     | None => ret tt
                     end
                 | None => ret tt
                 end
                 (fun _ => ret nextPatient)))).
  { intros nextPatient. preserve_with place_step. }
  destruct (queueService.earliestWaiting d s) as [q|] eqn:Hq.
  - apply earliestWaiting_spec in Hq. destruct Hq as (Hin & _ & Hst & _).
    pose proof (setQueueStatus_discipline (QueueItem._id q) Serving s) as K.
    unfold after in *. unfold bind at 1. unfold bind at 1.
    destruct (queueService.setQueueStatus (QueueItem._id q) Serving s)
      as [[] s1|e s1] eqn:E; [|discriminate E].
    unfold ret at 1.
    apply (Hrest (Some (QueueItem.set_status Serving q)) s1).
    apply K; [|exact H].
    intros _ x Hx Ex.
    rewrite (NoDup_map_eq QueueItem._id (queueItems s) x q (proj1 H) Hx Hin Ex).
    rewrite Hst. reflexivity.
  - unfold after in *. unfold bind at 1. unfold ret at 1.
    apply (Hrest None s H).
Qed.

(** Each operation other than check-in and reschedule keeps the
    discipline. *)
Lemma run_discipline op s :
  keepsOnePlace op = true -> queueDiscipline s -> queueDiscipline (run op s).
Proof.
  intros Hop H. destruct op; cbn [run]; try discriminate Hop.
  - unfold after, walletService.getOrCreateWallet.
    destruct (walletService.findWallet userId s); [exact H|].
    apply (queueDiscipline_frame s); [reflexivity|cbn; lia|exact H].
  - unfold walletRoutes.deposit. handler_cases H.
    unfold walletService.createTransactionAndUpdateWallet.
    preserve_with place_step.
  - unfold walletRoutes.redeemCode. handler_cases H.
    unfold walletService.createTransactionAndUpdateWallet.
    preserve_with place_step.
  - unfold walletRoutes.addFunds. handler_cases H.
    unfold walletService.createTransactionAndUpdateWallet.
    preserve_with place_step.
  - unfold appointmentsRoutes.bookAppointment. handler_cases H.
    unfold appointmentsRoutes.bookingTransaction,
      appointmentsRoutes.bookingChecks,
      walletService.createTransactionAndUpdateWallet.
    preserve_with place_step.
  - unfold appointmentsRoutes.updateAppointment. handler_cases H.
    unfold appointmentsRoutes.updateTransaction,
      walletService.createTransactionAndUpdateWallet.
    preserve_with place_step.
  - unfold appointmentsRoutes.resolveCancellation. handler_cases H.
    unfold appointmentsRoutes.resolveTransaction,
      walletService.createTransactionAndUpdateWallet.
    preserve_with place_step.
  - unfold appointmentsRoutes.doctorCancel. handler_cases H.
    preserve_with place_step.
  - unfold appointmentsRoutes.updateStatus. handler_cases H.
    preserve_with place_step.
  - apply joinQueue_discipline, H.
  - handler_cases H. preserve_with place_step.
  - apply callNextPatient_discipline, H.
  - apply holdPatient_discipline, H.
  - apply requeuePatient_discipline, H.
  - handler_cases H. preserve_with place_step.
  - handler_cases H. unfold DoctorReminderService.processReminders.
    apply preserves_bind; [apply preserves_gets|intros].
    apply remindEach_preserves. intros. apply sendDoctorReminder_discipline.
Qed.

(** X8.  One place in line per patient.  From a store in which queue
    entries have distinct identifiers drawn from the counter and no patient
    has more than one active entry ([Waiting], [Serving] or [Held]), every
    sequence of operations that contains neither a check-in of an
    appointment nor a reschedule -- wallet routes, booking, cancellation,
    resolution, status updates, join, leave, call-next, hold, re-queue,
    removal, reminder passes -- leads to such a store again. *)
Theorem one_place_in_line_per_patient ops s :
  queueDiscipline s -> forallb keepsOnePlace ops = true ->
  queueDiscipline (runAll ops s)
  /\ forall userId, List.length (activeEntries userId (runAll ops s)) <= 1.
Proof.
  intros H Hops.
  assert (K : queueDiscipline (runAll ops s)).
  { revert s H. unfold runAll.
    induction ops as [|op ops IH]; intros s H; cbn; [exact H|].
    cbn in Hops. apply andb_true_iff in Hops. destruct Hops as [Hop Hops].
    apply (IH Hops). apply run_discipline; assumption. }
  split; [exact K|exact (proj2 (proj2 K))].
Qed.

Lemma one_place_in_line_per_patient_witness :
  queueDiscipline Sample.store
  /\ forallb keepsOnePlace Cases.busyMorning = true
  /\ map QueueItem.status (queueItems (runAll Cases.busyMorning Sample.store))
     = [Serving; Waiting; Left]
  /\ forall userId,
       List.length (activeEntries userId
                      (runAll Cases.busyMorning Sample.store)) <= 1.
Proof.
  assert (H : queueDiscipline Sample.store).
  { split; [constructor|]. split; [intros q []|]. intros u. cbn. lia. }
  split; [exact H|]. split; [reflexivity|]. split; [vm_compute; reflexivity|].
  exact (proj2 (one_place_in_line_per_patient Cases.busyMorning Sample.store
                  H eq_refl)).
Defined.

(* ------------------------------------------------------------------ *)
(** ** More on the reminder passes *)

(** The two tests of the loop amount to the window: a time within the window
    is never before now. *)
Lemma due_or_skipped env rt c :
  (negb (JS.le (Some (now env + leadTime rt - tolerance rt)%Z)
               (parseAppointmentDateTime env (Appointment.date (appointment c))
                                         (Appointment.time (appointment c)))
         && JS.le (parseAppointmentDateTime env
                     (Appointment.date (appointment c))
                     (Appointment.time (appointment c)))
                  (Some (now env + leadTime rt + tolerance rt)%Z))
   || JS.lt (parseAppointmentDateTime env (Appointment.date (appointment c))
                                      (Appointment.time (appointment c)))
            (Some (now env)))
  = negb (dueFor env rt c).
Proof.
  unfold dueFor.
  destruct (parseAppointmentDateTime env _ _) as [t|]; [|reflexivity].
  cbn [JS.le JS.lt].
  destruct (Z.leb_spec (now env + leadTime rt - tolerance rt) t) as [L|L];
    cbn [andb negb orb]; [|reflexivity].
  destruct (Z.leb_spec t (now env + leadTime rt + tolerance rt)) as [U|U];
    cbn [andb negb orb]; [|reflexivity].
  apply Z.ltb_ge.
  assert (tolerance rt <= leadTime rt)%Z by (destruct rt; vm_compute; discriminate).
  lia.
Qed.

(** [sendDoctorReminder] succeeds exactly when the reminder reaches the
    doctor. *)
Lemma sendDoctorReminder_success env c rt s :
  exists res s',
    sendDoctorReminder env c rt s = Ok res s'
    /\ appointmentId res = Appointment._id (appointment c)
    /\ success res = reaches env rt c
    /\ wallets s' = wallets s /\ transactions s' = transactions s
    /\ queueItems s' = queueItems s /\ notifications s' = notifications s
    /\ redeemCodes s' = redeemCodes s /\ nextId s' = nextId s.
Proof.
  assert (Hfail : forall msg, reaches env rt c = false ->
    exists res s', ret (failure c msg) s = Ok res s'
      /\ appointmentId res = Appointment._id (appointment c)
      /\ success res = reaches env rt c
      /\ wallets s' = wallets s /\ transactions s' = transactions s
      /\ queueItems s' = queueItems s /\ notifications s' = notifications s
      /\ redeemCodes s' = redeemCodes s /\ nextId s' = nextId s).
  { intros msg E. exists (failure c msg), s. rewrite E. repeat split. }
  unfold sendDoctorReminder, reaches in *.
  destruct (doctor c) as [dr|]; [|apply Hfail; reflexivity].
  destruct (User.isDisabled (account dr)); cbn [orb negb andb];
    [apply Hfail; destruct (patient c); reflexivity|].
  destruct (User.isActive (account dr)); cbn [orb negb andb];
    [|apply Hfail; destruct (patient c); reflexivity].
  destruct (doctorReminderPreferences dr) as [p|]; cbn [negb andb
    ReminderPreferences.enabled ReminderPreferences.reminder24h
    ReminderPreferences.reminder1h];
    [|destruct rt; apply Hfail; destruct (patient c); reflexivity].
  destruct (ReminderPreferences.enabled p); cbn [negb andb];
    [|apply Hfail; destruct (patient c); reflexivity].
  destruct rt.
  - destruct (ReminderPreferences.reminder24h p); cbn [negb andb];
      [|apply Hfail; destruct (patient c); reflexivity].
    destruct (patient c); [|apply Hfail; reflexivity].
    unfold bind, markSent, modify, ret.
    destruct (delivered env (User._id (account dr)) "reminder");
      eexists; eexists; (split; [reflexivity|]); repeat split.
  - destruct (ReminderPreferences.reminder1h p); cbn [negb andb];
      [|apply Hfail; destruct (patient c); reflexivity].
    destruct (patient c); [|apply Hfail; reflexivity].
    unfold bind, markSent, modify, ret.
    destruct (delivered env (User._id (account dr)) "reminder");
      eexists; eexists; (split; [reflexivity|]); repeat split.
Qed.

(** The loop of a pass, candidate by candidate: who is skipped, who is
    processed, and what is counted. *)
Lemma remindEach_account env rt l :
  forall r s,
  exists r' s' ds,
    remindEach env rt (now env + leadTime rt - tolerance rt)
      (now env + leadTime rt + tolerance rt) l r s = Ok r' s'
    /\ details r' = details r ++ ds
    /\ map appointmentId ds
       = map (fun c => Appointment._id (appointment c)) (filter (dueFor env rt) l)
    /\ sentIds ds
       = map (fun c => Appointment._id (appointment c))
             (filter (fun c => dueFor env rt c && reaches env rt c) l)
    /\ total r' = total r
    /\ skipped r'
       = skipped r + List.length (filter (fun c => negb (dueFor env rt c)) l)
    /\ processed r' = processed r + List.length ds
    /\ sent r' = sent r + List.length (sentIds ds)
    /\ sent r' + failed r' = sent r + failed r + List.length ds
    /\ wallets s' = wallets s /\ transactions s' = transactions s
    /\ queueItems s' = queueItems s /\ notifications s' = notifications s
    /\ redeemCodes s' = redeemCodes s /\ nextId s' = nextId s.
Proof.
  induction l as [|c rest IH]; intros r s.
  - exists r, s, []. cbn [remindEach filter map List.length]. unfold ret.
    rewrite app_nil_r. repeat split; cbn; lia.
  - cbn [remindEach].
    pose proof (due_or_skipped env rt c) as Hdue.
    match goal with |- context [if negb ?b then _ else _] =>
      destruct (negb b) eqn:Hwin end.
    + cbn [orb] in Hdue. symmetry in Hdue. apply negb_true_iff in Hdue.
      destruct (IH (skip r) s)
        as (r' & s' & ds & E & Hd & Hids & Hsent & Ht & Hsk & Hp & Hs & Hf & Hfr).
      exists r', s', ds. cbn [filter]. rewrite Hdue. cbn [negb andb List.length].
      split; [exact E|]. split; [exact Hd|]. split; [exact Hids|].
      split; [exact Hsent|]. split; [exact Ht|].
      split; [rewrite Hsk; cbn; lia|].
      split; [exact Hp|]. split; [exact Hs|]. split; [exact Hf|exact Hfr].
    + cbn [orb] in Hdue.
      match goal with |- context [if JS.lt ?x ?y then _ else _] =>
        destruct (JS.lt x y) eqn:Hpast end.
      * symmetry in Hdue. apply negb_true_iff in Hdue.
        destruct (IH (skip r) s)
          as (r' & s' & ds & E & Hd & Hids & Hsent & Ht & Hsk & Hp & Hs & Hf & Hfr).
        exists r', s', ds. cbn [filter]. rewrite Hdue.
        cbn [negb andb List.length].
        split; [exact E|]. split; [exact Hd|]. split; [exact Hids|].
        split; [exact Hsent|]. split; [exact Ht|].
        split; [rewrite Hsk; cbn; lia|].
        split; [exact Hp|]. split; [exact Hs|]. split; [exact Hf|exact Hfr].
      * symmetry in Hdue. apply negb_false_iff in Hdue.
        destruct (sendDoctorReminder_success env c rt s)
          as (res & s1 & E1 & Hid & Hsucc & Hw1 & Ht1 & Hq1 & Hn1 & Hr1 & Hx1).
        unfold bind. rewrite E1.
        destruct (IH (record res r) s1)
          as (r' & s' & ds & E & Hd & Hids & Hsent & Ht & Hsk & Hp & Hs & Hf
              & Hw & Htx & Hq & Hn & Hr & Hx).
        exists r', s', (res :: ds). cbn [filter]. rewrite Hdue.
        cbn [negb andb List.length map].
        split; [exact E|].
        split; [rewrite Hd; cbn [record details]; rewrite <- app_assoc;
                reflexivity|].
        split; [rewrite Hid, Hids; reflexivity|].
        split.
        { rewrite (sentIds_cons res ds), sentIds_one, Hsucc, Hsent, Hid.
          destruct (reaches env rt c); reflexivity. }
        split; [exact Ht|]. split; [rewrite Hsk; cbn; lia|].
        split; [rewrite Hp; cbn; lia|].
        split.
        { rewrite Hs, (sentIds_cons res ds), sentIds_one, length_app.
          cbn [record sent]. destruct (success res); cbn; lia. }
        split.
        { rewrite Hf. cbn [record sent failed].
          destruct (success res); cbn; lia. }
        repeat split; congruence.
Qed.

(** The candidates of the query have no reminder preferences. *)
Lemma candidates_unbriefed rt s : Forall unbriefed (candidates rt s).
Proof.
  unfold candidates. apply Forall_forall. intros c Hc.
  apply in_map_iff in Hc. destruct Hc as (a & <- & _).
  intros dr. cbn [doctor].
  destruct (findUser (Appointment.doctor a) s); cbn [option_map];
    intros E; inversion E; reflexivity.
Qed.

Lemma sendDoctorReminder_unbriefed env c rt s :
  unbriefed c ->
  sendDoctorReminder env c rt s = Ok (failure c (refusal c)) s.
Proof.
  intros H. unfold sendDoctorReminder, refusal.
  destruct (doctor c) as [dr|] eqn:Ed; [|reflexivity].
  rewrite (H dr Ed).
  destruct (User.isDisabled (account dr) || negb (User.isActive (account dr)));
    reflexivity.
Qed.

(** The loop of a pass over candidates without reminder preferences. *)
Lemma remindEach_unbriefed env rt l :
  Forall unbriefed l ->
  forall r s,
  exists r',
    remindEach env rt (now env + leadTime rt - tolerance rt)
      (now env + leadTime rt + tolerance rt) l r s = Ok r' s
    /\ details r'
       = details r
         ++ map (fun c => failure c (refusal c)) (filter (dueFor env rt) l)
    /\ sent r' = sent r
    /\ failed r' = failed r + List.length (filter (dueFor env rt) l)
    /\ processed r' = processed r + List.length (filter (dueFor env rt) l).
Proof.
  induction 1 as [|c rest Hc Hrest IH]; intros r s.
  - exists r. cbn [remindEach filter map List.length]. unfold ret.
    rewrite app_nil_r. repeat split; lia.
  - cbn [remindEach].
    pose proof (due_or_skipped env rt c) as Hdue.
    assert (Hskip : dueFor env rt c = false ->
      exists r',
        remindEach env rt (now env + leadTime rt - tolerance rt)
          (now env + leadTime rt + tolerance rt) rest (skip r) s = Ok r' s
        /\ details r'
           = details r
             ++ map (fun c => failure c (refusal c))
                    (filter (dueFor env rt) (c :: rest))
        /\ sent r' = sent r
        /\ failed r'
           = failed r + List.length (filter (dueFor env rt) (c :: rest))
        /\ processed r'
           = processed r + List.length (filter (dueFor env rt) (c :: rest))).
    { intros E. destruct (IH (skip r) s) as (r' & E' & Hd & Hs & Hf & Hp).
      exists r'. cbn [filter]. rewrite E. auto. }
    match goal with |- context [if negb ?b then _ else _] =>
      destruct (negb b) eqn:Hwin end.
    + cbn [orb] in Hdue. symmetry in Hdue. apply negb_true_iff in Hdue.
      exact (Hskip Hdue).
    + cbn [orb] in Hdue.
      match goal with |- context [if JS.lt ?x ?y then _ else _] =>
        destruct (JS.lt x y) eqn:Hpast end.
      * symmetry in Hdue. apply negb_true_iff in Hdue. exact (Hskip Hdue).
      * symmetry in Hdue. apply negb_false_iff in Hdue. clear Hskip.
        unfold bind. rewrite (sendDoctorReminder_unbriefed env c rt s Hc).
        destruct (IH (record (failure c (refusal c)) r) s)
          as (r' & E' & Hd & Hs & Hf & Hp).
        exists r'. cbn [filter]. rewrite Hdue. cbn [map List.length].
        split; [exact E'|].
        split; [rewrite Hd; cbn [record details]; rewrite <- app_assoc;
                reflexivity|].
        cbn [record sent failed processed failure success] in Hs, Hf, Hp.
        repeat split; lia.
Qed.

(** X10.  What a reminder pass sends: nothing.  The doctor of a candidate
    is a user document, and the User schema declares no path
    [doctorReminderPreferences]: the preferences [sendDoctorReminder] reads
    are undefined.  So a pass always returns and leaves the store as it
    was; it reports no successful send; and every [Upcoming] appointment
    with the flag of the class unset that starts within the window of the
    pass is processed and counted as failed, with the error "Doctor account
    is disabled or inactive" when its doctor is missing, disabled or
    inactive and "Doctor has disabled appointment reminders" otherwise.  A
    later pass at the same time does the same. *)
Theorem reminder_pass_sends_nothing env rt s :
  exists r,
    processReminders env rt s = Ok r s
    /\ details r
       = map (fun c => failure c (refusal c))
             (filter (dueFor env rt) (candidates rt s))
    /\ successes r = []
    /\ sent r = 0
    /\ failed r = List.length (filter (dueFor env rt) (candidates rt s))
    /\ processed r = failed r.
Proof.
  unfold processReminders, bind, gets.
  match goal with |- context [remindEach _ _ _ _ ?l ?r0 s] =>
    destruct (remindEach_unbriefed env rt l (candidates_unbriefed rt s) r0 s)
      as (r & E & Hd & Hs & Hf & Hp) end.
  exists r. cbn [details sent failed processed app] in *.
  split; [exact E|]. split; [exact Hd|]. split.
  { unfold successes. rewrite Hd. clear.
    induction (filter (dueFor env rt) (candidates rt s)) as [|c l IH];
      [reflexivity|exact IH]. }
  split; [exact Hs|]. split; [exact Hf|lia].
Qed.

(** X11.  The tally of a pass.  Every candidate of the query is either
    skipped -- it does not start within the window -- or processed, and every
    processed one has one line in the details and is counted as sent or as
    failed: [total = processed + skipped], [processed = sent + failed], and
    [sent] is the number of successful sends. *)
Theorem reminder_pass_tally env rt s :
  exists r s',
    processReminders env rt s = Ok r s'
    /\ total r = List.length (candidates rt s)
    /\ total r = processed r + skipped r
    /\ processed r = sent r + failed r
    /\ processed r = List.length (details r)
    /\ sent r = List.length (successes r)
    /\ skipped r
       = List.length (filter (fun c => negb (dueFor env rt c))
                             (candidates rt s)).
Proof.
  unfold processReminders, bind, gets.
  match goal with |- context [remindEach _ _ _ _ ?l ?r0 s] =>
    destruct (remindEach_account env rt l r0 s)
      as (r1 & s1 & ds & E1 & Hd & Hids & _ & Ht & Hsk & Hp & Hs & Hf & _) end.
  exists r1, s1. split; [exact E1|].
  cbn [total skipped processed sent failed details app] in *.
  assert (Hlen : List.length ds
                 = List.length (filter (dueFor env rt) (candidates rt s))).
  { rewrite <- (length_map appointmentId ds), Hids, length_map. reflexivity. }
  assert (Hpart : forall (l : list Candidate),
            List.length l
            = List.length (filter (dueFor env rt) l)
              + List.length (filter (fun c => negb (dueFor env rt c)) l)).
  { induction l as [|c l IH]; cbn; [reflexivity|].
    destruct (dueFor env rt c); cbn; lia. }
  split; [exact Ht|].
  split; [rewrite Ht, Hp, Hsk, Hlen; apply Hpart|].
  split; [lia|].
  split; [rewrite Hd; exact Hp|].
  split; [unfold successes; rewrite Hd; exact Hs|exact Hsk].
Qed.

(** The pass of [scenario_two_reminder_passes], counted. *)
Example scenario_reminder_tally :
  match processReminders Sample.dayBefore R24h Sample.booked with
  | Ok r _ => (total r, processed r, sent r, failed r, skipped r) = (1, 1, 0, 1, 0)
  | Throw _ _ => False
  end
  /\ match processReminders Sample.dayBefore R1h Sample.booked with
     | Ok r _ =>
         (total r, processed r, sent r, failed r, skipped r) = (1, 0, 0, 0, 1)
     | Throw _ _ => False
     end.
Proof. vm_compute. split; reflexivity. Qed.

(** X12.  The time-of-day texts.  For every minute of the day, the text
    [minutesToTime] prints (as in "9:05 AM", "12:00 PM") is read back by
    [timeToMinutes] as that minute, and is read by the reminder service's
    [parseAppointmentDateTime] as the same hour and minute on the 24-hour
    clock: the instant it builds is the one the calendar library gives for
    the date followed by the two-digit hour and minute. *)
Theorem printed_times_read_back m :
  (0 <= m < 1440)%Z ->
  timeToMinutes (minutesToTime (Some m)) = Some (Some m)
  /\ parsedTime (minutesToTime (Some m)) = (Some (m / 60)%Z, Some (m mod 60)%Z)
  /\ forall env date,
       parseAppointmentDateTime env date (minutesToTime (Some m))
       = moment24 env
           (String.append date
              (String.append " "
                 (String.append
                    (JS.padStart 2 "0"%char (JS.intToString (m / 60)))
                    (String.append ":"
                       (JS.padStart 2 "0"%char
                          (JS.intToString (m mod 60))))))).
Proof.
  intros Hm.
  assert (Hall : forallb
            (fun n =>
               match timeToMinutes (minutesToTime (Some (Z.of_nat n))),
                     parsedTime (minutesToTime (Some (Z.of_nat n))) with
               | Some (Some r), (Some h, Some mi) =>
                   (r =? Z.of_nat n)%Z && (h =? Z.of_nat n / 60)%Z
                   && (mi =? Z.of_nat n mod 60)%Z
               | _, _ => false
               end) (seq 0 1440) = true)
    by (vm_compute; reflexivity).
  rewrite forallb_forall in Hall.
  specialize (Hall (Z.to_nat m)).
  rewrite Z2Nat.id in Hall by lia.
  assert (Hin : In (Z.to_nat m) (seq 0 1440)) by (apply in_seq; lia).
  specialize (Hall Hin).
  destruct (timeToMinutes (minutesToTime (Some m))) as [[r|]|];
    try discriminate.
  destruct (parsedTime (minutesToTime (Some m))) as [[h|] [mi|]] eqn:Hp;
    try discriminate.
  apply andb_true_iff in Hall. destruct Hall as [Hall H3].
  apply andb_true_iff in Hall. destruct Hall as [H1 H2].
  apply Z.eqb_eq in H1, H2, H3. subst r h mi.
  split; [reflexivity|]. split; [reflexivity|].
  intros env date. unfold parseAppointmentDateTime. rewrite Hp. reflexivity.
Qed.

Lemma printed_times_read_back_witness :
  (0 <= 845 < 1440)%Z
  /\ minutesToTime (Some 845%Z) = "2:05 PM"
  /\ timeToMinutes "2:05 PM" = Some (Some 845%Z)
  /\ parsedTime "2:05 PM" = (Some 14%Z, Some 5%Z).
Proof.
  assert (H : (0 <= 845 < 1440)%Z) by lia.
  split; [exact H|].
  assert (E : minutesToTime (Some 845%Z) = "2:05 PM") by reflexivity.
  split; [exact E|].
  destruct (printed_times_read_back 845 H) as (H1 & H2 & _).
  rewrite E in H1, H2. split; [exact H1|exact H2].
Defined.

(* ------------------------------------------------------------------ *)
(** ** More on the appointment routes *)

(** What a reschedule transaction that returned did. *)
Lemma rescheduleTransaction_Ok env id date time s u s1 :
  rescheduleTransaction env id date time s = Ok u s1 ->
  exists old new,
    findAppointment id s = Some old
    /\ Appointment._id new = Appointment._id old
    /\ Appointment.date new = date /\ Appointment.time new = time
    /\ Appointment.status new = Upcoming
    /\ Appointment.user new = Appointment.user old
    /\ Appointment.doctor new = Appointment.doctor old
    /\ Appointment.hospital new = Appointment.hospital old
    /\ Appointment.cost new = Appointment.cost old
    /\ Appointment.isRefunded new = Appointment.isRefunded old
    /\ Appointment.cancellationResolution new
       = Appointment.cancellationResolution old
    /\ (date = Appointment.date old ->
        Appointment.queueNumber new = Appointment.queueNumber old
        /\ queueItems s1 = queueItems s)
    /\ validAppointment new = true
    /\ appointments s1 = replaceAppointment new (appointments s)
    /\ wallets s1 = wallets s /\ transactions s1 = transactions s
    /\ notifications s1 = notifications s.
Proof.
  unfold rescheduleTransaction. intros H. ok_inv.
  all: apply saveAppointment_Ok in H; destruct H as [Hvalid ->];
       match type of Hvalid with validAppointment ?a = true =>
         exists v0, a end.
  all: repeat match goal with
              | K : createQueueItem _ _ _ _ _ _ _ = Ok _ _ |- _ =>
                  apply createQueueItem_Ok in K; destruct K as (-> & _)
              end.
  all: cbn [appointments wallets transactions notifications queueItems
            set_appointments set_queueItems set_nextId].
  all: repeat match goal with |- _ /\ _ => split end;
       try reflexivity; try assumption.
  all: try (intros Hsame; subst date;
            match goal with
            | K : negb (String.eqb _ _) = true |- _ =>
                rewrite String.eqb_refl in K; discriminate K
            end).
  all: intros _; split; reflexivity.
Qed.

(** X13.  [PUT /api/appointments/:id/reschedule].  The route answers [200]
    or [500].  On [500] -- an unknown appointment among the cases -- the
    store is as it was, queue included: the transaction rolled back.  On
    [200] the stored appointment has the new date and time and status
    [Upcoming] whatever its status was, the same patient, doctor, hospital,
    cost and refund flag, and it is the body of the answer; wallets, ledger
    and notifications are untouched; when the date did not change, neither
    did the queue nor the ticket number. *)
Theorem reschedule_moves_or_rolls_back env id date time s :
  let r := reschedule env id date time s in
  (statusCode (fst r) = 200 \/ statusCode (fst r) = 500)
  /\ (statusCode (fst r) <> 200 -> snd r = s)
  /\ (findAppointment id s = None ->
      fst r = respond 500 (BError "Appointment not found"))
  /\ (statusCode (fst r) = 200 ->
      exists old new,
        findAppointment id s = Some old
        /\ fst r = respond 200 (BAppointment new)
        /\ findAppointment id (snd r) = Some new
        /\ Appointment.date new = date /\ Appointment.time new = time
        /\ Appointment.status new = Upcoming
        /\ Appointment.user new = Appointment.user old
        /\ Appointment.doctor new = Appointment.doctor old
        /\ Appointment.hospital new = Appointment.hospital old
        /\ Appointment.cost new = Appointment.cost old
        /\ Appointment.isRefunded new = Appointment.isRefunded old
        /\ (date = Appointment.date old ->
            Appointment.queueNumber new = Appointment.queueNumber old
            /\ queueItems (snd r) = queueItems s)
        /\ wallets (snd r) = wallets s
        /\ transactions (snd r) = transactions s
        /\ notifications (snd r) = notifications s).
Proof.
  intros r. subst r. unfold reschedule, handle, bind, withTransaction.
  destruct (rescheduleTransaction env id date time s) as [u s1|e s1] eqn:E.
  - apply rescheduleTransaction_Ok in E.
    destruct E as (old & new & Hold & Hid & Hd & Ht & Hst & Hu & Hdr & Hh & Hc
                   & Hr & _ & Hq & _ & Happ & Hw & Htx & Hn).
    assert (Hfind : findAppointment id s1 = Some new).
    { unfold findAppointment in *. rewrite Happ.
      apply (find_replaceAppointment id _ old new Hold Hid). }
    unfold gets. rewrite Hfind. unfold ret. cbn [fst snd].
    split; [left; reflexivity|].
    split; [intros K; exfalso; apply K; reflexivity|].
    split; [intros K; rewrite K in Hold; discriminate|].
    intros _. exists old, new. repeat split; try assumption; apply Hq; assumption.
  - cbn [fst snd]. split; [right; reflexivity|]. split; [reflexivity|].
    split; [|intros K; discriminate K].
    intros Hnone. unfold rescheduleTransaction, bind, gets in E.
    rewrite Hnone in E. cbn in E. inversion E. reflexivity.
Qed.

(** Amal's cancelled appointment moved to the 13th: it is [Upcoming] again,
    and her balance is what the cancellation left. *)
Example scenario_reschedule_revives :
  let r := reschedule Sample.env 20 "2026-03-13" "9:30 AM" Sample.cancelled in
  statusCode (fst r) = 200
  /\ map Appointment.status (appointments Sample.cancelled) = [Cancelled]
  /\ map (fun a => (Appointment.date a, Appointment.time a,
                    Appointment.status a, Appointment.isRefunded a))
         (appointments (snd r))
     = [("2026-03-13", "9:30 AM", Upcoming, true)]
  /\ Sample.balanceOf 3 (snd r) = Sample.balanceOf 3 Sample.cancelled
  /\ fst (reschedule Sample.env 99 "2026-03-13" "9:30 AM" Sample.cancelled)
     = respond 500 (BError "Appointment not found").
Proof. vm_compute. repeat split. Qed.

Lemma findHospital_id id s h : findHospital id s = Some h -> Hospital._id h = id.
Proof.
  unfold findHospital. intros H. apply find_some in H. apply Nat.eqb_eq, H.
Qed.

(** X14.  [PUT /api/appointments/doctor-cancel/:id].  The route never stores
    an in-app notification (the type it passes is outside the schema's enum
    and the helper swallows the refusal), never moves money and never
    touches the queue.  Answered [200], it found the appointment, the caller
    is its doctor or a staff member, manager or admin who has the
    appointment's hospital among theirs, and the appointment is stored
    [DoctorCancelled] with resolution [Pending] whatever its status was, its
    refund flag, cost and slot unchanged.  Answered [403] or [404], it wrote
    nothing. *)
Theorem doctorCancel_marks_the_appointment env reqUser id s :
  let r := doctorCancel env reqUser id s in
  (notifications (snd r) = notifications s
   /\ wallets (snd r) = wallets s
   /\ transactions (snd r) = transactions s
   /\ queueItems (snd r) = queueItems s)
  /\ (statusCode (fst r) = 403 \/ statusCode (fst r) = 404 -> snd r = s)
  /\ (statusCode (fst r) = 200 ->
      exists appt,
        findAppointment id s = Some appt
        /\ ((User.role reqUser = Doctor
             /\ Appointment.doctor appt = User._id reqUser)
            \/ (isStaffRole (User.role reqUser) = true
                /\ In (Appointment.hospital appt) (User.hospitals reqUser)))
        /\ fst r
           = respond 200
               (BMessageAppointment
                  "Appointment marked as DoctorCancelled and patient notified."
                  (Appointment.set_cancellationResolution Pending
                     (Appointment.set_status DoctorCancelled appt)))
        /\ appointments (snd r)
           = replaceAppointment
               (Appointment.set_cancellationResolution Pending
                  (Appointment.set_status DoctorCancelled appt))
               (appointments s)
        /\ findAppointment id (snd r)
           = Some (Appointment.set_cancellationResolution Pending
                     (Appointment.set_status DoctorCancelled appt))).
Proof.
  intros r. subst r.
  pose (Q := fun r : Response * Store =>
    (notifications (snd r) = notifications s
     /\ wallets (snd r) = wallets s
     /\ transactions (snd r) = transactions s
     /\ queueItems (snd r) = queueItems s)
    /\ (statusCode (fst r) = 403 \/ statusCode (fst r) = 404 -> snd r = s)
    /\ (statusCode (fst r) = 200 ->
        exists appt,
          findAppointment id s = Some appt
          /\ ((User.role reqUser = Doctor
               /\ Appointment.doctor appt = User._id reqUser)
              \/ (isStaffRole (User.role reqUser) = true
                  /\ In (Appointment.hospital appt) (User.hospitals reqUser)))
          /\ fst r
             = respond 200
                 (BMessageAppointment
                    "Appointment marked as DoctorCancelled and patient notified."
                    (Appointment.set_cancellationResolution Pending
                       (Appointment.set_status DoctorCancelled appt)))
          /\ appointments (snd r)
             = replaceAppointment
                 (Appointment.set_cancellationResolution Pending
                    (Appointment.set_status DoctorCancelled appt))
                 (appointments s)
          /\ findAppointment id (snd r)
             = Some (Appointment.set_cancellationResolution Pending
                       (Appointment.set_status DoctorCancelled appt)))).
  change (Q (doctorCancel env reqUser id s)).
  assert (Hrefuse : forall c msg, c <> 200 -> Q (respond c (BError msg), s)).
  { intros c msg Hc. unfold Q. cbn [fst snd statusCode respond].
    split; [repeat split|]. split; [reflexivity|].
    intros K. contradiction. }
  unfold doctorCancel.
  destruct (negb (Role_eqb (User.role reqUser) Doctor
                  || isStaffRole (User.role reqUser))) eqn:Hrole.
  { apply Hrefuse. discriminate. }
  unfold handle, bind, gets.
  destruct (findAppointment id s) as [appt|] eqn:Hfind.
  2:{ unfold ret. apply Hrefuse. discriminate. }
  set (appt' := Appointment.set_cancellationResolution Pending
                  (Appointment.set_status DoctorCancelled appt)).
  assert (Hid : Appointment._id appt' = Appointment._id appt) by reflexivity.
  assert (Hwrite :
    (User.role reqUser = Doctor
     /\ Appointment.doctor appt = User._id reqUser)
    \/ (isStaffRole (User.role reqUser) = true
        /\ In (Appointment.hospital appt) (User.hospitals reqUser)) ->
    Q match
        match saveAppointment appt' s with
        | Ok _ s' =>
            match orThrow (findUser (Appointment.user appt) s) typeError s' with
            | Ok user s'0 =>
                match createNotification env (User._id user)
                        "Appointment Cancelled by Doctor" "" s'0 with
                | Ok _ s'1 =>
                    ret (respond 200
                           (BMessageAppointment
                              "Appointment marked as DoctorCancelled and patient notified."
                              appt')) s'1
                | Throw e s'1 => Throw e s'1
                end
            | Throw e s'0 => Throw e s'0
            end
        | Throw e s' => Throw e s'
        end
      with
      | Ok r0 s' => (r0, s')
      | Throw e s' => (respond 500 (BError "Server error"), s')
      end).
  { intros Hauth. unfold saveAppointment.
    destruct (negb (validAppointment appt')); [apply Hrefuse; discriminate|].
    destruct (slotChanged appt' s && slotTaken appt' (appointments s));
      [apply Hrefuse; discriminate|].
    destruct (findUser (Appointment.user appt) s) as [user|];
      cbn [orThrow ret throw].
    2:{ unfold throw, Q. cbn [fst snd statusCode respond].
        split; [repeat split|].
        split; [intros [K|K]; discriminate K|]. discriminate. }
    unfold ret at 1. unfold createNotification.
    cbn [existsb notificationTypes].
    replace (String.eqb "Appointment Cancelled by Doctor" "appointment"
             || (String.eqb "Appointment Cancelled by Doctor" "reminder"
             || (String.eqb "Appointment Cancelled by Doctor" "wallet"
             || (String.eqb "Appointment Cancelled by Doctor" "system"
             || (String.eqb "Appointment Cancelled by Doctor" "emergency"
             || false))))) with false by reflexivity.
    cbn [andb]. unfold ret, Q. cbn [fst snd statusCode respond].
    split; [repeat split|].
    split; [intros [K|K]; discriminate K|].
    intros _. exists appt. split; [reflexivity|]. split; [exact Hauth|].
    split; [reflexivity|]. split; [reflexivity|].
    unfold findAppointment in *. cbn [appointments set_appointments].
    apply (find_replaceAppointment id _ appt appt' Hfind Hid). }
  destruct (Role_eqb (User.role reqUser) Doctor) eqn:Hdoc.
  - assert (Erole : User.role reqUser = Doctor)
      by (destruct (User.role reqUser); try discriminate; reflexivity).
    assert (Hstaff : isStaffRole (User.role reqUser) = false)
      by (rewrite Erole; reflexivity).
    rewrite Hstaff.
    destruct (findUser (Appointment.doctor appt) s) as [dr|] eqn:Hdr;
      cbn [orThrow ret throw]; [|apply Hrefuse; discriminate].
    unfold ret at 1. unfold ret at 1.
    apply findUser_id in Hdr.
    destruct (Nat.eqb (User._id dr) (User._id reqUser)) eqn:Hown;
      cbn [negb andb]; [|unfold ret; apply Hrefuse; discriminate].
    apply Nat.eqb_eq in Hown.
    apply Hwrite. left. split; [exact Erole|congruence].
  - unfold ret at 1.
    destruct (isStaffRole (User.role reqUser)) eqn:Hstaff;
      [|cbn in Hrole; discriminate Hrole].
    destruct (findHospital (Appointment.hospital appt) s) as [h|] eqn:Hh;
      cbn [orThrow ret throw]; [|apply Hrefuse; discriminate].
    unfold ret at 1.
    apply findHospital_id in Hh.
    destruct (existsb (Nat.eqb (Hospital._id h)) (User.hospitals reqUser))
      eqn:Hin; cbn [negb andb]; [|unfold ret; apply Hrefuse; discriminate].
    apply Hwrite. right. split; [reflexivity|].
    apply existsb_exists in Hin. destruct Hin as (x & Hx & E).
    apply Nat.eqb_eq in E. rewrite <- Hh, E. exact Hx.
Qed.

(** Amal cancels (a refund of 80%), the doctor then cancels the same
    appointment, and Amal asks for the refund of the doctor's apology: the
    full cost is credited on top. *)
Example scenario_doctor_cancels_a_cancelled_appointment :
  let s1 := snd (doctorCancel Sample.env Sample.doctorX 20 Sample.cancelled) in
  let r := resolveCancellation Sample.env Sample.patientA 20 ActRefund None
             None s1 in
  map Appointment.status (appointments Sample.cancelled) = [Cancelled]
  /\ map Appointment.status (appointments s1) = [DoctorCancelled]
  /\ notifications s1 = notifications Sample.cancelled
  /\ statusCode (fst r) = 200
  /\ Sample.balanceOf 3 Sample.booked = Some 50%float
  /\ Sample.balanceOf 3 Sample.cancelled = Some 90%float
  /\ Sample.balanceOf 3 (snd r) = Some 140%float.
Proof. vm_compute. repeat split. Qed.



(* ------------------------------------------------------------------ *)
(** ** Walk-in patients *)

Lemma shortestQueue_min (first : User.t * nat) rest :
  In (walkIns.shortestQueue first rest) (first :: rest)
  /\ forall x, In x (first :: rest) ->
       snd (walkIns.shortestQueue first rest) <= snd x.
Proof.
  unfold walkIns.shortestQueue. revert first.
  induction rest as [|y rest IH]; intros first; cbn [fold_left].
  - split; [left; reflexivity|]. intros x [<-|[]]. lia.
  - specialize (IH (if Nat.ltb (snd y) (snd first) then y else first)).
    destruct IH as [Hin Hmin]. split.
    + destruct Hin as [E|Hin]; [|right; right; exact Hin].
      rewrite <- E. destruct (Nat.ltb (snd y) (snd first)); cbn; auto.
    + intros x Hx.
      assert (Hb : snd (fold_left
                          (fun min current =>
                             if Nat.ltb (snd current) (snd min)
                             then current else min) rest
                          (if Nat.ltb (snd y) (snd first) then y else first))
                   <= snd (if Nat.ltb (snd y) (snd first) then y else first))
        by (apply Hmin; left; reflexivity).
      destruct Hx as [<-|[<-|Hx]].
      * destruct (Nat.ltb_spec (snd y) (snd first)); lia.
      * destruct (Nat.ltb_spec (snd y) (snd first)); lia.
      * apply Hmin. right. exact Hx.
Qed.

(** X9.  [addWalkInBySpecialty].  The call throws, writing nothing, in two
    cases only: the staff member has no hospital, or no doctor of that
    hospital has the specialty.  Otherwise it appends one [Waiting] walk-in
    entry -- no registered patient, the trimmed name, a [W] ticket -- at the
    staff member's first hospital, for a doctor of that hospital and
    specialty whose number of [Waiting] entries is the least among them; it
    writes nothing else, and it keeps the rule of one active entry per
    patient. *)
Theorem walk_in_goes_to_the_shortest_queue env name specialtyId staffUser s :
  match walkIns.addWalkInBySpecialty env name specialtyId staffUser s with
  | Throw e s' =>
      s' = s
      /\ match walkIns.primaryHospital staffUser with
         | None =>
             e = mkError "Staff member is not associated with a hospital."
         | Some h =>
             walkIns.specialists h specialtyId s = []
             /\ e = mkError
                      "No doctors available for this specialty in this hospital."
         end
  | Ok _ s' =>
      exists h best,
        walkIns.primaryHospital staffUser = Some h
        /\ In best (walkIns.specialists h specialtyId s)
        /\ (forall d, In d (walkIns.specialists h specialtyId s) ->
              walkIns.waitingCount (User._id best) s
              <= walkIns.waitingCount (User._id d) s)
        /\ queueItems s'
           = queueItems s
             ++ [{| QueueItem._id := nextId s;
                    QueueItem.user := None;
                    QueueItem.walkInName := option_map JS.trim name;
                    QueueItem.doctor := User._id best;
                    QueueItem.hospital := h;
                    QueueItem.queueNumber :=
                      walkIns.walkInTicket
                        (queueService.countQueue (User._id best) h s);
                    QueueItem.status := Waiting;
                    QueueItem.checkInTime := now env |}]
        /\ walkIns.waitingCount (User._id best) s'
           = S (walkIns.waitingCount (User._id best) s)
        /\ appointments s' = appointments s /\ wallets s' = wallets s
        /\ transactions s' = transactions s
        /\ notifications s' = notifications s
        /\ (queueDiscipline s -> queueDiscipline s')
  end.
Proof.
  unfold walkIns.addWalkInBySpecialty, bind, gets.
  destruct (walkIns.primaryHospital staffUser) as [h|] eqn:Hh;
    cbn [orThrow ret throw]; [|split; reflexivity].
  unfold ret at 1.
  destruct (walkIns.specialists h specialtyId s) as [|d0 ds] eqn:Hsp.
  { cbn. split; [reflexivity|]. split; reflexivity. }
  cbn [throwIf ret map].
  pose proof (shortestQueue_min
                (d0, walkIns.waitingCount (User._id d0) s)
                (map (fun doctor =>
                        (doctor, walkIns.waitingCount (User._id doctor) s)) ds))
    as [Hin Hmin].
  set (best := walkIns.shortestQueue
                 (d0, walkIns.waitingCount (User._id d0) s)
                 (map (fun doctor =>
                         (doctor, walkIns.waitingCount (User._id doctor) s)) ds))
    in *.
  assert (Hpair : In best
            (map (fun doctor =>
                    (doctor, walkIns.waitingCount (User._id doctor) s))
                 (d0 :: ds))) by exact Hin.
  apply in_map_iff in Hpair. destruct Hpair as (b & Eb & Hb).
  assert (Efst : fst best = b) by (rewrite <- Eb; reflexivity).
  assert (Esnd : snd best = walkIns.waitingCount (User._id b) s)
    by (rewrite <- Eb; reflexivity).
  unfold createQueueItem, ret. cbn [fst].
  exists h, (fst best). rewrite Efst, Hsp.
  split; [reflexivity|]. split; [exact Hb|]. split.
  { intros d Hd. rewrite <- Esnd.
    apply (Hmin (d, walkIns.waitingCount (User._id d) s)).
    apply (in_map (fun doctor =>
                     (doctor, walkIns.waitingCount (User._id doctor) s))
                  (d0 :: ds) d Hd). }
  split; [reflexivity|]. split.
  { unfold walkIns.waitingCount. cbn [queueItems set_nextId set_queueItems].
    rewrite filter_app, length_app. cbn. rewrite Nat.eqb_refl. cbn. lia. }
  split; [reflexivity|]. split; [reflexivity|]. split; [reflexivity|].
  split; [reflexivity|].
  intros Hq.
  eapply (queueDiscipline_append s); [reflexivity|reflexivity|cbn; lia| |exact Hq].
  cbn. intros u K. discriminate K.
Qed.

(** Omar, without appointment, asks for a cardiologist: he is sent to
    Dr. Lina, whose line is the shorter; a staff member without hospital
    cannot place him. *)
Example scenario_walk_in_by_specialty :
  match walkIns.addWalkInBySpecialty Sample.env (Some " Omar ") 40
          Sample.staff Cases.wards with
  | Ok _ s' =>
      map (fun q => (QueueItem.doctor q, QueueItem.walkInName q,
                     QueueItem.queueNumber q, QueueItem.status q))
          (skipn 3 (queueItems s'))
      = [(32, Some "Omar", "W002", Waiting)]
  | Throw _ _ => False
  end
  /\ walkIns.addWalkInBySpecialty Sample.env (Some "Omar") 40 Sample.patientA
       Cases.wards
     = Throw (mkError "Staff member is not associated with a hospital.")
             Cases.wards
  /\ walkIns.addWalkInBySpecialty Sample.env (Some "Omar") 41 Sample.staff
       Cases.wards
     = Throw (mkError "No doctors available for this specialty in this hospital.")
             Cases.wards.
Proof. vm_compute. repeat split. Qed.

(* ------------------------------------------------------------------ *)
(** ** Disabling and reactivating an account *)

Lemma findAccount_id id accounts a :
  AccountDisableService.findAccount id accounts = Some a -> Account._id a = id.
Proof.
  unfold AccountDisableService.findAccount. intros H. apply find_some in H.
  apply Nat.eqb_eq, H.
Qed.

(** A saved account is the one found afterwards. *)
Lemma findAccount_saveAccount id accounts a a' :
  AccountDisableService.findAccount id accounts = Some a ->
  Account._id a' = Account._id a ->
  AccountDisableService.findAccount id
    (AccountDisableService.saveAccount a' accounts) = Some a'.
Proof.
  intros Hf E. pose proof (findAccount_id _ _ _ Hf) as Eid.
  unfold AccountDisableService.findAccount, AccountDisableService.saveAccount
    in *.
  induction accounts as [|x l IH]; cbn [find map] in *; [discriminate|].
  destruct (Nat.eqb (Account._id x) id) eqn:Hx.
  - inversion Hf; subst x. rewrite E, Nat.eqb_refl.
    rewrite E, Eid, Nat.eqb_refl. reflexivity.
  - destruct (Nat.eqb_spec (Account._id x) (Account._id a')) as [K|_].
    + rewrite E, Eid in K. apply Nat.eqb_neq in Hx. contradiction.
    + rewrite Hx. apply IH, Hf.
Qed.

Lemma intToString_not_empty z : JS.intToString z <> "".
Proof.
  unfold JS.intToString. destruct (z <? 0)%Z; [discriminate|].
  unfold JS.natToString, NilZero.string_of_uint.
  destruct (Nat.to_uint (Z.to_nat z)); discriminate.
Qed.

Lemma setDisabled_twice b b' u : setDisabled b (setDisabled b' u) = setDisabled b u.
Proof. reflexivity. Qed.

Lemma setDisabled_same u : setDisabled (User.isDisabled u) u = u.
Proof. destruct u; reflexivity. Qed.

(** X16.  An account is disabled and comes back with its code.  For a
    stored account that is not disabled, [disableAccount] succeeds and
    stores it disabled, stamped with the time, with no reactivation code;
    [generateReactivationOtp] then stores a code and returns it; and
    [verifyReactivationOtp] with that code, up to ten minutes after the code
    was generated, returns [true] and stores the account enabled with every
    field of the lock cleared -- for an account that had none of them, the
    document it was before.  Later than ten minutes the same code is
    refused and nothing is stored. *)
Theorem disabled_account_comes_back_with_its_code
    env env1 env2 random id by_ reason accounts s a :
  AccountDisableService.findAccount id accounts = Some a ->
  Account.isDisabled a = false ->
  (0 <= now env1)%Z ->
  exists out accounts1 s1 a1 otp accounts2,
    AccountDisableService.disableAccount env id by_ reason accounts s
    = Ok (out, accounts1) s1
    /\ AccountDisableService.success out = true
    /\ AccountDisableService.findAccount id accounts1 = Some a1
    /\ Account.isDisabled a1 = true
    /\ Account.disabledAt a1 = Some (now env)
    /\ Account.disabledBy a1
       = Some match by_ with Some b => b | None => id end
    /\ Account.reactivationOtp a1 = None
    /\ AccountDisableService.generateReactivationOtp env1 random id accounts1
       = inr (otp, accounts2)
    /\ otp = AccountDisableService.sixDigits random
    /\ ((now env2 <= now env1 + 600000)%Z ->
        exists accounts3,
          AccountDisableService.verifyReactivationOtp env2 id otp accounts2
          = (true, accounts3)
          /\ AccountDisableService.findAccount id accounts3
             = Some (AccountDisableService.reactivated a)
          /\ (Account.disabledAt a = None -> Account.disabledReason a = None ->
              Account.disabledBy a = None -> Account.reactivationOtp a = None ->
              Account.reactivationOtpExpire a = None ->
              AccountDisableService.findAccount id accounts3 = Some a))
    /\ ((now env1 + 600000 < now env2)%Z ->
        AccountDisableService.verifyReactivationOtp env2 id otp accounts2
        = (false, accounts2)).
Proof.
  intros Hfind Hen Hnow.
  set (a1 := {| Account.user := setDisabled true (Account.user a);
                Account.disabledAt := Some (now env);
                Account.disabledReason :=
                  if String.eqb reason "" then None else Some reason;
                Account.disabledBy :=
                  match by_ with Some b => Some b | None => Some id end;
                Account.reactivationOtp := None;
                Account.reactivationOtpExpire := None |}).
  set (otp := AccountDisableService.sixDigits random).
  set (a2 := {| Account.user := Account.user a1;
                Account.disabledAt := Account.disabledAt a1;
                Account.disabledReason := Account.disabledReason a1;
                Account.disabledBy := Account.disabledBy a1;
                Account.reactivationOtp := Some otp;
                Account.reactivationOtpExpire :=
                  Some (now env1 + 10 * 60 * 1000)%Z |}).
  set (accounts1 := AccountDisableService.saveAccount a1 accounts).
  set (accounts2 := AccountDisableService.saveAccount a2 accounts1).
  assert (Hf1 : AccountDisableService.findAccount id accounts1 = Some a1)
    by (apply (findAccount_saveAccount id accounts a a1 Hfind); reflexivity).
  assert (Hf2 : AccountDisableService.findAccount id accounts2 = Some a2)
    by (apply (findAccount_saveAccount id accounts1 a1 a2 Hf1); reflexivity).
  destruct (createNotification env id "system" "" s) as [b s1|e s1] eqn:Hn.
  2:{ unfold createNotification in Hn. destruct (_ && _) in Hn; discriminate. }
  exists {| AccountDisableService.success := true;
            AccountDisableService.message := "Account disabled successfully";
            AccountDisableService.disabledAt := Some (now env) |},
         accounts1, s1, a1, otp, accounts2.
  split.
  { unfold AccountDisableService.disableAccount. rewrite Hfind, Hen.
    unfold bind. rewrite Hn. reflexivity. }
  split; [reflexivity|]. split; [exact Hf1|]. split; [reflexivity|].
  split; [reflexivity|]. split; [destruct by_; reflexivity|].
  split; [reflexivity|]. split.
  { unfold AccountDisableService.generateReactivationOtp. rewrite Hf1.
    reflexivity. }
  split; [reflexivity|].
  assert (Hotp : String.eqb otp "" = false)
    by (apply String.eqb_neq, intToString_not_empty).
  assert (Hexp : ((now env1 + 10 * 60 * 1000 =? 0) = false)%Z)
    by (apply Z.eqb_neq; lia).
  split.
  - intros Hin. eexists. split.
    + unfold AccountDisableService.verifyReactivationOtp. rewrite Hf2.
      unfold AccountDisableService.noPendingOtp.
      cbn [Account.isDisabled Account.user a2 a1 setDisabled User.isDisabled
           negb Account.reactivationOtp Account.reactivationOtpExpire].
      rewrite Hotp, Hexp, String.eqb_refl. cbn [orb negb].
      replace (now env1 + 10 * 60 * 1000 <? now env2)%Z with false
        by (symmetry; apply Z.ltb_ge; lia).
      reflexivity.
    + assert (Hre : AccountDisableService.reactivated a2
                    = AccountDisableService.reactivated a) by reflexivity.
      rewrite Hre.
      assert (Hf3 : AccountDisableService.findAccount id
                      (AccountDisableService.saveAccount
                         (AccountDisableService.reactivated a) accounts2)
                    = Some (AccountDisableService.reactivated a))
        by (apply (findAccount_saveAccount id accounts2 a2 _ Hf2);
            reflexivity).
      split; [exact Hf3|].
      intros H1 H2 H3 H4 H5. rewrite Hf3. f_equal.
      unfold AccountDisableService.reactivated.
      unfold Account.isDisabled in Hen. rewrite <- Hen, setDisabled_same.
      destruct a; cbn in *; subst; reflexivity.
  - intros Hlate.
    unfold AccountDisableService.verifyReactivationOtp. rewrite Hf2.
    unfold AccountDisableService.noPendingOtp.
    cbn [Account.isDisabled Account.user a2 a1 setDisabled User.isDisabled
         negb Account.reactivationOtp Account.reactivationOtpExpire].
    rewrite Hotp, Hexp, String.eqb_refl. cbn [orb negb].
    replace (now env1 + 10 * 60 * 1000 <? now env2)%Z with true
      by (symmetry; apply Z.ltb_lt; lia).
    reflexivity.
Qed.

Lemma option_eq_dec_string (x y : option string) : {x = y} + {x <> y}.
Proof. decide equality. apply string_dec. Qed.

Lemma disabled_account_comes_back_with_its_code_witness :
  AccountDisableService.findAccount 3 Cases.accounts
  = Some (Cases.accountOf Sample.patientA)
  /\ exists out accounts1 s1 a1 otp accounts2,
       AccountDisableService.disableAccount Sample.env 3 None "" Cases.accounts
         Sample.store = Ok (out, accounts1) s1
       /\ AccountDisableService.success out = true
       /\ AccountDisableService.findAccount 3 accounts1 = Some a1
       /\ Account.isDisabled a1 = true
       /\ Account.disabledAt a1 = Some (now Sample.env)
       /\ Account.disabledBy a1 = Some 3
       /\ Account.reactivationOtp a1 = None
       /\ AccountDisableService.generateReactivationOtp Sample.env (1 # 2) 3
            accounts1 = inr (otp, accounts2)
       /\ otp = AccountDisableService.sixDigits (1 # 2)
       /\ ((now Sample.env <= now Sample.env + 600000)%Z ->
           exists accounts3,
             AccountDisableService.verifyReactivationOtp Sample.env 3 otp
               accounts2 = (true, accounts3)
             /\ AccountDisableService.findAccount 3 accounts3
                = Some (AccountDisableService.reactivated
                          (Cases.accountOf Sample.patientA))
             /\ (Account.disabledAt (Cases.accountOf Sample.patientA) = None ->
                 Account.disabledReason (Cases.accountOf Sample.patientA)
                 = None ->
                 Account.disabledBy (Cases.accountOf Sample.patientA) = None ->
                 Account.reactivationOtp (Cases.accountOf Sample.patientA)
                 = None ->
                 Account.reactivationOtpExpire
                   (Cases.accountOf Sample.patientA) = None ->
                 AccountDisableService.findAccount 3 accounts3
                 = Some (Cases.accountOf Sample.patientA)))
       /\ ((now Sample.env + 600000 < now Sample.env)%Z ->
           AccountDisableService.verifyReactivationOtp Sample.env 3 otp
             accounts2 = (false, accounts2)).
Proof.
  split; [reflexivity|].
  apply (disabled_account_comes_back_with_its_code Sample.env Sample.env
           Sample.env (1 # 2) 3 None "" Cases.accounts Sample.store
           (Cases.accountOf Sample.patientA)).
  - reflexivity.
  - reflexivity.
  - vm_compute. discriminate.
Defined.

(** The code half a draw of [Math.random()] gives. *)
Example scenario_six_digits :
  AccountDisableService.sixDigits (1 # 2) = "550000"
  /\ AccountDisableService.sixDigits 0 = "100000"
  /\ AccountDisableService.sixDigits (999999 # 1000000) = "999999".
Proof. repeat split; vm_compute; reflexivity. Qed.

Lemma findAccount_saveAccount_other id accounts a' :
  Account._id a' <> id ->
  AccountDisableService.findAccount id
    (AccountDisableService.saveAccount a' accounts)
  = AccountDisableService.findAccount id accounts.
Proof.
  intros Hne.
  unfold AccountDisableService.findAccount, AccountDisableService.saveAccount.
  induction accounts as [|x l IH]; cbn [find map]; [reflexivity|].
  destruct (Nat.eqb_spec (Account._id x) (Account._id a')) as [E|_].
  - rewrite E. apply Nat.eqb_neq in Hne. rewrite Hne. exact IH.
  - rewrite IH. reflexivity.
Qed.

Lemma verifyReactivationOtp_accepts env id otp accounts a e :
  AccountDisableService.findAccount id accounts = Some a ->
  codeHolds env otp a e ->
  AccountDisableService.verifyReactivationOtp env id otp accounts
  = (true, AccountDisableService.saveAccount
             (AccountDisableService.reactivated a) accounts).
Proof.
  intros Hf (Hd & Ho & Hne & He & Hnz & Hin).
  unfold AccountDisableService.verifyReactivationOtp,
    AccountDisableService.noPendingOtp.
  rewrite Hf, Hd, Ho, He, String.eqb_refl.
  apply String.eqb_neq in Hne. apply Z.eqb_neq in Hnz. rewrite Hne, Hnz.
  apply Z.ltb_ge in Hin. rewrite Hin. reflexivity.
Qed.

Lemma verifyReactivationOtp_refuses env id otp accounts :
  (forall a e, AccountDisableService.findAccount id accounts = Some a ->
               ~ codeHolds env otp a e) ->
  AccountDisableService.verifyReactivationOtp env id otp accounts
  = (false, accounts).
Proof.
  intros Hno.
  unfold AccountDisableService.verifyReactivationOtp,
    AccountDisableService.noPendingOtp.
  destruct (AccountDisableService.findAccount id accounts) as [a|] eqn:Hf;
    [|reflexivity].
  destruct (Account.isDisabled a) eqn:Hd; [|reflexivity]. cbn [negb].
  destruct (Account.reactivationOtp a) as [o|] eqn:Ho; [|reflexivity].
  destruct (Account.reactivationOtpExpire a) as [e|] eqn:He; [|reflexivity].
  destruct (String.eqb_spec o "") as [Eo|No]; [reflexivity|].
  destruct (Z.eqb_spec e 0) as [Ee|Ne]; [reflexivity|]. cbn [orb].
  destruct (String.eqb_spec o otp) as [Eq|Nq]; [|reflexivity]. cbn [negb].
  destruct (Z.ltb_spec e (now env)) as [Hlate|Hin]; [reflexivity|].
  exfalso. apply (Hno a e eq_refl). unfold codeHolds. rewrite Hd, Ho, He.
  subst o. auto 10.
Qed.

(** X17.  A reactivation code is checked in full and works once.
    [verifyReactivationOtp] returns [true] exactly when the account exists,
    is disabled, and holds this very code, non-empty, with an expiry that is
    not before the present instant; when it returns [false] nothing is
    stored; and once it has returned [true] no code at all, at any time, is
    accepted for that account again. *)
Theorem reactivation_code_is_checked_and_works_once env id otp accounts :
  let r := AccountDisableService.verifyReactivationOtp env id otp accounts in
  (fst r = true <->
     exists a e,
       AccountDisableService.findAccount id accounts = Some a
       /\ Account.isDisabled a = true
       /\ Account.reactivationOtp a = Some otp /\ otp <> ""
       /\ Account.reactivationOtpExpire a = Some e /\ e <> 0%Z
       /\ (now env <= e)%Z)
  /\ (fst r = false -> snd r = accounts)
  /\ (fst r = true ->
      forall env' otp',
        AccountDisableService.verifyReactivationOtp env' id otp' (snd r)
        = (false, snd r)).
Proof.
  cbv zeta.
  destruct (AccountDisableService.findAccount id accounts) as [a|] eqn:Hf.
  2:{ rewrite verifyReactivationOtp_refuses
        by (intros a e K; congruence).
      cbn. split; [split; [discriminate|intros (a & e & K & _); discriminate]|].
      split; [reflexivity|discriminate]. }
  destruct (Account.reactivationOtpExpire a) as [e|] eqn:He.
  2:{ rewrite verifyReactivationOtp_refuses
        by (intros a0 e K (_ & _ & _ & K2 & _); congruence).
      cbn. split; [split; [discriminate|]|split; [reflexivity|discriminate]].
      intros (a0 & e & K & _ & _ & _ & K2 & _). congruence. }
  destruct (Bool.bool_dec (Account.isDisabled a) true) as [Hd|Hd].
  2:{ rewrite verifyReactivationOtp_refuses
        by (intros a0 e0 K (K1 & _); congruence).
      cbn. split; [split; [discriminate|]|split; [reflexivity|discriminate]].
      intros (a0 & e0 & K & K1 & _). congruence. }
  destruct (option_eq_dec_string (Account.reactivationOtp a) (Some otp))
    as [Ho|Ho].
  2:{ rewrite verifyReactivationOtp_refuses
        by (intros a0 e0 K (_ & K1 & _); congruence).
      cbn. split; [split; [discriminate|]|split; [reflexivity|discriminate]].
      intros (a0 & e0 & K & _ & K1 & _). congruence. }
  destruct (string_dec otp "") as [Eo|No].
  { rewrite verifyReactivationOtp_refuses
      by (intros a0 e0 K (_ & _ & K1 & _); congruence).
    cbn. split; [split; [discriminate|]|split; [reflexivity|discriminate]].
    intros (a0 & e0 & K & _ & _ & K1 & _). congruence. }
  destruct (Z.eq_dec e 0) as [Ee|Ne].
  { rewrite verifyReactivationOtp_refuses
      by (intros a0 e0 K (_ & _ & _ & K1 & K2 & _); congruence).
    cbn. split; [split; [discriminate|]|split; [reflexivity|discriminate]].
    intros (a0 & e0 & K & _ & _ & _ & K1 & K2 & _). congruence. }
  destruct (Z_le_gt_dec (now env) e) as [Hin|Hlate].
  2:{ rewrite verifyReactivationOtp_refuses
        by (intros a0 e0 K (_ & _ & _ & K1 & _ & K2);
            assert (e0 = e) by congruence; lia).
      cbn. split; [split; [discriminate|]|split; [reflexivity|discriminate]].
      intros (a0 & e0 & K & _ & _ & _ & K1 & _ & K2).
      assert (e0 = e) by congruence. lia. }
  rewrite (verifyReactivationOtp_accepts env id otp accounts a e Hf)
    by (unfold codeHolds; auto 10).
  cbn [fst snd]. split.
  { split; [|reflexivity]. intros _. exists a, e. auto 10. }
  split; [discriminate|]. intros _ env' otp'.
  apply verifyReactivationOtp_refuses. intros a0 e0 K (K1 & _).
  rewrite (findAccount_saveAccount id accounts a
             (AccountDisableService.reactivated a) Hf eq_refl) in K.
  inversion K; subst a0. discriminate K1.
Qed.

(** X18.  A disabled account is locked out, and only that account.  After
    [disableAccount] has returned -- whether it disabled the account or
    found it disabled already -- [protect] answers 403 to a request that
    carries a valid token of that account, and every other account is found
    as it was.  [reactivateAccount] then succeeds, after it the same request
    passes [protect] as a user that is not disabled, and again every other
    account is found as it was. *)
Theorem disabled_account_is_locked_out
    jwtVerify header token env id by_ reason accounts s out accounts1 s1 :
  AccountDisableService.disableAccount env id by_ reason accounts s
  = Ok (out, accounts1) s1 ->
  auth.bearerToken header = Some token ->
  token <> "" ->
  jwtVerify token = Some (Some id) ->
  auth.protect jwtVerify header accounts1 = inl auth.accountDisabled
  /\ (forall other, other <> id ->
      AccountDisableService.findAccount other accounts1
      = AccountDisableService.findAccount other accounts)
  /\ exists out2 accounts2 a2,
       AccountDisableService.reactivateAccount id accounts1
       = inr (out2, accounts2)
       /\ AccountDisableService.success out2 = true
       /\ auth.protect jwtVerify header accounts2 = inr a2
       /\ Account._id a2 = id
       /\ Account.isDisabled a2 = false
       /\ Account.reactivationOtp a2 = None
       /\ (forall other, other <> id ->
           AccountDisableService.findAccount other accounts2
           = AccountDisableService.findAccount other accounts).
Proof.
  intros Hdis Hbearer Htok Hjwt.
  assert (Hne : String.eqb token "" = false) by (apply String.eqb_neq, Htok).
  assert (Hlocked : exists a1,
             AccountDisableService.findAccount id accounts1 = Some a1
             /\ Account.isDisabled a1 = true
             /\ forall other, other <> id ->
                  AccountDisableService.findAccount other accounts1
                  = AccountDisableService.findAccount other accounts).
  { unfold AccountDisableService.disableAccount in Hdis.
    destruct (AccountDisableService.findAccount id accounts) as [a|] eqn:Hf;
      [|discriminate].
    destruct (Account.isDisabled a) eqn:Hd.
    - inversion Hdis; subst. exists a. auto.
    - unfold bind in Hdis.
      destruct (createNotification env id "system" "" s); [|discriminate].
      inversion Hdis; subst. eexists. split.
      + apply (findAccount_saveAccount id accounts a); [exact Hf|reflexivity].
      + split; [reflexivity|]. intros other Ho.
        apply findAccount_saveAccount_other.
        change (Account._id a <> other).
        rewrite (findAccount_id _ _ _ Hf). auto. }
  destruct Hlocked as (a1 & Hf1 & Hd1 & Hothers).
  split.
  { unfold auth.protect. rewrite Hbearer, Hne, Hjwt, Hf1, Hd1. reflexivity. }
  split; [exact Hothers|].
  exists {| AccountDisableService.success := true;
            AccountDisableService.message := "Account reactivated successfully";
            AccountDisableService.disabledAt := None |},
         (AccountDisableService.saveAccount
            (AccountDisableService.reactivated a1) accounts1),
         (AccountDisableService.reactivated a1).
  split.
  { unfold AccountDisableService.reactivateAccount. rewrite Hf1, Hd1.
    reflexivity. }
  split; [reflexivity|].
  split.
  { unfold auth.protect. rewrite Hbearer, Hne, Hjwt.
    rewrite (findAccount_saveAccount id accounts1 a1
               (AccountDisableService.reactivated a1) Hf1 eq_refl).
    reflexivity. }
  split; [exact (findAccount_id _ _ _ Hf1)|].
  split; [reflexivity|]. split; [reflexivity|].
  intros other Ho. rewrite <- (Hothers other Ho).
  apply findAccount_saveAccount_other.
  change (Account._id a1 <> other). rewrite (findAccount_id _ _ _ Hf1). auto.
Qed.

Lemma disabled_account_is_locked_out_witness :
  auth.protect Cases.jwtVerify (Some "Bearer amal.token") Cases.accounts
  = inr (Cases.accountOf Sample.patientA)
  /\ exists out accounts1 s1,
    AccountDisableService.disableAccount Sample.env 3 (Some 4) "no show"
      Cases.accounts Sample.store = Ok (out, accounts1) s1
    /\ auth.protect Cases.jwtVerify (Some "Bearer amal.token") accounts1
       = inl auth.accountDisabled
    /\ (forall other, other <> 3 ->
        AccountDisableService.findAccount other accounts1
        = AccountDisableService.findAccount other Cases.accounts)
    /\ exists out2 accounts2 a2,
         AccountDisableService.reactivateAccount 3 accounts1
         = inr (out2, accounts2)
         /\ AccountDisableService.success out2 = true
         /\ auth.protect Cases.jwtVerify (Some "Bearer amal.token") accounts2
            = inr a2
         /\ Account._id a2 = 3
         /\ Account.isDisabled a2 = false
         /\ Account.reactivationOtp a2 = None
         /\ (forall other, other <> 3 ->
             AccountDisableService.findAccount other accounts2
             = AccountDisableService.findAccount other Cases.accounts).
Proof.
  split; [vm_compute; reflexivity|].
  destruct (AccountDisableService.disableAccount Sample.env 3 (Some 4)
              "no show" Cases.accounts Sample.store)
    as [[out accounts1] s1|e s1] eqn:E.
  - exists out, accounts1, s1. split; [reflexivity|].
    apply (disabled_account_is_locked_out Cases.jwtVerify
             (Some "Bearer amal.token") "amal.token" Sample.env 3 (Some 4)
             "no show" Cases.accounts Sample.store out accounts1 s1 E).
    + vm_compute. reflexivity.
    + discriminate.
    + reflexivity.
  - vm_compute in E. discriminate.
Defined.

(* ------------------------------------------------------------------ *)
(** ** A doctor's periods of unavailability *)

Lemma bookingChecks_episode env reqUser target req s c s1 :
  bookingChecks env reqUser target req s = Ok c s1 ->
  exists d doctor,
    doctorId req = Some d /\ findUser d s = Some doctor
    /\ inUnavailabilityEpisode (newDate env (date req)) doctor = false.
Proof.
  unfold bookingChecks. intros H.
  destruct (doctorId req) as [d|]; [|discriminate].
  destruct (hospitalId req) as [h|]; [|discriminate].
  destruct (appointmentTypeId req) as [t|]; [|discriminate].
  ok_inv;
    match goal with
    | Hep : inUnavailabilityEpisode _ ?v = false,
      Hf : findUser d s = Some ?v |- _ =>
        exists d, v; split; [reflexivity|split; [exact Hf|exact Hep]]
    end.
Qed.

(** A booking with a doctor for a date inside one of the doctor's episodes
    is not created and writes nothing. *)
Lemma bookAppointment_in_episode env reqUser req s d doctor :
  doctorId req = Some d ->
  findUser d s = Some doctor ->
  inUnavailabilityEpisode (newDate env (date req)) doctor = true ->
  statusCode (fst (bookAppointment env reqUser req s)) <> 201
  /\ snd (bookAppointment env reqUser req s) = s.
Proof.
  intros Hd Hf Hep.
  destruct (bookAppointment_cases env reqUser req s)
    as [Hleft|(target & a & _ & Hb & _)]; [exact Hleft|].
  exfalso. apply bookingTransaction_Ok in Hb.
  destruct Hb as (c & s1 & w1 & Hc & _).
  apply bookingChecks_episode in Hc.
  destruct Hc as (d' & doctor0 & Hd' & Hf' & Hno). congruence.
Qed.

Lemma inUnavailabilityEpisode_In t doctor ep :
  In ep (User.unavailabilityEpisodes doctor) ->
  (Episode.startDate ep <= t <= Episode.endDate ep)%Z ->
  inUnavailabilityEpisode (Some t) doctor = true.
Proof.
  intros Hin [H1 H2]. unfold inUnavailabilityEpisode.
  apply existsb_exists. exists ep. split; [exact Hin|].
  unfold JS.le. apply andb_true_iff. split; apply Z.leb_le; assumption.
Qed.

Lemma findUser_id_eq id s u : findUser id s = Some u -> User._id u = id.
Proof.
  unfold findUser. intros H. apply find_some in H. apply Nat.eqb_eq, H.
Qed.

Lemma findUser_saved id (l : list User.t) u u' :
  find (fun x => Nat.eqb (User._id x) id) l = Some u ->
  User._id u' = id ->
  find (fun x => Nat.eqb (User._id x) id)
       (map (fun x => if Nat.eqb (User._id x) (User._id u') then u' else x) l)
  = Some u'.
Proof.
  intros Hf E. rewrite E.
  induction l as [|x l IH]; cbn [find map] in *; [discriminate|].
  destruct (Nat.eqb (User._id x) id) eqn:Hx.
  - rewrite E, Nat.eqb_refl. reflexivity.
  - rewrite Hx. apply IH, Hf.
Qed.

Lemma createNotification_outside_the_enum env u title s :
  createNotification env u "appointment_cancelled" title s = Ok false s.
Proof. reflexivity. Qed.

Lemma cancelEach_Ok env l : forall s u s',
  usersRoutes.cancelEach env l s = Ok u s' ->
  s' = set_appointments
         (map (fun b => fold_left apologyStep l b) (appointments s)) s.
Proof.
  induction l as [|a l IH]; intros s u s' H.
  - cbn in H. inversion H; subst. cbn [fold_left]. rewrite map_id.
    symmetry. apply Store_ext; reflexivity.
  - cbn [usersRoutes.cancelEach] in H. unfold bind at 1 in H.
    destruct (saveAppointment (usersRoutes.apologized a) s) as [v s1|e s1]
      eqn:Hs; [|discriminate].
    apply saveAppointment_Ok in Hs. destruct Hs as [_ ->].
    unfold bind at 1 in H. rewrite createNotification_outside_the_enum in H.
    apply IH in H. subst s'. cbn [appointments set_appointments].
    apply Store_ext; try reflexivity.
    cbn [appointments set_appointments]. unfold replaceAppointment.
    rewrite map_map. apply map_ext. intros b. cbn [fold_left].
    reflexivity.
Qed.

Lemma apologyStep_fold b l : forall x,
  (forall a, In a l -> Appointment._id a = Appointment._id b -> a = b) ->
  Appointment._id x = Appointment._id b ->
  fold_left apologyStep l x
  = if existsb (fun a => Nat.eqb (Appointment._id a) (Appointment._id b)) l
    then usersRoutes.apologized b
    else x.
Proof.
  induction l as [|a l IH]; intros x Hl Hx; [reflexivity|].
  cbn [fold_left existsb]. unfold apologyStep at 2. rewrite Hx.
  destruct (Nat.eqb_spec (Appointment._id a) (Appointment._id b)) as [E|N].
  - rewrite (Hl a (or_introl eq_refl) E) in *. rewrite Nat.eqb_refl.
    cbn [orb]. rewrite IH; [|intros; apply Hl; [right|]; assumption|reflexivity].
    destruct (existsb _ l); reflexivity.
  - replace (Nat.eqb (Appointment._id b) (Appointment._id a)) with false
      by (symmetry; apply Nat.eqb_neq; auto).
    cbn [orb]. apply IH; [intros; apply Hl; [right|]; assumption|exact Hx].
Qed.

Lemma apologies_of_a_query (p : Appointment.t -> bool) L :
  NoDup (map Appointment._id L) ->
  map (fun b => fold_left apologyStep (filter p L) b) L
  = map (fun a => if p a then usersRoutes.apologized a else a) L.
Proof.
  intros Hnd. apply map_ext_in. intros b Hb.
  rewrite (apologyStep_fold b).
  - destruct (p b) eqn:Hp.
    + replace (existsb _ (filter p L)) with true; [reflexivity|].
      symmetry. apply existsb_exists. exists b.
      split; [apply filter_In; auto|apply Nat.eqb_refl].
    + replace (existsb (fun a => Nat.eqb (Appointment._id a)
                                  (Appointment._id b)) (filter p L))
        with false; [reflexivity|].
      symmetry. apply not_true_is_false. intros K.
      apply existsb_exists in K. destruct K as (a & Ha & E).
      apply filter_In in Ha. destruct Ha as [Ha Hpa].
      apply Nat.eqb_eq in E.
      rewrite (NoDup_map_eq Appointment._id L a b Hnd Ha Hb E) in Hpa.
      congruence.
  - intros a Ha E. apply filter_In in Ha.
    exact (NoDup_map_eq Appointment._id L a b Hnd (proj1 Ha) Hb E).
  - reflexivity.
Qed.

(** X19.  [POST /api/users/doctors/:id/unavailability].  When the route
    answers with the marked doctor, the end date was read from the request,
    the user is a doctor, and the stored doctor has gained one episode, from
    the present instant to the end date.  Every appointment of that doctor
    that was [Upcoming] with a date text from today's to the end date's is
    now [DoctorCancelled] with resolution [Pending], every other appointment
    is as it was, and the count answered is the number of those cancelled.
    No in-app notification is stored, and queue, wallets and ledger are
    untouched.  From then on the doctor is listed as currently unavailable
    at every instant up to the end date, and a booking with that doctor for
    a date whose instant lies in the episode is not created and writes
    nothing. *)
Theorem marking_unavailable_cancels_the_period
    env formatDay reqUser id unavailableUntil s doctor' n s' :
  NoDup (map Appointment._id (appointments s)) ->
  usersRoutes.markUnavailable env formatDay reqUser id unavailableUntil s
  = (usersRoutes.Marked doctor' n, s') ->
  exists text endDate doctor,
    unavailableUntil = Some text
    /\ newDate env text = Some endDate
    /\ findUser id s = Some doctor
    /\ User.role doctor = Doctor
    /\ doctor'
       = usersRoutes.set_unavailabilityEpisodes
           (User.unavailabilityEpisodes doctor
            ++ [{| Episode.startDate := now env;
                   Episode.endDate := endDate |}]) doctor
    /\ findUser id s' = Some doctor'
    /\ appointments s'
       = map (fun a =>
                if usersRoutes.affected id (today env) (formatDay endDate) a
                then usersRoutes.apologized a else a)
             (appointments s)
    /\ n = List.length
             (filter (usersRoutes.affected id (today env) (formatDay endDate))
                     (appointments s))
    /\ notifications s' = notifications s
    /\ queueItems s' = queueItems s
    /\ wallets s' = wallets s
    /\ transactions s' = transactions s
    /\ (forall env2, (now env <= now env2 <= endDate)%Z ->
        usersRoutes.isCurrentlyUnavailable env2 doctor' = true)
    /\ (forall env2 reqUser2 req t,
          doctorId req = Some id ->
          newDate env2 (date req) = Some t ->
          (now env <= t <= endDate)%Z ->
          statusCode (fst (bookAppointment env2 reqUser2 req s')) <> 201
          /\ snd (bookAppointment env2 reqUser2 req s') = s').
Proof.
  intros Hnd H. unfold usersRoutes.markUnavailable in H.
  destruct (auth.authorize [SuperAdmin; HospitalManager] reqUser);
    [inversion H|].
  destruct unavailableUntil as [text|]; [|inversion H].
  destruct (newDate env text) as [endDate|] eqn:Hdate.
  2:{ destruct text; inversion H. }
  destruct (findUser id s) as [doctor|] eqn:Hf.
  2:{ destruct text; inversion H. }
  destruct (Role_eqb (User.role doctor) Doctor) eqn:Hrole; cbn [negb] in H.
  2:{ destruct text; inversion H. }
  assert (Hr : User.role doctor = Doctor)
    by (destruct (User.role doctor); try discriminate; reflexivity).
  set (ep := {| Episode.startDate := now env; Episode.endDate := endDate |})
    in *.
  set (d1 := usersRoutes.set_unavailabilityEpisodes
               (User.unavailabilityEpisodes doctor ++ [ep]) doctor) in *.
  assert (Hbody :
    match usersRoutes.cancelEach env
            (filter (usersRoutes.affected id (today env) (formatDay endDate))
                    (appointments s))
            (usersRoutes.set_users
               (map (fun x => if Nat.eqb (User._id x) (User._id d1)
                              then d1 else x) (users s)) s) with
    | Ok _ s1 =>
        (usersRoutes.Marked d1
           (List.length
              (filter (usersRoutes.affected id (today env)
                         (formatDay endDate)) (appointments s))), s1)
    | Throw _ s1 =>
        (usersRoutes.Refused (respond 500 (BError "Server Error")), s1)
    end = (usersRoutes.Marked doctor' n, s')).
  { destruct text; [inversion H|].
    unfold bind, usersRoutes.saveUser, modify, gets in H.
    cbn [appointments usersRoutes.set_users] in H.
    destruct (usersRoutes.cancelEach _ _ _); exact H. }
  clear H.
  destruct (usersRoutes.cancelEach _ _ _) as [u s1|e s1] eqn:Hloop;
    [|inversion Hbody].
  inversion Hbody; subst doctor' n s1. clear Hbody.
  apply cancelEach_Ok in Hloop. cbn [appointments usersRoutes.set_users] in Hloop.
  rewrite (apologies_of_a_query _ _ Hnd) in Hloop.
  assert (Hfind' : findUser id s' = Some d1).
  { subst s'. unfold findUser. cbn [users set_appointments usersRoutes.set_users].
    apply (findUser_saved id (users s) doctor d1 Hf).
    exact (findUser_id_eq _ _ _ Hf). }
  assert (Hin : In ep (User.unavailabilityEpisodes d1))
    by (cbn; apply in_or_app; right; left; reflexivity).
  exists text, endDate, doctor.
  split; [reflexivity|]. split; [exact Hdate|]. split; [reflexivity|].
  split; [exact Hr|]. split; [reflexivity|]. split; [exact Hfind'|].
  split; [subst s'; reflexivity|]. split; [reflexivity|].
  split; [subst s'; reflexivity|]. split; [subst s'; reflexivity|].
  split; [subst s'; reflexivity|]. split; [subst s'; reflexivity|].
  split.
  - intros env2 [H1 H2]. unfold usersRoutes.isCurrentlyUnavailable.
    apply existsb_exists. exists ep. split; [exact Hin|].
    apply andb_true_iff. split; apply Z.leb_le; assumption.
  - intros env2 reqUser2 req t Hd Ht Hrange.
    apply (bookAppointment_in_episode env2 reqUser2 req s' id d1 Hd Hfind').
    rewrite Ht. apply (inUnavailabilityEpisode_In t d1 ep Hin Hrange).
Qed.

Lemma marking_unavailable_cancels_the_period_witness :
  exists doctor' s',
    usersRoutes.markUnavailable Cases.calendar Cases.formatDay Cases.manager 2
      (Some "2026-03-20") Sample.twoBooked = (usersRoutes.Marked doctor' 2, s')
    /\ exists text endDate doctor,
    Some "2026-03-20" = Some text
    /\ newDate Cases.calendar text = Some endDate
    /\ findUser 2 Sample.twoBooked = Some doctor
    /\ User.role doctor = Doctor
    /\ doctor'
       = usersRoutes.set_unavailabilityEpisodes
           (User.unavailabilityEpisodes doctor
            ++ [{| Episode.startDate := now Cases.calendar;
                   Episode.endDate := endDate |}]) doctor
    /\ findUser 2 s' = Some doctor'
    /\ appointments s'
       = map (fun a =>
                if usersRoutes.affected 2 (today Cases.calendar)
                     (Cases.formatDay endDate) a
                then usersRoutes.apologized a else a)
             (appointments Sample.twoBooked)
    /\ 2 = List.length
             (filter (usersRoutes.affected 2 (today Cases.calendar)
                        (Cases.formatDay endDate))
                     (appointments Sample.twoBooked))
    /\ notifications s' = notifications Sample.twoBooked
    /\ queueItems s' = queueItems Sample.twoBooked
    /\ wallets s' = wallets Sample.twoBooked
    /\ transactions s' = transactions Sample.twoBooked
    /\ (forall env2,
          (now Cases.calendar <= now env2 <= endDate)%Z ->
          usersRoutes.isCurrentlyUnavailable env2 doctor' = true)
    /\ (forall env2 reqUser2 req t,
          doctorId req = Some 2 ->
          newDate env2 (date req) = Some t ->
          (now Cases.calendar <= t <= endDate)%Z ->
          statusCode (fst (bookAppointment env2 reqUser2 req s')) <> 201
          /\ snd (bookAppointment env2 reqUser2 req s') = s').
Proof.
  destruct (usersRoutes.markUnavailable Cases.calendar Cases.formatDay
              Cases.manager 2 (Some "2026-03-20") Sample.twoBooked)
    as [[r|doctor' n|doctor'] s'] eqn:E;
    [vm_compute in E; discriminate| |vm_compute in E; discriminate].
  assert (Hn : n = 2) by (vm_compute in E; congruence).
  subst n. exists doctor', s'. split; [reflexivity|].
  apply (marking_unavailable_cancels_the_period Cases.calendar Cases.formatDay
           Cases.manager 2 (Some "2026-03-20") Sample.twoBooked doctor' 2 s').
  - vm_compute. repeat constructor; cbn; intuition discriminate.
  - exact E.
Defined.

(** A manager marks Dr. X unavailable until 20 March: the two appointments
    of the 17th are cancelled by the doctor, nobody is refunded yet, and a
    new booking for the 17th is answered [500]. *)
Example scenario_doctor_marked_unavailable :
  let s' := snd (usersRoutes.markUnavailable Cases.calendar Cases.formatDay
                   Cases.manager 2 (Some "2026-03-20") Sample.twoBooked) in
  map (fun a => (Appointment._id a, Appointment.status a)) (appointments s')
  = [(20, DoctorCancelled); (23, DoctorCancelled)]
  /\ Sample.balanceOf 3 s' = Sample.balanceOf 3 Sample.twoBooked
  /\ fst (bookAppointment Cases.calendar Sample.patientB
            (Sample.request "2026-03-17" "11:00 AM") s')
     = respond 500
         (BError "The selected doctor is currently unavailable during this period.")
  /\ fst (usersRoutes.markUnavailable Cases.calendar Cases.formatDay
            Sample.staff 2 (Some "2026-03-20") Sample.twoBooked)
     = usersRoutes.Refused (forbidden HospitalStaff)
  /\ fst (usersRoutes.markUnavailable Cases.calendar Cases.formatDay
            Cases.manager 3 (Some "2026-03-20") Sample.twoBooked)
     = usersRoutes.Refused (respond 404 (BError "Doctor not found"))
  /\ fst (usersRoutes.markUnavailable Cases.calendar Cases.formatDay
            Cases.manager 2 (Some "soon") Sample.twoBooked)
     = usersRoutes.Refused (respond 400 (BError "Invalid date provided.")).
Proof. vm_compute. repeat split; reflexivity. Qed.

(** X20.  [POST /api/users/doctors/:id/availability/restore].  When the
    route answers with the restored doctor, the user is a doctor and the
    stored doctor keeps exactly the episodes that ended before the present
    instant, in their order, and is otherwise as it was.  From then on no
    instant from the present one onwards falls in an episode of the doctor
    -- the test the booking and the availability routes make -- and the
    doctor is not listed as currently unavailable.  Nothing else is written:
    the appointments a marking cancelled stay cancelled. *)
Theorem restoring_availability_unblocks env reqUser id s doctor' s' :
  usersRoutes.restoreAvailability env reqUser id s
  = (usersRoutes.Restored doctor', s') ->
  exists doctor,
    findUser id s = Some doctor
    /\ User.role doctor = Doctor
    /\ findUser id s' = Some doctor'
    /\ User.unavailabilityEpisodes doctor'
       = filter (fun ep => (Episode.endDate ep <? now env)%Z)
                (User.unavailabilityEpisodes doctor)
    /\ usersRoutes.set_unavailabilityEpisodes
         (User.unavailabilityEpisodes doctor) doctor' = doctor
    /\ (forall t, (now env <= t)%Z ->
        inUnavailabilityEpisode (Some t) doctor' = false)
    /\ (forall env2, (now env <= now env2)%Z ->
        usersRoutes.isCurrentlyUnavailable env2 doctor' = false)
    /\ appointments s' = appointments s
    /\ queueItems s' = queueItems s
    /\ wallets s' = wallets s
    /\ transactions s' = transactions s
    /\ notifications s' = notifications s.
Proof.
  intros H. unfold usersRoutes.restoreAvailability in H.
  destruct (auth.authorize [SuperAdmin; HospitalManager] reqUser);
    [inversion H|].
  destruct (findUser id s) as [doctor|] eqn:Hf; [|inversion H].
  destruct (Role_eqb (User.role doctor) Doctor) eqn:Hrole; cbn [negb] in H;
    [|inversion H].
  unfold usersRoutes.saveUser, modify in H. inversion H; subst doctor' s'.
  clear H. exists doctor.
  assert (Hpast : forall ep,
            In ep (filter (fun ep => (Episode.endDate ep <? now env)%Z)
                          (User.unavailabilityEpisodes doctor)) ->
            (Episode.endDate ep < now env)%Z).
  { intros ep Hin. apply filter_In in Hin. apply Z.ltb_lt, Hin. }
  split; [reflexivity|].
  split; [destruct (User.role doctor); try discriminate; reflexivity|].
  split.
  { unfold findUser. cbn [users usersRoutes.set_users].
    apply (findUser_saved id (users s) doctor
             (usersRoutes.set_unavailabilityEpisodes
                (filter (fun ep => (Episode.endDate ep <? now env)%Z)
                        (User.unavailabilityEpisodes doctor)) doctor) Hf).
    exact (findUser_id_eq _ _ _ Hf). }
  split; [reflexivity|].
  split; [destruct doctor; reflexivity|].
  split.
  { intros t Ht. unfold inUnavailabilityEpisode.
    apply not_true_is_false. intros K. apply existsb_exists in K.
    destruct K as (ep & Hin & Hk). apply Hpast in Hin.
    apply andb_true_iff in Hk. destruct Hk as [_ Hk].
    unfold JS.le in Hk. apply Z.leb_le in Hk. lia. }
  split.
  { intros env2 Ht. unfold usersRoutes.isCurrentlyUnavailable.
    apply not_true_is_false. intros K. apply existsb_exists in K.
    destruct K as (ep & Hin & Hk). apply Hpast in Hin.
    apply andb_true_iff in Hk. destruct Hk as [_ Hk].
    apply Z.leb_le in Hk. lia. }
  repeat split; reflexivity.
Qed.

Lemma restoring_availability_unblocks_witness :
  let marked := snd (usersRoutes.markUnavailable Cases.calendar Cases.formatDay
                       Cases.manager 2 (Some "2026-03-20") Sample.twoBooked) in
  exists doctor' s',
    usersRoutes.restoreAvailability Cases.calendar Cases.manager 2 marked
    = (usersRoutes.Restored doctor', s')
    /\ exists doctor,
    findUser 2 marked = Some doctor
    /\ User.role doctor = Doctor
    /\ findUser 2 s' = Some doctor'
    /\ User.unavailabilityEpisodes doctor'
       = filter (fun ep => (Episode.endDate ep <? now Cases.calendar)%Z)
                (User.unavailabilityEpisodes doctor)
    /\ usersRoutes.set_unavailabilityEpisodes
         (User.unavailabilityEpisodes doctor) doctor' = doctor
    /\ (forall t, (now Cases.calendar <= t)%Z ->
        inUnavailabilityEpisode (Some t) doctor' = false)
    /\ (forall env2, (now Cases.calendar <= now env2)%Z ->
        usersRoutes.isCurrentlyUnavailable env2 doctor' = false)
    /\ appointments s' = appointments marked
    /\ queueItems s' = queueItems marked
    /\ wallets s' = wallets marked
    /\ transactions s' = transactions marked
    /\ notifications s' = notifications marked.
Proof.
  cbv zeta.
  destruct (usersRoutes.restoreAvailability Cases.calendar Cases.manager 2
              (snd (usersRoutes.markUnavailable Cases.calendar Cases.formatDay
                      Cases.manager 2 (Some "2026-03-20") Sample.twoBooked)))
    as [[r|doctor' n|doctor'] s'] eqn:E;
    [vm_compute in E; discriminate|vm_compute in E; discriminate|].
  exists doctor', s'. split; [reflexivity|].
  exact (restoring_availability_unblocks Cases.calendar Cases.manager 2 _
           doctor' s' E).
Defined.

(** Restored the same day, Dr. X can be booked for the 17th again, at
    another time than the two cancelled appointments, which still hold their
    slots; restored a fortnight later, the episode is over and is kept. *)
Example scenario_restored :
  let marked := snd (usersRoutes.markUnavailable Cases.calendar Cases.formatDay
                       Cases.manager 2 (Some "2026-03-20") Sample.twoBooked) in
  let restored := snd (usersRoutes.restoreAvailability Cases.calendar
                         Cases.manager 2 marked) in
  let later := snd (usersRoutes.restoreAvailability Cases.fortnightLater
                      Cases.manager 2 marked) in
  option_map User.unavailabilityEpisodes (findUser 2 restored) = Some []
  /\ option_map (fun d => List.length (User.unavailabilityEpisodes d))
       (findUser 2 later) = Some 1
  /\ statusCode (fst (bookAppointment Cases.calendar Sample.patientB
                        (Sample.request "2026-03-17" "11:00 AM") restored))
     = 201
  /\ statusCode (fst (bookAppointment Cases.calendar Sample.patientB
                        (Sample.request "2026-03-17" "10:00 AM") restored))
     = 409
  /\ map (fun a => (Appointment._id a, Appointment.status a))
         (appointments restored)
     = [(20, DoctorCancelled); (23, DoctorCancelled)].
Proof. vm_compute. repeat split; reflexivity. Qed.
